(** * Incremental curation pipeline of the monthly sales analytics scripts

    A shallow embedding of [common.py], [ingest_sales_month.py],
    [ingest_all_months.py] and [build_curated_sales_monthly.py]:
    partition discovery with de-duplication, fingerprint based change
    detection, the two stage loops with their per-partition failure
    handling, the JSON state files and the process exit code.

    Conventions of the model.
    - A path is the string [str(path)] of a resolved absolute path;
      [p / name] is [p +:+ "/" +:+ name].  Symbolic links are not modelled,
      so [Path.resolve()] is the identity on these strings.
    - File names are byte strings; [\d] of the month pattern is an ASCII
      digit and [str.lower()] acts on ASCII letters.
    - Modification times are the numbers the code compares ([st_mtime]);
      only their order is used, so they are integers here.
    - Exceptions are values: fallible code returns [result A]. *)

From Stdlib Require Import ZArith String Ascii List Lia Bool DecimalString.
From Stdlib Require Import Floats.
From stdpp Require Import base option list gmap strings fin_maps sorting.

Set Warnings "-register-all".
#[local] Arguments String.append (s1 s2)%_string_scope : simpl nomatch.
Local Open Scope string_scope.
Local Open Scope list_scope.
Local Open Scope Z_scope.

(** ** Exceptions and results *)

Record exn := Exn { exn_type : string; exn_str : string }.

Inductive result (A : Type) : Type :=
| Ok (a : A)
| Raise (e : exn).
Arguments Ok {A} a.
Arguments Raise {A} e.

#[global] Instance result_ret : MRet result := fun A a => Ok a.
#[global] Instance result_bind : MBind result := fun A B k r =>
  match r with
  | Ok a => k a
  | Raise e => Raise e
  end.

(** Bind with the computation first, so that the type of the bound
    variable is known when the continuation is read. *)
Definition bind_first {T : Type -> Type} `{MBind T} {A B} (c : T A)
    (k : A -> T B) : T B := mbind k c.

Notation "'let*' x := c 'in' k" := (bind_first c (fun x => k))
  (at level 10, x name, c at level 100, k at level 200, only parsing).
Notation "'let*' ' p := c 'in' k" :=
  (bind_first c (fun x => let 'p := x in k))
  (at level 10, p pattern, c at level 100, k at level 200, only parsing).

(** ** Strings *)

Definition is_digit (c : ascii) : bool :=
  let n := nat_of_ascii c in (48 <=? n)%nat && (n <=? 57)%nat.

Definition ascii_lower (c : ascii) : ascii :=
  let n := nat_of_ascii c in
  if (65 <=? n)%nat && (n <=? 90)%nat then ascii_of_nat (n + 32) else c.

(** [str.lower()] *)
Fixpoint lower (s : string) : string :=
  match s with
  | EmptyString => EmptyString
  | String c r => String (ascii_lower c) (lower r)
  end.

(** [s.startswith(pre)], returning the remainder *)
Fixpoint strip_prefix (pre s : string) : option string :=
  match pre, s with
  | EmptyString, _ => Some s
  | String a pre', String b s' =>
      if Ascii.eqb a b then strip_prefix pre' s' else None
  | String _ _, EmptyString => None
  end.

Definition starts_with (pre s : string) : bool :=
  match strip_prefix pre s with Some _ => true | None => false end.

(** [s.endswith(suf)], returning what comes before *)
Fixpoint strip_suffix (suf s : string) : option string :=
  if String.eqb s suf then Some EmptyString
  else match s with
       | EmptyString => None
       | String c r =>
           match strip_suffix suf r with
           | Some h => Some (String c h)
           | None => None
           end
       end.

Definition ends_with (suf s : string) : bool :=
  match strip_suffix suf s with Some _ => true | None => false end.

Fixpoint no_slash (s : string) : bool :=
  match s with
  | EmptyString => true
  | String c r => negb (Ascii.eqb c "/") && no_slash r
  end.

Definition NL : string := String (ascii_of_nat 10) EmptyString.

(** ** common.py *)

Definition SCHEMA_ID : string := "sales_monthly_v1".

(** The pattern [20\d{2}-\d{2}] anchored at the head of [s]; the value is
    the matched text (group 1). *)
Definition month_at (s : string) : option string :=
  match s with
  | String a (String b (String c1 (String c2 (String h (String c3 (String c4 _)))))) =>
      if Ascii.eqb a "2" && Ascii.eqb b "0" && is_digit c1 && is_digit c2
         && Ascii.eqb h "-" && is_digit c3 && is_digit c4
      then Some (String a (String b (String c1 (String c2
                 (String h (String c3 (String c4 EmptyString)))))))
      else None
  | _ => None
  end.

(** [re.search(r"(20\d{2}-\d{2})", name)]: the leftmost position at which
    the pattern matches. *)
Fixpoint re_search_month (s : string) : option string :=
  match month_at s with
  | Some k => Some k
  | None =>
      match s with
      | EmptyString => None
      | String _ r => re_search_month r
      end
  end.

Definition parse_report_month (name : string) : result string :=
  match re_search_month name with
  | Some m => Ok m
  | None =>
      Raise (Exn "ValueError"
               ("Could not parse report month from file name: " +:+ name))
  end.

Definition str_le (a b : string) : Prop := String.leb a b = true.
#[global] Instance str_le_dec a b : Decision (str_le a b).
Proof. unfold str_le. apply _. Defined.

Definition key_le {A} (x y : string * A) : Prop := str_le x.1 y.1.
#[global] Instance key_le_dec {A} (x y : string * A) : Decision (key_le x y).
Proof. unfold key_le. apply _. Defined.

(** ** JSON values and Python dictionaries

    A Python [dict] with string keys is an association list in insertion
    order: [dict_get] is [d.get(k)], [dict_set] is [d[k] = v] (an existing
    key keeps its place, a new key goes last). *)

Inductive json :=
| JNull
| JBool (b : bool)
| JInt (z : Z)
| JStr (s : string)
| JArr (l : list json)
| JObj (d : list (string * json)).

Fixpoint dict_get {V} (k : string) (d : list (string * V)) : option V :=
  match d with
  | [] => None
  | (k', v) :: r => if String.eqb k k' then Some v else dict_get k r
  end.

Fixpoint dict_set {V} (k : string) (v : V) (d : list (string * V))
  : list (string * V) :=
  match d with
  | [] => [(k, v)]
  | (k', v') :: r =>
      if String.eqb k k' then (k, v) :: r else (k', v') :: dict_set k v r
  end.

(** [v.get(k)] on a loaded JSON value: only a dict has [get]. *)
Definition py_get (v : json) (k : string) : result (option json) :=
  match v with
  | JObj d => Ok (dict_get k d)
  | _ => Raise (Exn "AttributeError" "object has no attribute 'get'")
  end.

(** [x == s] for a loaded value [x] (or [None]) and a Python string [s]. *)
Definition json_eq_str (x : option json) (s : string) : bool :=
  match x with
  | Some (JStr t) => String.eqb t s
  | _ => false
  end.

(** ** Storage

    The file tree is a finite map from path strings to nodes; a node is a
    regular file with its bytes or a directory, stamped with its
    modification time. *)

Record node := Node { n_data : option string; n_mtime : Z }.

Abbreviation storage := (gmap string node).

Definition path_div (p n : string) : string := p +:+ "/" +:+ n.

(** [path.name] *)
Fixpoint path_name (p : string) : string :=
  match p with
  | EmptyString => EmptyString
  | String _ r => if no_slash p then p else path_name r
  end.

(** [path.parent] *)
Fixpoint path_parent (p : string) : string :=
  match p with
  | EmptyString => EmptyString
  | String c r => if no_slash r then EmptyString else String c (path_parent r)
  end.

Definition has_entry_below (fs : storage) (p : string) : bool :=
  existsb (starts_with (p +:+ "/")) (map_to_list fs).*1.

(** [Path(p).exists()]: a stored node, a directory above a stored node, or
    the working directory [Path("")]. *)
Definition path_exists (fs : storage) (p : string) : bool :=
  bool_decide (is_Some (fs !! p)) || has_entry_below fs p || String.eqb p "".

Definition path_is_dir (fs : storage) (p : string) : bool :=
  match fs !! p with
  | Some (Node None _) => true
  | Some (Node (Some _) _) => false
  | None => has_entry_below fs p || String.eqb p ""
  end.

(** Primitive effects on storage.  [Path.write_text] and
    [pq.write_table] open the target for writing, which truncates it, and
    then write the bytes: two steps on the target itself. *)
Inductive fs_op :=
| OpMkdir (p : string)
| OpTruncate (p : string)
| OpAppend (p data : string).

Definition apply_op (now : Z) (fs : storage) (op : fs_op) : storage :=
  match op with
  | OpMkdir p =>
      match fs !! p with
      | Some _ => fs
      | None => <[p := Node None now]> fs
      end
  | OpTruncate p => <[p := Node (Some "") now]> fs
  | OpAppend p data =>
      match fs !! p with
      | Some (Node (Some old) _) => <[p := Node (Some (old +:+ data)) now]> fs
      | _ => <[p := Node (Some data) now]> fs
      end
  end.

Definition run_ops (now : Z) (fs : storage) (ops : list fs_op) : storage :=
  foldl (apply_op now) fs ops.

Definition write_ops (p data : string) : list fs_op :=
  [OpTruncate p; OpAppend p data].

(** ** Effects: storage threaded through fallible code

    An exception leaves the storage as the code had changed it so far. *)

Definition M (A : Type) : Type := storage -> storage * result A.

#[global] Instance M_ret : MRet M := fun A a fs => (fs, Ok a).
#[global] Instance M_bind : MBind M := fun A B k c fs =>
  match c fs with
  | (fs', Ok a) => k a fs'
  | (fs', Raise e) => (fs', Raise e)
  end.

Definition get_fs : M storage := fun fs => (fs, Ok fs).
Definition raise {A} (e : exn) : M A := fun fs => (fs, Raise e).
Definition lift {A} (r : result A) : M A := fun fs => (fs, r).
Definition do_ops (now : Z) (ops : list fs_op) : M unit :=
  fun fs => (run_ops now fs ops, Ok tt).

(** [try: body except Exception as error: handler(error)] *)
Definition try_except {A} (body : M A) (handler : exn -> M A) : M A :=
  fun fs =>
    match body fs with
    | (fs', Raise e) => handler e fs'
    | r => r
    end.

(** ** External collaborators

    Hashing, the JSON codec, the clock, the workbook reader, the DuckDB
    query and the KPI generator are outside the pipeline core; the model
    takes them as an environment. *)

Record workbook := Workbook {
  wb_table : string;
  wb_sheet_count : Z;
  wb_sheets : json;
  wb_totals : list (string * json);
  wb_all_headers_ok : bool }.

Record env := Env {
  sha256_hexdigest : string -> string;
  json_dumps : json -> string;
  json_loads : string -> option json;
  now_epoch : Z;
  utc_now_iso : string;
  run_id : string;
  iso_of_epoch : Z -> string;
  load_schema_definition : result string;
  read_workbook : string -> string -> bool -> result workbook;
  duckdb_installed : bool;
  curated_query : string -> result (string * Z * Z);
  generate_kpi_report : string -> option string -> Z -> M (json * string * string) }.

Definition mkdir (E : env) (p : string) : M unit :=
  do_ops (now_epoch E) [OpMkdir p].

Definition write_bytes (E : env) (p data : string) : M unit :=
  do_ops (now_epoch E) (write_ops p data).

Definition read_bytes (p : string) : M string :=
  fun fs =>
    match fs !! p with
    | Some (Node (Some d) _) => (fs, Ok d)
    | Some (Node None _) => (fs, Raise (Exn "IsADirectoryError" p))
    | None => (fs, Raise (Exn "FileNotFoundError" p))
    end.

(** [file_sha256] of both scripts *)
Definition file_sha256 (E : env) (path : string) : M string :=
  let* d := read_bytes path in mret (sha256_hexdigest E d).

(** ** State files *)

Record state := State {
  st_schema_id : json;
  st_updated_at : json;
  st_records : list (string * json) }.

(** The dict that [load_state] returns and [save_state] serialises;
    [field] is ["files"] or ["months"]. *)
Definition state_json (field : string) (st : state) : json :=
  JObj [("schema_id", st_schema_id st);
        ("updated_at", st_updated_at st);
        (field, JObj (st_records st))].

Definition load_state_of (field schema : string) (bad : string -> string)
    (E : env) (state_path : string) : M state :=
  let* fs := get_fs in
  if negb (path_exists fs state_path) then
    mret (State (JStr schema) JNull [])
  else
    let* text := read_bytes state_path in
    match json_loads E text with
    | None => raise (Exn "JSONDecodeError" "")
    | Some payload =>
        let* files := lift (py_get payload field) in
        match default (JObj []) files with
        | JObj d =>
            let* schema_id := lift (py_get payload "schema_id") in
            let* updated_at := lift (py_get payload "updated_at") in
            mret (State (default (JStr schema) schema_id)
                        (default JNull updated_at) d)
        | _ => raise (Exn "ValueError" (bad state_path))
        end
    end.

Definition save_state_ops (field : string) (E : env) (state_path : string)
    (st : state) : list fs_op :=
  OpMkdir (path_parent state_path)
  :: write_ops state_path
       (json_dumps E (state_json field
          (State (st_schema_id st) (JStr (utc_now_iso E)) (st_records st)))
        +:+ NL).

Definition save_state_of (field : string) (E : env) (state_path : string)
    (st : state) : M state :=
  let* _ := do_ops (now_epoch E) (save_state_ops field E state_path st) in
  mret (State (st_schema_id st) (JStr (utc_now_iso E)) (st_records st)).

(** ** ingest_sales_month.py *)

Record ingest_report := IngestReport {
  ir_schema_id : string;
  ir_input_file : string;
  ir_report_month : string;
  ir_sheet_count : Z;
  ir_sheets : json;
  ir_totals : list (string * json);
  ir_all_headers_ok : bool }.

Definition ingest_report_json (r : ingest_report) : json :=
  JObj [("schema_id", JStr (ir_schema_id r));
        ("input_file", JStr (ir_input_file r));
        ("report_month", JStr (ir_report_month r));
        ("sheet_count", JInt (ir_sheet_count r));
        ("sheets", ir_sheets r);
        ("totals", JObj (ir_totals r));
        ("all_headers_ok", JBool (ir_all_headers_ok r))].

Definition ingest_workbook (E : env) (input_path : string)
    (strict_headers : bool) : M (string * ingest_report) :=
  let* schema_id := lift (load_schema_definition E) in
  let* report_month := lift (parse_report_month (path_name input_path)) in
  let* data := read_bytes input_path in
  let* wb := lift (read_workbook E input_path data strict_headers) in
  mret (wb_table wb,
        IngestReport schema_id input_path report_month (wb_sheet_count wb)
          (wb_sheets wb) (wb_totals wb) (wb_all_headers_ok wb)).

(** ** Records shared by the two stage scripts *)

Record skip := Skip { skip_file : string; skip_reason : string }.

Definition node_size (n : node) : Z :=
  match n_data n with
  | Some d => Z.of_nat (String.length d)
  | None => 0
  end.

Definition json_opt_str (o : option string) : json :=
  match o with Some s => JStr s | None => JNull end.

Definition skip_json (k : skip) : json :=
  JObj [("file", JStr (skip_file k)); ("reason", JStr (skip_reason k))].

(** ** build_curated_sales_monthly.py *)

Definition CURATED_SCHEMA_ID : string := "sales_monthly_curated_v1".

Record raw_candidate := RawCandidate {
  rc_path : string;
  rc_mtime : Z;
  rc_size_bytes : Z }.

(** [month_report], also the entry of the [processed] list *)
Record month_report := MonthReport {
  mr_report_month : string;
  mr_raw_parquet_path : string;
  mr_raw_sha256 : string;
  mr_curated_parquet_path : string;
  mr_row_count : Z;
  mr_column_count : Z;
  mr_generated_at_utc : string }.

Record curated_unchanged := CuratedUnchanged {
  cu_report_month : string;
  cu_raw_parquet_path : string;
  cu_curated_parquet_path : option json }.

Record curated_failed := CuratedFailed {
  cf_report_month : string;
  cf_raw_parquet_path : string;
  cf_error : string }.

Record curated_loop_state := CuratedLoopState {
  cl_months : list (string * json);
  cl_processed : list month_report;
  cl_unchanged : list curated_unchanged;
  cl_failed : list curated_failed }.

Record curated_summary := CuratedSummary {
  cs_output_root : string;
  cs_state_file : string;
  cs_discovered_raw_month_count : Z;
  cs_processed : list month_report;
  cs_unchanged : list curated_unchanged;
  cs_failed : list curated_failed;
  cs_discovery_skipped : list skip;
  cs_run_report_path : string;
  cs_latest_report_path : string }.

Definition month_report_json (r : month_report) : json :=
  JObj [("schema_id", JStr CURATED_SCHEMA_ID);
        ("report_month", JStr (mr_report_month r));
        ("raw_parquet_path", JStr (mr_raw_parquet_path r));
        ("raw_sha256", JStr (mr_raw_sha256 r));
        ("curated_parquet_path", JStr (mr_curated_parquet_path r));
        ("row_count", JInt (mr_row_count r));
        ("column_count", JInt (mr_column_count r));
        ("generated_at_utc", JStr (mr_generated_at_utc r))].

Definition curated_unchanged_json (u : curated_unchanged) : json :=
  JObj [("report_month", JStr (cu_report_month u));
        ("raw_parquet_path", JStr (cu_raw_parquet_path u));
        ("curated_parquet_path", default JNull (cu_curated_parquet_path u))].

Definition curated_failed_json (f : curated_failed) : json :=
  JObj [("report_month", JStr (cf_report_month f));
        ("raw_parquet_path", JStr (cf_raw_parquet_path f));
        ("error", JStr (cf_error f))].

Definition len {A} (l : list A) : Z := Z.of_nat (length l).

Module build_curated_sales_monthly.

Definition load_state : env -> string -> M state :=
  load_state_of "months" CURATED_SCHEMA_ID
    (fun p => "Invalid curated state file: " +:+ p).

Definition save_state : env -> string -> state -> M state :=
  save_state_of "months".

Definition parse_month_from_partition_dir (path : string) : result string :=
  match strip_prefix "report_month_" (path_name path) with
  | Some month => Ok month
  | None =>
      Raise (Exn "ValueError" ("Unexpected partition directory: " +:+ path))
  end.

Definition raw_base_of (output_root : string) : string :=
  path_div (path_div (path_div output_root "raw") "sales_monthly") "v1".

(** [sorted(raw_base.glob("report_month_*/sales_monthly_v1.parquet"))],
    each path with its [stat()]; the paths differ in the directory
    component only, which gives their order. *)
Definition glob_raw (fs : storage) (raw_base : string)
  : list (string * node) :=
  (fun e : string * node =>
     (path_div (path_div raw_base e.1) "sales_monthly_v1.parquet", e.2))
    <$> merge_sort key_le
          (omap (fun kv : string * node =>
                   match strip_prefix (raw_base +:+ "/") kv.1 with
                   | Some rest =>
                       match strip_suffix "/sales_monthly_v1.parquet" rest with
                       | Some d =>
                           if no_slash d && starts_with "report_month_" d
                           then Some (d, kv.2) else None
                       | None => None
                       end
                   | None => None
                   end)
                (map_to_list fs)).

Fixpoint discover_loop (listing : list (string * node))
    (selected : gmap string raw_candidate) (skipped : list skip)
  : result (gmap string raw_candidate * list skip) :=
  match listing with
  | [] => Ok (selected, skipped)
  | (raw_path, stat) :: rest =>
      let* month := parse_month_from_partition_dir (path_parent raw_path) in
      let candidate := RawCandidate raw_path (n_mtime stat) (node_size stat) in
      match selected !! month with
      | None => discover_loop rest (<[month := candidate]> selected) skipped
      | Some current =>
          if rc_mtime current <? rc_mtime candidate then
            discover_loop rest (<[month := candidate]> selected)
              (skipped ++
                 [Skip (rc_path current)
                    ("duplicate_month_replaced_by_newer_file:"
                     +:+ path_name raw_path)])
          else
            discover_loop rest selected
              (skipped ++
                 [Skip raw_path
                    ("duplicate_month_older_than:"
                     +:+ path_name (rc_path current))])
      end
  end.

Definition discover_raw_partitions (fs : storage) (output_root : string)
  : result (gmap string string * list skip) :=
  match discover_loop (glob_raw fs (raw_base_of output_root)) ∅ [] with
  | Ok (selected, skipped) => Ok (rc_path <$> selected, skipped)
  | Raise error => Raise error
  end.

Definition build_curated_table (E : env) (raw_path : string)
  : M (string * Z * Z) :=
  if negb (duckdb_installed E) then
    raise (Exn "RuntimeError"
             "duckdb is not installed. Install dependencies with: pip install -r services/analytics/requirements.txt")
  else
    let* data := read_bytes raw_path in
    lift (curated_query E data).

(** The skip test of the loop:
    [previous.get("raw_sha256") == raw_checksum and
     Path(previous.get("curated_parquet_path", "")).exists()] *)
Definition previous_matches (fs : storage) (previous : json)
    (raw_checksum : string) : result bool :=
  let* a := py_get previous "raw_sha256" in
  if json_eq_str a raw_checksum then
    let* p := py_get previous "curated_parquet_path" in
    match default (JStr "") p with
    | JStr s => mret (path_exists fs s)
    | _ => Raise (Exn "TypeError" "expected str, bytes or os.PathLike object")
    end
  else mret false.

Definition curated_base_of (output_root : string) : string :=
  path_div (path_div (path_div output_root "curated") "sales_monthly") "v1".

Definition report_dir_of (output_root : string) : string :=
  path_div (path_div (path_div output_root "reports") "sales_monthly") "v1".

Definition default_state_path (output_root : string) : string :=
  path_div (path_div (path_div (path_div output_root "state") "sales_monthly")
              "v1") "curated_processed_months.json".

(** The [try] block of the loop body. *)
Definition curate_one (E : env) (output_root : string)
    (cl : curated_loop_state) (month raw_path raw_checksum : string)
  : M curated_loop_state :=
  let* '(table, num_rows, num_columns) := build_curated_table E raw_path in
  let out_dir :=
    path_div (curated_base_of output_root) ("report_month_" +:+ month) in
  let* _ := mkdir E out_dir in
  let curated_path := path_div out_dir "sales_monthly_curated_v1.parquet" in
  let* _ := write_bytes E curated_path table in
  let month_report :=
    MonthReport month raw_path raw_checksum curated_path num_rows num_columns
      (utc_now_iso E) in
  let month_report_path :=
    path_div (report_dir_of output_root) (month +:+ "_curated.json") in
  let* _ := write_bytes E month_report_path
              (json_dumps E (month_report_json month_report) +:+ NL) in
  mret (CuratedLoopState
          (dict_set month
             (JObj [("raw_parquet_path", JStr raw_path);
                    ("raw_sha256", JStr raw_checksum);
                    ("curated_parquet_path", JStr curated_path);
                    ("curated_report_path", JStr month_report_path);
                    ("row_count", JInt num_rows);
                    ("column_count", JInt num_columns);
                    ("updated_at_utc", JStr (utc_now_iso E))])
             (cl_months cl))
          (cl_processed cl ++ [month_report])
          (cl_unchanged cl)
          (cl_failed cl)).

(** One iteration of [for month in sorted(raw_mapping.keys())]. *)
Definition loop_body (E : env) (output_root : string)
    (cl : curated_loop_state) (entry : string * string)
  : M curated_loop_state :=
  let month := entry.1 in
  let raw_path := entry.2 in
  let* raw_checksum := file_sha256 E raw_path in
  let previous := default (JObj []) (dict_get month (cl_months cl)) in
  let* fs := get_fs in
  let* previous_matches := lift (previous_matches fs previous raw_checksum) in
  if previous_matches then
    let* curated_parquet_path :=
      lift (py_get previous "curated_parquet_path") in
    mret (CuratedLoopState (cl_months cl) (cl_processed cl)
            (cl_unchanged cl ++
               [CuratedUnchanged month raw_path curated_parquet_path])
            (cl_failed cl))
  else
    try_except (curate_one E output_root cl month raw_path raw_checksum)
      (fun error =>
         mret (CuratedLoopState (cl_months cl) (cl_processed cl)
                 (cl_unchanged cl)
                 (cl_failed cl ++
                    [CuratedFailed month raw_path (exn_str error)]))).

Fixpoint loop (E : env) (output_root : string)
    (entries : list (string * string)) (cl : curated_loop_state)
  : M curated_loop_state :=
  match entries with
  | [] => mret cl
  | entry :: rest =>
      let* cl' := loop_body E output_root cl entry in
      loop E output_root rest cl'
  end.

Definition run_summary_json (E : env) (s : curated_summary) : json :=
  JObj [("schema_id", JStr CURATED_SCHEMA_ID);
        ("ran_at_utc", JStr (utc_now_iso E));
        ("output_root", JStr (cs_output_root s));
        ("state_file", JStr (cs_state_file s));
        ("discovered_raw_month_count", JInt (cs_discovered_raw_month_count s));
        ("processed_count", JInt (len (cs_processed s)));
        ("unchanged_count", JInt (len (cs_unchanged s)));
        ("failed_count", JInt (len (cs_failed s)));
        ("discovery_skipped_count", JInt (len (cs_discovery_skipped s)));
        ("processed", JArr (month_report_json <$> cs_processed s));
        ("unchanged", JArr (curated_unchanged_json <$> cs_unchanged s));
        ("failed", JArr (curated_failed_json <$> cs_failed s));
        ("discovery_skipped", JArr (skip_json <$> cs_discovery_skipped s))].

(** The months the loop goes through: the discovered mapping, restricted
    to [selected_months] when a filter is given. *)
Definition months_to_consider (raw_mapping : gmap string string)
    (selected_months : option (list string)) : gmap string string :=
  match selected_months with
  | Some selected =>
      filter (fun kv : string * string => kv.1 ∈ selected) raw_mapping
  | None => raw_mapping
  end.

Definition run_curated_build (E : env) (output_root : string)
    (selected_months : option (list string)) (state_path : option string)
  : M curated_summary :=
  let* fs := get_fs in
  let* '(raw_mapping, discovery_skipped) :=
    lift (discover_raw_partitions fs output_root) in
  let raw_mapping := months_to_consider raw_mapping selected_months in
  let report_dir := report_dir_of output_root in
  let runs_dir := path_div report_dir "runs" in
  let* _ := mkdir E (curated_base_of output_root) in
  let* _ := mkdir E report_dir in
  let* _ := mkdir E runs_dir in
  let effective_state_path :=
    default (default_state_path output_root) state_path in
  let* state := load_state E effective_state_path in
  let* cl :=
    loop E output_root (merge_sort key_le (map_to_list raw_mapping))
      (CuratedLoopState (st_records state) [] [] []) in
  let* _ :=
    save_state E effective_state_path
      (State (st_schema_id state) (st_updated_at state) (cl_months cl)) in
  let run_report_path :=
    path_div runs_dir (run_id E +:+ "_curated_build.json") in
  let latest_path := path_div report_dir "latest_curated_build.json" in
  let run_summary :=
    CuratedSummary output_root effective_state_path
      (Z.of_nat (size raw_mapping)) (cl_processed cl) (cl_unchanged cl)
      (cl_failed cl) discovery_skipped run_report_path latest_path in
  let text := json_dumps E (run_summary_json E run_summary) +:+ NL in
  let* _ := write_bytes E run_report_path text in
  let* _ := write_bytes E latest_path text in
  mret run_summary.

(** [main] of the script, as the summary and the exit status. *)
Definition main (E : env) (output_root : string)
    (report_month : option (list string)) (state_file : option string)
  : M (curated_summary * Z) :=
  let* summary := run_curated_build E output_root report_month state_file in
  mret (summary, if 0 <? len (cs_failed summary) then 1 else 0).

End build_curated_sales_monthly.

(** ** ingest_all_months.py *)

Record file_info := FileInfo {
  fi_path : string;
  fi_file_name : string;
  fi_report_month : string;
  fi_size_bytes : Z;
  fi_modified_at_utc : string;
  fi_modified_at_epoch : Z }.

Record processed_item := ProcessedItem {
  pi_file : string;
  pi_report_month : string;
  pi_rows_loaded : json;
  pi_parquet_path : string }.

Record unchanged_item := UnchangedItem {
  ui_file : string;
  ui_report_month : string }.

Record failed_item := FailedItem {
  fl_file : string;
  fl_report_month : string;
  fl_error : string }.

(** [post_steps["build_curated"]]; [bc_summary] holds the requested
    month scope, the three counts and the run report path. *)
Record curated_step := CuratedStep {
  bc_enabled : bool;
  bc_executed : bool;
  bc_processed_months : list string;
  bc_error : option string;
  bc_summary : option (string * Z * Z * Z * string) }.

Record kpi_step := KpiStep {
  ks_enabled : bool;
  ks_executed : bool;
  ks_report_month : option string;
  ks_output_path : option string;
  ks_error : option string }.

Record run_summary := RunSummary {
  rs_input_dir : string;
  rs_output_root : string;
  rs_state_file : string;
  rs_discovered_file_count : Z;
  rs_processed : list processed_item;
  rs_unchanged : list unchanged_item;
  rs_failed : list failed_item;
  rs_discovery_skipped : list skip;
  rs_build_curated : curated_step;
  rs_generate_kpis : kpi_step }.

Record args := Args {
  arg_input_dir : string;
  arg_output_root : string;
  arg_state_file : option string;
  arg_allow_header_mismatch : bool;
  arg_build_curated : bool;
  arg_generate_kpis : bool;
  arg_kpi_report_month : option string;
  arg_kpi_top_n : Z }.

(** The in-memory side of the stage loop: [state["files"]] and the three
    result lists. *)
Record loop_state := LoopState {
  ls_files : list (string * json);
  ls_processed : list processed_item;
  ls_unchanged : list unchanged_item;
  ls_failed : list failed_item }.

Module ingest_all_months.

Definition normalize_state_path_key (path : string) : string := lower path.

Definition load_state : env -> string -> M state :=
  load_state_of "files" SCHEMA_ID
    (fun p => "Invalid state file format at " +:+ p).

Definition save_state : env -> string -> state -> M state :=
  save_state_of "files".

(** [sorted(input_dir.glob("*.xlsx"))], each path with its [stat()] *)
Definition glob_xlsx (fs : storage) (input_dir : string)
  : list (string * node) :=
  (fun e : string * node => (path_div input_dir e.1, e.2))
    <$> merge_sort key_le
          (omap (fun kv : string * node =>
                   match strip_prefix (input_dir +:+ "/") kv.1 with
                   | Some n =>
                       if no_slash n && ends_with ".xlsx" n
                       then Some (n, kv.2) else None
                   | None => None
                   end)
                (map_to_list fs)).

(** First loop of [discover_input_files]: one pass over the listing. *)
Definition scan_step (E : env) (acc : list file_info * list skip)
    (ent : string * node) : list file_info * list skip :=
  let '(candidates, skipped) := acc in
  let path := ent.1 in
  match parse_report_month (path_name path) with
  | Raise error =>
      (candidates,
       skipped ++ [Skip path ("invalid_report_month: " +:+ exn_str error)])
  | Ok report_month =>
      (candidates ++
         [FileInfo path (path_name path) report_month (node_size ent.2)
            (iso_of_epoch E (n_mtime ent.2)) (n_mtime ent.2)],
       skipped)
  end.

(** Second loop: keep one source file per report month, latest
    modification time wins. *)
Definition dedup_step (acc : gmap string file_info * list skip)
    (item : file_info) : gmap string file_info * list skip :=
  let '(by_month, skipped) := acc in
  match by_month !! fi_report_month item with
  | None => (<[fi_report_month item := item]> by_month, skipped)
  | Some existing =>
      if fi_modified_at_epoch existing <? fi_modified_at_epoch item then
        (<[fi_report_month item := item]> by_month,
         skipped ++
           [Skip (fi_path existing)
              ("duplicate_month_replaced_by_newer_file:" +:+ fi_file_name item)])
      else
        (by_month,
         skipped ++
           [Skip (fi_path item)
              ("duplicate_month_older_than:" +:+ fi_file_name existing)])
  end.

Definition discover_listing (E : env) (listing : list (string * node))
  : list file_info * list skip :=
  let '(candidates, skipped) := foldl (scan_step E) ([], []) listing in
  let '(by_month, skipped) := foldl dedup_step (∅, skipped) candidates in
  ((merge_sort key_le (map_to_list by_month)).*2, skipped).

Definition discover_input_files (E : env) (fs : storage) (input_dir : string)
  : list file_info * list skip :=
  discover_listing E (glob_xlsx fs input_dir).

(** The skip test of the loop:
    [previous.get("sha256") == checksum and
     previous.get("report_month") == file_info["report_month"]] *)
Definition previous_matches (previous : json) (checksum report_month : string)
  : result bool :=
  let* a := py_get previous "sha256" in
  if json_eq_str a checksum then
    let* b := py_get previous "report_month" in
    mret (json_eq_str b report_month)
  else mret false.

Definition raw_dir_of (output_root report_month : string) : string :=
  path_div (path_div (path_div (path_div output_root "raw") "sales_monthly")
              "v1") ("report_month_" +:+ report_month).

Definition report_dir_of (output_root : string) : string :=
  path_div (path_div (path_div output_root "reports") "sales_monthly") "v1".

Definition default_state_path (output_root : string) : string :=
  path_div (path_div (path_div (path_div output_root "state") "sales_monthly")
              "v1") "processed_files.json".

Definition rows_loaded_of (report : ingest_report) : json :=
  default (JInt 0) (dict_get "rows_loaded" (ir_totals report)).

(** The [try] block of the loop body. *)
Definition ingest_one (E : env) (a : args) (ls : loop_state)
    (file_info : file_info) (key checksum : string) : M loop_state :=
  let path := fi_path file_info in
  let output_root := arg_output_root a in
  let* '(table, report) :=
    ingest_workbook E path (negb (arg_allow_header_mismatch a)) in
  let report_month := ir_report_month report in
  let raw_dir := raw_dir_of output_root report_month in
  let* _ := mkdir E raw_dir in
  let parquet_path := path_div raw_dir "sales_monthly_v1.parquet" in
  let ingest_report_path :=
    path_div (report_dir_of output_root) (report_month +:+ "_ingest.json") in
  let* _ := write_bytes E parquet_path table in
  let* _ := write_bytes E ingest_report_path
        (json_dumps E (ingest_report_json report) +:+ NL) in
  mret (LoopState
          (dict_set key
             (JObj [("file_name", JStr (path_name path));
                    ("absolute_path", JStr path);
                    ("report_month", JStr report_month);
                    ("sha256", JStr checksum);
                    ("size_bytes", JInt (fi_size_bytes file_info));
                    ("modified_at_utc", JStr (fi_modified_at_utc file_info));
                    ("ingested_at_utc", JStr (utc_now_iso E));
                    ("rows_loaded", rows_loaded_of report);
                    ("parquet_path", JStr parquet_path);
                    ("ingest_report_path", JStr ingest_report_path)])
             (ls_files ls))
          (ls_processed ls ++
             [ProcessedItem path report_month (rows_loaded_of report)
                parquet_path])
          (ls_unchanged ls)
          (ls_failed ls)).

(** One iteration of [for file_info in files_to_consider]. *)
Definition loop_body (E : env) (a : args) (ls : loop_state)
    (file_info : file_info) : M loop_state :=
  let path := fi_path file_info in
  let key := normalize_state_path_key path in
  let* checksum := file_sha256 E path in
  let previous := default (JObj []) (dict_get key (ls_files ls)) in
  let* same :=
    lift (previous_matches previous checksum (fi_report_month file_info)) in
  if same then
    mret (M := M) (LoopState (ls_files ls) (ls_processed ls)
            (ls_unchanged ls ++
               [UnchangedItem path (fi_report_month file_info)])
            (ls_failed ls))
  else
    try_except (ingest_one E a ls file_info key checksum)
      (fun error =>
         mret (LoopState (ls_files ls) (ls_processed ls) (ls_unchanged ls)
                 (ls_failed ls ++
                    [FailedItem path (fi_report_month file_info)
                       (exn_str error)]))).

Fixpoint loop (E : env) (a : args) (files : list file_info)
    (ls : loop_state) : M loop_state :=
  match files with
  | [] => mret ls
  | file_info :: rest =>
      let* ls' := loop_body E a ls file_info in loop E a rest ls'
  end.

Definition processed_json (x : processed_item) : json :=
  JObj [("file", JStr (pi_file x));
        ("report_month", JStr (pi_report_month x));
        ("rows_loaded", pi_rows_loaded x);
        ("parquet_path", JStr (pi_parquet_path x))].

Definition unchanged_json (x : unchanged_item) : json :=
  JObj [("file", JStr (ui_file x));
        ("report_month", JStr (ui_report_month x))].

Definition failed_json (x : failed_item) : json :=
  JObj [("file", JStr (fl_file x));
        ("report_month", JStr (fl_report_month x));
        ("error", JStr (fl_error x))].

Definition curated_step_json (c : curated_step) : json :=
  JObj ([("enabled", JBool (bc_enabled c));
         ("executed", JBool (bc_executed c));
         ("processed_months", JArr (JStr <$> bc_processed_months c));
         ("error", json_opt_str (bc_error c))]
        ++ match bc_summary c with
           | Some (scope, np, nu, nf, rp) =>
               [("summary",
                 JObj [("requested_month_scope", JStr scope);
                       ("processed_count", JInt np);
                       ("unchanged_count", JInt nu);
                       ("failed_count", JInt nf);
                       ("run_report_path", JStr rp)])]
           | None => []
           end).

Definition kpi_step_json (k : kpi_step) : json :=
  JObj [("enabled", JBool (ks_enabled k));
        ("executed", JBool (ks_executed k));
        ("report_month", json_opt_str (ks_report_month k));
        ("output_path", json_opt_str (ks_output_path k));
        ("error", json_opt_str (ks_error k))].

Definition run_summary_json (E : env) (s : run_summary) : json :=
  JObj [("schema_id", JStr SCHEMA_ID);
        ("ran_at_utc", JStr (utc_now_iso E));
        ("input_dir", JStr (rs_input_dir s));
        ("output_root", JStr (rs_output_root s));
        ("state_file", JStr (rs_state_file s));
        ("discovered_file_count", JInt (rs_discovered_file_count s));
        ("processed_count", JInt (len (rs_processed s)));
        ("unchanged_count", JInt (len (rs_unchanged s)));
        ("failed_count", JInt (len (rs_failed s)));
        ("discovery_skipped_count", JInt (len (rs_discovery_skipped s)));
        ("processed", JArr (processed_json <$> rs_processed s));
        ("unchanged", JArr (unchanged_json <$> rs_unchanged s));
        ("failed", JArr (failed_json <$> rs_failed s));
        ("discovery_skipped", JArr (skip_json <$> rs_discovery_skipped s));
        ("post_steps",
         JObj [("build_curated", curated_step_json (rs_build_curated s));
               ("generate_kpis", kpi_step_json (rs_generate_kpis s))])].

(** [sorted({item["report_month"] for item in processed})] *)
Definition processed_months_of (processed : list processed_item)
  : list string :=
  merge_sort str_le (remove_dups (pi_report_month <$> processed)).

(** [months_for_curated = processed_months if processed_months else None] *)
Definition months_for_curated (processed_months : list string)
  : option (list string) :=
  match processed_months with
  | [] => None
  | _ :: _ => Some processed_months
  end.

(** The [if args.build_curated:] block. *)
Definition post_build_curated (E : env) (a : args)
    (processed_months : list string) : M curated_step :=
  if arg_build_curated a then
    try_except
      (let* curated_summary :=
         build_curated_sales_monthly.run_curated_build E (arg_output_root a)
           (months_for_curated processed_months) None in
       mret (CuratedStep true true processed_months None
               (Some (match processed_months with
                      | [] => "all_available"
                      | _ :: _ => "processed_only"
                      end,
                      len (cs_processed curated_summary),
                      len (cs_unchanged curated_summary),
                      len (cs_failed curated_summary),
                      cs_run_report_path curated_summary))))
      (fun error =>
         mret (CuratedStep true false [] (Some (exn_str error)) None))
  else mret (M := M) (CuratedStep false false [] None None).

(** The [if args.generate_kpis:] block; the payload of the KPI generator
    is a dict, so reading its summary does not raise. *)
Definition post_generate_kpis (E : env) (a : args) : M kpi_step :=
  if arg_generate_kpis a then
    try_except
      (let* '(payload, kpi_output_path, kpi_html_path) :=
         generate_kpi_report E (arg_output_root a) (arg_kpi_report_month a)
           (Z.max 1 (arg_kpi_top_n a)) in
       mret (KpiStep true true (arg_kpi_report_month a)
               (Some kpi_output_path) None))
      (fun error => mret (KpiStep true false None None (Some (exn_str error))))
  else mret (M := M) (KpiStep false false None None None).

(** [main]: the run summary and the exit status of the process
    ([raise SystemExit(1)] is status 1, falling off the end is 0). *)
Definition main (E : env) (a : args) : M (run_summary * Z) :=
  let input_dir := arg_input_dir a in
  let output_root := arg_output_root a in
  let* fs := get_fs in
  if negb (path_is_dir fs input_dir) then
    raise (Exn "FileNotFoundError"
             ("Input directory not found: " +:+ input_dir))
  else
    let state_path :=
      default (default_state_path output_root) (arg_state_file a) in
    let report_dir := report_dir_of output_root in
    let runs_dir := path_div report_dir "runs" in
    let* _ := mkdir E report_dir in
    let* _ := mkdir E runs_dir in
    let* state := load_state E state_path in
    let* fs := get_fs in
    let found := discover_input_files E fs input_dir in
    let files_to_consider := found.1 in
    let discovery_skips := found.2 in
    let* ls :=
      loop E a files_to_consider (LoopState (st_records state) [] [] []) in
    let* _ :=
      save_state E state_path
        (State (st_schema_id state) (st_updated_at state) (ls_files ls)) in
    let processed_months := processed_months_of (ls_processed ls) in
    let* build_curated := post_build_curated E a processed_months in
    let* generate_kpis := post_generate_kpis E a in
    let run_summary :=
      RunSummary input_dir output_root state_path (len files_to_consider)
        (ls_processed ls) (ls_unchanged ls) (ls_failed ls) discovery_skips
        build_curated generate_kpis in
    let text := json_dumps E (run_summary_json E run_summary) +:+ NL in
    let* _ :=
      write_bytes E (path_div runs_dir (run_id E +:+ "_folder_ingest.json"))
        text in
    let* _ := write_bytes E (path_div report_dir "latest_folder_ingest.json")
                text in
    let post_failed :=
      bool_decide (bc_error build_curated <> None)
      || bool_decide (ks_error generate_kpis <> None) in
    mret (run_summary,
          if negb (bool_decide (ls_failed ls = [])) || post_failed
          then 1 else 0).

End ingest_all_months.

(** The exit status of the process: that of [main], or 1 when an
    exception reaches the top level. *)
Definition exit_status {A} (r : storage * result (A * Z)) : Z :=
  match r.2 with
  | Ok (_, code) => code
  | Raise _ => 1
  end.

(** ** A concrete environment

    A compact JSON codec and simple stand-ins for the collaborators, so
    that the model runs on explicit file trees. *)

Module Demo.

Definition DQ : string := String (ascii_of_nat 34) EmptyString.

Fixpoint join (sep : string) (l : list string) : string :=
  match l with
  | [] => ""
  | [x] => x
  | x :: r => x +:+ sep +:+ join sep r
  end.

Fixpoint dumps (v : json) : string :=
  match v with
  | JNull => "null"
  | JBool true => "true"
  | JBool false => "false"
  | JInt z => NilZero.string_of_int (Z.to_int z)
  | JStr t => DQ +:+ t +:+ DQ
  | JArr l => "[" +:+ join "," (map dumps l) +:+ "]"
  | JObj d =>
      "{" +:+ join ","
                (map (fun kv : string * json =>
                        let '(k, x) := kv in DQ +:+ k +:+ DQ +:+ ":" +:+ dumps x)
                     d) +:+ "}"
  end.

Fixpoint until_quote (s : string) : option (string * string) :=
  match s with
  | EmptyString => None
  | String c r =>
      if Ascii.eqb c (ascii_of_nat 34) then Some (EmptyString, r)
      else match until_quote r with
           | Some (t, r') => Some (String c t, r')
           | None => None
           end
  end.

Fixpoint span_number (s : string) : string * string :=
  match s with
  | EmptyString => (EmptyString, EmptyString)
  | String c r =>
      if is_digit c || Ascii.eqb c "-" then
        let '(t, r') := span_number r in (String c t, r')
      else (EmptyString, s)
  end.

Fixpoint parse_value (fuel : nat) (s : string) : option (json * string) :=
  match fuel with
  | O => None
  | S fuel' =>
      match strip_prefix "null" s with
      | Some r => Some (JNull, r)
      | None =>
      match strip_prefix "true" s with
      | Some r => Some (JBool true, r)
      | None =>
      match strip_prefix "false" s with
      | Some r => Some (JBool false, r)
      | None =>
      match strip_prefix DQ s with
      | Some r =>
          match until_quote r with
          | Some (t, r') => Some (JStr t, r')
          | None => None
          end
      | None =>
      match strip_prefix "[]" s with
      | Some r => Some (JArr [], r)
      | None =>
      match strip_prefix "{}" s with
      | Some r => Some (JObj [], r)
      | None =>
      match strip_prefix "[" s with
      | Some r => parse_items fuel' r []
      | None =>
      match strip_prefix "{" s with
      | Some r => parse_members fuel' r []
      | None =>
          let '(t, r) := span_number s in
          match NilZero.int_of_string t with
          | Some n => Some (JInt (Z.of_int n), r)
          | None => None
          end
      end end end end end end end end
  end
with parse_items (fuel : nat) (s : string) (acc : list json)
  : option (json * string) :=
  match fuel with
  | O => None
  | S fuel' =>
      match parse_value fuel' s with
      | Some (x, r) =>
          match strip_prefix "," r with
          | Some r' => parse_items fuel' r' (acc ++ [x])
          | None =>
              match strip_prefix "]" r with
              | Some r' => Some (JArr (acc ++ [x]), r')
              | None => None
              end
          end
      | None => None
      end
  end
with parse_members (fuel : nat) (s : string) (acc : list (string * json))
  : option (json * string) :=
  match fuel with
  | O => None
  | S fuel' =>
      match strip_prefix DQ s with
      | Some r =>
          match until_quote r with
          | Some (k, r1) =>
              match strip_prefix ":" r1 with
              | Some r2 =>
                  match parse_value fuel' r2 with
                  | Some (x, r3) =>
                      match strip_prefix "," r3 with
                      | Some r' => parse_members fuel' r' (acc ++ [(k, x)])
                      | None =>
                          match strip_prefix "}" r3 with
                          | Some r' => Some (JObj (acc ++ [(k, x)]), r')
                          | None => None
                          end
                      end
                  | None => None
                  end
              | None => None
              end
          | None => None
          end
      | None => None
      end
  end.

Definition loads (text : string) : option json :=
  match parse_value (String.length text) text with
  | Some (v, rest) =>
      if String.eqb rest "" || String.eqb rest NL then Some v else None
  | None => None
  end.

(** The workbook reader rejects a workbook whose bytes are ["bad"]; the
    curated query rejects a raw table built from ["poison"]. *)
Definition E : env :=
  Env (fun d => "sha:" +:+ d) dumps loads 1700000000
    "2023-11-14T22:13:20+00:00" "20231114T221320Z"
    (fun t => "t" +:+ NilZero.string_of_int (Z.to_int t))
    (Ok SCHEMA_ID)
    (fun path data strict =>
       if String.eqb data "bad"
       then Raise (Exn "ValueError" "Header mismatch in sheet 'Sheet1'.")
       else Ok (Workbook ("rows:" +:+ data) 1 (JArr [])
                  [("rows_loaded", JInt 3)] true))
    true
    (fun data =>
       if String.eqb data "rows:poison"
       then Raise (Exn "InvalidInputException" "corrupt parquet")
       else Ok ("curated:" +:+ data, 3, 25))
    (fun output_root month top_n =>
       mret (JObj [], path_div output_root "kpi.json",
             path_div output_root "kpi.html")).

(** The same environment on a machine without DuckDB. *)
Definition E_without_duckdb : env :=
  Env (sha256_hexdigest E) (json_dumps E) (json_loads E) (now_epoch E)
    (utc_now_iso E) (run_id E) (iso_of_epoch E) (load_schema_definition E)
    (read_workbook E) false (curated_query E) (generate_kpi_report E).

Definition file (data : string) (mtime : Z) : node := Node (Some data) mtime.

Definition raw_state_path : string :=
  "/out/state/sales_monthly/v1/processed_files.json".

(** A state file whose records field is a list. *)
Definition bad_state_doc : list (string * json) :=
  [("schema_id", JStr "sales_monthly_v1"); ("updated_at", JNull);
   ("files", JArr []); ("months", JArr [])].

Definition bad_state_text : string := dumps (JObj bad_state_doc).

Definition fs_bad_state : storage :=
  <["/in/sales_2024-01.xlsx" := file "jan" 10]>
  (<["/out/state/sales_monthly/v1/processed_files.json" :=
       file bad_state_text 5]>
  (<["/out/state/sales_monthly/v1/curated_processed_months.json" :=
       file bad_state_text 5]> ∅)).

(** A tree with a previously saved, well-formed raw state file. *)
Definition old_state : state := State (JStr SCHEMA_ID) (JStr "2023-01-01") [].

Definition fs_saved_state : storage :=
  <["/out/state/sales_monthly/v1/processed_files.json" :=
      file (dumps (state_json "files" old_state) +:+ NL) 5]> ∅.

(** Two deliveries of January (the second one newer), a tie for March, a
    workbook without a month in its name, and one raw partition. *)
Definition fs_duplicates : storage :=
  <["/in/a_2024-01.xlsx" := file "jan" 10]>
  (<["/in/b_2024-01.xlsx" := file "jan-fixed" 20]>
  (<["/in/c_2024-03.xlsx" := file "mar" 30]>
  (<["/in/d_2024-03.xlsx" := file "mar-again" 30]>
  (<["/in/notes.xlsx" := file "notes" 40]>
  (<["/out/raw/sales_monthly/v1/report_month_2024-01/sales_monthly_v1.parquet"
       := file "rows:jan" 50]> ∅))))).

Definition january_winner : file_info :=
  FileInfo "/in/b_2024-01.xlsx" "b_2024-01.xlsx" "2024-01" 9 "t20" 20.

Definition march_winner : file_info :=
  FileInfo "/in/c_2024-03.xlsx" "c_2024-03.xlsx" "2024-03" 3 "t30" 30.

Definition duplicates_skipped : list skip :=
  [Skip "/in/notes.xlsx"
     "invalid_report_month: Could not parse report month from file name: notes.xlsx";
   Skip "/in/a_2024-01.xlsx"
     "duplicate_month_replaced_by_newer_file:b_2024-01.xlsx";
   Skip "/in/d_2024-03.xlsx" "duplicate_month_older_than:c_2024-03.xlsx"].

Definition duplicates_raw_mapping : gmap string string :=
  {["2024-01" :=
      "/out/raw/sales_monthly/v1/report_month_2024-01/sales_monthly_v1.parquet"]}.

(** A listing in which two partition directories carry the same month. *)
Definition raw_listing : list (string * node) :=
  [("/mnt/a/report_month_2024-01/sales_monthly_v1.parquet", file "old" 5);
   ("/mnt/b/report_month_2024-01/sales_monthly_v1.parquet", file "new" 7)].

Definition raw_listing_selected : gmap string raw_candidate :=
  {["2024-01" :=
      RawCandidate "/mnt/b/report_month_2024-01/sales_monthly_v1.parquet"
        7 3]}.

Definition raw_listing_skipped : list skip :=
  [Skip "/mnt/a/report_month_2024-01/sales_monthly_v1.parquet"
     "duplicate_month_replaced_by_newer_file:sales_monthly_v1.parquet"].

(** January was ingested earlier; its raw parquet has since been deleted. *)
Definition january : file_info :=
  FileInfo "/in/sales_2024-01.xlsx" "sales_2024-01.xlsx" "2024-01" 3 "t10" 10.

Definition january_parquet : string :=
  "/out/raw/sales_monthly/v1/report_month_2024-01/sales_monthly_v1.parquet".

Definition january_record : list (string * json) :=
  [("file_name", JStr "sales_2024-01.xlsx");
   ("absolute_path", JStr "/in/sales_2024-01.xlsx");
   ("report_month", JStr "2024-01");
   ("sha256", JStr "sha:jan");
   ("size_bytes", JInt 3);
   ("modified_at_utc", JStr "t10");
   ("ingested_at_utc", JStr "2023-11-14T22:13:20+00:00");
   ("rows_loaded", JInt 3);
   ("parquet_path", JStr january_parquet);
   ("ingest_report_path",
    JStr "/out/reports/sales_monthly/v1/2024-01_ingest.json")].

Definition january_state : loop_state :=
  LoopState [("/in/sales_2024-01.xlsx", JObj january_record)] [] [] [].

Definition fs_output_deleted : storage :=
  <["/in/sales_2024-01.xlsx" := file "jan" 10]> ∅.

(** January is delivered, ingested, and then delivered again under
    another file name. *)
Definition fs_first_delivery : storage :=
  <["/in/a_2024-01.xlsx" := file "jan" 10]> ∅.

(** Three months, of which February fails to ingest. *)
Definition fs_three_months : storage :=
  <["/in/sales_2024-01.xlsx" := file "jan" 10]>
  (<["/in/sales_2024-02.xlsx" := file "bad" 11]>
  (<["/in/sales_2024-03.xlsx" := file "mar" 12]> ∅)).

(** One workbook, nothing ingested yet. *)
Definition fs_one_month : storage :=
  <["/in/sales_2024-01.xlsx" := file "jan" 10]> ∅.

Definition empty_loop_state : loop_state := LoopState [] [] [] [].

Definition empty_summary : run_summary :=
  RunSummary "" "" "" 0 [] [] [] []
    (CuratedStep false false [] None None)
    (KpiStep false false None None None).

Definition empty_curated_state : curated_loop_state :=
  CuratedLoopState [] [] [] [].

(** January was ingested by a raw-only run; February arrives before the
    first full run. *)
Definition february : node := file "feb" 20.

Definition args_raw_only : args :=
  Args "/in" "/out" None false false false None 10.

Definition args_full : args :=
  Args "/in" "/out" None false true false None 10.

End Demo.

(** ** Vocabulary of the statements *)

(** A text of the shape [20dd-dd]. *)
Definition month_shaped (k : string) : Prop :=
  exists c1 c2 c3 c4,
    k = String "2" (String "0" (String c1 (String c2
          (String "-" (String c3 (String c4 EmptyString))))))
    /\ is_digit c1 = true /\ is_digit c2 = true
    /\ is_digit c3 = true /\ is_digit c4 = true.

(** The bytes a reader finds at [p], if [p] is a regular file. *)
Definition file_bytes (fs : storage) (p : string) : option string :=
  fs !! p ≫= n_data.

(** De-duplication read off both discovery loops: [month], [name],
    [path] and [mtime] are the fields the loops use. *)
Section dedup_vocabulary.
Context {A : Type} (month name path : A -> string) (mtime : A -> Z).

Definition dedup_gen (acc : gmap string A * list skip) (item : A)
  : gmap string A * list skip :=
  let '(selected, skipped) := acc in
  match selected !! month item with
  | None => (<[month item := item]> selected, skipped)
  | Some existing =>
      if mtime existing <? mtime item then
        (<[month item := item]> selected,
         skipped ++
           [Skip (path existing)
              ("duplicate_month_replaced_by_newer_file:" +:+ name item)])
      else
        (selected,
         skipped ++
           [Skip (path item)
              ("duplicate_month_older_than:" +:+ name existing)])
  end.

(** [c'] is on the rejection list, with the reason naming a candidate
    [x] of the same month: a strictly newer one that replaced it, or one
    at least as new that was already selected. *)
Definition rejected (cands : list A) (skipped : list skip) (c' : A) : Prop :=
  exists k x,
    k ∈ skipped /\ skip_file k = path c' /\ x ∈ cands
    /\ month x = month c'
    /\ ((skip_reason k
         = "duplicate_month_replaced_by_newer_file:" +:+ name x
         /\ mtime c' < mtime x)
        \/ (skip_reason k = "duplicate_month_older_than:" +:+ name x
            /\ mtime c' <= mtime x)).

(** [c] is the winner of its month among [cands] (in scan order):
    candidates of the month scanned before it are strictly older,
    those scanned after it are not newer, and all of them are
    rejected. *)
Definition winner_of (cands : list A) (skipped : list skip) (c : A) : Prop :=
  exists l1 l2,
    cands = l1 ++ c :: l2
    /\ (forall c', c' ∈ l1 -> month c' = month c ->
          mtime c' < mtime c /\ rejected cands skipped c')
    /\ (forall c', c' ∈ l2 -> month c' = month c ->
          mtime c' <= mtime c /\ rejected cands skipped c').

Definition dedup_inv (seen : list A) (acc : gmap string A * list skip)
  : Prop :=
  forall m,
    match acc.1 !! m with
    | None => forall c, c ∈ seen -> month c <> m
    | Some c => month c = m /\ winner_of seen acc.2 c
    end.
End dedup_vocabulary.

(** The reasons of the two duplicate outcomes, as the code writes them. *)
Definition duplicate_reason (r : string) : Prop :=
  (exists n, r = "duplicate_month_replaced_by_newer_file:" +:+ n)
  \/ (exists n, r = "duplicate_month_older_than:" +:+ n).

(** The reason vocabulary as the specification words it. *)
Definition documented_reason (r : string) : Prop :=
  r = "invalid_partition_key"
  \/ (exists n, r = "duplicate_partition_replaced_by_newer_file:" +:+ n)
  \/ (exists n, r = "duplicate_partition_older_than:" +:+ n).




(** The record the raw stage writes for a processed file. *)
Definition raw_record (E : env) (a : args) (fi : file_info)
    (checksum : string) (report : ingest_report) : json :=
  let parquet_path :=
    path_div (ingest_all_months.raw_dir_of (arg_output_root a)
                (ir_report_month report)) "sales_monthly_v1.parquet" in
  JObj [("file_name", JStr (path_name (fi_path fi)));
        ("absolute_path", JStr (fi_path fi));
        ("report_month", JStr (ir_report_month report));
        ("sha256", JStr checksum);
        ("size_bytes", JInt (fi_size_bytes fi));
        ("modified_at_utc", JStr (fi_modified_at_utc fi));
        ("ingested_at_utc", JStr (utc_now_iso E));
        ("rows_loaded", ingest_all_months.rows_loaded_of report);
        ("parquet_path", JStr parquet_path);
        ("ingest_report_path",
         JStr (path_div (ingest_all_months.report_dir_of (arg_output_root a))
                 (ir_report_month report +:+ "_ingest.json")))].

(** Storage after the raw stage has written the artifacts of [report]. *)
Definition raw_written (E : env) (a : args) (table : string)
    (report : ingest_report) (fs : storage) : storage :=
  let raw_dir :=
    ingest_all_months.raw_dir_of (arg_output_root a) (ir_report_month report) in
  <[path_div (ingest_all_months.report_dir_of (arg_output_root a))
      (ir_report_month report +:+ "_ingest.json") :=
      Node (Some (json_dumps E (ingest_report_json report) +:+ NL))
        (now_epoch E)]>
    (<[path_div raw_dir "sales_monthly_v1.parquet" :=
         Node (Some table) (now_epoch E)]>
       (run_ops (now_epoch E) fs [OpMkdir raw_dir])).

(** The record the curated stage writes for a processed month. *)
Definition curated_path_of (root month : string) : string :=
  path_div (path_div (build_curated_sales_monthly.curated_base_of root)
              ("report_month_" +:+ month))
    "sales_monthly_curated_v1.parquet".

Definition curated_report_path_of (root month : string) : string :=
  path_div (build_curated_sales_monthly.report_dir_of root)
    (month +:+ "_curated.json").

Definition curated_record (E : env) (root month raw_path checksum : string)
    (num_rows num_columns : Z) : json :=
  JObj [("raw_parquet_path", JStr raw_path);
        ("raw_sha256", JStr checksum);
        ("curated_parquet_path", JStr (curated_path_of root month));
        ("curated_report_path", JStr (curated_report_path_of root month));
        ("row_count", JInt num_rows);
        ("column_count", JInt num_columns);
        ("updated_at_utc", JStr (utc_now_iso E))].

Definition curated_written (E : env) (root month raw_path checksum table : string)
    (num_rows num_columns : Z) (fs : storage) : storage :=
  <[curated_report_path_of root month :=
      Node (Some (json_dumps E
                    (month_report_json
                       (MonthReport month raw_path checksum
                          (curated_path_of root month) num_rows num_columns
                          (utc_now_iso E))) +:+ NL))
        (now_epoch E)]>
    (<[curated_path_of root month := Node (Some table) (now_epoch E)]>
       (run_ops (now_epoch E) fs
          [OpMkdir (path_div (build_curated_sales_monthly.curated_base_of root)
                      ("report_month_" +:+ month))])).

(** The months a curated run went through: each one ends in exactly one
    of the three result lists. *)
Definition considered_months (p : list month_report)
    (u : list curated_unchanged) (f : list curated_failed) : list string :=
  (mr_report_month <$> p) ++ (cu_report_month <$> u)
  ++ (cf_report_month <$> f).


(** The state key of a file and the record a loop finds under a key. *)
Abbreviation raw_key fi :=
  (ingest_all_months.normalize_state_path_key (fi_path fi)).

Abbreviation raw_previous ls fi :=
  (default (JObj []) (dict_get (raw_key fi) (ls_files ls))).

Abbreviation curated_previous cl month :=
  (default (JObj []) (dict_get month (cl_months cl))).

(** The value of a computation that returned. *)
Definition ok_value {A} (r : result A) (d : A) : A :=
  match r with
  | Ok a => a
  | Raise _ => d
  end.

(** A partition is settled when the stage would skip it: its source is
    readable and its record passes the skip test. *)
Definition raw_settled (E : env) (fs : storage) (files : list (string * json))
    (fi : file_info) : Prop :=
  exists d t,
    fs !! fi_path fi = Some (Node (Some d) t)
    /\ ingest_all_months.previous_matches
         (default (JObj [])
            (dict_get
               (ingest_all_months.normalize_state_path_key (fi_path fi))
               files))
         (sha256_hexdigest E d) (fi_report_month fi) = Ok true.

Definition curated_settled (E : env) (fs : storage)
    (months : list (string * json)) (entry : string * string) : Prop :=
  exists d t,
    fs !! entry.2 = Some (Node (Some d) t)
    /\ build_curated_sales_monthly.previous_matches fs
         (default (JObj []) (dict_get entry.1 months))
         (sha256_hexdigest E d) = Ok true.

(** Storage only grows: no path disappears. *)
Definition storage_le (fs fs' : storage) : Prop :=
  forall k, is_Some (fs !! k) -> is_Some (fs' !! k).

(** The candidates of the two discovery functions. *)
Definition raw_candidates (E : env) (listing : list (string * node))
  : list file_info :=
  (foldl (ingest_all_months.scan_step E) ([], []) listing).1.

Definition partition_candidate (ent : string * node) : raw_candidate :=
  RawCandidate ent.1 (n_mtime ent.2) (node_size ent.2).

Definition partition_month (c : raw_candidate) : string :=
  default "" (strip_prefix "report_month_"
                (path_name (path_parent (rc_path c)))).

(** ** Text

    The text of a cell, a header or an option is a Python [str]; the
    model holds its UTF-8 encoding, so that one character is one to four
    bytes and an ASCII character is one byte below 128.  The methods of
    [str] that the scripts call are written out on these bytes. *)

Definition byte_in (lo hi : nat) (c : ascii) : bool :=
  (lo <=? nat_of_ascii c)%nat && (nat_of_ascii c <=? hi)%nat.

Definition byte_is (n : nat) (c : ascii) : bool := (nat_of_ascii c =? n)%nat.

(** [c.isspace()] of a character of one, two or three bytes: U+0009 to
    U+000D, U+001C to U+0020; U+0085 and U+00A0; U+1680, U+2000 to
    U+200A, U+2028, U+2029, U+202F, U+205F and U+3000. *)
Definition is_space (c : ascii) : bool := byte_in 9 13 c || byte_in 28 32 c.

Definition is_space2 (a b : ascii) : bool :=
  byte_is 194 a && (byte_is 133 b || byte_is 160 b).

Definition is_space3 (a b c : ascii) : bool :=
  byte_is 225 a && byte_is 154 b && byte_is 128 c
  || byte_is 226 a && byte_is 128 b
     && (byte_in 128 138 c || byte_is 168 c || byte_is 169 c || byte_is 175 c)
  || byte_is 226 a && byte_is 129 b && byte_is 159 c
  || byte_is 227 a && byte_is 128 b && byte_is 128 c.

(** [s.lstrip()] *)
Fixpoint lstrip (s : string) : string :=
  match s with
  | EmptyString => s
  | String a r =>
      if is_space a then lstrip r
      else
        match r with
        | EmptyString => s
        | String b r' =>
            if is_space2 a b then lstrip r'
            else
              match r' with
              | EmptyString => s
              | String c r'' => if is_space3 a b c then lstrip r'' else s
              end
        end
  end.

(** [s.rstrip()]: what is left of [s] once the white space at its end is
    taken off; a text of white space only becomes empty. *)
Fixpoint rstrip (s : string) : string :=
  match s with
  | EmptyString => EmptyString
  | String c r =>
      match lstrip s with
      | EmptyString => EmptyString
      | String _ _ => String c (rstrip r)
      end
  end.

(** [s.strip()] *)
Definition strip (s : string) : string := rstrip (lstrip s).

(** [s.rstrip(ch)] for a single character [ch] *)
Fixpoint rstrip_char (ch : ascii) (s : string) : string :=
  match s with
  | EmptyString => EmptyString
  | String c r =>
      match rstrip_char ch r with
      | EmptyString => if Ascii.eqb c ch then EmptyString else String c EmptyString
      | String d r' => String c (String d r')
      end
  end.

(** [s.replace(old, new)] for a non-empty [old]: the occurrences of [old]
    are taken from left to right and do not overlap; [skip] counts the
    bytes of the occurrence being replaced that are still to pass. *)
Fixpoint replace_from (skip : nat) (old new s : string) : string :=
  match s with
  | EmptyString => EmptyString
  | String c r =>
      match skip with
      | S k => replace_from k old new r
      | O =>
          if starts_with old s
          then new +:+ replace_from (String.length old - 1) old new r
          else String c (replace_from 0 old new r)
      end
  end.

Definition replace (old new s : string) : string := replace_from 0 old new s.

Definition ascii_upper (c : ascii) : ascii :=
  if byte_in 97 122 c then ascii_of_nat (nat_of_ascii c - 32) else c.

(** [s.upper()] of an ASCII text *)
Fixpoint upper (s : string) : string :=
  match s with
  | EmptyString => EmptyString
  | String c r => String (ascii_upper c) (upper r)
  end.

(** [str(n)] of an integer *)
Definition str_of_int (n : Z) : string := NilZero.string_of_int (Z.to_int n).

(** [old in s] *)
Fixpoint contains (old s : string) : bool :=
  starts_with old s
  || match s with
     | EmptyString => false
     | String _ r => contains old r
     end.

(** The longest run of digits at the head of [s], and what follows it. *)
Fixpoint span_digits (s : string) : string * string :=
  match s with
  | EmptyString => (EmptyString, EmptyString)
  | String c r =>
      if is_digit c
      then let '(d, rest) := span_digits r in (String c d, rest)
      else (EmptyString, s)
  end.

(** Python's [l[start:]] *)
Definition slice_from {A} (start : Z) (l : list A) : list A :=
  if start <? 0
  then drop (Z.to_nat (Z.max 0 (len l + start))) l
  else drop (Z.to_nat start) l.

(** [l.index(x)] *)
Fixpoint index_of (x : string) (l : list string) : option nat :=
  match l with
  | [] => None
  | y :: r => if String.eqb y x then Some O else S <$> index_of x r
  end.

(** [s.encode("ascii", "ignore").decode("ascii")]: the characters beyond
    ASCII are dropped, that is every byte from 128 on. *)
Fixpoint ascii_ignore (s : string) : string :=
  match s with
  | EmptyString => EmptyString
  | String c r =>
      if (nat_of_ascii c <? 128)%nat then String c (ascii_ignore r)
      else ascii_ignore r
  end.

(** [re.sub(r"\s+", " ", s)] of an ASCII text; [in_run] holds while the
    characters just passed are white space. *)
Fixpoint collapse_spaces (in_run : bool) (s : string) : string :=
  match s with
  | EmptyString => EmptyString
  | String c r =>
      if is_space c
      then if in_run then collapse_spaces true r
           else String " " (collapse_spaces true r)
      else String c (collapse_spaces false r)
  end.

(** The characters of a text: a byte from 128 to 191 continues the
    character begun before it. *)
Fixpoint utf8_split (s : string) : string * list string :=
  match s with
  | EmptyString => (EmptyString, [])
  | String c r =>
      let '(k, l) := utf8_split r in
      if byte_in 128 191 c then (String c k, l)
      else (EmptyString, String c k :: l)
  end.

Definition utf8_chars (s : string) : list string :=
  let '(k, l) := utf8_split s in
  if String.eqb k "" then l else k :: l.

Definition NBSP : string :=
  String (ascii_of_nat 194) (String (ascii_of_nat 160) EmptyString).

(** ** Numbers

    A Python [float] is an IEEE 754 binary64 number, as is a primitive
    [float]; [x < 0] and [math.isnan(x)] are [PrimFloat.ltb] and
    [PrimFloat.is_nan].  The conversions between floats and integers go
    through the mantissa and the exponent: a finite [x] other than zero
    is [m * 2^e], negated when its sign is set. *)

(** [int(x)] when [x.is_integer()] *)
Definition float_integer (x : float) : option Z :=
  match Prim2SF x with
  | S754_zero _ => Some 0
  | S754_finite s m e =>
      let n := if 0 <=? e then Some (Z.pos m * 2 ^ e)
               else if Z.pos m mod 2 ^ (- e) =? 0
                    then Some (Z.pos m / 2 ^ (- e)) else None in
      (if s then Z.opp else id) <$> n
  | S754_infinity _ | S754_nan => None
  end.

(** [round(x)]: the nearest integer, the even one of two nearest. *)
Definition float_round (x : float) : result Z :=
  match Prim2SF x with
  | S754_zero _ => Ok 0
  | S754_finite s m e =>
      let n := if 0 <=? e then Z.pos m * 2 ^ e
               else
                 let q := Z.pos m / 2 ^ (- e) in
                 let r := Z.pos m mod 2 ^ (- e) in
                 match 2 * r ?= 2 ^ (- e) with
                 | Lt => q
                 | Gt => q + 1
                 | Eq => if Z.even q then q else q + 1
                 end in
      Ok (if s then - n else n)
  | S754_infinity _ =>
      Raise (Exn "OverflowError" "cannot convert float infinity to integer")
  | S754_nan => Raise (Exn "ValueError" "cannot convert float NaN to integer")
  end.

(** [float(n)] of an integer: the nearest float, the one with the even
    mantissa of two nearest; an integer beyond the largest float has
    none. *)
Definition float_of_int (n : Z) : result float :=
  match binary_normalize prec emax n 0 false with
  | S754_infinity _ =>
      Raise (Exn "OverflowError" "int too large to convert to float")
  | x => Ok (SF2Prim x)
  end.

(** [x is not None and x < 0] *)
Definition is_negative (x : option float) : bool :=
  match x with
  | Some v => PrimFloat.ltb v 0
  | None => false
  end.

(** ** Cells, records and workbooks *)

(** The value of a worksheet cell as openpyxl hands it over; [CObj] is a
    date, a time or any other object, with the text [str()] gives. *)
Inductive cell :=
| CNone
| CStr (s : string)
| CBool (b : bool)
| CInt (n : Z)
| CFloat (x : float)
| CObj (text : string).

(** The dict that [map_row_to_record] returns. *)
Record sales_record := SalesRecord {
  sr_source_file : string;
  sr_source_sheet : string;
  sr_source_row : Z;
  sr_report_month : string;
  sr_filial : option string;
  sr_avdelning : option string;
  sr_varugrupp : option string;
  sr_artnr : option string;
  sr_ean : option string;
  sr_varutext : option string;
  sr_huvudleverantor : option string;
  sr_antal_salda : option float;
  sr_fors_sum : option float;
  sr_tb : option float;
  sr_tg_percent : option float;
  sr_fors_m_moms : option float;
  sr_ord_pris : option float;
  sr_snitt_inpris : option float;
  sr_lager_antal : option float }.

Inductive arrow_type :=
| ArrowString | ArrowInt32 | ArrowInt64 | ArrowFloat64 | ArrowBool.

Record arrow_field := ArrowField {
  af_name : string;
  af_type : arrow_type;
  af_nullable : bool }.

Record schema_definition := SchemaDefinition {
  sd_schema_id : string;
  sd_expected_header_order : list string;
  sd_fields : json }.

(** A worksheet is its name and its rows; a workbook is its sheets in
    the order of [wb.sheetnames]. *)
Abbreviation worksheet := (string * list (list cell))%type.

(** The library functions the row level code calls: [repr], NFKD
    normalisation, the conversions between floats and text, openpyxl on
    the bytes of a workbook, pyarrow on the records (the table is held as
    the bytes [pq.write_table] gives) and [json.dumps] on one line. *)
Record pylib := PyLib {
  py_repr : json -> string;
  unicodedata_nfkd : string -> string;
  float_of_str : string -> option float;
  str_of_float : float -> string;
  format_f : float -> string;
  load_workbook : string -> result (list worksheet);
  table_from_pylist : list sales_record -> list arrow_field -> result string;
  json_dumps_line : json -> string }.

(** ** Loaded JSON values as Python objects *)

Definition py_type_name (v : json) : string :=
  match v with
  | JNull => "NoneType"
  | JBool _ => "bool"
  | JInt _ => "int"
  | JStr _ => "str"
  | JArr _ => "list"
  | JObj _ => "dict"
  end.

(** [str(v)] *)
Definition py_str (P : pylib) (v : json) : string :=
  match v with
  | JStr s => s
  | _ => py_repr P v
  end.

(** [bool(v)] *)
Definition py_bool (v : json) : bool :=
  match v with
  | JNull => false
  | JBool b => b
  | JInt n => negb (n =? 0)
  | JStr s => negb (String.eqb s "")
  | JArr l => negb (bool_decide (l = []))
  | JObj d => negb (bool_decide (d = []))
  end.

(** [list(v)]: what a [for] loop over [v] goes through *)
Definition py_iter (v : json) : result (list json) :=
  match v with
  | JArr l => Ok l
  | JObj d => Ok (JStr <$> d.*1)
  | JStr s => Ok (JStr <$> utf8_chars s)
  | _ =>
      Raise (Exn "TypeError"
               ("'" +:+ py_type_name v +:+ "' object is not iterable"))
  end.

(** [len(v)] *)
Definition py_len (v : json) : result Z :=
  match v with
  | JArr l => Ok (len l)
  | JObj d => Ok (len d)
  | JStr s => Ok (len (utf8_chars s))
  | _ =>
      Raise (Exn "TypeError"
               ("object of type '" +:+ py_type_name v +:+ "' has no len()"))
  end.

(** [v[k]] for a text key [k] *)
Definition py_getitem (v : json) (k : string) : result json :=
  match v with
  | JObj d =>
      match dict_get k d with
      | Some x => Ok x
      | None => Raise (Exn "KeyError" ("'" +:+ k +:+ "'"))
      end
  | JStr _ => Raise (Exn "TypeError" "string indices must be integers, not 'str'")
  | JArr _ =>
      Raise (Exn "TypeError" "list indices must be integers or slices, not str")
  | _ =>
      Raise (Exn "TypeError"
               ("'" +:+ py_type_name v +:+ "' object is not subscriptable"))
  end.

(** [[f(x) for x in l]] with an [f] that can raise *)
Fixpoint map_result {A B} (f : A -> result B) (l : list A) : result (list B) :=
  match l with
  | [] => Ok []
  | x :: r =>
      let* y := f x in
      let* ys := map_result f r in
      Ok (y :: ys)
  end.

(** [d[k] += n] on a [defaultdict(int)] *)
Definition dict_add (k : string) (n : Z) (d : list (string * Z))
  : list (string * Z) :=
  dict_set k (default 0 (dict_get k d) + n) d.

(** ** common.py, the row level

    The stage loops above reach the workbook through the collaborators
    [load_schema_definition] and [read_workbook] of [env]; from here on
    the schema document, the cells and the rows are written out, with the
    library functions they need in [pylib]. *)

Module common.

Definition EXPECTED_SOURCE_COLUMN_COUNT : Z := 15.

Definition schema_path_of (base_dir : string) : string :=
  path_div (path_div base_dir "schemas") "sales_monthly_v1.json".

(** ["" if value is None else str(value)] *)
Definition cell_text (P : pylib) (value : cell) : string :=
  match value with
  | CNone => ""
  | CStr s => s
  | CBool b => if b then "True" else "False"
  | CInt n => str_of_int n
  | CFloat x => str_of_float P x
  | CObj t => t
  end.

Definition normalize_header (P : pylib) (value : cell) : string :=
  let text := cell_text P value in
  let ascii_text :=
    lower (strip (ascii_ignore (unicodedata_nfkd P text))) in
  collapse_spaces false ascii_text.

Definition load_schema_definition (E : env) (P : pylib) (base_dir : string)
  : M schema_definition :=
  let* text := read_bytes (schema_path_of base_dir) in
  match json_loads E text with
  | None => raise (Exn "JSONDecodeError" "")
  | Some payload =>
      let* schema_id := lift (py_get payload "schema_id") in
      if negb (json_eq_str schema_id SCHEMA_ID) then
        raise (Exn "ValueError"
                 ("Unexpected schema_id: "
                  +:+ py_repr P (default JNull schema_id)))
      else
        let* source := lift (py_get payload "source") in
        let* header_order :=
          lift (py_get (default (JObj []) source) "header_order") in
        let header_order := default (JArr []) header_order in
        let* fields := lift (py_get payload "fields") in
        let fields := default (JArr []) fields in
        let* n := lift (py_len header_order) in
        if negb (n =? EXPECTED_SOURCE_COLUMN_COUNT) then
          raise (Exn "ValueError"
                   "Schema header order does not contain 15 columns.")
        else if negb (py_bool fields) then
          raise (Exn "ValueError" "Schema must define fields.")
        else
          let* names := lift (py_iter header_order) in
          mret (SchemaDefinition SCHEMA_ID (py_str P <$> names) fields)
  end.

Definition type_map (type_name : string) : option arrow_type :=
  if String.eqb type_name "string" then Some ArrowString
  else if String.eqb type_name "int32" then Some ArrowInt32
  else if String.eqb type_name "int64" then Some ArrowInt64
  else if String.eqb type_name "float64" then Some ArrowFloat64
  else if String.eqb type_name "bool" then Some ArrowBool
  else None.

Definition build_arrow_schema (P : pylib) (fields : json)
  : result (list arrow_field) :=
  let* items := py_iter fields in
  map_result
    (fun field =>
       let* name := py_getitem field "name" in
       let field_name := py_str P name in
       let* type := py_getitem field "type" in
       let type_name := py_str P type in
       let* nullable := py_get field "nullable" in
       let nullable := py_bool (default (JBool true) nullable) in
       match type_map type_name with
       | None =>
           Raise (Exn "ValueError" ("Unsupported field type: " +:+ type_name))
       | Some t => Ok (ArrowField field_name t nullable)
       end)
    items.

Definition parse_text (P : pylib) (value : cell) : option string :=
  match value with
  | CNone => None
  | CStr s =>
      let text := strip s in
      if String.eqb text "" then None else Some text
  | CBool b => Some (if b then "True" else "False")
  | CInt n => Some (str_of_int n)
  | CFloat x =>
      if PrimFloat.is_nan x then None
      else
        match float_integer x with
        | Some n => Some (str_of_int n)
        | None =>
            let text := rstrip_char "." (rstrip_char "0" (format_f P x)) in
            Some (if String.eqb text "" then "0" else text)
        end
  | CObj t =>
      let text := strip t in
      if String.eqb text "" then None else Some text
  end.

Definition parse_number (P : pylib) (value : cell) : result (option float) :=
  match value with
  | CNone => Ok None
  | CBool _ => Ok None
  | CInt n =>
      let* numeric := float_of_int n in
      Ok (if PrimFloat.is_nan numeric then None else Some numeric)
  | CFloat x => Ok (if PrimFloat.is_nan x then None else Some x)
  | CStr s =>
      let cleaned := replace NBSP "" (replace " " "" (strip s)) in
      if String.eqb cleaned "" then Ok None
      else Ok (float_of_str P (replace "," "." cleaned))
  | CObj _ => Ok None
  end.

Definition header_matches (P : pylib) (actual_header : list cell)
    (expected_header : list string) : bool :=
  if (length actual_header <? length expected_header)%nat then false
  else
    bool_decide
      ((normalize_header P <$> take (length expected_header) actual_header)
       = (fun v => normalize_header P (CStr v)) <$> expected_header).

(** [openpyxl.load_workbook(path, data_only=True, read_only=True)] *)
Definition open_workbook (P : pylib) (path : string) : M (list worksheet) :=
  let* data := read_bytes path in
  lift (load_workbook P data).

(** [value in (None, "")] *)
Definition is_blank (value : cell) : bool :=
  match value with
  | CNone => true
  | CStr s => String.eqb s ""
  | _ => false
  end.

Definition is_empty_row (row : list cell) : bool := forallb is_blank row.

End common.

(** [list(row[:15]) + [None] * max(0, 15 - len(row))] *)
Definition padded (row : list cell) : list cell :=
  take 15 row ++ replicate (15 - length row) CNone.

(** ** ingest_sales_month.py *)

(** One entry of [ingest_report["sheets"]]. *)
Record sheet_report := SheetReport {
  sh_sheet_name : string;
  sh_header_ok : bool;
  sh_rows_seen : Z;
  sh_rows_loaded : Z;
  sh_rows_skipped_empty : Z;
  sh_missing_ean : Z;
  sh_negative_qty : Z;
  sh_negative_tb : Z;
  sh_negative_tg : Z;
  sh_negative_stock : Z }.

Definition sheet_report_json (s : sheet_report) : json :=
  JObj [("sheet_name", JStr (sh_sheet_name s));
        ("header_ok", JBool (sh_header_ok s));
        ("rows_seen_excluding_header", JInt (sh_rows_seen s));
        ("rows_loaded", JInt (sh_rows_loaded s));
        ("rows_skipped_empty", JInt (sh_rows_skipped_empty s));
        ("anomalies",
         JObj [("missing_ean", JInt (sh_missing_ean s));
               ("negative_qty", JInt (sh_negative_qty s));
               ("negative_tb", JInt (sh_negative_tb s));
               ("negative_tg", JInt (sh_negative_tg s));
               ("negative_stock", JInt (sh_negative_stock s))])].

(** The variables of [ingest_workbook] while it goes through the sheets:
    the records, the sheet entries of the report and the totals. *)
Record ingest_acc := IngestAcc {
  ia_records : list sales_record;
  ia_sheets : list sheet_report;
  ia_totals : list (string * Z) }.

Definition bool_to_Z (b : bool) : Z := if b then 1 else 0.

Module ingest_sales_month.

Definition map_row_to_record (P : pylib) (row : list cell)
    (source_file source_sheet : string) (source_row : Z)
    (report_month : string) : result sales_record :=
  let padded := padded row in
  let at_ (i : nat) := default CNone (padded !! i) in
  let filial := common.parse_text P (at_ 0%nat) in
  let avdelning := common.parse_text P (at_ 1%nat) in
  let varugrupp := common.parse_text P (at_ 2%nat) in
  let artnr := common.parse_text P (at_ 3%nat) in
  let ean := common.parse_text P (at_ 4%nat) in
  let varutext := common.parse_text P (at_ 5%nat) in
  let huvudleverantor := common.parse_text P (at_ 6%nat) in
  let* antal_salda := common.parse_number P (at_ 7%nat) in
  let* fors_sum := common.parse_number P (at_ 8%nat) in
  let* tb := common.parse_number P (at_ 9%nat) in
  let* tg_percent := common.parse_number P (at_ 10%nat) in
  let* fors_m_moms := common.parse_number P (at_ 11%nat) in
  let* ord_pris := common.parse_number P (at_ 12%nat) in
  let* snitt_inpris := common.parse_number P (at_ 13%nat) in
  let* lager_antal := common.parse_number P (at_ 14%nat) in
  Ok (SalesRecord source_file source_sheet source_row report_month
        filial avdelning varugrupp artnr ean varutext huvudleverantor
        antal_salda fors_sum tb tg_percent fors_m_moms ord_pris snitt_inpris
        lager_antal).

(** The body of [for row_index, row in enumerate(rows, start=2)], on the
    records and the counters of the sheet. *)
Definition row_step (P : pylib) (source_file sheet_name report_month : string)
    (acc : list sales_record * sheet_report) (row_index : Z)
    (row : list cell) : result (list sales_record * sheet_report) :=
  let '(records, c) := acc in
  if common.is_empty_row row then
    Ok (records,
        SheetReport (sh_sheet_name c) (sh_header_ok c) (sh_rows_seen c + 1)
          (sh_rows_loaded c) (sh_rows_skipped_empty c + 1) (sh_missing_ean c)
          (sh_negative_qty c) (sh_negative_tb c) (sh_negative_tg c)
          (sh_negative_stock c))
  else
    let* record :=
      map_row_to_record P row source_file sheet_name row_index report_month in
    Ok (records ++ [record],
        SheetReport (sh_sheet_name c) (sh_header_ok c) (sh_rows_seen c + 1)
          (sh_rows_loaded c + 1) (sh_rows_skipped_empty c)
          (sh_missing_ean c
           + bool_to_Z (bool_decide (sr_ean record = None)))
          (sh_negative_qty c + bool_to_Z (is_negative (sr_antal_salda record)))
          (sh_negative_tb c + bool_to_Z (is_negative (sr_tb record)))
          (sh_negative_tg c + bool_to_Z (is_negative (sr_tg_percent record)))
          (sh_negative_stock c
           + bool_to_Z (is_negative (sr_lager_antal record)))).

Fixpoint rows_loop (P : pylib) (source_file sheet_name report_month : string)
    (rows : list (list cell)) (row_index : Z)
    (acc : list sales_record * sheet_report)
  : result (list sales_record * sheet_report) :=
  match rows with
  | [] => Ok acc
  | row :: rest =>
      let* acc' :=
        row_step P source_file sheet_name report_month acc row_index row in
      rows_loop P source_file sheet_name report_month rest (row_index + 1) acc'
  end.

(** The body of [for sheet_name in wb.sheetnames]. *)
Definition sheet_step (P : pylib) (schema : schema_definition)
    (source_file report_month : string) (strict_headers : bool)
    (acc : ingest_acc) (ws : worksheet) : result ingest_acc :=
  let sheet_name := ws.1 in
  let header := default [] (head ws.2) in
  let rows := tail ws.2 in
  let header_ok :=
    common.header_matches P header (sd_expected_header_order schema) in
  if strict_headers && negb header_ok then
    Raise (Exn "ValueError"
             ("Header mismatch in sheet " +:+ py_repr P (JStr sheet_name)
              +:+ ". Use --allow-header-mismatch to continue in permissive mode."))
  else
    let* '(records, c) :=
      rows_loop P source_file sheet_name report_month rows 2
        (ia_records acc, SheetReport sheet_name header_ok 0 0 0 0 0 0 0 0) in
    Ok (IngestAcc records (ia_sheets acc ++ [c])
          (dict_add "negative_stock" (sh_negative_stock c)
          (dict_add "negative_tg" (sh_negative_tg c)
          (dict_add "negative_tb" (sh_negative_tb c)
          (dict_add "negative_qty" (sh_negative_qty c)
          (dict_add "missing_ean" (sh_missing_ean c)
          (dict_add "rows_skipped_empty" (sh_rows_skipped_empty c)
          (dict_add "rows_loaded" (sh_rows_loaded c)
          (dict_add "rows_seen_excluding_header" (sh_rows_seen c)
             (ia_totals acc)))))))))).

Fixpoint sheets_loop (P : pylib) (schema : schema_definition)
    (source_file report_month : string) (strict_headers : bool)
    (sheets : list worksheet) (acc : ingest_acc) : result ingest_acc :=
  match sheets with
  | [] => Ok acc
  | ws :: rest =>
      let* acc' :=
        sheet_step P schema source_file report_month strict_headers acc ws in
      sheets_loop P schema source_file report_month strict_headers rest acc'
  end.

Definition totals_json (totals : list (string * Z)) : list (string * json) :=
  (fun kv : string * Z => (kv.1, JInt kv.2)) <$> totals.

Definition ingest_workbook (E : env) (P : pylib)
    (input_path base_dir : string) (strict_headers : bool)
  : M (string * ingest_report) :=
  let* schema := common.load_schema_definition E P base_dir in
  let* report_month := lift (parse_report_month (path_name input_path)) in
  let* wb := common.open_workbook P input_path in
  let* acc :=
    lift (sheets_loop P schema (path_name input_path) report_month
            strict_headers wb (IngestAcc [] [] [])) in
  let* arrow_schema := lift (common.build_arrow_schema P (sd_fields schema)) in
  let* table := lift (table_from_pylist P (ia_records acc) arrow_schema) in
  mret (table,
        IngestReport (sd_schema_id schema) input_path report_month (len wb)
          (JArr (sheet_report_json <$> ia_sheets acc))
          (totals_json (ia_totals acc))
          (forallb sh_header_ok (ia_sheets acc))).

(** [main]: the two paths it prints. *)
Definition main (E : env) (P : pylib) (base_dir input_path output_root : string)
    (allow_header_mismatch : bool) : M (string * string) :=
  let* fs := get_fs in
  if negb (path_exists fs input_path) then
    raise (Exn "FileNotFoundError" ("Input file not found: " +:+ input_path))
  else
    let* '(table, report) :=
      ingest_workbook E P input_path base_dir (negb allow_header_mismatch) in
    let report_month := ir_report_month report in
    let raw_dir :=
      path_div (path_div (path_div (path_div output_root "raw")
                            "sales_monthly") "v1")
        ("report_month_" +:+ report_month) in
    let report_dir :=
      path_div (path_div (path_div output_root "reports") "sales_monthly")
        "v1" in
    let* _ := mkdir E raw_dir in
    let* _ := mkdir E report_dir in
    let parquet_path := path_div raw_dir "sales_monthly_v1.parquet" in
    let report_path := path_div report_dir (report_month +:+ "_ingest.json") in
    let* _ := write_bytes E parquet_path table in
    let* _ := write_bytes E report_path
                (json_dumps E (ingest_report_json report) +:+ NL) in
    mret (parquet_path, report_path).

End ingest_sales_month.

(** ** profile_sales_month.py *)

(** One entry of [workbook_summary["sheets"]], with the sets and the
    per-column counts the sheet loop keeps. *)
Record profile_sheet := ProfileSheet {
  ps_sheet_name : string;
  ps_header_ok : bool;
  ps_rows_total : Z;
  ps_rows_non_empty : Z;
  ps_unique_artnr : gset string;
  ps_unique_ean : gset string;
  ps_negative_qty : Z;
  ps_non_integer_qty : Z;
  ps_zero_sales : Z;
  ps_negative_tb : Z;
  ps_negative_tg : Z;
  ps_tg_over_100 : Z;
  ps_negative_stock : Z;
  ps_per_col_missing : list (string * Z) }.

Definition profile_sheet_json (s : profile_sheet) : json :=
  JObj [("sheet_name", JStr (ps_sheet_name s));
        ("header_ok", JBool (ps_header_ok s));
        ("rows_total_excluding_header", JInt (ps_rows_total s));
        ("rows_non_empty", JInt (ps_rows_non_empty s));
        ("unique_artnr", JInt (Z.of_nat (size (ps_unique_artnr s))));
        ("unique_ean", JInt (Z.of_nat (size (ps_unique_ean s))));
        ("anomalies",
         JObj [("negative_qty", JInt (ps_negative_qty s));
               ("non_integer_qty", JInt (ps_non_integer_qty s));
               ("zero_sales", JInt (ps_zero_sales s));
               ("negative_tb", JInt (ps_negative_tb s));
               ("negative_tg", JInt (ps_negative_tg s));
               ("tg_over_100", JInt (ps_tg_over_100 s));
               ("negative_stock", JInt (ps_negative_stock s))]);
        ("missing_by_source_column",
         JObj ((fun kv : string * Z => (kv.1, JInt kv.2))
                 <$> filter (fun kv : string * Z => 0 < kv.2)
                       (ps_per_col_missing s)))].

Record profile_acc := ProfileAcc {
  pa_sheets : list profile_sheet;
  pa_totals : list (string * Z) }.

(** [1e-9], the float nearest to it *)
Definition tolerance : float := 0x1.12e0be826d695p-30%float.

Module profile_sales_month.

(** [for idx, source_col in enumerate(schema.expected_header_order)]: the
    columns whose cell of [padded] is empty are counted. *)
Fixpoint count_missing (padded : list cell) (idx : nat)
    (columns : list string) (per_col_missing : list (string * Z))
  : result (list (string * Z)) :=
  match columns with
  | [] => Ok per_col_missing
  | source_col :: rest =>
      match padded !! idx with
      | None => Raise (Exn "IndexError" "list index out of range")
      | Some value =>
          count_missing padded (S idx) rest
            (if common.is_blank value
             then dict_add source_col 1 per_col_missing
             else per_col_missing)
      end
  end.

(** [abs(qty - round(qty)) > 1e-9] *)
Definition is_non_integer (qty : float) : result bool :=
  let* nearest := float_round qty in
  let* nearest := float_of_int nearest in
  Ok (PrimFloat.ltb tolerance (PrimFloat.abs (PrimFloat.sub qty nearest))).

(** [if text: texts.add(text)] *)
Definition add_text (x : option string) (s : gset string) : gset string :=
  match x with
  | Some t => if String.eqb t "" then s else {[t]} ∪ s
  | None => s
  end.

(** The body of [for row in rows]. *)
Definition row_step (P : pylib) (schema : schema_definition)
    (c : profile_sheet) (row : list cell) : result profile_sheet :=
  if common.is_empty_row row then
    Ok (ProfileSheet (ps_sheet_name c) (ps_header_ok c) (ps_rows_total c + 1)
          (ps_rows_non_empty c) (ps_unique_artnr c) (ps_unique_ean c)
          (ps_negative_qty c) (ps_non_integer_qty c) (ps_zero_sales c)
          (ps_negative_tb c) (ps_negative_tg c) (ps_tg_over_100 c)
          (ps_negative_stock c) (ps_per_col_missing c))
  else
    let padded := padded row in
    let at_ (i : nat) := default CNone (padded !! i) in
    let* per_col_missing :=
      count_missing padded 0 (sd_expected_header_order schema)
        (ps_per_col_missing c) in
    let artnr := common.parse_text P (at_ 3%nat) in
    let ean := common.parse_text P (at_ 4%nat) in
    let* qty := common.parse_number P (at_ 7%nat) in
    let* sales := common.parse_number P (at_ 8%nat) in
    let* tb := common.parse_number P (at_ 9%nat) in
    let* tg := common.parse_number P (at_ 10%nat) in
    let* stock := common.parse_number P (at_ 14%nat) in
    let* non_integer :=
      match qty with
      | Some q => is_non_integer q
      | None => Ok false
      end in
    Ok (ProfileSheet (ps_sheet_name c) (ps_header_ok c) (ps_rows_total c + 1)
          (ps_rows_non_empty c + 1)
          (add_text artnr (ps_unique_artnr c))
          (add_text ean (ps_unique_ean c))
          (ps_negative_qty c + bool_to_Z (is_negative qty))
          (ps_non_integer_qty c + bool_to_Z non_integer)
          (ps_zero_sales c
           + bool_to_Z match sales with
                       | Some v => PrimFloat.ltb (PrimFloat.abs v) tolerance
                       | None => false
                       end)
          (ps_negative_tb c + bool_to_Z (is_negative tb))
          (ps_negative_tg c + bool_to_Z (is_negative tg))
          (ps_tg_over_100 c
           + bool_to_Z match tg with
                       | Some v => PrimFloat.ltb 100 v
                       | None => false
                       end)
          (ps_negative_stock c + bool_to_Z (is_negative stock))
          per_col_missing).

Fixpoint rows_loop (P : pylib) (schema : schema_definition)
    (rows : list (list cell)) (c : profile_sheet) : result profile_sheet :=
  match rows with
  | [] => Ok c
  | row :: rest =>
      let* c' := row_step P schema c row in
      rows_loop P schema rest c'
  end.

(** The body of [for sheet_name in wb.sheetnames]. *)
Definition sheet_step (P : pylib) (schema : schema_definition)
    (acc : profile_acc) (ws : worksheet) : result profile_acc :=
  let sheet_name := ws.1 in
  let header := default [] (head ws.2) in
  let rows := tail ws.2 in
  let header_ok :=
    common.header_matches P header (sd_expected_header_order schema) in
  let* c :=
    rows_loop P schema rows
      (ProfileSheet sheet_name header_ok 0 0 ∅ ∅ 0 0 0 0 0 0 0 []) in
  Ok (ProfileAcc (pa_sheets acc ++ [c])
        (dict_add "negative_stock" (ps_negative_stock c)
        (dict_add "tg_over_100" (ps_tg_over_100 c)
        (dict_add "negative_tg" (ps_negative_tg c)
        (dict_add "negative_tb" (ps_negative_tb c)
        (dict_add "zero_sales" (ps_zero_sales c)
        (dict_add "non_integer_qty" (ps_non_integer_qty c)
        (dict_add "negative_qty" (ps_negative_qty c)
        (dict_add "rows_non_empty" (ps_rows_non_empty c)
        (dict_add "rows_total_excluding_header" (ps_rows_total c)
           (pa_totals acc))))))))))).

Fixpoint sheets_loop (P : pylib) (schema : schema_definition)
    (sheets : list worksheet) (acc : profile_acc) : result profile_acc :=
  match sheets with
  | [] => Ok acc
  | ws :: rest =>
      let* acc' := sheet_step P schema acc ws in
      sheets_loop P schema rest acc'
  end.

(** [profile_workbook]: the summary as the month, the sheets and the
    totals; its other entries are the schema id, the input path, the
    number of sheets and whether every header matched. *)
Definition profile_workbook (E : env) (P : pylib) (input_path base_dir : string)
  : M (string * profile_acc) :=
  let* schema := common.load_schema_definition E P base_dir in
  let* wb := common.open_workbook P input_path in
  let* report_month := lift (parse_report_month (path_name input_path)) in
  let* acc := lift (sheets_loop P schema wb (ProfileAcc [] [])) in
  mret (report_month, acc).

End profile_sales_month.

(** ** generate_sales_kpis.py

    The KPI generator that [ingest_all_months.main] calls as a post
    step.  Its SQL runs in DuckDB; the functions that prepare and guard
    that session are plain Python.  The digit class [\d] of its patterns
    is taken over ASCII digits, as for the month pattern. *)

Module generate_sales_kpis.

Definition curated_base_of (output_root : string) : string :=
  path_div (path_div (path_div output_root "curated") "sales_monthly") "v1".

(** [sorted(curated_base.glob(
      "report_month_*/sales_monthly_curated_v1.parquet"))] *)
Definition glob_curated (fs : storage) (curated_base : string)
  : list string :=
  (fun e : string * node =>
     path_div (path_div curated_base e.1) "sales_monthly_curated_v1.parquet")
    <$> merge_sort key_le
          (omap (fun kv : string * node =>
                   match strip_prefix (curated_base +:+ "/") kv.1 with
                   | Some rest =>
                       match strip_suffix "/sales_monthly_curated_v1.parquet"
                               rest with
                       | Some d =>
                           if no_slash d && starts_with "report_month_" d
                           then Some (d, kv.2) else None
                       | None => None
                       end
                   | None => None
                   end)
                (map_to_list fs)).

Definition discover_curated_month_files (fs : storage) (output_root : string)
  : gmap string string :=
  foldl (fun (mapping : gmap string string) (parquet_path : string) =>
           match strip_prefix "report_month_"
                   (path_name (path_parent parquet_path)) with
           | None => mapping
           | Some month => <[month := parquet_path]> mapping
           end)
    ∅ (glob_curated fs (curated_base_of output_root)).

(** [bool(re.fullmatch(r"\d{4}-\d{2}", value))] *)
Definition is_valid_report_month (value : string) : bool :=
  match value with
  | String y1 (String y2 (String y3 (String y4
      (String h (String m1 (String m2 EmptyString)))))) =>
      is_digit y1 && is_digit y2 && is_digit y3 && is_digit y4
      && Ascii.eqb h "-" && is_digit m1 && is_digit m2
  | _ => false
  end.

Definition selected_history_months (P : pylib) (all_months : list string)
    (target_month : string) (history_months : option Z)
  : result (list string) :=
  match index_of target_month all_months with
  | None =>
      Raise (Exn "ValueError"
               (py_repr P (JStr target_month) +:+ " is not in list"))
  | Some target_index =>
      let months_up_to_target := take (S target_index) all_months in
      match history_months with
      | None => Ok months_up_to_target
      | Some h => Ok (slice_from (- h) months_up_to_target)
      end
  end.

(** [re.fullmatch(r"\d+(\.\d+)?(KB|MB|GB|TB|%)", cleaned)]: digits, then
    possibly a point and digits, then the unit; digits, point and units
    share no character, so the match is found without backtracking. *)
Definition is_memory_unit (u : string) : bool :=
  String.eqb u "KB" || String.eqb u "MB" || String.eqb u "GB"
  || String.eqb u "TB" || String.eqb u "%".

Definition memory_limit_shaped (cleaned : string) : bool :=
  let '(whole, rest) := span_digits cleaned in
  negb (String.eqb whole "")
  && match rest with
     | String "." r =>
         let '(fraction, rest') := span_digits r in
         negb (String.eqb fraction "") && is_memory_unit rest'
     | _ => is_memory_unit rest
     end.

Definition normalize_duckdb_memory_limit (value : string) : result string :=
  let cleaned := replace " " "" (upper (strip value)) in
  if memory_limit_shaped cleaned then Ok cleaned
  else Raise (Exn "ValueError"
                "duckdb_memory_limit must be like 768MB, 1GB, or 50%.").

Definition json_for_html_script (P : pylib) (payload : json) : string :=
  let raw := json_dumps_line P payload in
  replace "</" (String "<" (String (ascii_of_nat 92) (String "/" ""))) raw.

(** What [generate_kpi_report] settles before it opens the DuckDB
    session: the target month and its file, the months of the history
    window, the month before the target with its file, and the guarded
    options. *)
Record kpi_plan := KpiPlan {
  kp_target_month : string;
  kp_target_path : string;
  kp_available_months : list string;
  kp_available_months_all : list string;
  kp_previous : option (string * string);
  kp_top_n : Z;
  kp_threads : Z;
  kp_memory_limit : string }.

(** [generate_kpi_report] from its first line to the call of
    [require_duckdb]. *)
Definition plan_kpi_report (P : pylib) (fs : storage) (output_root : string)
    (report_month : option string) (top_n : Z) (history_months : option Z)
    (duckdb_threads : Z) (duckdb_memory_limit : string) : result kpi_plan :=
  if match report_month with
     | Some m => negb (is_valid_report_month m)
     | None => false
     end
  then Raise (Exn "ValueError" "report_month must have format YYYY-MM.")
  else if match history_months with
          | Some h => h <? 1
          | None => false
          end
  then Raise (Exn "ValueError"
                "history_months must be >= 1, or None for all history.")
  else
    let safe_threads := Z.max 1 duckdb_threads in
    let* safe_memory_limit :=
      normalize_duckdb_memory_limit duckdb_memory_limit in
    let safe_top_n := Z.max 1 (Z.min top_n 200) in
    let month_files := discover_curated_month_files fs output_root in
    if bool_decide (month_files = ∅) then
      Raise (Exn "FileNotFoundError"
               "No curated parquet files found under data/curated/sales_monthly/v1.")
    else
      let available_months_all :=
        (merge_sort key_le (map_to_list month_files)).*1 in
      let latest := default "" (last available_months_all) in
      let target_month :=
        match report_month with
        | Some m => if String.eqb m "" then latest else m
        | None => latest
        end in
      match month_files !! target_month with
      | None =>
          Raise (Exn "ValueError"
                   ("Requested report month "
                    +:+ py_repr P (JStr target_month)
                    +:+ " not found. Available: "
                    +:+ py_repr P (JArr (JStr <$> available_months_all))))
      | Some target_path =>
          let* available_months :=
            selected_history_months P available_months_all target_month
              history_months in
          let* previous :=
            match index_of target_month available_months_all with
            | None =>
                Raise (Exn "UnboundLocalError"
                         "cannot access local variable 'idx' where it is not associated with a value")
            | Some O => Ok None
            | Some (S i) =>
                let previous_month :=
                  default "" (available_months_all !! i) in
                Ok (Some (previous_month,
                          default "" (month_files !! previous_month)))
            end in
          Ok (KpiPlan target_month target_path available_months
                available_months_all previous safe_top_n safe_threads
                safe_memory_limit)
      end.

End generate_sales_kpis.

(** ** A concrete library

    Stand-ins for the library functions, exact on the values the sample
    workbooks hold: plain decimal numerals, texts that [repr] puts between
    single quotes as they are, and ASCII headers, which NFKD leaves as
    they are. *)

Module Sample.

Definition round_half_even (num den : Z) : Z :=
  let q := num / den in
  match 2 * (num mod den) ?= den with
  | Lt => q
  | Gt => q + 1
  | Eq => if Z.even q then q else q + 1
  end.

(** [s.zfill(6)] of a numeral without sign *)
Definition zero_pad (s : string) : string :=
  string_of_list_ascii (replicate (6 - String.length s) "0"%char) +:+ s.

(** [format(x, "f")]: six decimals of the exact value *)
Definition format_f (x : float) : string :=
  match Prim2SF x with
  | S754_nan => "nan"
  | S754_infinity s => if s then "-inf" else "inf"
  | S754_zero s => (if s then "-" else "") +:+ "0.000000"
  | S754_finite s m e =>
      let scaled :=
        if 0 <=? e then Z.pos m * 2 ^ e * 1000000
        else round_half_even (Z.pos m * 1000000) (2 ^ (- e)) in
      (if s then "-" else "") +:+ str_of_int (scaled / 1000000) +:+ "."
      +:+ zero_pad (str_of_int (scaled mod 1000000))
  end.

(** [str(x)] of a float with at most six decimals *)
Definition str_of_float (x : float) : string :=
  match float_integer x with
  | Some n =>
      (if PrimFloat.ltb x 0 && (n =? 0) then "-" else "") +:+ str_of_int n
      +:+ ".0"
  | None => rstrip_char "0" (format_f x)
  end.

Definition all_digits (s : string) : bool :=
  negb (String.eqb s "") && String.eqb (span_digits s).2 "".

Definition digits_value (s : string) : Z :=
  match NilZero.int_of_string s with
  | Some n => Z.of_int n
  | None => 0
  end.

(** [float(text)] of a decimal numeral: an optional sign, digits, and
    possibly a point and digits; the nearest float of the quotient. *)
Definition float_of_numeral (negative : bool) (text : string) : option float :=
  let '(whole, rest) := span_digits text in
  let fraction :=
    match rest with
    | String "." r => Some r
    | EmptyString => Some ""
    | _ => None
    end in
  match fraction with
  | Some f =>
      if negb (String.eqb (whole +:+ f) "")
         && (String.eqb f "" || all_digits f)
         && negb (String.eqb whole "" && String.eqb rest ".")
      then
        let num := digits_value (whole +:+ f) in
        let den := 10 ^ Z.of_nat (String.length f) in
        match num with
        | Z0 => Some (if negative then (-0)%float else 0%float)
        | Zpos n =>
            Some (SF2Prim (SFdiv prec emax (S754_finite negative n 0)
                             (S754_finite false (Z.to_pos den) 0)))
        | Zneg _ => None
        end
      else None
  | None => None
  end.

Definition float_of_str (text : string) : option float :=
  match strip text with
  | String "-" r => float_of_numeral true r
  | String "+" r => float_of_numeral false r
  | t => float_of_numeral false t
  end.

Fixpoint join (sep : string) (l : list string) : string :=
  match l with
  | [] => ""
  | [x] => x
  | x :: r => x +:+ sep +:+ join sep r
  end.

Fixpoint repr (v : json) : string :=
  match v with
  | JNull => "None"
  | JBool b => if b then "True" else "False"
  | JInt n => str_of_int n
  | JStr s => "'" +:+ s +:+ "'"
  | JArr l => "[" +:+ join ", " (map repr l) +:+ "]"
  | JObj d =>
      "{" +:+ join ", "
                (map (fun kv : string * json =>
                        "'" +:+ kv.1 +:+ "': " +:+ repr kv.2) d) +:+ "}"
  end.

(** The columns of the monthly report. *)
Definition header : list string :=
  ["Filial"; "Avdelning"; "Varugrupp"; "Artnr"; "EAN"; "Varutext";
   "Huvudleverantor"; "Antal salda"; "Fors. sum"; "TB"; "TG %";
   "Fors. m. moms"; "Ord. pris"; "Snitt inpris"; "Lager antal"].

Definition schema_doc : json :=
  JObj [("schema_id", JStr "sales_monthly_v1");
        ("source", JObj [("header_order", JArr (JStr <$> header))]);
        ("fields",
         JArr [JObj [("name", JStr "source_file"); ("type", JStr "string");
                     ("nullable", JBool false)];
               JObj [("name", JStr "source_row"); ("type", JStr "int32");
                     ("nullable", JBool false)];
               JObj [("name", JStr "artnr"); ("type", JStr "string")];
               JObj [("name", JStr "antal_salda"); ("type", JStr "float64")]])].

Definition schema : schema_definition :=
  SchemaDefinition SCHEMA_ID header
    (default JNull (dict_get "fields" match schema_doc with
                                      | JObj d => d
                                      | _ => []
                                      end)).

(** A workbook of two sheets: a sale, an empty row, a return with a
    missing EAN and a short row; then a sheet whose header lacks its last
    columns. *)
Definition january_workbook : list worksheet :=
  [("Butik 1",
    [CStr <$> header;
     [CStr "Centrum"; CStr "Dam"; CStr "Jackor"; CInt 1001;
      CStr " 7310000000017 "; CStr "Vinterjacka"; CStr "Nordic AB";
      CInt 3; CFloat 2997; CFloat 1200.5; CFloat 40.0625; CStr "3 746,25";
      CFloat 999; CFloat 598.875; CInt 12];
     [CNone; CStr ""; CNone];
     [CStr "Centrum"; CStr "Herr"; CStr "Skor"; CFloat 2002; CStr "  ";
      CStr "Kanga"; CNone; CInt (-1); CFloat (-799); CFloat (-320);
      CFloat (-40.125); CFloat (-998.75); CFloat 799; CFloat 479; CInt 0];
     [CStr "Centrum"; CStr "Barn"]]);
   ("Butik 2",
    [[CStr "Filial"; CStr "Avdelning"];
     [CStr "Norr"; CStr "Dam"; CStr "Jackor"; CInt 1001; CStr "7310000000017";
      CStr "Vinterjacka"; CStr "Nordic AB"; CInt 1; CFloat 999; CFloat 400;
      CFloat 40.25; CFloat 1248.75; CFloat 999; CFloat 599; CInt 4]])].

Definition P : pylib :=
  PyLib repr (fun text => text) float_of_str str_of_float format_f
    (fun data =>
       if String.eqb data "jan" then Ok january_workbook
       else if String.eqb data "empty" then Ok [("Blad1", [])]
       else Raise (Exn "BadZipFile" "File is not a zip file"))
    (fun records fields =>
       Ok ("rows:" +:+ str_of_int (len records) +:+ ",columns:"
           +:+ str_of_int (len fields)))
    Demo.dumps.

Definition base_dir : string := "/app/services/analytics".

Definition fs_january : storage :=
  <["/app/services/analytics/schemas/sales_monthly_v1.json" :=
      Demo.file (Demo.dumps schema_doc) 1]>
  (<["/in/sales_2024-01.xlsx" := Demo.file "jan" 10]>
  (<["/in/tom_2024-02.xlsx" := Demo.file "empty" 11]> ∅)).

(** Two curated months and a directory that is no partition. *)
Definition fs_curated : storage :=
  <["/out/curated/sales_monthly/v1/report_month_2024-01/sales_monthly_curated_v1.parquet"
      := Demo.file "curated:rows:jan" 60]>
  (<["/out/curated/sales_monthly/v1/report_month_2024-02/sales_monthly_curated_v1.parquet"
       := Demo.file "curated:rows:feb" 61]>
  (<["/out/curated/sales_monthly/v1/tmp/sales_monthly_curated_v1.parquet"
       := Demo.file "notes" 62]> ∅)).

Definition january_path : string :=
  "/out/curated/sales_monthly/v1/report_month_2024-01/sales_monthly_curated_v1.parquet".

Definition february_path : string :=
  "/out/curated/sales_monthly/v1/report_month_2024-02/sales_monthly_curated_v1.parquet".

Definition empty_plan : generate_sales_kpis.kpi_plan :=
  generate_sales_kpis.KpiPlan "" "" [] [] None 0 0 "".

Definition empty_curated_summary : curated_summary :=
  CuratedSummary "" "" 0 [] [] [] [] "" "".

Definition empty_record : sales_record :=
  SalesRecord "" "" 0 "" None None None None None None None
    None None None None None None None None.

Definition empty_report : ingest_report :=
  IngestReport "" "" "" 0 JNull [] false.

(** A row with nothing in its first fifteen cells and a note beside
    the table. *)
Definition note_row : list cell := replicate 15 CNone ++ [CStr "kontrollerad"].

(** A sheet whose quantity is infinite. *)
Definition overflow_workbook : list worksheet :=
  [("Blad1", [CStr <$> header; replicate 7 CNone ++ [CFloat infinity]])].

(** What the ingest, the profile and the command line ingest of the
    January workbook give. *)
Definition january_ingest : string * ingest_report :=
  Eval vm_compute in
    ok_value
      (ingest_sales_month.ingest_workbook Demo.E P "/in/sales_2024-01.xlsx"
         base_dir false fs_january).2 ("", empty_report).

Definition january_profile : string * profile_acc :=
  Eval vm_compute in
    ok_value
      (profile_sales_month.profile_workbook Demo.E P "/in/sales_2024-01.xlsx"
         base_dir fs_january).2 ("", ProfileAcc [] []).

Definition january_tree : storage :=
  Eval vm_compute in
    (ingest_sales_month.main Demo.E P base_dir "/in/sales_2024-01.xlsx"
       "/out" true fs_january).1.

End Sample.

(** ** Vocabulary of the further properties *)

(** The candidate that [discover_raw_partitions] builds for the partition
    directory [e.1] of [raw_base], whose parquet file has the node [e.2]. *)
Definition dir_candidate (raw_base : string) (e : string * node)
  : raw_candidate :=
  RawCandidate (path_div (path_div raw_base e.1) "sales_monthly_v1.parquet")
    (n_mtime e.2) (node_size e.2).

(** The files a raw run went through, by result list. *)
Definition outcome_files (p : list processed_item) (u : list unchanged_item)
    (f : list failed_item) : list string :=
  (pi_file <$> p) ++ (ui_file <$> u) ++ (fl_file <$> f).

(** Storage when [ingest_all_months.main] starts its work: the report
    directories exist. *)
Definition ingest_prepared (E : env) (a : args) (fs : storage) : storage :=
  run_ops (now_epoch E) fs
    [OpMkdir (ingest_all_months.report_dir_of (arg_output_root a));
     OpMkdir (path_div (ingest_all_months.report_dir_of (arg_output_root a))
                "runs")].

Definition ingest_state_path (a : args) : string :=
  default (ingest_all_months.default_state_path (arg_output_root a))
    (arg_state_file a).

(** The paths the raw stage writes below [root]: a partition directory,
    its parquet file, or an ingest report. *)
Definition raw_artifact (root k : string) : Prop :=
  exists m,
    k = ingest_all_months.raw_dir_of root m
    \/ k = path_div (ingest_all_months.raw_dir_of root m)
             "sales_monthly_v1.parquet"
    \/ k = path_div (ingest_all_months.report_dir_of root)
             (m +:+ "_ingest.json").



(** The text that replaces [</] in the payload. *)
Definition escaped_close : string :=
  String "<" (String (ascii_of_nat 92) (String "/" "")).

(** The curated parquet file of the partition directory [d]. *)
Definition curated_file_of (curated_base d : string) : string :=
  path_div (path_div curated_base d) "sales_monthly_curated_v1.parquet".

(** The sum of a counter over a list. *)
Definition total_of {A} (f : A -> Z) (l : list A) : Z :=
  foldr Z.add 0 (f <$> l).

(** What one sheet of a workbook contributes to an ingest: its entry
    [c] of the report counts the rows of the sheet and the records
    [added] that were loaded from it. *)
Definition sheet_counted (P : pylib) (schema : schema_definition)
    (ws : worksheet) (c : sheet_report) (added : list sales_record) : Prop :=
  sh_sheet_name c = ws.1
  /\ sh_header_ok c
     = common.header_matches P (default [] (head ws.2))
         (sd_expected_header_order schema)
  /\ sh_rows_seen c = len (tail ws.2)
  /\ sh_rows_loaded c = len added
  /\ sh_rows_skipped_empty c
     = total_of (fun row => bool_to_Z (common.is_empty_row row)) (tail ws.2)
  /\ sh_rows_seen c = sh_rows_loaded c + sh_rows_skipped_empty c
  /\ sh_missing_ean c
     = total_of (fun r => bool_to_Z (bool_decide (sr_ean r = None))) added
  /\ sh_negative_qty c
     = total_of (fun r => bool_to_Z (is_negative (sr_antal_salda r))) added
  /\ sh_negative_tb c
     = total_of (fun r => bool_to_Z (is_negative (sr_tb r))) added
  /\ sh_negative_tg c
     = total_of (fun r => bool_to_Z (is_negative (sr_tg_percent r))) added
  /\ sh_negative_stock c
     = total_of (fun r => bool_to_Z (is_negative (sr_lager_antal r))) added.

(** The records of a sheet are those of its rows that are not empty,
    each under the number the row has in the spreadsheet. *)
Definition sheet_traced (P : pylib) (source_file report_month : string)
    (ws : worksheet) (added : list sales_record) : Prop :=
  forall r,
    r ∈ added
    <-> exists (i : nat) row,
          tail ws.2 !! i = Some row
          /\ common.is_empty_row row = false
          /\ ingest_sales_month.map_row_to_record P row source_file ws.1
               (Z.of_nat i + 2) report_month = Ok r.

(** The keys of [totals] and the counter of a sheet each one adds up. *)
Definition sheet_counters : list (string * (sheet_report -> Z)) :=
  [("rows_seen_excluding_header", sh_rows_seen);
   ("rows_loaded", sh_rows_loaded);
   ("rows_skipped_empty", sh_rows_skipped_empty);
   ("missing_ean", sh_missing_ean);
   ("negative_qty", sh_negative_qty);
   ("negative_tb", sh_negative_tb);
   ("negative_tg", sh_negative_tg);
   ("negative_stock", sh_negative_stock)].

Definition totals_of (sheets : list sheet_report) : list (string * Z) :=
  match sheets with
  | [] => []
  | _ => (fun kf : string * (sheet_report -> Z) =>
            (kf.1, total_of kf.2 sheets)) <$> sheet_counters
  end.

(** What [float(n)] raises for an integer beyond the floats. *)
Definition too_large : exn :=
  Exn "OverflowError" "int too large to convert to float".

(** The counters that the profile of a sheet and its ingest entry
    share. *)
Definition sheets_agree (p : profile_sheet) (c : sheet_report) : Prop :=
  ps_sheet_name p = sh_sheet_name c
  /\ ps_header_ok p = sh_header_ok c
  /\ ps_rows_total p = sh_rows_seen c
  /\ ps_rows_non_empty p = sh_rows_loaded c
  /\ ps_rows_total p - ps_rows_non_empty p = sh_rows_skipped_empty c
  /\ ps_negative_qty p = sh_negative_qty c
  /\ ps_negative_tb p = sh_negative_tb c
  /\ ps_negative_tg p = sh_negative_tg c
  /\ ps_negative_stock p = sh_negative_stock c.

(** * Properties *)

(** ** Month pattern *)

Lemma append_nil_r (s : string) : s +:+ "" = s.
Proof. induction s as [|c s IH]; simpl; [reflexivity | now rewrite IH]. Qed.

Lemma append_assoc (a b c : string) : (a +:+ b) +:+ c = a +:+ (b +:+ c).
Proof. induction a as [|x a IH]; simpl; [reflexivity | now rewrite IH]. Qed.

Lemma ascii_eqb_true (a b : ascii) : Ascii.eqb a b = true -> a = b.
Proof. apply Ascii.eqb_eq. Qed.

Lemma month_at_shape (s k : string) :
  month_at s = Some k -> month_shaped k /\ exists suf, s = k +:+ suf.
Proof.
  unfold month_at.
  destruct s as [|a [|b [|c1 [|c2 [|h [|c3 [|c4 r]]]]]]]; try discriminate.
  destruct (Ascii.eqb a "2") eqn:Ha; simpl; try discriminate.
  destruct (Ascii.eqb b "0") eqn:Hb; simpl; try discriminate.
  destruct (is_digit c1) eqn:H1; simpl; try discriminate.
  destruct (is_digit c2) eqn:H2; simpl; try discriminate.
  destruct (Ascii.eqb h "-") eqn:Hh; simpl; try discriminate.
  destruct (is_digit c3) eqn:H3; simpl; try discriminate.
  destruct (is_digit c4) eqn:H4; simpl; try discriminate.
  intros [= <-].
  apply ascii_eqb_true in Ha, Hb, Hh. subst a b h.
  split.
  - exists c1, c2, c3, c4. auto.
  - exists r. reflexivity.
Qed.

Lemma month_at_head (k suf : string) :
  month_shaped k -> month_at (k +:+ suf) = Some k.
Proof.
  intros (c1 & c2 & c3 & c4 & -> & H1 & H2 & H3 & H4).
  simpl. rewrite H1, H2, H3, H4. reflexivity.
Qed.

Lemma re_search_month_leftmost (s k : string) :
  re_search_month s = Some k ->
  exists pre suf,
    s = pre +:+ k +:+ suf /\ month_shaped k /\
    forall pre' k' suf',
      s = pre' +:+ k' +:+ suf' -> month_shaped k' ->
      (String.length pre <= String.length pre')%nat.
Proof.
  revert k. induction s as [|c r IH]; intros k.
  - simpl. discriminate.
  - cbn [re_search_month].
    destruct (month_at (String c r)) as [k0|] eqn:Hat.
    + intros [= ->]. apply month_at_shape in Hat as [Hk [suf Hs]].
      exists "", suf. simpl. split; [exact Hs|]. split; [exact Hk|].
      intros; lia.
    + intros Hr. destruct (IH _ Hr) as (pre & suf & Hs & Hk & Hmin).
      exists (String c pre), suf. simpl. split; [now rewrite Hs|].
      split; [exact Hk|].
      intros pre' k' suf' Heq Hk'.
      destruct pre' as [|c' pre'].
      * simpl in Heq. rewrite Heq, month_at_head in Hat by assumption.
        discriminate.
      * simpl in Heq. injection Heq as -> Heq.
        specialize (Hmin _ _ _ Heq Hk'). simpl. lia.
Qed.




(** ** Storage and the effect monad *)

(** Closed equations between runs of the model, settled by evaluation. *)
Ltac by_vm :=
  match goal with
  | |- ?x = ?y => exact (@eq_refl _ x <: x = y)
  end.

Ltac unfold_M :=
  unfold mkdir, write_bytes in *;
  unfold bind_first, mbind, mret, M_bind, M_ret, result_bind, result_ret,
    lift, raise, get_fs, do_ops, try_except in *.

Lemma write_ops_run (now : Z) (fs : storage) (p data : string) :
  run_ops now fs (write_ops p data) = <[p := Node (Some data) now]> fs.
Proof.
  unfold run_ops, write_ops. simpl.
  rewrite lookup_insert_eq. simpl. apply insert_insert_eq.
Qed.

Lemma run_ops_app (now : Z) (fs : storage) (l1 l2 : list fs_op) :
  run_ops now fs (l1 ++ l2) = run_ops now (run_ops now fs l1) l2.
Proof. unfold run_ops. apply foldl_app. Qed.

Lemma run_ops_cons (now : Z) (fs : storage) (op : fs_op) (l : list fs_op) :
  run_ops now fs (op :: l) = run_ops now (run_ops now fs [op]) l.
Proof. reflexivity. Qed.

Lemma path_exists_lookup (fs : storage) (p : string) (n : node) :
  fs !! p = Some n -> path_exists fs p = true.
Proof.
  intros H. unfold path_exists.
  rewrite bool_decide_eq_true_2 by (rewrite H; eauto). reflexivity.
Qed.

Lemma path_exists_false (fs : storage) (p : string) :
  path_exists fs p = false -> fs !! p = None.
Proof.
  unfold path_exists. intros H.
  apply orb_false_iff in H as [H _]. apply orb_false_iff in H as [H _].
  apply bool_decide_eq_false in H.
  destruct (fs !! p); [exfalso; apply H; eauto | reflexivity].
Qed.

Lemma read_bytes_file (fs : storage) (p d : string) (t : Z) :
  fs !! p = Some (Node (Some d) t) -> read_bytes p fs = (fs, Ok d).
Proof. intros H. unfold read_bytes. now rewrite H. Qed.

(** ** State files *)

Lemma load_state_of_missing field schema bad E state_path (fs : storage) :
  path_exists fs state_path = false ->
  load_state_of field schema bad E state_path fs
  = (fs, Ok (State (JStr schema) JNull [])).
Proof.
  intros H. unfold load_state_of. unfold_M. now rewrite H.
Qed.

Lemma load_state_of_not_mapping field schema bad E state_path (fs : storage)
    text t d v :
  fs !! state_path = Some (Node (Some text) t) ->
  json_loads E text = Some (JObj d) ->
  dict_get field d = Some v ->
  (forall r, v <> JObj r) ->
  load_state_of field schema bad E state_path fs
  = (fs, Raise (Exn "ValueError" (bad state_path))).
Proof.
  intros Hfs Hload Hget Hv. unfold load_state_of. unfold_M.
  rewrite (path_exists_lookup _ _ _ Hfs). simpl.
  rewrite (read_bytes_file _ _ _ _ Hfs), Hload. simpl. rewrite Hget. simpl.
  destruct v; try reflexivity. now destruct (Hv d0).
Qed.

Lemma load_state_of_mapping field schema bad E state_path (fs : storage)
    text t d r :
  fs !! state_path = Some (Node (Some text) t) ->
  json_loads E text = Some (JObj d) ->
  dict_get field d = Some (JObj r) ->
  load_state_of field schema bad E state_path fs
  = (fs, Ok (State (default (JStr schema) (dict_get "schema_id" d))
                   (default JNull (dict_get "updated_at" d)) r)).
Proof.
  intros Hfs Hload Hget. unfold load_state_of. unfold_M.
  rewrite (path_exists_lookup _ _ _ Hfs). simpl.
  rewrite (read_bytes_file _ _ _ _ Hfs), Hload. simpl. rewrite Hget.
  reflexivity.
Qed.

(** C8: [load_state] of either script returns the empty state (the
    script's schema id, no update time, no records) when nothing exists at
    the state path, and raises [ValueError] when the file exists and its
    records field is not a mapping; [main] and [run_curated_build] then
    stop with that error having only created their report directories. *)
Theorem C8_load_state_missing_and_malformed (E : env) (fs : storage) :
  (forall state_path, path_exists fs state_path = false ->
     ingest_all_months.load_state E state_path fs
     = (fs, Ok (State (JStr SCHEMA_ID) JNull []))
     /\ build_curated_sales_monthly.load_state E state_path fs
        = (fs, Ok (State (JStr CURATED_SCHEMA_ID) JNull [])))
  /\ (forall state_path text t d v,
        fs !! state_path = Some (Node (Some text) t) ->
        json_loads E text = Some (JObj d) ->
        (forall r, v <> JObj r) ->
        (dict_get "files" d = Some v ->
         ingest_all_months.load_state E state_path fs
         = (fs, Raise (Exn "ValueError"
                         ("Invalid state file format at " +:+ state_path))))
        /\ (dict_get "months" d = Some v ->
            build_curated_sales_monthly.load_state E state_path fs
            = (fs, Raise (Exn "ValueError"
                            ("Invalid curated state file: " +:+ state_path)))))
  /\ (forall a text t d v,
        let report_dir :=
          ingest_all_months.report_dir_of (arg_output_root a) in
        let state_path :=
          default (ingest_all_months.default_state_path (arg_output_root a))
            (arg_state_file a) in
        let fs' :=
          run_ops (now_epoch E) fs
            [OpMkdir report_dir; OpMkdir (path_div report_dir "runs")] in
        path_is_dir fs (arg_input_dir a) = true ->
        fs' !! state_path = Some (Node (Some text) t) ->
        json_loads E text = Some (JObj d) ->
        dict_get "files" d = Some v ->
        (forall r, v <> JObj r) ->
        ingest_all_months.main E a fs
        = (fs', Raise (Exn "ValueError"
                         ("Invalid state file format at " +:+ state_path))))
  /\ (forall output_root selected_months state_file found text t d v,
        let report_dir :=
          build_curated_sales_monthly.report_dir_of output_root in
        let state_path :=
          default (build_curated_sales_monthly.default_state_path output_root)
            state_file in
        let fs' :=
          run_ops (now_epoch E) fs
            [OpMkdir (build_curated_sales_monthly.curated_base_of output_root);
             OpMkdir report_dir; OpMkdir (path_div report_dir "runs")] in
        build_curated_sales_monthly.discover_raw_partitions fs output_root
        = Ok found ->
        fs' !! state_path = Some (Node (Some text) t) ->
        json_loads E text = Some (JObj d) ->
        dict_get "months" d = Some v ->
        (forall r, v <> JObj r) ->
        build_curated_sales_monthly.run_curated_build E output_root
          selected_months state_file fs
        = (fs', Raise (Exn "ValueError"
                         ("Invalid curated state file: " +:+ state_path)))).
Proof.
  repeat split.
  - now apply load_state_of_missing.
  - now apply load_state_of_missing.
  - intros Hget. unfold ingest_all_months.load_state.
    now rewrite (load_state_of_not_mapping _ _ _ _ _ _ _ _ _ _ H H0 Hget H1).
  - intros Hget. unfold build_curated_sales_monthly.load_state.
    now rewrite (load_state_of_not_mapping _ _ _ _ _ _ _ _ _ _ H H0 Hget H1).
  - intros a text t d v report_dir state_path fs' Hdir Hfs Hload Hget Hv.
    unfold ingest_all_months.main.
    unfold bind_first at 1. unfold mbind, M_bind, get_fs. rewrite Hdir. simpl.
    unfold bind_first at 1. unfold mbind, M_bind, mkdir, do_ops.
    unfold bind_first at 1. unfold mbind, M_bind.
    unfold bind_first at 1. unfold mbind, M_bind.
    fold report_dir. fold state_path.
    unfold ingest_all_months.load_state.
    change (run_ops (now_epoch E)
              (run_ops (now_epoch E) fs [OpMkdir report_dir])
              [OpMkdir (path_div report_dir "runs")]) with fs'.
    now rewrite (load_state_of_not_mapping _ _ _ _ _ _ _ _ _ _
                   Hfs Hload Hget Hv).
  - intros output_root selected_months state_file found text t d v report_dir
      state_path fs' Hfound Hfs Hload Hget Hv.
    unfold build_curated_sales_monthly.run_curated_build.
    unfold bind_first at 1. unfold mbind, M_bind, get_fs.
    unfold bind_first at 1. unfold mbind, M_bind, lift. rewrite Hfound.
    destruct found as [raw_mapping discovery_skipped].
    unfold bind_first at 1. unfold mbind, M_bind, mkdir, do_ops.
    unfold bind_first at 1. unfold mbind, M_bind.
    unfold bind_first at 1. unfold mbind, M_bind.
    unfold bind_first at 1. unfold mbind, M_bind.
    fold report_dir. fold state_path.
    unfold build_curated_sales_monthly.load_state.
    change (run_ops (now_epoch E)
              (run_ops (now_epoch E)
                 (run_ops (now_epoch E) fs
                    [OpMkdir
                       (build_curated_sales_monthly.curated_base_of
                          output_root)])
                 [OpMkdir report_dir])
              [OpMkdir (path_div report_dir "runs")]) with fs'.
    now rewrite (load_state_of_not_mapping _ _ _ _ _ _ _ _ _ _
                   Hfs Hload Hget Hv).
Qed.

(** C8 on a tree without a state file, and on one whose state files hold
    a list where the records mapping should be. *)
Lemma C8_witness :
  ingest_all_months.load_state Demo.E "/out/other/state.json"
    Demo.fs_bad_state
  = (Demo.fs_bad_state, Ok (State (JStr SCHEMA_ID) JNull []))
  /\ build_curated_sales_monthly.load_state Demo.E
       "/out/state/sales_monthly/v1/curated_processed_months.json"
       Demo.fs_bad_state
     = (Demo.fs_bad_state,
        Raise (Exn "ValueError"
                 ("Invalid curated state file: " +:+
                  "/out/state/sales_monthly/v1/curated_processed_months.json")))
  /\ (ingest_all_months.main Demo.E Demo.args_raw_only Demo.fs_bad_state).2
     = Raise (Exn "ValueError"
                ("Invalid state file format at " +:+
                 "/out/state/sales_monthly/v1/processed_files.json"))
  /\ (build_curated_sales_monthly.run_curated_build Demo.E "/out" None None
        Demo.fs_bad_state).2
     = Raise (Exn "ValueError"
                ("Invalid curated state file: " +:+
                 "/out/state/sales_monthly/v1/curated_processed_months.json")).
Proof.
  destruct (C8_load_state_missing_and_malformed Demo.E Demo.fs_bad_state)
    as (H1 & H2 & H3 & H4).
  assert (Hv : forall r, JArr [] <> JObj r) by (intros r; discriminate).
  split; [|split; [|split]].
  - apply H1. vm_compute. reflexivity.
  - apply (H2 "/out/state/sales_monthly/v1/curated_processed_months.json"
              Demo.bad_state_text 5 Demo.bad_state_doc (JArr []));
      [vm_compute; reflexivity | vm_compute; reflexivity | exact Hv
      | vm_compute; reflexivity].
  - rewrite (H3 Demo.args_raw_only Demo.bad_state_text 5 Demo.bad_state_doc
               (JArr []));
      [reflexivity | vm_compute; reflexivity | vm_compute; reflexivity
      | vm_compute; reflexivity | vm_compute; reflexivity | exact Hv].
  - rewrite (H4 "/out" None None (∅, []) Demo.bad_state_text 5
               Demo.bad_state_doc (JArr []));
      [reflexivity | vm_compute; reflexivity | vm_compute; reflexivity
      | vm_compute; reflexivity | vm_compute; reflexivity | exact Hv].
Defined.

Lemma mkdir_file_bytes (now : Z) (fs : storage) (d p : string) :
  file_bytes (apply_op now fs (OpMkdir d)) p = file_bytes fs p.
Proof.
  unfold file_bytes. simpl. destruct (fs !! d) eqn:Hd; [reflexivity|].
  destruct (decide (d = p)) as [->|Hne].
  - rewrite lookup_insert_eq, Hd. reflexivity.
  - now rewrite lookup_insert_ne.
Qed.

Lemma save_state_of_run (E : env) (field state_path : string) (st : state)
    (fs : storage) :
  save_state_of field E state_path st fs
  = (<[state_path :=
         Node (Some (json_dumps E
                       (state_json field
                          (State (st_schema_id st) (JStr (utc_now_iso E))
                             (st_records st))) +:+ NL))
           (now_epoch E)]>
       (run_ops (now_epoch E) fs [OpMkdir (path_parent state_path)]),
     Ok (State (st_schema_id st) (JStr (utc_now_iso E)) (st_records st))).
Proof.
  unfold save_state_of, save_state_ops. unfold_M.
  now rewrite run_ops_cons, write_ops_run.
Qed.

(** C3, as stated, fails: [save_state] writes the state file in place, and
    after the target has been opened for writing a reader finds an empty
    file, neither the previous state nor the new one. *)
Lemma C3_counterexample :
  ~ (forall (E : env) (fs : storage) (state_path : string) (st : state)
            (n : nat),
       let fs' :=
         run_ops (now_epoch E) fs
           (take n (save_state_ops "files" E state_path st)) in
       file_bytes fs' state_path = file_bytes fs state_path
       \/ file_bytes fs' state_path
          = Some (json_dumps E
                    (state_json "files"
                       (State (st_schema_id st) (JStr (utc_now_iso E))
                          (st_records st))) +:+ NL)).
Proof.
  intros H.
  specialize (H Demo.E Demo.fs_saved_state
                "/out/state/sales_monthly/v1/processed_files.json"
                Demo.old_state 2%nat).
  vm_compute in H. destruct H as [H|H]; discriminate H.
Qed.

(** C3, amended: [save_state] of either script stamps a fresh
    [updated_at] and, run to its end, leaves the complete serialised state
    at the state path; the write goes to the state path itself, so that
    while it runs the path shows the previous bytes, then an empty file,
    then the new state. *)
Theorem C3_save_state_in_place (E : env) (field state_path : string)
    (st : state) (fs : storage) :
  let stamped :=
    State (st_schema_id st) (JStr (utc_now_iso E)) (st_records st) in
  let text := json_dumps E (state_json field stamped) +:+ NL in
  save_state_of field E state_path st fs
  = (<[state_path := Node (Some text) (now_epoch E)]>
       (run_ops (now_epoch E) fs [OpMkdir (path_parent state_path)]),
     Ok stamped)
  /\ ingest_all_months.save_state = save_state_of "files"
  /\ build_curated_sales_monthly.save_state = save_state_of "months"
  /\ forall n : nat,
       let seen :=
         file_bytes
           (run_ops (now_epoch E) fs
              (take n (save_state_ops field E state_path st))) state_path in
       seen = file_bytes fs state_path \/ seen = Some "" \/ seen = Some text.
Proof.
  intros stamped text. split; [|split; [reflexivity|split; [reflexivity|]]].
  - apply save_state_of_run.
  - intros n seen. subst seen. unfold save_state_ops. fold stamped text.
    destruct n as [|[|[|n]]].
    + left. reflexivity.
    + left. apply mkdir_file_bytes.
    + right. left. unfold file_bytes. simpl.
      now rewrite lookup_insert_eq.
    + right. right. unfold write_ops. cbn [take]. rewrite take_nil.
      rewrite run_ops_cons.
      change [OpTruncate state_path; OpAppend state_path text]
        with (write_ops state_path text).
      rewrite write_ops_run. unfold file_bytes.
      now rewrite lookup_insert_eq.
Qed.

(** ** De-duplication *)

Section dedup.
Context {A : Type} (month name path : A -> string) (mtime : A -> Z).

Local Abbreviation rejected := (rejected month name path mtime).
Local Abbreviation winner_of := (winner_of month name path mtime).
Local Abbreviation dedup_gen := (dedup_gen month name path mtime).
Local Abbreviation dedup_inv := (dedup_inv month name path mtime).

Lemma rejected_mono cands cands' skipped skipped' c' :
  rejected cands skipped c' -> rejected (cands ++ cands') (skipped ++ skipped') c'.
Proof.
  intros (k & x & Hk & Hf & Hx & Hm & Hr).
  exists k, x. repeat split; auto; apply elem_of_app; auto.
Qed.

Lemma winner_of_snoc_other cands skipped skipped' c x :
  month x <> month c ->
  winner_of cands skipped c -> winner_of (cands ++ [x]) (skipped ++ skipped') c.
Proof.
  intros Hne (l1 & l2 & -> & H1 & H2).
  exists l1, (l2 ++ [x]). split; [now rewrite <- app_assoc|].
  split.
  - intros c' Hc' Hm. destruct (H1 c' Hc' Hm) as [Hlt Hrej].
    split; [exact Hlt | now apply rejected_mono].
  - intros c' Hc' Hm. apply elem_of_app in Hc' as [Hc'|Hc'].
    + destruct (H2 c' Hc' Hm) as [Hle Hrej].
      split; [exact Hle | now apply rejected_mono].
    + apply list_elem_of_singleton in Hc' as ->. contradiction.
Qed.

Lemma dedup_inv_step seen acc x :
  dedup_inv seen acc -> dedup_inv (seen ++ [x]) (dedup_gen acc x).
Proof.
  destruct acc as [selected skipped]. intros Hinv m.
  pose proof (Hinv (month x)) as Hx. pose proof (Hinv m) as Hm.
  unfold dedup_gen. simpl in *.
  destruct (selected !! month x) as [e|] eqn:He.
  - destruct Hx as [Hme Hwin].
    destruct (mtime e <? mtime x) eqn:Hlt.
    + apply Z.ltb_lt in Hlt. simpl.
      destruct (decide (month x = m)) as [<-|Hne].
      * rewrite lookup_insert_eq. split; [reflexivity|].
        exists seen, []. split; [reflexivity|]. split.
        2:{ intros c' Hc'. now apply elem_of_nil in Hc'. }
        destruct Hwin as (l1 & l2 & -> & H1 & H2).
        intros c' Hc' Hmc'. rewrite <- Hme in Hmc'.
        apply elem_of_app in Hc' as [Hc'|Hc'];
          [|apply elem_of_cons in Hc' as [->|Hc']].
        -- destruct (H1 c' Hc' Hmc') as [Hlt' Hrej].
           split; [lia | now apply rejected_mono].
        -- split; [exact Hlt|].
           exists (Skip (path e)
                     ("duplicate_month_replaced_by_newer_file:" +:+ name x)),
             x.
           repeat split; auto.
           ++ apply elem_of_app. right. now apply list_elem_of_singleton.
           ++ apply elem_of_app. right. now apply list_elem_of_singleton.
        -- destruct (H2 c' Hc' Hmc') as [Hle Hrej].
           split; [lia | now apply rejected_mono].
      * rewrite lookup_insert_ne by assumption.
        destruct (selected !! m) as [c|].
        -- destruct Hm as [Hmc Hw]. split; [exact Hmc|].
           apply winner_of_snoc_other; [congruence | exact Hw].
        -- intros c Hc. apply elem_of_app in Hc as [Hc|Hc]; [now apply Hm|].
           apply list_elem_of_singleton in Hc as ->. exact Hne.
    + apply Z.ltb_ge in Hlt. simpl.
      destruct (decide (month x = m)) as [<-|Hne].
      * rewrite He. split; [exact Hme|].
        destruct Hwin as (l1 & l2 & -> & H1 & H2).
        exists l1, (l2 ++ [x]). split; [now rewrite <- app_assoc|]. split.
        -- intros c' Hc' Hmc'. destruct (H1 c' Hc' Hmc') as [Hlt' Hrej].
           split; [exact Hlt' | now apply rejected_mono].
        -- intros c' Hc' Hmc'. apply elem_of_app in Hc' as [Hc'|Hc'].
           ++ destruct (H2 c' Hc' Hmc') as [Hle Hrej].
              split; [exact Hle | now apply rejected_mono].
           ++ apply list_elem_of_singleton in Hc' as ->.
              split; [exact Hlt|].
              exists (Skip (path x)
                        ("duplicate_month_older_than:" +:+ name e)), e.
              repeat split; auto.
              ** apply elem_of_app. right. now apply list_elem_of_singleton.
              ** apply elem_of_app. left. apply elem_of_app. right.
                 apply elem_of_cons. now left.
      * destruct (selected !! m) as [c|].
        -- destruct Hm as [Hmc Hw]. split; [exact Hmc|].
           apply winner_of_snoc_other; [congruence | exact Hw].
        -- intros c Hc. apply elem_of_app in Hc as [Hc|Hc]; [now apply Hm|].
           apply list_elem_of_singleton in Hc as ->. exact Hne.
  - simpl. destruct (decide (month x = m)) as [<-|Hne].
    + rewrite lookup_insert_eq. split; [reflexivity|].
      exists seen, []. split; [reflexivity|]. split.
      * intros c' Hc' Hmc'. now destruct (Hx c' Hc').
      * intros c' Hc'. now apply elem_of_nil in Hc'.
    + rewrite lookup_insert_ne by assumption.
      destruct (selected !! m) as [c|].
      * destruct Hm as [Hmc Hw]. split; [exact Hmc|].
        rewrite <- (app_nil_r skipped).
        apply winner_of_snoc_other; [congruence | exact Hw].
      * intros c Hc. apply elem_of_app in Hc as [Hc|Hc]; [now apply Hm|].
        apply list_elem_of_singleton in Hc as ->. exact Hne.
Qed.

Lemma dedup_inv_foldl l seen acc :
  dedup_inv seen acc -> dedup_inv (seen ++ l) (foldl dedup_gen acc l).
Proof.
  revert seen acc. induction l as [|x l IH]; intros seen acc Hinv.
  - now rewrite app_nil_r.
  - simpl. replace (seen ++ x :: l) with ((seen ++ [x]) ++ l)
      by now rewrite <- app_assoc.
    apply IH, dedup_inv_step, Hinv.
Qed.

Lemma dedup_inv_init skipped : dedup_inv [] (∅, skipped).
Proof.
  intros m. simpl. rewrite lookup_empty. intros c Hc.
  now apply elem_of_nil in Hc.
Qed.

(** Every scanned candidate has a winner of its month. *)
Lemma dedup_inv_covers seen acc c' :
  dedup_inv seen acc -> c' ∈ seen ->
  exists c, acc.1 !! month c' = Some c /\ month c = month c'.
Proof.
  intros Hinv Hc'. specialize (Hinv (month c')).
  destruct (acc.1 !! month c') as [c|]; [|now destruct (Hinv c' Hc')].
  exists c. now destruct Hinv.
Qed.
End dedup.

#[local] Instance key_le_total {A} : Total (@key_le A).
Proof. intros x y. unfold key_le, str_le. apply String.leb_total. Qed.

Lemma elem_of_sorted_map {A} (m : gmap string A) (x : A) :
  x ∈ (merge_sort key_le (map_to_list m)).*2 <-> exists k, m !! k = Some x.
Proof.
  rewrite list_elem_of_fmap. split.
  - intros ([k y] & -> & Hin). exists k.
    rewrite merge_sort_Permutation in Hin. now apply elem_of_map_to_list.
  - intros [k Hk]. exists (k, x). split; [reflexivity|].
    rewrite merge_sort_Permutation. now apply elem_of_map_to_list.
Qed.

Lemma sorted_names {A} (l : list (string * A)) :
  Sorted str_le (merge_sort key_le l).*1.
Proof.
  apply (Sorted_fmap fst key_le str_le); [auto|]. apply Sorted_merge_sort, _.
Qed.

Lemma discover_listing_winners (E : env) (listing : list (string * node))
    selected skipped :
  ingest_all_months.discover_listing E listing = (selected, skipped) ->
  (forall c, c ∈ selected ->
     winner_of fi_report_month fi_file_name fi_path fi_modified_at_epoch
       (raw_candidates E listing) skipped c)
  /\ (forall c', c' ∈ raw_candidates E listing ->
        exists c, c ∈ selected /\ fi_report_month c = fi_report_month c').
Proof.
  unfold ingest_all_months.discover_listing, raw_candidates.
  destruct (foldl (ingest_all_months.scan_step E) ([], []) listing)
    as [cands skipped0].
  change ingest_all_months.dedup_step
    with (dedup_gen fi_report_month fi_file_name fi_path fi_modified_at_epoch).
  pose proof (dedup_inv_foldl fi_report_month fi_file_name fi_path
                fi_modified_at_epoch cands [] (∅, skipped0)
                (dedup_inv_init _ _ _ _ skipped0)) as Hinv.
  destruct (foldl _ (∅, skipped0) cands) as [by_month skipped1].
  intros [= <- <-]. simpl in *. split.
  - intros c Hc. apply elem_of_sorted_map in Hc as [m Hm].
    specialize (Hinv m). simpl in Hinv. rewrite Hm in Hinv. apply Hinv.
  - intros c' Hc'.
    destruct (dedup_inv_covers _ _ _ _ _ _ c' Hinv Hc') as (c & Hc & Hm).
    exists c. split; [|exact Hm]. apply elem_of_sorted_map. eauto.
Qed.

Lemma discover_loop_gen (listing : list (string * node)) selected skipped r :
  build_curated_sales_monthly.discover_loop listing selected skipped = Ok r ->
  r = foldl (dedup_gen partition_month (fun c => path_name (rc_path c))
               rc_path rc_mtime)
        (selected, skipped) (partition_candidate <$> listing).
Proof.
  revert selected skipped.
  induction listing as [|[raw_path stat] listing IH]; intros selected skipped.
  - simpl. now intros [= <-].
  - intros H. cbn [build_curated_sales_monthly.discover_loop] in H.
    unfold bind_first, mbind, result_bind in H.
    unfold build_curated_sales_monthly.parse_month_from_partition_dir in H.
    destruct (strip_prefix "report_month_" (path_name (path_parent raw_path)))
      as [month|] eqn:Hs; [|discriminate].
    assert (Hpm : partition_month (partition_candidate (raw_path, stat))
                  = month).
    { unfold partition_month, partition_candidate. cbn [rc_path fst].
      now rewrite Hs. }
    rewrite fmap_cons.
    set (g := dedup_gen partition_month (fun c => path_name (rc_path c))
                rc_path rc_mtime).
    change (r = foldl g (g (selected, skipped)
                           (partition_candidate (raw_path, stat)))
                  (partition_candidate <$> listing)).
    unfold g at 2. unfold dedup_gen. rewrite Hpm. fold g.
    destruct (selected !! month) as [current|]; [|now apply IH].
    change (rc_mtime (partition_candidate (raw_path, stat)))
      with (n_mtime stat).
    change (RawCandidate raw_path (n_mtime stat) (node_size stat))
      with (partition_candidate (raw_path, stat)) in H.
    change (rc_mtime (partition_candidate (raw_path, stat)))
      with (n_mtime stat) in H.
    destruct (rc_mtime current <? n_mtime stat); now apply IH.
Qed.

(** C5: when a candidate meets the candidate selected so far for its
    partition key, the one with the strictly later modification time is
    selected and the other one is appended to the rejection list; with
    equal times the earlier one stays selected and the later one is
    rejected.  Hence, in both discovery functions, the winner of a key is
    the candidate with the latest modification time, and among candidates
    with equal times the one met first in the scan; the scan goes through
    the names in sorted order; every other candidate of the key is on the
    rejection list, with a reason naming the file it lost to. *)
Theorem C5_latest_wins_ties_to_first_scanned (E : env) (fs : storage) :
  (forall by_month skipped existing item,
     by_month !! fi_report_month item = Some existing ->
     let r := ingest_all_months.dedup_step (by_month, skipped) item in
     (fi_modified_at_epoch existing < fi_modified_at_epoch item ->
      r.1 !! fi_report_month item = Some item
      /\ r.2 = skipped ++
                 [Skip (fi_path existing)
                    ("duplicate_month_replaced_by_newer_file:"
                     +:+ fi_file_name item)])
     /\ (fi_modified_at_epoch item <= fi_modified_at_epoch existing ->
         r.1 !! fi_report_month item = Some existing
         /\ r.2 = skipped ++
                    [Skip (fi_path item)
                       ("duplicate_month_older_than:"
                        +:+ fi_file_name existing)]))
  /\ (forall input_dir selected skipped,
     ingest_all_months.discover_input_files E fs input_dir
     = (selected, skipped) ->
     let listing := ingest_all_months.glob_xlsx fs input_dir in
     (forall c, c ∈ selected ->
        winner_of fi_report_month fi_file_name fi_path fi_modified_at_epoch
          (raw_candidates E listing) skipped c)
     /\ (forall c', c' ∈ raw_candidates E listing ->
           exists c, c ∈ selected /\ fi_report_month c = fi_report_month c')
     /\ exists names,
          listing.*1 = path_div input_dir <$> names /\ Sorted str_le names)
  /\ (forall listing selected skipped,
        build_curated_sales_monthly.discover_loop listing ∅ []
        = Ok (selected, skipped) ->
        let cands := partition_candidate <$> listing in
        (forall m c, selected !! m = Some c ->
           partition_month c = m /\
           winner_of partition_month (fun c => path_name (rc_path c))
             rc_path rc_mtime cands skipped c)
        /\ (forall c', c' ∈ cands ->
              is_Some (selected !! partition_month c')))
  /\ (forall output_root,
        let raw_base := build_curated_sales_monthly.raw_base_of output_root in
        let listing := build_curated_sales_monthly.glob_raw fs raw_base in
        build_curated_sales_monthly.discover_raw_partitions fs output_root
        = match build_curated_sales_monthly.discover_loop listing ∅ [] with
          | Ok (selected, skipped) => Ok (rc_path <$> selected, skipped)
          | Raise error => Raise error
          end
        /\ exists dirs,
             listing.*1
             = (fun d => path_div (path_div raw_base d)
                           "sales_monthly_v1.parquet") <$> dirs
             /\ Sorted str_le dirs).
Proof.
  split; [|split; [|split]].
  - intros by_month skipped existing item Hex r. subst r.
    unfold ingest_all_months.dedup_step. rewrite Hex. split; intros Hlt.
    + apply Z.ltb_lt in Hlt. rewrite Hlt. cbn [fst snd].
      now rewrite lookup_insert_eq.
    + apply Z.ltb_ge in Hlt. rewrite Hlt. cbn [fst snd]. auto.
  - intros input_dir selected skipped H listing.
    destruct (discover_listing_winners E listing selected skipped H)
      as [H1 H2].
    split; [exact H1|]. split; [exact H2|].
    subst listing. unfold ingest_all_months.glob_xlsx.
    eexists. split; [|apply (sorted_names (A := node))].
    rewrite <- !list_fmap_compose. reflexivity.
  - intros listing selected skipped Hloop cands.
    apply discover_loop_gen in Hloop.
    pose proof (dedup_inv_foldl partition_month
                  (fun c => path_name (rc_path c)) rc_path rc_mtime
                  cands [] (∅, []) (dedup_inv_init _ _ _ _ [])) as Hinv.
    fold cands in Hloop. rewrite <- Hloop in Hinv. simpl in Hinv.
    split.
    + intros m c Hm. specialize (Hinv m). simpl in Hinv.
      now rewrite Hm in Hinv.
    + intros c' Hc'.
      destruct (dedup_inv_covers _ _ _ _ _ _ c' Hinv Hc') as (c & Hc & _).
      simpl in Hc. eauto.
  - intros output_root raw_base listing. split; [reflexivity|].
    subst listing. unfold build_curated_sales_monthly.glob_raw.
    eexists. split; [|apply (sorted_names (A := node))].
    rewrite <- !list_fmap_compose. reflexivity.
Qed.

(** The tree [Demo.fs_duplicates]: the newer January file wins, the
    March tie goes to the file scanned first. *)
Lemma demo_duplicates_discovered :
  ingest_all_months.discover_input_files Demo.E Demo.fs_duplicates "/in"
  = ([Demo.january_winner; Demo.march_winner], Demo.duplicates_skipped).
Proof. vm_compute. reflexivity. Qed.

Lemma demo_duplicates_raw :
  build_curated_sales_monthly.discover_raw_partitions Demo.fs_duplicates "/out"
  = Ok (Demo.duplicates_raw_mapping, []).
Proof. vm_compute. reflexivity. Qed.

Lemma demo_listing_discovered :
  build_curated_sales_monthly.discover_loop Demo.raw_listing ∅ []
  = Ok (Demo.raw_listing_selected, Demo.raw_listing_skipped).
Proof. vm_compute. reflexivity. Qed.

Lemma C5_witness :
  winner_of fi_report_month fi_file_name fi_path fi_modified_at_epoch
    (raw_candidates Demo.E
       (ingest_all_months.glob_xlsx Demo.fs_duplicates "/in"))
    Demo.duplicates_skipped Demo.march_winner
  /\ winner_of partition_month (fun c => path_name (rc_path c))
       rc_path rc_mtime (partition_candidate <$> Demo.raw_listing)
       Demo.raw_listing_skipped
       (RawCandidate "/mnt/b/report_month_2024-01/sales_monthly_v1.parquet"
          7 3).
Proof.
  destruct (C5_latest_wins_ties_to_first_scanned Demo.E Demo.fs_duplicates)
    as (_ & Hraw & Hcur & _).
  split.
  - destruct (Hraw "/in" _ _ demo_duplicates_discovered) as (Hw & _).
    apply Hw. apply elem_of_cons. right. apply elem_of_cons. now left.
  - destruct (Hcur _ _ _ demo_listing_discovered) as (Hw & _).
    apply (Hw "2024-01"). vm_compute. reflexivity.
Defined.

(** ** Rejection reasons *)

Lemma scan_step_reasons (E : env) (listing : list (string * node)) acc k :
  k ∈ (foldl (ingest_all_months.scan_step E) acc listing).2 ->
  k ∈ acc.2
  \/ (skip_reason k
      = "invalid_report_month: Could not parse report month from file name: "
        +:+ path_name (skip_file k)
      /\ re_search_month (path_name (skip_file k)) = None).
Proof.
  revert acc. induction listing as [|ent listing IH]; intros acc; [now left|].
  simpl. intros H. apply IH in H as [H|H]; [|now right].
  destruct acc as [candidates skipped].
  unfold ingest_all_months.scan_step, parse_report_month in H.
  destruct (re_search_month (path_name ent.1)) eqn:Hs; [now left|].
  simpl in H. apply elem_of_app in H as [H|H]; [now left|].
  apply list_elem_of_singleton in H as ->. right. simpl. auto.
Qed.

Lemma dedup_gen_reasons {A} (month name path : A -> string) (mtime : A -> Z)
    (l : list A) acc k :
  k ∈ (foldl (dedup_gen month name path mtime) acc l).2 ->
  k ∈ acc.2 \/ duplicate_reason (skip_reason k).
Proof.
  revert acc. induction l as [|x l IH]; intros acc; [now left|].
  simpl. intros H. apply IH in H as [H|H]; [|now right].
  destruct acc as [selected skipped]. unfold dedup_gen in H.
  destruct (selected !! month x) as [e|]; [|now left].
  destruct (mtime e <? mtime x); simpl in H;
    (apply elem_of_app in H as [H|H]; [now left|]);
    apply list_elem_of_singleton in H as ->; right; simpl.
  - left. eauto.
  - right. eauto.
Qed.

(** C6, as stated, fails: the reason strings of the code are not those of
    the documented vocabulary. *)
Lemma C6_counterexample :
  ~ (forall (E : env) (fs : storage) (input_dir : string) (k : skip),
       k ∈ (ingest_all_months.discover_input_files E fs input_dir).2 ->
       documented_reason (skip_reason k)).
Proof.
  intros H.
  specialize (H Demo.E Demo.fs_duplicates "/in"
                (Skip "/in/notes.xlsx"
                   "invalid_report_month: Could not parse report month from file name: notes.xlsx")).
  rewrite demo_duplicates_discovered in H.
  destruct H as [H | [[n H] | [n H]]].
  - apply elem_of_cons. now left.
  - discriminate H.
  - simpl in H. discriminate H.
  - simpl in H. discriminate H.
Qed.

(** C6, amended: every rejection of [discover_input_files] has the reason
    [invalid_report_month: Could not parse report month from file name:
    <name>] (for a name without a month), or
    [duplicate_month_replaced_by_newer_file:<name>], or
    [duplicate_month_older_than:<name>]; the loop of
    [discover_raw_partitions] uses the two duplicate reasons only. *)
Theorem C6_rejection_reasons_of_the_code (E : env) (fs : storage) :
  (forall input_dir k,
     k ∈ (ingest_all_months.discover_input_files E fs input_dir).2 ->
     (skip_reason k
      = "invalid_report_month: Could not parse report month from file name: "
        +:+ path_name (skip_file k)
      /\ re_search_month (path_name (skip_file k)) = None)
     \/ duplicate_reason (skip_reason k))
  /\ (forall listing selected skipped k,
        build_curated_sales_monthly.discover_loop listing ∅ []
        = Ok (selected, skipped) ->
        k ∈ skipped -> duplicate_reason (skip_reason k)).
Proof.
  split.
  - intros input_dir k.
    unfold ingest_all_months.discover_input_files,
      ingest_all_months.discover_listing.
    pose proof (scan_step_reasons E
                  (ingest_all_months.glob_xlsx fs input_dir) ([], []) k)
      as Hscan.
    destruct (foldl (ingest_all_months.scan_step E) ([], []) _)
      as [cands skipped0].
    change ingest_all_months.dedup_step
      with (dedup_gen fi_report_month fi_file_name fi_path
              fi_modified_at_epoch).
    pose proof (dedup_gen_reasons fi_report_month fi_file_name fi_path
                  fi_modified_at_epoch cands (∅, skipped0) k) as Hdedup.
    destruct (foldl _ (∅, skipped0) cands) as [by_month skipped1].
    simpl in *. intros Hk.
    destruct (Hdedup Hk) as [H|H]; [|now right].
    destruct (Hscan H) as [H'|H']; [|now left].
    now apply elem_of_nil in H'.
  - intros listing selected skipped k Hloop Hk.
    apply discover_loop_gen in Hloop.
    pose proof (dedup_gen_reasons partition_month
                  (fun c => path_name (rc_path c)) rc_path rc_mtime
                  (partition_candidate <$> listing) (∅, []) k) as Hdedup.
    rewrite <- Hloop in Hdedup. simpl in Hdedup.
    destruct (Hdedup Hk) as [H|H]; [now apply elem_of_nil in H | exact H].
Qed.

Lemma C6_witness :
  duplicate_reason "duplicate_month_older_than:c_2024-03.xlsx"
  /\ duplicate_reason
       "duplicate_month_replaced_by_newer_file:sales_monthly_v1.parquet".
Proof.
  destruct (C6_rejection_reasons_of_the_code Demo.E Demo.fs_duplicates)
    as [Hraw Hcur].
  split.
  - destruct (Hraw "/in"
                (Skip "/in/d_2024-03.xlsx"
                   "duplicate_month_older_than:c_2024-03.xlsx"))
      as [[H _] | H].
    + rewrite demo_duplicates_discovered. simpl.
      apply elem_of_cons. right. apply elem_of_cons. right.
      apply elem_of_cons. now left.
    + simpl in H. discriminate H.
    + exact H.
  - apply (Hcur _ _ _
             (Skip "/mnt/a/report_month_2024-01/sales_monthly_v1.parquet"
                "duplicate_month_replaced_by_newer_file:sales_monthly_v1.parquet")
             demo_listing_discovered).
    apply elem_of_cons. now left.
Defined.

(** ** The stage loops, case by case *)

Lemma raw_body_unreadable E a ls fi (fs : storage) e :
  (read_bytes (fi_path fi) fs).2 = Raise e ->
  ingest_all_months.loop_body E a ls fi fs = (fs, Raise e).
Proof.
  unfold ingest_all_months.loop_body, file_sha256, read_bytes. unfold_M.
  destruct (fs !! fi_path fi) as [[[d|] t]|]; simpl; now intros [= <-].
Qed.

Lemma raw_body_unchanged E a ls fi (fs : storage) d t :
  fs !! fi_path fi = Some (Node (Some d) t) ->
  ingest_all_months.previous_matches
    (default (JObj [])
       (dict_get (ingest_all_months.normalize_state_path_key (fi_path fi))
          (ls_files ls)))
    (sha256_hexdigest E d) (fi_report_month fi) = Ok true ->
  ingest_all_months.loop_body E a ls fi fs
  = (fs, Ok (LoopState (ls_files ls) (ls_processed ls)
               (ls_unchanged ls ++
                  [UnchangedItem (fi_path fi) (fi_report_month fi)])
               (ls_failed ls))).
Proof.
  intros Hfs Hprev.
  unfold ingest_all_months.loop_body, file_sha256. unfold_M.
  rewrite (read_bytes_file _ _ _ _ Hfs). now rewrite Hprev.
Qed.

Lemma raw_body_changed E a ls fi (fs : storage) d t :
  fs !! fi_path fi = Some (Node (Some d) t) ->
  ingest_all_months.previous_matches
    (default (JObj [])
       (dict_get (ingest_all_months.normalize_state_path_key (fi_path fi))
          (ls_files ls)))
    (sha256_hexdigest E d) (fi_report_month fi) = Ok false ->
  ingest_all_months.loop_body E a ls fi fs
  = match ingest_all_months.ingest_one E a ls fi
            (ingest_all_months.normalize_state_path_key (fi_path fi))
            (sha256_hexdigest E d) fs with
    | (fs', Raise error) =>
        (fs', Ok (LoopState (ls_files ls) (ls_processed ls) (ls_unchanged ls)
                    (ls_failed ls ++
                       [FailedItem (fi_path fi) (fi_report_month fi)
                          (exn_str error)])))
    | r => r
    end.
Proof.
  intros Hfs Hprev.
  unfold ingest_all_months.loop_body, file_sha256. unfold_M.
  rewrite (read_bytes_file _ _ _ _ Hfs). now rewrite Hprev.
Qed.

Lemma raw_body_prev_raises E a ls fi (fs : storage) d t e :
  fs !! fi_path fi = Some (Node (Some d) t) ->
  ingest_all_months.previous_matches
    (default (JObj [])
       (dict_get (ingest_all_months.normalize_state_path_key (fi_path fi))
          (ls_files ls)))
    (sha256_hexdigest E d) (fi_report_month fi) = Raise e ->
  ingest_all_months.loop_body E a ls fi fs = (fs, Raise e).
Proof.
  intros Hfs Hprev.
  unfold ingest_all_months.loop_body, file_sha256. unfold_M.
  rewrite (read_bytes_file _ _ _ _ Hfs). now rewrite Hprev.
Qed.

(** The [try] block of the raw stage: a failing transform leaves storage
    as it was; a successful one writes the two artifacts and one record. *)
Lemma ingest_one_cases E a ls fi key checksum (fs : storage) :
  match ingest_workbook E (fi_path fi) (negb (arg_allow_header_mismatch a))
          fs with
  | (fs1, Raise error) =>
      fs1 = fs /\
      ingest_all_months.ingest_one E a ls fi key checksum fs
      = (fs, Raise error)
  | (fs1, Ok (table, report)) =>
      fs1 = fs /\
      let raw_dir :=
        ingest_all_months.raw_dir_of (arg_output_root a)
          (ir_report_month report) in
      let parquet_path := path_div raw_dir "sales_monthly_v1.parquet" in
      let ingest_report_path :=
        path_div (ingest_all_months.report_dir_of (arg_output_root a))
          (ir_report_month report +:+ "_ingest.json") in
      ingest_all_months.ingest_one E a ls fi key checksum fs
      = (<[ingest_report_path :=
             Node (Some (json_dumps E (ingest_report_json report) +:+ NL))
               (now_epoch E)]>
           (<[parquet_path := Node (Some table) (now_epoch E)]>
              (run_ops (now_epoch E) fs [OpMkdir raw_dir])),
         Ok (LoopState
               (dict_set key
                  (JObj [("file_name", JStr (path_name (fi_path fi)));
                         ("absolute_path", JStr (fi_path fi));
                         ("report_month", JStr (ir_report_month report));
                         ("sha256", JStr checksum);
                         ("size_bytes", JInt (fi_size_bytes fi));
                         ("modified_at_utc", JStr (fi_modified_at_utc fi));
                         ("ingested_at_utc", JStr (utc_now_iso E));
                         ("rows_loaded",
                          ingest_all_months.rows_loaded_of report);
                         ("parquet_path", JStr parquet_path);
                         ("ingest_report_path", JStr ingest_report_path)])
                  (ls_files ls))
               (ls_processed ls ++
                  [ProcessedItem (fi_path fi) (ir_report_month report)
                     (ingest_all_months.rows_loaded_of report) parquet_path])
               (ls_unchanged ls) (ls_failed ls)))
  end.
Proof.
  unfold ingest_all_months.ingest_one.
  assert (Hpure : (ingest_workbook E (fi_path fi)
                     (negb (arg_allow_header_mismatch a)) fs).1 = fs).
  { unfold ingest_workbook, read_bytes. unfold_M.
    destruct (load_schema_definition E); [|reflexivity].
    destruct (parse_report_month _); [|reflexivity].
    destruct (fs !! fi_path fi) as [[[d|] t]|]; try reflexivity.
    destruct (read_workbook E _ _ _); reflexivity. }
  destruct (ingest_workbook E (fi_path fi)
              (negb (arg_allow_header_mismatch a)) fs)
    as [fs1 [[table report]|error]] eqn:Hw; simpl in Hpure; subst fs1;
    cbv beta iota.
  - split; [reflexivity|].
    unfold bind_first at 1. unfold mbind, M_bind. rewrite Hw.
    unfold_M. cbv beta iota. rewrite !write_ops_run. reflexivity.
  - split; [reflexivity|].
    unfold bind_first at 1. unfold mbind, M_bind. now rewrite Hw.
Qed.

Lemma curated_prev_ok_obj (fs : storage) previous checksum b :
  build_curated_sales_monthly.previous_matches fs previous checksum = Ok b ->
  exists rec, previous = JObj rec.
Proof.
  unfold build_curated_sales_monthly.previous_matches, py_get.
  destruct previous; try discriminate. eauto.
Qed.

Lemma curated_body_unchanged E root cl month raw_path (fs : storage) d t :
  fs !! raw_path = Some (Node (Some d) t) ->
  build_curated_sales_monthly.previous_matches fs
    (default (JObj []) (dict_get month (cl_months cl)))
    (sha256_hexdigest E d) = Ok true ->
  exists rec,
    default (JObj []) (dict_get month (cl_months cl)) = JObj rec /\
    build_curated_sales_monthly.loop_body E root cl (month, raw_path) fs
    = (fs, Ok (CuratedLoopState (cl_months cl) (cl_processed cl)
                 (cl_unchanged cl ++
                    [CuratedUnchanged month raw_path
                       (dict_get "curated_parquet_path" rec)])
                 (cl_failed cl))).
Proof.
  intros Hfs Hprev.
  destruct (curated_prev_ok_obj _ _ _ _ Hprev) as [rec Hrec].
  exists rec. split; [exact Hrec|].
  unfold build_curated_sales_monthly.loop_body, file_sha256. unfold_M.
  cbn [fst snd]. rewrite (read_bytes_file _ _ _ _ Hfs). rewrite Hprev.
  now rewrite Hrec.
Qed.

Lemma curated_body_changed E root cl month raw_path (fs : storage) d t :
  fs !! raw_path = Some (Node (Some d) t) ->
  build_curated_sales_monthly.previous_matches fs
    (default (JObj []) (dict_get month (cl_months cl)))
    (sha256_hexdigest E d) = Ok false ->
  build_curated_sales_monthly.loop_body E root cl (month, raw_path) fs
  = match build_curated_sales_monthly.curate_one E root cl month raw_path
            (sha256_hexdigest E d) fs with
    | (fs', Raise error) =>
        (fs', Ok (CuratedLoopState (cl_months cl) (cl_processed cl)
                    (cl_unchanged cl)
                    (cl_failed cl ++
                       [CuratedFailed month raw_path (exn_str error)])))
    | r => r
    end.
Proof.
  intros Hfs Hprev.
  unfold build_curated_sales_monthly.loop_body, file_sha256. unfold_M.
  cbn [fst snd]. rewrite (read_bytes_file _ _ _ _ Hfs). now rewrite Hprev.
Qed.

Lemma build_curated_table_pure E raw_path (fs : storage) :
  (build_curated_sales_monthly.build_curated_table E raw_path fs).1 = fs.
Proof.
  unfold build_curated_sales_monthly.build_curated_table, read_bytes.
  unfold_M. destruct (duckdb_installed E); [|reflexivity]. simpl.
  destruct (fs !! raw_path) as [[[d|] t]|]; reflexivity.
Qed.

(** The [try] block of the curated stage. *)
Lemma curate_one_cases E root cl month raw_path checksum (fs : storage) :
  match build_curated_sales_monthly.build_curated_table E raw_path fs with
  | (fs1, Raise error) =>
      fs1 = fs /\
      build_curated_sales_monthly.curate_one E root cl month raw_path
        checksum fs = (fs, Raise error)
  | (fs1, Ok (table, num_rows, num_columns)) =>
      fs1 = fs /\
      let out_dir :=
        path_div (build_curated_sales_monthly.curated_base_of root)
          ("report_month_" +:+ month) in
      let curated_path := path_div out_dir "sales_monthly_curated_v1.parquet" in
      let month_report :=
        MonthReport month raw_path checksum curated_path num_rows num_columns
          (utc_now_iso E) in
      let month_report_path :=
        path_div (build_curated_sales_monthly.report_dir_of root)
          (month +:+ "_curated.json") in
      build_curated_sales_monthly.curate_one E root cl month raw_path
        checksum fs
      = (<[month_report_path :=
             Node (Some (json_dumps E (month_report_json month_report) +:+ NL))
               (now_epoch E)]>
           (<[curated_path := Node (Some table) (now_epoch E)]>
              (run_ops (now_epoch E) fs [OpMkdir out_dir])),
         Ok (CuratedLoopState
               (dict_set month
                  (JObj [("raw_parquet_path", JStr raw_path);
                         ("raw_sha256", JStr checksum);
                         ("curated_parquet_path", JStr curated_path);
                         ("curated_report_path", JStr month_report_path);
                         ("row_count", JInt num_rows);
                         ("column_count", JInt num_columns);
                         ("updated_at_utc", JStr (utc_now_iso E))])
                  (cl_months cl))
               (cl_processed cl ++ [month_report])
               (cl_unchanged cl) (cl_failed cl)))
  end.
Proof.
  unfold build_curated_sales_monthly.curate_one.
  pose proof (build_curated_table_pure E raw_path fs) as Hpure.
  destruct (build_curated_sales_monthly.build_curated_table E raw_path fs)
    as [fs1 [[[table num_rows] num_columns]|error]] eqn:Hw;
    simpl in Hpure; subst fs1; cbv beta iota.
  - split; [reflexivity|].
    unfold bind_first at 1. unfold mbind, M_bind. rewrite Hw.
    unfold_M. cbv beta iota. rewrite !write_ops_run. reflexivity.
  - split; [reflexivity|].
    unfold bind_first at 1. unfold mbind, M_bind. now rewrite Hw.
Qed.

(** ** Failure isolation *)

(** A transform that raises in the raw stage: the error is caught, the
    partition goes to [failed] with the text of the exception, the state
    records and storage stay as they were, and the loop goes on with the
    remaining files. *)
Lemma raw_loop_isolates_failure E a ls fi rest (fs : storage) d t error :
  fs !! fi_path fi = Some (Node (Some d) t) ->
  ingest_all_months.previous_matches
    (default (JObj [])
       (dict_get (ingest_all_months.normalize_state_path_key (fi_path fi))
          (ls_files ls)))
    (sha256_hexdigest E d) (fi_report_month fi) = Ok false ->
  (ingest_workbook E (fi_path fi) (negb (arg_allow_header_mismatch a)) fs).2
  = Raise error ->
  ingest_all_months.loop E a (fi :: rest) ls fs
  = ingest_all_months.loop E a rest
      (LoopState (ls_files ls) (ls_processed ls) (ls_unchanged ls)
         (ls_failed ls ++
            [FailedItem (fi_path fi) (fi_report_month fi) (exn_str error)]))
      fs.
Proof.
  intros Hfs Hprev Hw. cbn [ingest_all_months.loop].
  unfold bind_first at 1. unfold mbind, M_bind.
  rewrite (raw_body_changed _ _ _ _ _ _ _ Hfs Hprev).
  pose proof (ingest_one_cases E a ls fi
                (ingest_all_months.normalize_state_path_key (fi_path fi))
                (sha256_hexdigest E d) fs) as Hc.
  destruct (ingest_workbook E (fi_path fi)
              (negb (arg_allow_header_mismatch a)) fs)
    as [fs1 [[table report]|e]]; simpl in Hw; [discriminate|].
  injection Hw as ->. destruct Hc as [_ ->]. reflexivity.
Qed.

(** The same for the curated stage. *)
Lemma curated_loop_isolates_failure E root cl month raw_path rest
    (fs : storage) d t error :
  fs !! raw_path = Some (Node (Some d) t) ->
  build_curated_sales_monthly.previous_matches fs
    (default (JObj []) (dict_get month (cl_months cl)))
    (sha256_hexdigest E d) = Ok false ->
  (build_curated_sales_monthly.build_curated_table E raw_path fs).2
  = Raise error ->
  build_curated_sales_monthly.loop E root ((month, raw_path) :: rest) cl fs
  = build_curated_sales_monthly.loop E root rest
      (CuratedLoopState (cl_months cl) (cl_processed cl) (cl_unchanged cl)
         (cl_failed cl ++ [CuratedFailed month raw_path (exn_str error)]))
      fs.
Proof.
  intros Hfs Hprev Hw. cbn [build_curated_sales_monthly.loop].
  unfold bind_first at 1. unfold mbind, M_bind.
  rewrite (curated_body_changed _ _ _ _ _ _ _ _ Hfs Hprev).
  pose proof (curate_one_cases E root cl month raw_path
                (sha256_hexdigest E d) fs) as Hc.
  destruct (build_curated_sales_monthly.build_curated_table E raw_path fs)
    as [fs1 [[[table nr] nc]|e]]; simpl in Hw; [discriminate|].
  injection Hw as ->. destruct Hc as [_ ->]. reflexivity.
Qed.

(** ** Exit status *)

Lemma bind_first_ok {A B} (c : M A) (k : A -> M B) (fs fs' : storage) b :
  bind_first c k fs = (fs', Ok b) ->
  exists a fs1, c fs = (fs1, Ok a) /\ k a fs1 = (fs', Ok b).
Proof.
  unfold bind_first, mbind, M_bind.
  destruct (c fs) as [fs1 [a|e]]; [eauto | discriminate].
Qed.

Ltac inv_bind H :=
  let a := fresh "x" in
  let fs1 := fresh "fs" in
  let H1 := fresh "Hstep" in
  apply bind_first_ok in H as (a & fs1 & H1 & H).

(** [ingest_all_months.main] exits with status 1 exactly when its own
    [failed] list is non-empty or a post step raised. *)
Lemma ingest_main_exit_status E a (fs fs' : storage) s code :
  ingest_all_months.main E a fs = (fs', Ok (s, code)) ->
  code = if negb (bool_decide (rs_failed s = []))
            || (bool_decide (bc_error (rs_build_curated s) <> None)
                || bool_decide (ks_error (rs_generate_kpis s) <> None))
         then 1 else 0.
Proof.
  unfold ingest_all_months.main. intros H.
  inv_bind H. destruct (negb (path_is_dir x (arg_input_dir a)));
    [discriminate H|].
  do 8 inv_bind H.
  unfold mret, M_ret in H. injection H as _ <- <-. reflexivity.
Qed.

(** The curated script exits with status 1 exactly when its [failed] list
    is non-empty. *)
Lemma curated_main_exit_status E root months state_file (fs fs' : storage)
    s code :
  build_curated_sales_monthly.main E root months state_file fs
  = (fs', Ok (s, code)) ->
  code = if bool_decide (cs_failed s = []) then 0 else 1.
Proof.
  unfold build_curated_sales_monthly.main. intros H. inv_bind H.
  unfold mret, M_ret in H. injection H as _ <- <-.
  destruct (cs_failed x); reflexivity.
Qed.

(** Three partitions of which one fails in the raw stage: two processed,
    one failed, two records in the saved state, exit status 1. *)
Lemma partial_failure_of_three :
  let r :=
    ingest_all_months.main Demo.E Demo.args_raw_only Demo.fs_three_months in
  exit_status r = 1
  /\ (exists s,
        r.2 = Ok (s, 1)
        /\ len (rs_processed s) = 2 /\ len (rs_failed s) = 1
        /\ fl_report_month <$> rs_failed s = ["2024-02"])
  /\ (exists st,
        (ingest_all_months.load_state Demo.E Demo.raw_state_path r.1).2
        = Ok st
        /\ (st_records st).*1
           = ["/in/sales_2024-01.xlsx"; "/in/sales_2024-03.xlsx"]).
Proof.
  intros r. split; [by_vm|]. split.
  - exists (ok_value r.2 (Demo.empty_summary, 0)).1. repeat split; by_vm.
  - exists (ok_value
              (ingest_all_months.load_state Demo.E Demo.raw_state_path r.1).2
              Demo.old_state).
    split; by_vm.
Qed.

(** C1 at the failing input: on a machine without DuckDB, a run with
    [--build-curated] ingests January, the curated transform of January
    raises, the curated loop catches the error and counts the partition as
    failed ([failed_count] 1), and [ingest_all_months.main] still exits
    with status 0; the curated script run by itself on the same tree exits
    with 1. *)
Theorem C1_chained_curated_failure_exits_zero :
  let r :=
    ingest_all_months.main Demo.E_without_duckdb Demo.args_full
      Demo.fs_one_month in
  exit_status r = 0
  /\ (exists s,
        r.2 = Ok (s, 0) /\ rs_failed s = [] /\ len (rs_processed s) = 1
        /\ bc_error (rs_build_curated s) = None
        /\ bc_summary (rs_build_curated s)
           = Some ("processed_only", 0, 0, 1,
                   "/out/reports/sales_monthly/v1/runs/20231114T221320Z_curated_build.json"))
  /\ exit_status
       (build_curated_sales_monthly.main Demo.E_without_duckdb "/out" None
          None
          (ingest_all_months.main Demo.E_without_duckdb Demo.args_raw_only
             Demo.fs_one_month).1)
     = 1.
Proof.
  intros r. split; [by_vm|]. split; [|by_vm].
  exists (ok_value r.2 (Demo.empty_summary, 0)).1.
  repeat split; by_vm.
Qed.

(** ** Change detection *)

Lemma json_eq_str_true (x : option json) (t : string) :
  json_eq_str x t = true <-> x = Some (JStr t).
Proof.
  unfold json_eq_str. destruct x as [[| | |u| |]|]; try (split; discriminate).
  rewrite String.eqb_eq. split; [now intros -> | now intros [= ->]].
Qed.

(** The raw stage skips a file exactly when a record under its key holds
    its checksum and its month; storage is not consulted. *)
Lemma raw_unchanged_iff previous checksum month :
  ingest_all_months.previous_matches previous checksum month = Ok true
  <-> exists rec,
        previous = JObj rec
        /\ dict_get "sha256" rec = Some (JStr checksum)
        /\ dict_get "report_month" rec = Some (JStr month).
Proof.
  unfold ingest_all_months.previous_matches, py_get.
  unfold bind_first, mbind, result_bind, mret, result_ret. split.
  - destruct previous as [| | | | |rec]; try discriminate.
    destruct (json_eq_str (dict_get "sha256" rec) checksum) eqn:H1;
      [|discriminate].
    intros [= H2]. apply json_eq_str_true in H1, H2. eauto.
  - intros (rec & -> & H1 & H2).
    apply json_eq_str_true in H1, H2. now rewrite H1, H2.
Qed.

(** The curated stage skips a month exactly when a record under the month
    holds the checksum of the raw partition and the curated artifact it
    points to exists. *)
Lemma curated_unchanged_iff (fs : storage) previous checksum :
  build_curated_sales_monthly.previous_matches fs previous checksum = Ok true
  <-> exists rec p,
        previous = JObj rec
        /\ dict_get "raw_sha256" rec = Some (JStr checksum)
        /\ default (JStr "") (dict_get "curated_parquet_path" rec) = JStr p
        /\ path_exists fs p = true.
Proof.
  unfold build_curated_sales_monthly.previous_matches, py_get.
  unfold bind_first, mbind, result_bind, mret, result_ret. split.
  - destruct previous as [| | | | |rec]; try discriminate.
    destruct (json_eq_str (dict_get "raw_sha256" rec) checksum) eqn:H1;
      [|discriminate].
    apply json_eq_str_true in H1.
    destruct (default (JStr "") (dict_get "curated_parquet_path" rec))
      as [| | |p| |] eqn:H2; try discriminate.
    intros [= H3]. exists rec, p. auto.
  - intros (rec & p & -> & H1 & H2 & H3).
    apply json_eq_str_true in H1. now rewrite H1, H2, H3.
Qed.

(** C2 at the failing input: in the raw stage a file whose record holds
    its checksum and month is classified as unchanged although the parquet
    the record points to no longer exists. *)
Theorem C2_raw_stage_skips_deleted_output E a ls fi (fs : storage) d t rec
    parquet_path :
  fs !! fi_path fi = Some (Node (Some d) t) ->
  dict_get (ingest_all_months.normalize_state_path_key (fi_path fi))
    (ls_files ls) = Some (JObj rec) ->
  dict_get "sha256" rec = Some (JStr (sha256_hexdigest E d)) ->
  dict_get "report_month" rec = Some (JStr (fi_report_month fi)) ->
  dict_get "parquet_path" rec = Some (JStr parquet_path) ->
  path_exists fs parquet_path = false ->
  ingest_all_months.loop_body E a ls fi fs
  = (fs, Ok (LoopState (ls_files ls) (ls_processed ls)
               (ls_unchanged ls ++
                  [UnchangedItem (fi_path fi) (fi_report_month fi)])
               (ls_failed ls))).
Proof.
  intros Hfs Hrec Hsha Hmonth _ _.
  apply (raw_body_unchanged _ _ _ _ _ _ _ Hfs).
  rewrite Hrec. apply raw_unchanged_iff. eauto.
Qed.

Lemma C2_witness :
  path_exists Demo.fs_output_deleted Demo.january_parquet = false
  /\ ingest_all_months.loop_body Demo.E Demo.args_raw_only Demo.january_state
       Demo.january Demo.fs_output_deleted
     = (Demo.fs_output_deleted,
        Ok (LoopState (ls_files Demo.january_state) []
              [UnchangedItem "/in/sales_2024-01.xlsx" "2024-01"] [])).
Proof.
  split; [vm_compute; reflexivity|].
  apply (C2_raw_stage_skips_deleted_output Demo.E Demo.args_raw_only
           Demo.january_state Demo.january Demo.fs_output_deleted "jan" 10
           Demo.january_record Demo.january_parquet);
    vm_compute; reflexivity.
Defined.

(** ** Python dictionaries *)

Lemma dict_get_set_eq {V} (k : string) (v : V) d :
  dict_get k (dict_set k v d) = Some v.
Proof.
  induction d as [|[k' v'] d IH]; simpl.
  - now rewrite String.eqb_refl.
  - destruct (String.eqb k k') eqn:E; simpl; rewrite ?String.eqb_refl, ?E;
      auto.
Qed.

Lemma dict_get_set_ne {V} (k k' : string) (v : V) d :
  k <> k' -> dict_get k' (dict_set k v d) = dict_get k' d.
Proof.
  intros Hne. induction d as [|[k0 v0] d IH]; simpl.
  - apply String.eqb_neq in Hne. rewrite String.eqb_sym. now rewrite Hne.
  - destruct (String.eqb k k0) eqn:E; simpl.
    + apply String.eqb_eq in E as <-.
      assert (String.eqb k' k = false) as ->; [|reflexivity].
      apply String.eqb_neq. congruence.
    + now rewrite IH.
Qed.





(** ** One iteration that returns *)

(** An iteration of the raw loop that does not raise read the file and
    then skipped it, recorded its failure, or processed it. *)
Lemma raw_body_ok E a ls fi (fs fs' : storage) ls' :
  ingest_all_months.loop_body E a ls fi fs = (fs', Ok ls') ->
  exists d t,
    fs !! fi_path fi = Some (Node (Some d) t) /\
    ((ingest_all_months.previous_matches (raw_previous ls fi)
        (sha256_hexdigest E d) (fi_report_month fi) = Ok true
      /\ fs' = fs
      /\ ls' = LoopState (ls_files ls) (ls_processed ls)
                 (ls_unchanged ls ++
                    [UnchangedItem (fi_path fi) (fi_report_month fi)])
                 (ls_failed ls))
     \/ (ingest_all_months.previous_matches (raw_previous ls fi)
           (sha256_hexdigest E d) (fi_report_month fi) = Ok false
         /\ exists error,
              ingest_workbook E (fi_path fi)
                (negb (arg_allow_header_mismatch a)) fs = (fs, Raise error)
              /\ fs' = fs
              /\ ls' = LoopState (ls_files ls) (ls_processed ls)
                         (ls_unchanged ls)
                         (ls_failed ls ++
                            [FailedItem (fi_path fi) (fi_report_month fi)
                               (exn_str error)]))
     \/ (ingest_all_months.previous_matches (raw_previous ls fi)
           (sha256_hexdigest E d) (fi_report_month fi) = Ok false
         /\ exists table report,
              ingest_workbook E (fi_path fi)
                (negb (arg_allow_header_mismatch a)) fs
              = (fs, Ok (table, report))
              /\ fs' = raw_written E a table report fs
              /\ ls' = LoopState
                         (dict_set (raw_key fi)
                            (raw_record E a fi (sha256_hexdigest E d) report)
                            (ls_files ls))
                         (ls_processed ls ++
                            [ProcessedItem (fi_path fi)
                               (ir_report_month report)
                               (ingest_all_months.rows_loaded_of report)
                               (path_div
                                  (ingest_all_months.raw_dir_of
                                     (arg_output_root a)
                                     (ir_report_month report))
                                  "sales_monthly_v1.parquet")])
                         (ls_unchanged ls) (ls_failed ls))).
Proof.
  intros H.
  destruct (fs !! fi_path fi) as [[[d|] t]|] eqn:Hfs.
  2:{ rewrite (raw_body_unreadable E a ls fi fs (Exn "IsADirectoryError" (fi_path fi))) in H;
        [discriminate | unfold read_bytes; now rewrite Hfs]. }
  2:{ rewrite (raw_body_unreadable E a ls fi fs (Exn "FileNotFoundError" (fi_path fi))) in H;
        [discriminate | unfold read_bytes; now rewrite Hfs]. }
  exists d, t. split; [reflexivity|].
  destruct (ingest_all_months.previous_matches (raw_previous ls fi)
              (sha256_hexdigest E d) (fi_report_month fi))
    as [[|]|e] eqn:Hprev.
  - left. rewrite (raw_body_unchanged _ _ _ _ _ _ _ Hfs Hprev) in H.
    injection H as <- <-. auto.
  - right. rewrite (raw_body_changed _ _ _ _ _ _ _ Hfs Hprev) in H.
    pose proof (ingest_one_cases E a ls fi (raw_key fi)
                  (sha256_hexdigest E d) fs) as Hc.
    destruct (ingest_workbook E (fi_path fi)
                (negb (arg_allow_header_mismatch a)) fs)
      as [fs1 [[table report]|error]]; destruct Hc as [-> Hc].
    + right. split; [reflexivity|]. exists table, report.
      cbv zeta in Hc. rewrite Hc in H. injection H as <- <-. auto.
    + left. split; [reflexivity|]. exists error.
      rewrite Hc in H. injection H as <- <-. auto.
  - rewrite (raw_body_prev_raises _ _ _ _ _ _ _ _ Hfs Hprev) in H.
    discriminate.
Qed.

Lemma curated_body_unreadable E root cl month raw_path (fs : storage) e :
  (read_bytes raw_path fs).2 = Raise e ->
  build_curated_sales_monthly.loop_body E root cl (month, raw_path) fs
  = (fs, Raise e).
Proof.
  unfold build_curated_sales_monthly.loop_body, file_sha256, read_bytes.
  unfold_M. cbn [fst snd].
  destruct (fs !! raw_path) as [[[d|] t]|]; simpl; now intros [= <-].
Qed.

Lemma curated_body_prev_raises E root cl month raw_path (fs : storage) d t e :
  fs !! raw_path = Some (Node (Some d) t) ->
  build_curated_sales_monthly.previous_matches fs (curated_previous cl month)
    (sha256_hexdigest E d) = Raise e ->
  build_curated_sales_monthly.loop_body E root cl (month, raw_path) fs
  = (fs, Raise e).
Proof.
  intros Hfs Hprev.
  unfold build_curated_sales_monthly.loop_body, file_sha256. unfold_M.
  cbn [fst snd]. rewrite (read_bytes_file _ _ _ _ Hfs). now rewrite Hprev.
Qed.

(** The same for the curated loop. *)
Lemma curated_body_ok E root cl month raw_path (fs fs' : storage) cl' :
  build_curated_sales_monthly.loop_body E root cl (month, raw_path) fs
  = (fs', Ok cl') ->
  exists d t,
    fs !! raw_path = Some (Node (Some d) t) /\
    ((build_curated_sales_monthly.previous_matches fs
        (curated_previous cl month) (sha256_hexdigest E d) = Ok true
      /\ fs' = fs
      /\ exists rec,
           curated_previous cl month = JObj rec /\
           cl' = CuratedLoopState (cl_months cl) (cl_processed cl)
                   (cl_unchanged cl ++
                      [CuratedUnchanged month raw_path
                         (dict_get "curated_parquet_path" rec)])
                   (cl_failed cl))
     \/ (build_curated_sales_monthly.previous_matches fs
           (curated_previous cl month) (sha256_hexdigest E d) = Ok false
         /\ exists error,
              build_curated_sales_monthly.build_curated_table E raw_path fs
              = (fs, Raise error)
              /\ fs' = fs
              /\ cl' = CuratedLoopState (cl_months cl) (cl_processed cl)
                         (cl_unchanged cl)
                         (cl_failed cl ++
                            [CuratedFailed month raw_path (exn_str error)]))
     \/ (build_curated_sales_monthly.previous_matches fs
           (curated_previous cl month) (sha256_hexdigest E d) = Ok false
         /\ exists table num_rows num_columns,
              build_curated_sales_monthly.build_curated_table E raw_path fs
              = (fs, Ok (table, num_rows, num_columns))
              /\ fs' = curated_written E root month raw_path
                         (sha256_hexdigest E d) table num_rows num_columns fs
              /\ cl' = CuratedLoopState
                         (dict_set month
                            (curated_record E root month raw_path
                               (sha256_hexdigest E d) num_rows num_columns)
                            (cl_months cl))
                         (cl_processed cl ++
                            [MonthReport month raw_path
                               (sha256_hexdigest E d)
                               (curated_path_of root month) num_rows
                               num_columns (utc_now_iso E)])
                         (cl_unchanged cl) (cl_failed cl))).
Proof.
  intros H.
  destruct (fs !! raw_path) as [[[d|] t]|] eqn:Hfs.
  2:{ rewrite (curated_body_unreadable E root cl month raw_path fs
                 (Exn "IsADirectoryError" raw_path)) in H;
        [discriminate | unfold read_bytes; now rewrite Hfs]. }
  2:{ rewrite (curated_body_unreadable E root cl month raw_path fs
                 (Exn "FileNotFoundError" raw_path)) in H;
        [discriminate | unfold read_bytes; now rewrite Hfs]. }
  exists d, t. split; [reflexivity|].
  destruct (build_curated_sales_monthly.previous_matches fs
              (curated_previous cl month) (sha256_hexdigest E d))
    as [[|]|e] eqn:Hprev.
  - left.
    destruct (curated_body_unchanged E root cl month raw_path fs d t Hfs Hprev)
      as (rec & Hrec & Hbody).
    rewrite Hbody in H. injection H as <- <-. eauto.
  - right. rewrite (curated_body_changed _ _ _ _ _ _ _ _ Hfs Hprev) in H.
    pose proof (curate_one_cases E root cl month raw_path
                  (sha256_hexdigest E d) fs) as Hc.
    destruct (build_curated_sales_monthly.build_curated_table E raw_path fs)
      as [fs1 [[[table nr] nc]|error]]; destruct Hc as [-> Hc].
    + right. split; [reflexivity|]. exists table, nr, nc.
      cbv zeta in Hc. rewrite Hc in H. injection H as <- <-. auto.
    + left. split; [reflexivity|]. exists error.
      rewrite Hc in H. injection H as <- <-. auto.
  - rewrite (curated_body_prev_raises _ _ _ _ _ _ _ _ _ Hfs Hprev) in H.
    discriminate.
Qed.

(** ** State records *)




(** ** Chaining the stages *)

Lemma curated_body_considered E root cl month raw_path (fs fs' : storage) cl' :
  build_curated_sales_monthly.loop_body E root cl (month, raw_path) fs
  = (fs', Ok cl') ->
  considered_months (cl_processed cl') (cl_unchanged cl') (cl_failed cl')
  ≡ₚ considered_months (cl_processed cl) (cl_unchanged cl) (cl_failed cl)
     ++ [month].
Proof.
  intros H.
  destruct (curated_body_ok _ _ _ _ _ _ _ _ H)
    as (d & t & _ & [(_ & _ & rec & _ & ->) | [(_ & e & _ & _ & ->)
                    | (_ & table & nr & nc & _ & _ & ->)]]);
    unfold considered_months; cbn [cl_processed cl_unchanged cl_failed];
    rewrite ?fmap_app; cbn [fmap list_fmap cu_report_month cf_report_month
                              mr_report_month].
  - rewrite <- !app_assoc. apply Permutation_app_head.
    apply Permutation_app_head. apply Permutation_app_comm.
  - now rewrite <- !app_assoc.
  - rewrite <- !app_assoc. apply Permutation_app_head.
    rewrite (Permutation_app_comm [month]). now rewrite <- !app_assoc.
Qed.

Lemma curated_loop_considered E root entries cl (fs fs' : storage) cl' :
  build_curated_sales_monthly.loop E root entries cl fs = (fs', Ok cl') ->
  considered_months (cl_processed cl') (cl_unchanged cl') (cl_failed cl')
  ≡ₚ considered_months (cl_processed cl) (cl_unchanged cl) (cl_failed cl)
     ++ entries.*1.
Proof.
  revert cl fs. induction entries as [|[month raw_path] entries IH];
    intros cl fs H.
  - cbn in H. injection H as _ <-. now rewrite app_nil_r.
  - cbn [build_curated_sales_monthly.loop] in H. inv_bind H.
    rewrite (IH _ _ H), (curated_body_considered _ _ _ _ _ _ _ _ Hstep).
    rewrite fmap_cons. cbn [fst]. now rewrite <- app_assoc.
Qed.

Lemma elem_of_sorted_keys {A} (m : gmap string A) (k : string) :
  k ∈ (merge_sort key_le (map_to_list m)).*1 <-> is_Some (m !! k).
Proof.
  rewrite list_elem_of_fmap. split.
  - intros ([k' y] & -> & Hin). exists y.
    rewrite merge_sort_Permutation in Hin. now apply elem_of_map_to_list.
  - intros [y Hk]. exists (k, y). split; [reflexivity|].
    rewrite merge_sort_Permutation. now apply elem_of_map_to_list.
Qed.

Lemma months_to_consider_lookup (mapping : gmap string string) sel m :
  is_Some (build_curated_sales_monthly.months_to_consider mapping sel !! m)
  <-> is_Some (mapping !! m)
      /\ match sel with Some l => m ∈ l | None => True end.
Proof.
  unfold build_curated_sales_monthly.months_to_consider.
  destruct sel as [l|]; [|tauto].
  split.
  - intros [p Hp]. apply map_lookup_filter_Some in Hp as [Hp Hl]. eauto.
  - intros [[p Hp] Hl]. exists p. apply map_lookup_filter_Some. auto.
Qed.


Lemma processed_months_of_spec (processed : list processed_item) m :
  m ∈ ingest_all_months.processed_months_of processed
  <-> exists item, item ∈ processed /\ pi_report_month item = m.
Proof.
  unfold ingest_all_months.processed_months_of.
  rewrite merge_sort_Permutation, elem_of_remove_dups, list_elem_of_fmap.
  split; intros (item & H1 & H2); exists item; auto.
Qed.

Lemma processed_months_of_nil (processed : list processed_item) :
  ingest_all_months.processed_months_of processed = [] <-> processed = [].
Proof.
  split; [|now intros ->].
  destruct processed as [|item rest]; [reflexivity|]. intros H.
  assert (Hin : pi_report_month item
                ∈ ingest_all_months.processed_months_of (item :: rest)).
  { apply processed_months_of_spec. exists item. split; [|reflexivity].
    apply elem_of_cons. now left. }
  rewrite H in Hin. now apply elem_of_nil in Hin.
Qed.






(** ** Suffixes of paths *)

Lemma strip_suffix_spec (suf s h : string) :
  strip_suffix suf s = Some h -> s = h +:+ suf.
Proof.
  revert h. induction s as [|c s IH]; intros h; cbn [strip_suffix].
  - destruct (String.eqb "" suf) eqn:E; [|discriminate].
    apply String.eqb_eq in E as <-. now intros [= <-].
  - destruct (String.eqb (String c s) suf) eqn:E.
    + apply String.eqb_eq in E as <-. now intros [= <-].
    + destruct (strip_suffix suf s) as [h'|]; [|discriminate].
      intros [= <-]. simpl. now rewrite <- (IH h').
Qed.

Lemma ends_with_app (suf a b : string) :
  ends_with suf b = true -> ends_with suf (a +:+ b) = true.
Proof.
  intros Hb. induction a as [|c a IH]; [exact Hb|].
  unfold ends_with in *. simpl String.append. cbn [strip_suffix].
  destruct (String.eqb _ suf); [reflexivity|].
  destruct (strip_suffix suf (a +:+ b)); [reflexivity | discriminate].
Qed.

Lemma length_append (a b : string) :
  String.length (a +:+ b) = (String.length a + String.length b)%nat.
Proof. induction a as [|c a IH]; simpl; [reflexivity | now rewrite IH]. Qed.

Lemma ends_with_app_inv (suf a b : string) :
  (String.length suf <= String.length b)%nat ->
  ends_with suf (a +:+ b) = true -> ends_with suf b = true.
Proof.
  intros Hlen. induction a as [|c a IH]; [auto|].
  unfold ends_with in *. simpl String.append. cbn [strip_suffix].
  destruct (String.eqb (String c (a +:+ b)) suf) eqn:E.
  - apply String.eqb_eq in E. subst suf. simpl in Hlen.
    rewrite length_append in Hlen. lia.
  - destruct (strip_suffix suf (a +:+ b)); [|discriminate].
    intros _. now apply IH.
Qed.

Lemma path_div_assoc (p n m : string) :
  path_div p (n +:+ m) = (p +:+ "/" +:+ n) +:+ m.
Proof. unfold path_div. now rewrite !append_assoc. Qed.

(** A path that ends in [suf] is none of the paths [p / (n ++ tail)] when
    [tail] is at least as long as [suf] and does not end in it. *)
Lemma suffix_differs (suf p n tail q : string) :
  (String.length suf <= String.length tail)%nat ->
  ends_with suf tail = false ->
  ends_with suf q = true ->
  q <> path_div p (n +:+ tail).
Proof.
  intros Hlen Htail Hq ->. rewrite path_div_assoc in Hq.
  apply ends_with_app_inv in Hq; [congruence | exact Hlen].
Qed.

(** ** Lower-casing keeps the month of a name *)

Lemma ascii_lower_checks (c : ascii) :
  is_digit (ascii_lower c) = is_digit c
  /\ Ascii.eqb (ascii_lower c) "2" = Ascii.eqb c "2"
  /\ Ascii.eqb (ascii_lower c) "0" = Ascii.eqb c "0"
  /\ Ascii.eqb (ascii_lower c) "-" = Ascii.eqb c "-"
  /\ Ascii.eqb (ascii_lower c) "/" = Ascii.eqb c "/"
  /\ (is_digit c = true -> ascii_lower c = c)
  /\ (Ascii.eqb c "-" = true -> ascii_lower c = c).
Proof.
  destruct c as [[] [] [] [] [] [] [] []]; vm_compute;
    repeat split; intros; congruence.
Qed.

Lemma month_at_lower (s : string) : month_at (lower s) = month_at s.
Proof.
  unfold month_at.
  destruct s as [|a [|b [|c1 [|c2 [|h [|c3 [|c4 r]]]]]]]; try reflexivity.
  cbn [lower].
  destruct (ascii_lower_checks a) as (_ & Ha & _).
  destruct (ascii_lower_checks b) as (_ & _ & Hb & _).
  destruct (ascii_lower_checks c1) as (H1 & _ & _ & _ & _ & K1 & _).
  destruct (ascii_lower_checks c2) as (H2 & _ & _ & _ & _ & K2 & _).
  destruct (ascii_lower_checks h) as (_ & _ & _ & Hh & _ & _ & Kh).
  destruct (ascii_lower_checks c3) as (H3 & _ & _ & _ & _ & K3 & _).
  destruct (ascii_lower_checks c4) as (H4 & _ & _ & _ & _ & K4 & _).
  rewrite Ha, Hb, H1, H2, Hh, H3, H4.
  destruct (Ascii.eqb a "2") eqn:Ea; [|reflexivity].
  destruct (Ascii.eqb b "0") eqn:Eb; [|reflexivity].
  destruct (is_digit c1) eqn:E1; [|reflexivity].
  destruct (is_digit c2) eqn:E2; [|reflexivity].
  destruct (Ascii.eqb h "-") eqn:Eh; [|reflexivity].
  destruct (is_digit c3) eqn:E3; [|reflexivity].
  destruct (is_digit c4) eqn:E4; [|reflexivity].
  cbn [andb].
  apply Ascii.eqb_eq in Ea, Eb. subst a b.
  rewrite K1, K2, Kh, K3, K4 by reflexivity. reflexivity.
Qed.

Lemma re_search_month_lower (s : string) :
  re_search_month (lower s) = re_search_month s.
Proof.
  induction s as [|c s IH]; [reflexivity|].
  change (lower (String c s)) with (String (ascii_lower c) (lower s)) at 1.
  cbn [re_search_month].
  change (String (ascii_lower c) (lower s)) with (lower (String c s)).
  rewrite month_at_lower. destruct (month_at (String c s)); [reflexivity|].
  exact IH.
Qed.

Lemma no_slash_lower (s : string) : no_slash (lower s) = no_slash s.
Proof.
  induction s as [|c s IH]; [reflexivity|]. cbn [lower no_slash].
  destruct (ascii_lower_checks c) as (_ & _ & _ & _ & Hc & _).
  now rewrite Hc, IH.
Qed.

Lemma path_name_lower (p : string) : path_name (lower p) = lower (path_name p).
Proof.
  induction p as [|c p IH]; [reflexivity|].
  cbn [lower path_name].
  change (String (ascii_lower c) (lower p)) with (lower (String c p)).
  rewrite no_slash_lower. destruct (no_slash (String c p)); [reflexivity|].
  exact IH.
Qed.

(** The month of a file is determined by its state key. *)
Lemma month_of_state_key (p : string) :
  re_search_month (path_name (ingest_all_months.normalize_state_path_key p))
  = re_search_month (path_name p).
Proof.
  unfold ingest_all_months.normalize_state_path_key.
  now rewrite path_name_lower, re_search_month_lower.
Qed.

(** ** What discovery hands to the raw loop *)

Lemma scan_step_facts (E : env) (listing : list (string * node)) acc c :
  c ∈ (foldl (ingest_all_months.scan_step E) acc listing).1 ->
  c ∈ acc.1
  \/ ((exists ent, ent ∈ listing /\ fi_path c = ent.1)
      /\ parse_report_month (path_name (fi_path c)) = Ok (fi_report_month c)).
Proof.
  revert acc. induction listing as [|ent listing IH]; intros acc; [now left|].
  simpl. intros H. apply IH in H as [H|[(e & He & Hp) Hm]].
  - destruct acc as [candidates skipped].
    unfold ingest_all_months.scan_step in H.
    destruct (parse_report_month (path_name ent.1)) as [m|err] eqn:Hs;
      [|now left].
    simpl in H. apply elem_of_app in H as [H|H]; [now left|].
    apply list_elem_of_singleton in H as ->. right. simpl. split; [|exact Hs].
    exists ent. split; [apply elem_of_cons; now left | reflexivity].
  - right. split; [|exact Hm]. exists e. split; [|exact Hp].
    apply elem_of_cons. now right.
Qed.

Lemma glob_xlsx_suffix (fs : storage) (input_dir : string) ent :
  ent ∈ ingest_all_months.glob_xlsx fs input_dir ->
  ends_with ".xlsx" ent.1 = true.
Proof.
  unfold ingest_all_months.glob_xlsx. intros H.
  apply list_elem_of_fmap in H as ([n nd] & -> & H).
  rewrite merge_sort_Permutation in H.
  apply list_elem_of_omap in H as ([k v] & _ & H). cbn [fst snd] in *.
  destruct (strip_prefix (input_dir +:+ "/") k) as [n'|]; [|discriminate].
  destruct (no_slash n' && ends_with ".xlsx" n') eqn:Hc; [|discriminate].
  injection H as -> ->. apply andb_true_iff in Hc as [_ Hc].
  unfold path_div. rewrite <- append_assoc. now apply ends_with_app.
Qed.

Lemma NoDup_fmap_determined {A B C} (f : A -> B) (h : A -> C) (g : B -> C)
    (l : list A) :
  (forall x, x ∈ l -> g (f x) = h x) ->
  NoDup (h <$> l) -> NoDup (f <$> l).
Proof.
  induction l as [|x l IH]; intros Hg Hnd; [apply NoDup_nil_2|].
  rewrite fmap_cons in *. apply NoDup_cons in Hnd as [Hx Hnd].
  apply NoDup_cons. split.
  - intros Hin. apply list_elem_of_fmap in Hin as (y & Hy & Hyl).
    apply Hx. apply list_elem_of_fmap. exists y. split; [|exact Hyl].
    rewrite <- (Hg x), <- (Hg y), Hy; auto.
    + apply elem_of_cons. now right.
    + apply elem_of_cons. now left.
  - apply IH; [|exact Hnd]. intros y Hy. apply Hg. apply elem_of_cons. now right.
Qed.

Lemma fmap_snd_keys {A} (month : A -> string) (l : list (string * A)) :
  (forall kv, kv ∈ l -> month kv.2 = kv.1) -> month <$> l.*2 = l.*1.
Proof.
  induction l as [|kv l IH]; intros H; [reflexivity|].
  rewrite !fmap_cons. f_equal.
  - apply H. apply elem_of_cons. now left.
  - apply IH. intros kv' Hkv'. apply H. apply elem_of_cons. now right.
Qed.

Lemma discovered_files_facts (E : env) (listing : list (string * node)) :
  let files := (ingest_all_months.discover_listing E listing).1 in
  NoDup ((fun fi => raw_key fi) <$> files)
  /\ forall fi, fi ∈ files ->
       (exists ent, ent ∈ listing /\ fi_path fi = ent.1)
       /\ parse_report_month (path_name (fi_path fi)) = Ok (fi_report_month fi).
Proof.
  unfold ingest_all_months.discover_listing.
  pose proof (scan_step_facts E listing ([], [])) as Hscan.
  destruct (foldl (ingest_all_months.scan_step E) ([], []) listing)
    as [cands skipped0].
  change ingest_all_months.dedup_step
    with (dedup_gen fi_report_month fi_file_name fi_path fi_modified_at_epoch).
  pose proof (dedup_inv_foldl fi_report_month fi_file_name fi_path
                fi_modified_at_epoch cands [] (∅, skipped0)
                (dedup_inv_init _ _ _ _ skipped0)) as Hinv.
  destruct (foldl _ (∅, skipped0) cands) as [by_month skipped1].
  cbn [fst snd] in *.
  set (sorted := merge_sort key_le (map_to_list by_month)).
  assert (Hkv : forall kv, kv ∈ sorted -> by_month !! kv.1 = Some kv.2).
  { intros [m c] Hin. subst sorted. rewrite merge_sort_Permutation in Hin.
    now apply elem_of_map_to_list. }
  assert (Hfacts : forall fi, fi ∈ sorted.*2 ->
            (exists ent, ent ∈ listing /\ fi_path fi = ent.1)
            /\ parse_report_month (path_name (fi_path fi))
               = Ok (fi_report_month fi)).
  { intros fi Hfi. apply list_elem_of_fmap in Hfi as ([m c] & -> & Hin).
    apply Hkv in Hin. specialize (Hinv m). cbn [fst snd] in *.
    rewrite Hin in Hinv. destruct Hinv as (_ & l1 & l2 & Hc & _).
    destruct (Hscan c) as [Hc'|Hc']; [|now apply elem_of_nil in Hc'|exact Hc'].
    simpl in Hc. rewrite Hc. apply elem_of_app. right. apply elem_of_cons.
    now left. }
  split; [|exact Hfacts].
  apply (NoDup_fmap_determined _ fi_report_month
           (fun k => default "" (re_search_month (path_name k)))).
  - intros fi Hfi. rewrite month_of_state_key.
    destruct (Hfacts fi Hfi) as [_ Hp]. unfold parse_report_month in Hp.
    destruct (re_search_month (path_name (fi_path fi))); [|discriminate].
    now injection Hp as ->.
  - rewrite (fmap_snd_keys fi_report_month sorted).
    + subst sorted. rewrite merge_sort_Permutation.
      apply NoDup_fst_map_to_list.
    + intros [m c] Hin. apply Hkv in Hin. specialize (Hinv m).
      cbn [fst snd] in *. rewrite Hin in Hinv. apply Hinv.
Qed.

(** ** Writes of the stages leave the sources alone *)

Lemma mkdir_keeps (now : Z) (fs : storage) (d p : string) n :
  fs !! p = Some n -> run_ops now fs [OpMkdir d] !! p = Some n.
Proof.
  intros H. unfold run_ops. simpl. destruct (fs !! d) eqn:Hd; [exact H|].
  rewrite lookup_insert_ne; [exact H | congruence].
Qed.

Lemma raw_written_source E a table report (fs : storage) p n :
  fs !! p = Some n -> ends_with ".xlsx" p = true ->
  raw_written E a table report fs !! p = Some n.
Proof.
  intros H Hx. unfold raw_written.
  rewrite lookup_insert_ne.
  2:{ intros Heq. symmetry in Heq. revert Heq.
      apply (suffix_differs ".xlsx"); [simpl; lia | reflexivity | exact Hx]. }
  rewrite lookup_insert_ne.
  2:{ intros Heq. symmetry in Heq. revert Heq.
      change "sales_monthly_v1.parquet"
        with ("" +:+ "sales_monthly_v1.parquet").
      apply (suffix_differs ".xlsx"); [simpl; lia | reflexivity | exact Hx]. }
  now apply mkdir_keeps.
Qed.

Lemma ingest_workbook_month E path strict (fs fs' : storage) table report :
  ingest_workbook E path strict fs = (fs', Ok (table, report)) ->
  parse_report_month (path_name path) = Ok (ir_report_month report).
Proof.
  unfold ingest_workbook, read_bytes. unfold_M.
  destruct (load_schema_definition E); [|discriminate].
  destruct (parse_report_month (path_name path)) as [m|]; [|discriminate].
  destruct (fs !! path) as [[[d|] t]|]; try discriminate.
  destruct (read_workbook E path d strict); [|discriminate].
  now intros [= _ _ <-].
Qed.

(** ** Re-running the raw stage *)

Lemma raw_settled_after_body E a ls fi (fs fs' : storage) ls' :
  ingest_all_months.loop_body E a ls fi fs = (fs', Ok ls') ->
  ls_failed ls' = ls_failed ls ->
  ends_with ".xlsx" (fi_path fi) = true ->
  parse_report_month (path_name (fi_path fi)) = Ok (fi_report_month fi) ->
  raw_settled E fs' (ls_files ls') fi.
Proof.
  intros H Hf Hx Hp.
  destruct (raw_body_ok _ _ _ _ _ _ _ H)
    as (d & t & Hfs & [(Hprev & -> & ->) | [(_ & e & _ & -> & ->)
                      | (_ & table & report & Hw & -> & ->)]]);
    cbn [ls_files ls_failed] in *.
  - exists d, t. auto.
  - exfalso. apply (f_equal length) in Hf. rewrite length_app in Hf.
    simpl in Hf. lia.
  - exists d, t. split; [now apply raw_written_source|].
    rewrite dict_get_set_eq. apply raw_unchanged_iff.
    eexists. split; [reflexivity|]. split; [reflexivity|].
    apply ingest_workbook_month in Hw. rewrite Hp in Hw.
    injection Hw as ->. reflexivity.
Qed.

Lemma raw_settled_preserved E a ls fj fi (fs fs' : storage) ls' :
  ingest_all_months.loop_body E a ls fj fs = (fs', Ok ls') ->
  raw_key fj <> raw_key fi ->
  ends_with ".xlsx" (fi_path fi) = true ->
  raw_settled E fs (ls_files ls) fi ->
  raw_settled E fs' (ls_files ls') fi.
Proof.
  intros H Hne Hx (d & t & Hfs & Hprev).
  destruct (raw_body_ok _ _ _ _ _ _ _ H)
    as (d' & t' & _ & [(_ & -> & ->) | [(_ & e & _ & -> & ->)
                      | (_ & table & report & _ & -> & ->)]]);
    cbn [ls_files]; try (exists d, t; auto; fail).
  exists d, t. split; [now apply raw_written_source|].
  now rewrite dict_get_set_ne.
Qed.

Lemma raw_body_failed_grows E a ls fi (fs fs' : storage) ls' :
  ingest_all_months.loop_body E a ls fi fs = (fs', Ok ls') ->
  exists extra, ls_failed ls' = ls_failed ls ++ extra.
Proof.
  intros H.
  destruct (raw_body_ok _ _ _ _ _ _ _ H)
    as (d & t & _ & [(_ & _ & ->) | [(_ & e & _ & _ & ->)
                    | (_ & table & report & _ & _ & ->)]]);
    cbn [ls_failed]; eauto; exists []; now rewrite app_nil_r.
Qed.

Lemma raw_loop_failed_grows E a files ls (fs fs' : storage) ls' :
  ingest_all_months.loop E a files ls fs = (fs', Ok ls') ->
  exists extra, ls_failed ls' = ls_failed ls ++ extra.
Proof.
  revert ls fs. induction files as [|fi files IH]; intros ls fs H.
  - cbn in H. injection H as _ <-. exists []. now rewrite app_nil_r.
  - cbn [ingest_all_months.loop] in H. inv_bind H.
    destruct (raw_body_failed_grows _ _ _ _ _ _ _ Hstep) as [e1 H1].
    destruct (IH _ _ H) as [e2 H2]. exists (e1 ++ e2).
    now rewrite H2, H1, app_assoc.
Qed.

Lemma raw_loop_preserves_settled E a files ls fi (fs fs' : storage) ls' :
  ingest_all_months.loop E a files ls fs = (fs', Ok ls') ->
  raw_key fi ∉ (fun fj => raw_key fj) <$> files ->
  ends_with ".xlsx" (fi_path fi) = true ->
  raw_settled E fs (ls_files ls) fi ->
  raw_settled E fs' (ls_files ls') fi.
Proof.
  revert ls fs. induction files as [|fj files IH]; intros ls fs H Hk Hx Hs.
  - cbn in H. now injection H as <- <-.
  - cbn [ingest_all_months.loop] in H. inv_bind H.
    rewrite fmap_cons, not_elem_of_cons in Hk. destruct Hk as [Hne Hk].
    apply (IH _ _ H Hk Hx).
    apply (raw_settled_preserved _ _ _ _ _ _ _ _ Hstep); auto.
Qed.

Lemma raw_loop_settles E a files ls (fs fs' : storage) ls' :
  NoDup ((fun fi => raw_key fi) <$> files) ->
  (forall fi, fi ∈ files ->
     ends_with ".xlsx" (fi_path fi) = true
     /\ parse_report_month (path_name (fi_path fi))
        = Ok (fi_report_month fi)) ->
  ingest_all_months.loop E a files ls fs = (fs', Ok ls') ->
  ls_failed ls' = ls_failed ls ->
  forall fi, fi ∈ files -> raw_settled E fs' (ls_files ls') fi.
Proof.
  revert ls fs. induction files as [|fj files IH];
    intros ls fs Hnd Hsrc H Hf fi Hfi; [now apply elem_of_nil in Hfi|].
  cbn [ingest_all_months.loop] in H. inv_bind H.
  rewrite fmap_cons in Hnd. apply NoDup_cons in Hnd as [Hk Hnd].
  destruct (raw_body_failed_grows _ _ _ _ _ _ _ Hstep) as [e1 H1].
  destruct (raw_loop_failed_grows _ _ _ _ _ _ _ H) as [e2 H2].
  assert (e1 = [] /\ e2 = []) as [-> ->].
  { rewrite H2, H1, <- app_assoc in Hf.
    apply (f_equal length) in Hf. rewrite !length_app in Hf.
    destruct e1, e2; simpl in Hf; try lia. auto. }
  rewrite app_nil_r in H1, H2.
  assert (Hsrc' : forall fi, fi ∈ files ->
            ends_with ".xlsx" (fi_path fi) = true
            /\ parse_report_month (path_name (fi_path fi))
               = Ok (fi_report_month fi)).
  { intros f Hin. apply Hsrc. apply elem_of_cons. now right. }
  apply elem_of_cons in Hfi as [->|Hfi].
  - destruct (Hsrc fj) as [Hx Hp]; [apply elem_of_cons; now left|].
    apply (raw_loop_preserves_settled _ _ _ _ _ _ _ _ H Hk Hx).
    now apply (raw_settled_after_body _ _ _ _ _ _ _ Hstep).
  - apply (IH _ _ Hnd Hsrc' H); [congruence | exact Hfi].
Qed.

Lemma raw_loop_all_unchanged E a files recs p u f (fs : storage) :
  (forall fi, fi ∈ files -> raw_settled E fs recs fi) ->
  ingest_all_months.loop E a files (LoopState recs p u f) fs
  = (fs, Ok (LoopState recs p
               (u ++ ((fun fi => UnchangedItem (fi_path fi) (fi_report_month fi))
                        <$> files)) f)).
Proof.
  revert u. induction files as [|fi files IH]; intros u Hs.
  - cbn. now rewrite app_nil_r.
  - cbn [ingest_all_months.loop].
    destruct (Hs fi) as (d & t & Hfs & Hprev); [apply elem_of_cons; now left|].
    unfold bind_first at 1. unfold mbind, M_bind.
    rewrite (raw_body_unchanged E a (LoopState recs p u f) fi fs d t Hfs Hprev).
    cbn [ls_files ls_processed ls_unchanged ls_failed].
    rewrite IH.
    + rewrite fmap_cons, <- app_assoc. reflexivity.
    + intros fj Hfj. apply Hs. apply elem_of_cons. now right.
Qed.

(** ** Re-running the curated stage *)

Lemma has_entry_below_true (fs : storage) (q : string) :
  has_entry_below fs q = true
  <-> exists k, is_Some (fs !! k) /\ starts_with (q +:+ "/") k = true.
Proof.
  unfold has_entry_below. rewrite existsb_exists. split.
  - intros (k & Hin & Hk). exists k. split; [|exact Hk].
    apply list_elem_of_In, list_elem_of_fmap in Hin as ([k' v] & -> & Hin).
    apply elem_of_map_to_list in Hin. eauto.
  - intros (k & [v Hv] & Hk). exists k. split; [|exact Hk].
    apply list_elem_of_In, list_elem_of_fmap. exists (k, v).
    split; [reflexivity | now apply elem_of_map_to_list].
Qed.

Lemma path_exists_mono (fs fs' : storage) (q : string) :
  storage_le fs fs' -> path_exists fs q = true -> path_exists fs' q = true.
Proof.
  intros Hle. unfold path_exists. rewrite !orb_true_iff.
  intros [[H|H]|H]; [left; left | left; right | now right].
  - apply bool_decide_eq_true in H. apply bool_decide_eq_true. auto.
  - apply has_entry_below_true in H as (k & Hk & Hs).
    apply has_entry_below_true. eauto.
Qed.

Lemma storage_le_insert (fs : storage) (p : string) (n : node) :
  storage_le fs (<[p := n]> fs).
Proof.
  intros k Hk. rewrite lookup_insert. destruct (decide (p = k)); eauto.
Qed.

Lemma storage_le_mkdir (now : Z) (fs : storage) (d : string) :
  storage_le fs (run_ops now fs [OpMkdir d]).
Proof.
  unfold run_ops. simpl. destruct (fs !! d); [now intros k|].
  apply storage_le_insert.
Qed.

Lemma storage_le_trans (a b c : storage) :
  storage_le a b -> storage_le b c -> storage_le a c.
Proof. unfold storage_le. auto. Qed.

Lemma curated_written_le E root month raw_path checksum table nr nc
    (fs : storage) :
  storage_le fs
    (curated_written E root month raw_path checksum table nr nc fs).
Proof.
  unfold curated_written.
  eapply storage_le_trans; [apply storage_le_mkdir|].
  eapply storage_le_trans; apply storage_le_insert.
Qed.

Lemma raw_partition_is_parquet (p : string) :
  ends_with "/sales_monthly_v1.parquet" p = true ->
  ends_with ".parquet" p = true.
Proof.
  unfold ends_with at 1.
  destruct (strip_suffix "/sales_monthly_v1.parquet" p) as [h|] eqn:H;
    [|discriminate].
  intros _. apply strip_suffix_spec in H as ->. now apply ends_with_app.
Qed.

Lemma curated_written_source E root month raw_path checksum table nr nc
    (fs : storage) p n :
  fs !! p = Some n ->
  ends_with "/sales_monthly_v1.parquet" p = true ->
  curated_written E root month raw_path checksum table nr nc fs !! p = Some n.
Proof.
  intros H Hx. unfold curated_written.
  rewrite lookup_insert_ne.
  2:{ intros Heq. symmetry in Heq. revert Heq.
      unfold curated_report_path_of.
      apply (suffix_differs ".parquet");
        [simpl; lia | reflexivity | now apply raw_partition_is_parquet]. }
  rewrite lookup_insert_ne.
  2:{ intros Heq. symmetry in Heq. revert Heq. unfold curated_path_of.
      change "sales_monthly_curated_v1.parquet"
        with ("" +:+ "sales_monthly_curated_v1.parquet").
      apply (suffix_differs "/sales_monthly_v1.parquet");
        [simpl; lia | reflexivity | exact Hx]. }
  now apply mkdir_keeps.
Qed.

Lemma curated_prev_mono (fs fs' : storage) previous checksum :
  storage_le fs fs' ->
  build_curated_sales_monthly.previous_matches fs previous checksum = Ok true ->
  build_curated_sales_monthly.previous_matches fs' previous checksum = Ok true.
Proof.
  intros Hle H. apply curated_unchanged_iff in H as (rec & q & -> & H1 & H2 & H3).
  apply curated_unchanged_iff. exists rec, q.
  repeat split; auto. now apply (path_exists_mono fs).
Qed.

Lemma curated_settled_after_body E root cl month raw_path (fs fs' : storage)
    cl' :
  build_curated_sales_monthly.loop_body E root cl (month, raw_path) fs
  = (fs', Ok cl') ->
  cl_failed cl' = cl_failed cl ->
  ends_with "/sales_monthly_v1.parquet" raw_path = true ->
  curated_settled E fs' (cl_months cl') (month, raw_path).
Proof.
  intros H Hf Hx.
  destruct (curated_body_ok _ _ _ _ _ _ _ _ H)
    as (d & t & Hfs & [(Hprev & -> & rec & _ & ->) | [(_ & e & _ & -> & ->)
                      | (_ & table & nr & nc & _ & -> & ->)]]);
    cbn [cl_months cl_failed] in *.
  - exists d, t. auto.
  - exfalso. apply (f_equal length) in Hf. rewrite length_app in Hf.
    simpl in Hf. lia.
  - exists d, t. cbn [fst snd].
    split; [now apply curated_written_source|].
    rewrite dict_get_set_eq. apply curated_unchanged_iff.
    eexists _, (curated_path_of root month).
    split; [reflexivity|]. split; [reflexivity|]. split; [reflexivity|].
    unfold curated_written.
    destruct (decide (curated_report_path_of root month
                      = curated_path_of root month)) as [Heq|Hne].
    + rewrite Heq. eapply path_exists_lookup. apply lookup_insert_eq.
    + eapply path_exists_lookup. rewrite lookup_insert_ne by exact Hne.
      apply lookup_insert_eq.
Qed.

Lemma curated_settled_preserved E root cl month' raw_path' entry
    (fs fs' : storage) cl' :
  build_curated_sales_monthly.loop_body E root cl (month', raw_path') fs
  = (fs', Ok cl') ->
  month' <> entry.1 ->
  ends_with "/sales_monthly_v1.parquet" entry.2 = true ->
  curated_settled E fs (cl_months cl) entry ->
  curated_settled E fs' (cl_months cl') entry.
Proof.
  intros H Hne Hx (d & t & Hfs & Hprev).
  destruct (curated_body_ok _ _ _ _ _ _ _ _ H)
    as (d' & t' & _ & [(_ & -> & rec & _ & ->) | [(_ & e & _ & -> & ->)
                      | (_ & table & nr & nc & _ & -> & ->)]]);
    cbn [cl_months]; try (exists d, t; auto; fail).
  exists d, t. split; [now apply curated_written_source|].
  rewrite dict_get_set_ne by exact Hne.
  eapply curated_prev_mono; [apply curated_written_le | exact Hprev].
Qed.

Lemma curated_body_failed_grows E root cl month raw_path (fs fs' : storage)
    cl' :
  build_curated_sales_monthly.loop_body E root cl (month, raw_path) fs
  = (fs', Ok cl') ->
  exists extra, cl_failed cl' = cl_failed cl ++ extra.
Proof.
  intros H.
  destruct (curated_body_ok _ _ _ _ _ _ _ _ H)
    as (d & t & _ & [(_ & _ & rec & _ & ->) | [(_ & e & _ & _ & ->)
                    | (_ & table & nr & nc & _ & _ & ->)]]);
    cbn [cl_failed]; eauto; exists []; now rewrite app_nil_r.
Qed.

Lemma curated_loop_failed_grows E root entries cl (fs fs' : storage) cl' :
  build_curated_sales_monthly.loop E root entries cl fs = (fs', Ok cl') ->
  exists extra, cl_failed cl' = cl_failed cl ++ extra.
Proof.
  revert cl fs. induction entries as [|[m p] entries IH]; intros cl fs H.
  - cbn in H. injection H as _ <-. exists []. now rewrite app_nil_r.
  - cbn [build_curated_sales_monthly.loop] in H. inv_bind H.
    destruct (curated_body_failed_grows _ _ _ _ _ _ _ _ Hstep) as [e1 H1].
    destruct (IH _ _ H) as [e2 H2]. exists (e1 ++ e2).
    now rewrite H2, H1, app_assoc.
Qed.

Lemma curated_loop_preserves_settled E root entries cl entry
    (fs fs' : storage) cl' :
  build_curated_sales_monthly.loop E root entries cl fs = (fs', Ok cl') ->
  entry.1 ∉ entries.*1 ->
  ends_with "/sales_monthly_v1.parquet" entry.2 = true ->
  curated_settled E fs (cl_months cl) entry ->
  curated_settled E fs' (cl_months cl') entry.
Proof.
  revert cl fs. induction entries as [|[m p] entries IH];
    intros cl fs H Hk Hx Hs.
  - cbn in H. now injection H as <- <-.
  - cbn [build_curated_sales_monthly.loop] in H. inv_bind H.
    rewrite fmap_cons, not_elem_of_cons in Hk. destruct Hk as [Hne Hk].
    apply (IH _ _ H Hk Hx).
    apply (curated_settled_preserved _ _ _ _ _ _ _ _ _ Hstep); auto.
Qed.

Lemma curated_loop_settles E root entries cl (fs fs' : storage) cl' :
  NoDup entries.*1 ->
  (forall entry, entry ∈ entries ->
     ends_with "/sales_monthly_v1.parquet" entry.2 = true) ->
  build_curated_sales_monthly.loop E root entries cl fs = (fs', Ok cl') ->
  cl_failed cl' = cl_failed cl ->
  forall entry, entry ∈ entries -> curated_settled E fs' (cl_months cl') entry.
Proof.
  revert cl fs. induction entries as [|[m p] entries IH];
    intros cl fs Hnd Hsrc H Hf entry Hin; [now apply elem_of_nil in Hin|].
  cbn [build_curated_sales_monthly.loop] in H. inv_bind H.
  rewrite fmap_cons in Hnd. apply NoDup_cons in Hnd as [Hk Hnd].
  destruct (curated_body_failed_grows _ _ _ _ _ _ _ _ Hstep) as [e1 H1].
  destruct (curated_loop_failed_grows _ _ _ _ _ _ _ H) as [e2 H2].
  assert (e1 = [] /\ e2 = []) as [-> ->].
  { rewrite H2, H1, <- app_assoc in Hf.
    apply (f_equal length) in Hf. rewrite !length_app in Hf.
    destruct e1, e2; simpl in Hf; try lia. auto. }
  rewrite app_nil_r in H1, H2.
  assert (Hsrc' : forall entry, entry ∈ entries ->
            ends_with "/sales_monthly_v1.parquet" entry.2 = true).
  { intros e Hin'. apply Hsrc. apply elem_of_cons. now right. }
  apply elem_of_cons in Hin as [->|Hin].
  - assert (Hx : ends_with "/sales_monthly_v1.parquet" p = true).
    { apply (Hsrc (m, p)). apply elem_of_cons. now left. }
    apply (curated_loop_preserves_settled _ _ _ _ (m, p) _ _ _ H Hk Hx).
    now apply (curated_settled_after_body _ _ _ _ _ _ _ _ Hstep).
  - apply (IH _ _ Hnd Hsrc' H); [congruence | exact Hin].
Qed.

Lemma curated_loop_all_unchanged E root entries months p u f (fs : storage) :
  (forall entry, entry ∈ entries -> curated_settled E fs months entry) ->
  exists unchanged,
    build_curated_sales_monthly.loop E root entries
      (CuratedLoopState months p u f) fs
    = (fs, Ok (CuratedLoopState months p (u ++ unchanged) f))
    /\ cu_report_month <$> unchanged = entries.*1.
Proof.
  revert u. induction entries as [|[m raw] entries IH]; intros u Hs.
  - exists []. cbn. now rewrite app_nil_r.
  - destruct (Hs (m, raw)) as (d & t & Hfs & Hprev);
      [apply elem_of_cons; now left|]. cbn [fst snd] in *.
    destruct (curated_body_unchanged E root (CuratedLoopState months p u f)
                m raw fs d t Hfs Hprev) as (rec & _ & Hbody).
    cbn [cl_months cl_processed cl_unchanged cl_failed] in Hbody.
    destruct (IH (u ++ [CuratedUnchanged m raw
                          (dict_get "curated_parquet_path" rec)]))
      as (rest & Hrest & Hmonths).
    { intros e He. apply Hs. apply elem_of_cons. now right. }
    exists (CuratedUnchanged m raw (dict_get "curated_parquet_path" rec)
            :: rest).
    split.
    + cbn [build_curated_sales_monthly.loop].
      unfold bind_first at 1. unfold mbind, M_bind.
      rewrite Hbody, Hrest, <- app_assoc. reflexivity.
    + rewrite !fmap_cons, Hmonths. reflexivity.
Qed.

Lemma discovered_raw_paths (fs : storage) (root : string) mapping skipped :
  build_curated_sales_monthly.discover_raw_partitions fs root
  = Ok (mapping, skipped) ->
  forall m p, mapping !! m = Some p ->
    ends_with "/sales_monthly_v1.parquet" p = true.
Proof.
  unfold build_curated_sales_monthly.discover_raw_partitions. intros H m p Hm.
  destruct (build_curated_sales_monthly.discover_loop _ ∅ [])
    as [[selected skipped'] | e] eqn:Hloop; [|discriminate].
  injection H as <- <-. apply discover_loop_gen in Hloop.
  set (listing := build_curated_sales_monthly.glob_raw fs
                    (build_curated_sales_monthly.raw_base_of root)) in *.
  pose proof (dedup_inv_foldl partition_month
                (fun c => path_name (rc_path c)) rc_path rc_mtime
                (partition_candidate <$> listing) [] (∅, [])
                (dedup_inv_init _ _ _ _ [])) as Hinv.
  rewrite <- Hloop in Hinv. specialize (Hinv m). cbn [fst snd] in Hinv.
  rewrite lookup_fmap in Hm.
  destruct (selected !! m) as [c|]; [|discriminate]. injection Hm as <-.
  destruct Hinv as (_ & l1 & l2 & Hc & _).
  assert (Hin : c ∈ partition_candidate <$> listing).
  { simpl in Hc. rewrite Hc. apply elem_of_app. right. apply elem_of_cons.
    now left. }
  apply list_elem_of_fmap in Hin as (ent & -> & Hent).
  subst listing. unfold build_curated_sales_monthly.glob_raw in Hent.
  apply list_elem_of_fmap in Hent as ([d nd] & -> & _).
  cbn [partition_candidate rc_path fst]. unfold path_div at 1.
  now apply ends_with_app.
Qed.

Lemma save_then_load field schema bad E state_path st (fs : storage) :
  field <> "schema_id" -> field <> "updated_at" ->
  let stamped :=
    State (st_schema_id st) (JStr (utc_now_iso E)) (st_records st) in
  json_loads E (json_dumps E (state_json field stamped) +:+ NL)
  = Some (state_json field stamped) ->
  let fs' := (save_state_of field E state_path st fs).1 in
  load_state_of field schema bad E state_path fs' = (fs', Ok stamped).
Proof.
  intros Hf1 Hf2 stamped Hcodec fs'.
  pose proof (save_state_of_run E field state_path st fs) as Hsave.
  fold stamped in Hsave. subst fs'. rewrite Hsave.
  cbn [fst].
  erewrite load_state_of_mapping;
    [ | apply lookup_insert_eq | exact Hcodec | ].
  - reflexivity.
  - simpl. apply String.eqb_neq in Hf1, Hf2. now rewrite Hf1, Hf2,
      String.eqb_refl.
Qed.

(** ** Idempotence *)

(** C4, as stated, fails for the chained pipeline: January had been
    ingested by a raw-only run, then February arrives.  The first full run
    ingests February and curates February only; the second full run, with
    no source touched in between, ingests nothing, so its curated step
    runs unfiltered and processes January. *)
Lemma C4_counterexample :
  let fs0 :=
    (ingest_all_months.main Demo.E Demo.args_raw_only
       Demo.fs_first_delivery).1 in
  let run1 :=
    ingest_all_months.main Demo.E Demo.args_full
      (<["/in/b_2024-02.xlsx" := Demo.february]> fs0) in
  let run2 := ingest_all_months.main Demo.E Demo.args_full run1.1 in
  exists s1 s2,
    run1.2 = Ok (s1, 0)
    /\ rs_failed s1 = []
    /\ bc_summary (rs_build_curated s1)
       = Some ("processed_only", 1, 0, 0,
               "/out/reports/sales_monthly/v1/runs/20231114T221320Z_curated_build.json")
    /\ run2.2 = Ok (s2, 0)
    /\ rs_processed s2 = []
    /\ bc_summary (rs_build_curated s2)
       = Some ("all_available", 1, 1, 0,
               "/out/reports/sales_monthly/v1/runs/20231114T221320Z_curated_build.json").
Proof.
  intros fs0 run1 run2.
  exists (ok_value run1.2 (Demo.empty_summary, 0)).1,
         (ok_value run2.2 (Demo.empty_summary, 0)).1.
  repeat split; by_vm.
Qed.

Lemma raw_settled_same_source E (fs fs' : storage) recs fi :
  fs' !! fi_path fi = fs !! fi_path fi ->
  raw_settled E fs recs fi -> raw_settled E fs' recs fi.
Proof.
  intros Heq (d & t & Hfs & Hprev). exists d, t. now rewrite Heq.
Qed.

Lemma curated_settled_same_source E (fs fs' : storage) months entry :
  storage_le fs fs' ->
  fs' !! entry.2 = fs !! entry.2 ->
  curated_settled E fs months entry -> curated_settled E fs' months entry.
Proof.
  intros Hle Heq (d & t & Hfs & Hprev). exists d, t. rewrite Heq.
  split; [exact Hfs|]. now apply (curated_prev_mono fs).
Qed.

(** C4, amended: each stage is idempotent over its own partitions.  When
    the loop of a stage has gone through its partitions without a failure,
    going through the same partitions again, from the records the first
    pass left and from any storage in which the sources hold the same
    bytes (and, for the curated stage, nothing has been removed),
    processes none of them: every partition is classified as unchanged,
    the records stay as they are and storage is not written.  The state
    file read back after [save_state] gives the saved records, provided
    the JSON codec reads back what it wrote. *)
Theorem C4_rerun_of_a_stage_is_all_unchanged (E : env) :
  (forall a (fs0 : storage) input_dir ls0 (fs1 : storage) ls1 (fs2 : storage),
     let files :=
       (ingest_all_months.discover_input_files E fs0 input_dir).1 in
     ingest_all_months.loop E a files ls0 fs0 = (fs1, Ok ls1) ->
     ls_failed ls1 = ls_failed ls0 ->
     (forall fi, fi ∈ files -> fs2 !! fi_path fi = fs1 !! fi_path fi) ->
     ingest_all_months.loop E a files (LoopState (ls_files ls1) [] [] []) fs2
     = (fs2,
        Ok (LoopState (ls_files ls1) []
              ((fun fi => UnchangedItem (fi_path fi) (fi_report_month fi))
                 <$> files) [])))
  /\ (forall root sel (fs0 : storage) mapping skipped cl0 (fs1 : storage) cl1
             (fs2 : storage),
        build_curated_sales_monthly.discover_raw_partitions fs0 root
        = Ok (mapping, skipped) ->
        let entries :=
          merge_sort key_le
            (map_to_list
               (build_curated_sales_monthly.months_to_consider mapping sel)) in
        build_curated_sales_monthly.loop E root entries cl0 fs0
        = (fs1, Ok cl1) ->
        cl_failed cl1 = cl_failed cl0 ->
        storage_le fs1 fs2 ->
        (forall entry, entry ∈ entries -> fs2 !! entry.2 = fs1 !! entry.2) ->
        exists unchanged,
          build_curated_sales_monthly.loop E root entries
            (CuratedLoopState (cl_months cl1) [] [] []) fs2
          = (fs2, Ok (CuratedLoopState (cl_months cl1) [] unchanged []))
          /\ cu_report_month <$> unchanged = entries.*1)
  /\ (forall state_path st (fs : storage),
        let stamped :=
          State (st_schema_id st) (JStr (utc_now_iso E)) (st_records st) in
        (json_loads E (json_dumps E (state_json "files" stamped) +:+ NL)
         = Some (state_json "files" stamped) ->
         let fs' := (ingest_all_months.save_state E state_path st fs).1 in
         ingest_all_months.load_state E state_path fs' = (fs', Ok stamped))
        /\ (json_loads E (json_dumps E (state_json "months" stamped) +:+ NL)
            = Some (state_json "months" stamped) ->
            let fs' :=
              (build_curated_sales_monthly.save_state E state_path st fs).1 in
            build_curated_sales_monthly.load_state E state_path fs'
            = (fs', Ok stamped))).
Proof.
  split; [|split].
  - intros a fs0 input_dir ls0 fs1 ls1 fs2 files Hloop Hf Hsame.
    destruct (discovered_files_facts E
                (ingest_all_months.glob_xlsx fs0 input_dir)) as [Hnd Hfacts].
    fold (ingest_all_months.discover_input_files E fs0 input_dir) in Hnd, Hfacts.
    fold files in Hnd, Hfacts.
    apply (raw_loop_all_unchanged E a files (ls_files ls1) [] [] [] fs2).
    intros fi Hfi.
    apply (raw_settled_same_source E fs1); [now apply Hsame|].
    apply (raw_loop_settles E a files ls0 fs0 fs1 ls1 Hnd); auto.
    intros fj Hfj. destruct (Hfacts fj Hfj) as [(ent & Hent & Hp) Hm].
    split; [|exact Hm]. rewrite Hp. now apply (glob_xlsx_suffix fs0 input_dir).
  - intros root sel fs0 mapping skipped cl0 fs1 cl1 fs2 Hd entries Hloop Hf
      Hle Hsame.
    destruct (curated_loop_all_unchanged E root entries (cl_months cl1)
                [] [] [] fs2) as (unchanged & Hrun & Hmonths).
    + intros entry Hentry.
      apply (curated_settled_same_source E fs1); [exact Hle | now apply Hsame|].
      apply (curated_loop_settles E root entries cl0 fs0 fs1 cl1); auto.
      * subst entries. rewrite merge_sort_Permutation.
        apply NoDup_fst_map_to_list.
      * intros [m p] Hin. subst entries.
        rewrite merge_sort_Permutation in Hin.
        apply elem_of_map_to_list in Hin.
        apply (discovered_raw_paths fs0 root mapping skipped Hd m).
        unfold build_curated_sales_monthly.months_to_consider in Hin.
        destruct sel; [|exact Hin].
        now apply map_lookup_filter_Some in Hin as [Hin _].
    + exists unchanged. now split.
  - intros state_path st fs stamped. split; intros Hcodec fs'.
    + apply (save_then_load "files"); [discriminate | discriminate | exact Hcodec].
    + apply (save_then_load "months"); [discriminate | discriminate | exact Hcodec].
Qed.

Lemma C4_witness :
  (exists (fs1 : storage) ls1,
     let files :=
       (ingest_all_months.discover_input_files Demo.E Demo.fs_duplicates
          "/in").1 in
     ingest_all_months.loop Demo.E Demo.args_raw_only files
       (LoopState (ls_files ls1) [] [] []) fs1
     = (fs1,
        Ok (LoopState (ls_files ls1) []
              [UnchangedItem "/in/b_2024-01.xlsx" "2024-01";
               UnchangedItem "/in/c_2024-03.xlsx" "2024-03"] [])))
  /\ (exists (fs1 : storage) cl1 unchanged,
        build_curated_sales_monthly.loop Demo.E "/out"
          [("2024-01", Demo.january_parquet)]
          (CuratedLoopState (cl_months cl1) [] [] []) fs1
        = (fs1, Ok (CuratedLoopState (cl_months cl1) [] unchanged []))
        /\ cu_report_month <$> unchanged = ["2024-01"])
  /\ (let fs' :=
        (ingest_all_months.save_state Demo.E Demo.raw_state_path
           Demo.old_state Demo.fs_one_month).1 in
      ingest_all_months.load_state Demo.E Demo.raw_state_path fs'
      = (fs', Ok (State (JStr SCHEMA_ID) (JStr (utc_now_iso Demo.E)) []))).
Proof.
  destruct (C4_rerun_of_a_stage_is_all_unchanged Demo.E)
    as (Hraw & Hcur & Hstate).
  split; [|split].
  - set (files := (ingest_all_months.discover_input_files Demo.E
                     Demo.fs_duplicates "/in").1).
    set (r := ingest_all_months.loop Demo.E Demo.args_raw_only files
                Demo.empty_loop_state Demo.fs_duplicates).
    assert (H : r = (r.1, Ok (ok_value r.2 Demo.empty_loop_state))) by by_vm.
    assert (Hf : ls_failed (ok_value r.2 Demo.empty_loop_state)
                 = ls_failed Demo.empty_loop_state) by by_vm.
    exists r.1, (ok_value r.2 Demo.empty_loop_state).
    pose proof (Hraw Demo.args_raw_only Demo.fs_duplicates "/in"
                  Demo.empty_loop_state _ _ r.1 H Hf
                  (fun fi _ => eq_refl)) as Hrerun.
    cbv zeta in Hrerun. fold files in Hrerun. cbv zeta. rewrite Hrerun.
    by_vm.
  - set (entries :=
           merge_sort key_le
             (map_to_list
                (build_curated_sales_monthly.months_to_consider
                   Demo.duplicates_raw_mapping None))).
    set (r := build_curated_sales_monthly.loop Demo.E "/out" entries
                Demo.empty_curated_state Demo.fs_duplicates).
    assert (H : r = (r.1, Ok (ok_value r.2 Demo.empty_curated_state)))
      by by_vm.
    assert (Hf : cl_failed (ok_value r.2 Demo.empty_curated_state)
                 = cl_failed Demo.empty_curated_state) by by_vm.
    destruct (Hcur "/out" None Demo.fs_duplicates _ _
                Demo.empty_curated_state _ _ r.1 demo_duplicates_raw H Hf
                (fun k Hk => Hk) (fun entry _ => eq_refl))
      as (unchanged & Hrerun & Hmonths).
    assert (He : entries = [("2024-01", Demo.january_parquet)]) by by_vm.
    fold entries in Hrerun, Hmonths. rewrite He in Hrerun, Hmonths.
    exists r.1, (ok_value r.2 Demo.empty_curated_state), unchanged.
    split; [exact Hrerun | exact Hmonths].
  - apply (proj1 (Hstate Demo.raw_state_path Demo.old_state
                    Demo.fs_one_month)).
    by_vm.
Defined.

(** * Further properties of the scripts *)

(** ** Discovery keeps track of every listed file *)

Section dedup_accounts.
Context {A : Type} (month name path : A -> string) (mtime : A -> Z).

Lemma dedup_gen_accounts (acc : gmap string A * list skip) (x : A) :
  (path <$> (map_to_list (dedup_gen month name path mtime acc x).1).*2)
  ++ (skip_file <$> (dedup_gen month name path mtime acc x).2)
  ≡ₚ ((path <$> (map_to_list acc.1).*2) ++ (skip_file <$> acc.2))
     ++ [path x].
Proof.
  destruct acc as [sel sk]. unfold dedup_gen.
  destruct (sel !! month x) as [existing|] eqn:Hsel.
  - destruct (mtime existing <? mtime x); cbn [fst snd].
    + rewrite <- insert_delete_eq.
      rewrite map_to_list_insert by apply lookup_delete_eq.
      rewrite <- (map_to_list_delete sel (month x) existing Hsel).
      rewrite !fmap_cons, !fmap_app. cbn [snd fmap list_fmap skip_file app].
      rewrite <- !app_assoc.
      rewrite <- (Permutation_cons_append (skip_file <$> sk)).
      rewrite <- (Permutation_cons_append (skip_file <$> sk)).
      rewrite <- !Permutation_middle. apply perm_swap.
    + rewrite !fmap_app. cbn [fmap list_fmap skip_file].
      now rewrite !app_assoc.
  - cbn [fst snd]. rewrite map_to_list_insert by exact Hsel.
    rewrite !fmap_cons. cbn [snd app].
    rewrite <- !app_assoc.
    rewrite <- (Permutation_cons_append (skip_file <$> sk)).
    now rewrite <- !Permutation_middle.
Qed.

Lemma dedup_gen_foldl_accounts (l : list A) (acc : gmap string A * list skip) :
  (path <$> (map_to_list (foldl (dedup_gen month name path mtime) acc l).1).*2)
  ++ (skip_file <$> (foldl (dedup_gen month name path mtime) acc l).2)
  ≡ₚ ((path <$> (map_to_list acc.1).*2) ++ (skip_file <$> acc.2))
     ++ (path <$> l).
Proof.
  revert acc. induction l as [|x l IH]; intros acc.
  - simpl. now rewrite app_nil_r.
  - cbn [foldl]. rewrite IH, dedup_gen_accounts, fmap_cons.
    rewrite <- !app_assoc. reflexivity.
Qed.
End dedup_accounts.

Lemma strip_prefix_spec (pre s r : string) :
  strip_prefix pre s = Some r <-> s = pre +:+ r.
Proof.
  revert s. induction pre as [|a pre IH]; intros s; simpl.
  - split; [now intros [= ->] | now intros ->].
  - destruct s as [|b s].
    + split; [discriminate | discriminate].
    + destruct (Ascii.eqb a b) eqn:Hab.
      * apply Ascii.eqb_eq in Hab as ->. rewrite IH.
        split; [now intros -> | now intros [= ->]].
      * split; [discriminate|]. intros [= -> _].
        now rewrite Ascii.eqb_refl in Hab.
Qed.

Lemma scan_step_accounts (E : env) (listing : list (string * node)) acc :
  (fi_path <$> (foldl (ingest_all_months.scan_step E) acc listing).1)
  ++ (skip_file <$> (foldl (ingest_all_months.scan_step E) acc listing).2)
  ≡ₚ ((fi_path <$> acc.1) ++ (skip_file <$> acc.2)) ++ listing.*1.
Proof.
  revert acc. induction listing as [|[p nd] listing IH]; intros acc.
  - simpl. now rewrite app_nil_r.
  - cbn [foldl]. rewrite IH. rewrite fmap_cons. cbn [fst].
    destruct acc as [cands skipped].
    unfold ingest_all_months.scan_step at 1 2. cbn [fst snd].
    destruct (parse_report_month (path_name p)) as [m|e]; cbn [fst snd].
    + rewrite !fmap_app. cbn [fmap list_fmap fi_path].
      rewrite <- !app_assoc. cbn [app].
      apply Permutation_app_head.
      now rewrite <- Permutation_middle.
    + rewrite !fmap_app. cbn [fmap list_fmap skip_file].
      now rewrite <- !app_assoc.
Qed.

Lemma discover_listing_accounts (E : env) (listing : list (string * node)) :
  (fi_path <$> (ingest_all_months.discover_listing E listing).1)
  ++ (skip_file <$> (ingest_all_months.discover_listing E listing).2)
  ≡ₚ listing.*1.
Proof.
  unfold ingest_all_months.discover_listing.
  pose proof (scan_step_accounts E listing ([], [])) as Hscan.
  destruct (foldl (ingest_all_months.scan_step E) ([], []) listing)
    as [cands skipped0].
  change ingest_all_months.dedup_step
    with (dedup_gen fi_report_month fi_file_name fi_path fi_modified_at_epoch).
  pose proof (dedup_gen_foldl_accounts fi_report_month fi_file_name fi_path
                fi_modified_at_epoch cands (∅, skipped0)) as Hdedup.
  destruct (foldl _ (∅, skipped0) cands) as [by_month skipped1].
  cbn [fst snd] in *. rewrite map_to_list_empty in Hdedup.
  cbn [fmap list_fmap app] in Hdedup, Hscan.
  rewrite <- Hscan.
  rewrite (Permutation_app_comm (fi_path <$> cands)).
  rewrite <- Hdedup.
  apply Permutation_app_tail. apply fmap_Permutation, fmap_Permutation.
  apply merge_sort_Permutation.
Qed.

Lemma strip_suffix_app (suf h : string) : strip_suffix suf (h +:+ suf) = Some h.
Proof.
  induction h as [|c h IH].
  - simpl. destruct suf; simpl.
    + reflexivity.
    + now rewrite Ascii.eqb_refl, String.eqb_refl.
  - cbn [String.append strip_suffix].
    destruct (String.eqb (String c (h +:+ suf)) suf) eqn:Heq.
    + apply String.eqb_eq in Heq. apply (f_equal String.length) in Heq.
      cbn [String.length] in Heq. rewrite length_append in Heq. lia.
    + now rewrite IH.
Qed.

Lemma ends_with_spec (suf s : string) :
  ends_with suf s = true <-> exists h, s = h +:+ suf.
Proof.
  unfold ends_with. split.
  - destruct (strip_suffix suf s) as [h|] eqn:Hs; [|discriminate].
    intros _. exists h. now apply strip_suffix_spec.
  - intros [h ->]. now rewrite strip_suffix_app.
Qed.

Lemma append_inj_l (p a b : string) : p +:+ a = p +:+ b -> a = b.
Proof. induction p as [|c p IH]; simpl; [auto|]. intros [= H]. auto. Qed.

Lemma glob_xlsx_paths (fs : storage) (input_dir p : string) :
  p ∈ (ingest_all_months.glob_xlsx fs input_dir).*1
  <-> exists n, p = path_div input_dir n /\ no_slash n = true
                /\ ends_with ".xlsx" n = true /\ is_Some (fs !! p).
Proof.
  unfold ingest_all_months.glob_xlsx. rewrite list_elem_of_fmap. split.
  - intros ([q nd] & -> & Hin). cbn [fst].
    apply list_elem_of_fmap in Hin as ([n nd'] & [= -> ->] & Hin).
    rewrite merge_sort_Permutation in Hin.
    apply list_elem_of_omap in Hin as ([k v] & Hkv & Hf). cbn [fst snd] in Hf.
    destruct (strip_prefix (input_dir +:+ "/") k) as [n'|] eqn:Hp;
      [|discriminate].
    destruct (no_slash n' && ends_with ".xlsx" n') eqn:Hc; [|discriminate].
    injection Hf as -> ->. apply andb_true_iff in Hc as [Hc1 Hc2].
    apply strip_prefix_spec in Hp. apply elem_of_map_to_list in Hkv.
    exists n. cbn [fst]. unfold path_div.
    rewrite append_assoc in Hp. cbn [String.append] in Hp. subst k.
    split; [reflexivity|]. split; [exact Hc1|]. split; [exact Hc2|].
    eexists. exact Hkv.
  - intros (n & -> & Hn1 & Hn2 & nd & Hnd).
    exists (path_div input_dir n, nd). split; [reflexivity|].
    apply list_elem_of_fmap. exists (n, nd). split; [reflexivity|].
    rewrite merge_sort_Permutation. apply list_elem_of_omap.
    exists (path_div input_dir n, nd). split.
    + now apply elem_of_map_to_list.
    + cbn [fst snd].
      assert (Hp : strip_prefix (input_dir +:+ "/") (path_div input_dir n)
                   = Some n).
      { apply strip_prefix_spec. unfold path_div.
        now rewrite append_assoc. }
      rewrite Hp, Hn1, Hn2. reflexivity.
Qed.

Lemma omap_keys_sublist {A} (g : string * A -> option (string * A))
    (rebuild : string -> string) (l : list (string * A)) :
  (forall kv e, g kv = Some e -> rebuild e.1 = kv.1) ->
  (rebuild <$> (omap g l).*1) `sublist_of` l.*1.
Proof.
  intros Hg. induction l as [|kv l IH]; [constructor|].
  cbn [omap list_omap]. destruct (g kv) as [e|] eqn:He.
  - rewrite !fmap_cons. rewrite (Hg kv e He). now constructor.
  - rewrite fmap_cons. now constructor.
Qed.

Lemma glob_xlsx_NoDup (fs : storage) (input_dir : string) :
  NoDup (ingest_all_months.glob_xlsx fs input_dir).*1.
Proof.
  unfold ingest_all_months.glob_xlsx.
  match goal with
  | |- NoDup (_ <$> merge_sort _ ?l).*1 =>
      assert (Heq : ((fun e : string * node => (path_div input_dir e.1, e.2))
                       <$> merge_sort key_le l).*1
                    = path_div input_dir <$> (merge_sort key_le l).*1)
        by (rewrite <- !list_fmap_compose; reflexivity);
      rewrite Heq; clear Heq
  end.
  rewrite merge_sort_Permutation.
  apply (sublist_NoDup _ (map_to_list fs).*1);
    [apply NoDup_fst_map_to_list|].
  apply omap_keys_sublist. intros [k v] e He. cbn [fst snd] in *.
  destruct (strip_prefix (input_dir +:+ "/") k) as [n|] eqn:Hp; [|discriminate].
  destruct (no_slash n && ends_with ".xlsx" n); [|discriminate].
  injection He as <-. cbn [fst]. apply strip_prefix_spec in Hp. subst k.
  unfold path_div. now rewrite append_assoc.
Qed.

(** X1: [discover_input_files] accounts for every workbook it lists exactly
    once: the paths of the returned files together with the paths of the
    skipped entries are, without repeats, the direct [*.xlsx] entries of
    the input directory. *)
Theorem discovery_accounts_for_every_workbook (E : env) (fs : storage)
    (input_dir : string) :
  let found := ingest_all_months.discover_input_files E fs input_dir in
  let outcome := (fi_path <$> found.1) ++ (skip_file <$> found.2) in
  outcome ≡ₚ (ingest_all_months.glob_xlsx fs input_dir).*1
  /\ NoDup outcome
  /\ forall p,
       p ∈ outcome
       <-> exists n, p = path_div input_dir n /\ no_slash n = true
                     /\ ends_with ".xlsx" n = true /\ is_Some (fs !! p).
Proof.
  intros found outcome.
  assert (Hperm : outcome ≡ₚ (ingest_all_months.glob_xlsx fs input_dir).*1)
    by apply discover_listing_accounts.
  split; [exact Hperm|]. split.
  - rewrite Hperm. apply glob_xlsx_NoDup.
  - intros p. rewrite Hperm. apply glob_xlsx_paths.
Qed.

(** ** Raw partitions are found where the raw stage writes them *)

Lemma no_slash_app (a b : string) :
  no_slash (a +:+ b) = no_slash a && no_slash b.
Proof.
  induction a as [|c a IH]; simpl; [reflexivity|].
  rewrite IH. now rewrite andb_assoc.
Qed.

Lemma path_name_no_slash (n : string) : no_slash n = true -> path_name n = n.
Proof. destruct n as [|c n]; [reflexivity|]. intros H. cbn [path_name]. now rewrite H. Qed.

Lemma path_name_div (p n : string) :
  no_slash n = true -> path_name (path_div p n) = n.
Proof.
  intros Hn. unfold path_div. induction p as [|c p IH].
  - cbn [String.append path_name]. cbn [no_slash]. cbn.
    now apply path_name_no_slash.
  - cbn [String.append path_name].
    destruct (no_slash (String c _)) eqn:H; [exfalso|exact IH].
    cbn [no_slash] in H. rewrite no_slash_app in H. cbn in H.
    rewrite !andb_false_r in H. discriminate.
Qed.

Lemma path_parent_div (p n : string) :
  no_slash n = true -> path_parent (path_div p n) = p.
Proof.
  intros Hn. unfold path_div. induction p as [|c p IH].
  - cbn [String.append path_parent]. now rewrite Hn.
  - cbn [String.append path_parent].
    destruct (no_slash (p +:+ _)) eqn:H; [exfalso|f_equal; exact IH].
    rewrite no_slash_app in H. cbn in H.
    rewrite !andb_false_r in H. discriminate.
Qed.

Lemma discover_loop_distinct (raw_base : string) (l : list (string * node))
    (selected : gmap string raw_candidate) :
  (forall e, e ∈ l ->
     no_slash e.1 = true
     /\ exists m, e.1 = "report_month_" +:+ m /\ selected !! m = None) ->
  NoDup l.*1 ->
  exists sel',
    build_curated_sales_monthly.discover_loop
      ((fun e : string * node =>
          (path_div (path_div raw_base e.1) "sales_monthly_v1.parquet", e.2))
         <$> l) selected []
    = Ok (sel', [])
    /\ forall m c,
         sel' !! m = Some c
         <-> (selected !! m = Some c
              \/ exists e, e ∈ l /\ e.1 = "report_month_" +:+ m
                           /\ c = dir_candidate raw_base e).
Proof.
  revert selected. induction l as [|[d nd] l IH]; intros selected Hl Hnd.
  - exists selected. split; [reflexivity|]. intros m c. split; [auto|].
    intros [H|(e & He & _)]; [exact H|]. now apply elem_of_nil in He.
  - rewrite fmap_cons in Hnd. apply NoDup_cons in Hnd as [Hd Hnd].
    cbn [fst] in Hd.
    destruct (Hl (d, nd)) as (Hns & m0 & Hm0 & Hsel);
      [apply elem_of_cons; now left|]. cbn [fst] in Hns, Hm0.
    rewrite fmap_cons. cbn [build_curated_sales_monthly.discover_loop fst snd].
    unfold bind_first, mbind, result_bind.
    unfold build_curated_sales_monthly.parse_month_from_partition_dir.
    rewrite path_parent_div by reflexivity.
    rewrite path_name_div by exact Hns.
    assert (Hp : strip_prefix "report_month_" d = Some m0)
      by now apply strip_prefix_spec.
    rewrite Hp, Hsel.
    destruct (IH (<[m0 := dir_candidate raw_base (d, nd)]> selected))
      as (sel' & Hloop & Hsel'); [|exact Hnd|].
    + intros e He. destruct (Hl e) as (Hns' & m & Hm & Hs);
        [apply elem_of_cons; now right|].
      split; [exact Hns'|]. exists m. split; [exact Hm|].
      rewrite lookup_insert_ne; [exact Hs|].
      intros <-. apply Hd. apply list_elem_of_fmap. exists e.
      split; [|exact He]. now rewrite Hm, Hm0.
    + exists sel'. split; [exact Hloop|]. intros m c. rewrite Hsel'. split.
      * intros [H|(e & He & Hm & Hc)].
        -- destruct (decide (m0 = m)) as [<-|Hne].
           ++ rewrite lookup_insert_eq in H. injection H as <-.
              right. exists (d, nd). split; [apply elem_of_cons; now left|].
              auto.
           ++ rewrite lookup_insert_ne in H by exact Hne. now left.
        -- right. exists e. split; [apply elem_of_cons; now right|]. auto.
      * intros [H|(e & He & Hm & Hc)].
        -- left. rewrite lookup_insert_ne; [exact H|].
           intros <-. rewrite Hsel in H. discriminate.
        -- apply elem_of_cons in He as [->|He].
           ++ left. cbn [fst] in Hm. rewrite Hm0 in Hm.
              apply append_inj_l in Hm as <-. rewrite lookup_insert_eq.
              now rewrite Hc.
           ++ right. exists e. auto.
Qed.

Lemma glob_raw_dirs (fs : storage) (raw_base : string) :
  exists dirs : list (string * node),
    build_curated_sales_monthly.glob_raw fs raw_base
    = (fun e : string * node =>
         (path_div (path_div raw_base e.1) "sales_monthly_v1.parquet", e.2))
        <$> dirs
    /\ NoDup dirs.*1
    /\ forall d nd,
         (d, nd) ∈ dirs
         <-> no_slash d = true /\ starts_with "report_month_" d = true
             /\ fs !! path_div (path_div raw_base d) "sales_monthly_v1.parquet"
                = Some nd.
Proof.
  unfold build_curated_sales_monthly.glob_raw.
  match goal with
  | |- context [merge_sort key_le (omap ?g ?l)] => set (f := g)
  end.
  assert (Hf : forall k v d nd,
             f (k, v) = Some (d, nd)
             <-> k = path_div (path_div raw_base d) "sales_monthly_v1.parquet"
                 /\ v = nd /\ no_slash d = true
                 /\ starts_with "report_month_" d = true).
  { intros k v d nd. unfold f. cbn [fst snd]. split.
    - destruct (strip_prefix (raw_base +:+ "/") k) as [rest|] eqn:Hp;
        [|discriminate].
      destruct (strip_suffix "/sales_monthly_v1.parquet" rest) as [d'|] eqn:Hs;
        [|discriminate].
      destruct (no_slash d' && starts_with "report_month_" d') eqn:Hc;
        [|discriminate].
      intros [= -> ->]. apply andb_true_iff in Hc as [Hc1 Hc2].
      apply strip_prefix_spec in Hp. apply strip_suffix_spec in Hs.
      subst k rest. unfold path_div. rewrite !append_assoc. auto.
    - intros (-> & -> & Hd1 & Hd2).
      assert (Hp : strip_prefix (raw_base +:+ "/")
                     (path_div (path_div raw_base d) "sales_monthly_v1.parquet")
                   = Some (d +:+ "/sales_monthly_v1.parquet")).
      { apply strip_prefix_spec. unfold path_div. now rewrite !append_assoc. }
      rewrite Hp, strip_suffix_app, Hd1, Hd2. reflexivity. }
  exists (merge_sort key_le (omap f (map_to_list fs))).
  split; [reflexivity|]. split.
  - rewrite merge_sort_Permutation.
    apply (NoDup_fmap_1
             (fun d => path_div (path_div raw_base d) "sales_monthly_v1.parquet")).
    apply (sublist_NoDup _ (map_to_list fs).*1);
      [apply NoDup_fst_map_to_list|].
    apply omap_keys_sublist. intros [k v] [d nd] He.
    apply Hf in He as (-> & _). reflexivity.
  - intros d nd. rewrite merge_sort_Permutation, list_elem_of_omap. split.
    + intros ([k v] & Hkv & He). apply Hf in He as (-> & -> & H1 & H2).
      apply elem_of_map_to_list in Hkv. auto.
    + intros (H1 & H2 & H3).
      exists (path_div (path_div raw_base d) "sales_monthly_v1.parquet", nd).
      split; [now apply elem_of_map_to_list|]. apply Hf. auto.
Qed.

Lemma raw_partitions_spec (fs : storage) (output_root : string) :
  exists mapping,
    build_curated_sales_monthly.discover_raw_partitions fs output_root
    = Ok (mapping, [])
    /\ forall m p,
         mapping !! m = Some p
         <-> no_slash m = true
             /\ p = path_div
                      (path_div
                         (build_curated_sales_monthly.raw_base_of output_root)
                         ("report_month_" +:+ m))
                      "sales_monthly_v1.parquet"
             /\ is_Some (fs !! p).
Proof.
  unfold build_curated_sales_monthly.discover_raw_partitions.
  set (raw_base := build_curated_sales_monthly.raw_base_of output_root).
  destruct (glob_raw_dirs fs raw_base) as (dirs & -> & Hnd & Hdirs).
  destruct (discover_loop_distinct raw_base dirs ∅) as (sel' & -> & Hsel);
    [|exact Hnd|].
  - intros [d nd] He. apply Hdirs in He as (H1 & H2 & _). cbn [fst].
    split; [exact H1|]. unfold starts_with in H2.
    destruct (strip_prefix "report_month_" d) as [m|] eqn:Hp; [|discriminate].
    exists m. split; [now apply strip_prefix_spec|apply lookup_empty].
  - eexists. split; [reflexivity|]. intros m p. rewrite lookup_fmap.
    split.
    + destruct (sel' !! m) as [c|] eqn:Hc; [|discriminate].
      intros [= <-]. apply Hsel in Hc as [Hc|([d nd] & He & Hm & ->)].
      { now rewrite lookup_empty in Hc. }
      cbn [fst] in Hm. subst d. apply Hdirs in He as (H1 & _ & H3).
      rewrite no_slash_app in H1. apply andb_true_iff in H1 as [_ H1].
      unfold dir_candidate. cbn [rc_path fst]. split; [exact H1|].
      split; [reflexivity|]. now rewrite H3.
    + intros (H1 & -> & nd & H3).
      assert (Hc : sel' !! m
                   = Some (dir_candidate raw_base ("report_month_" +:+ m, nd))).
      { apply Hsel. right. exists ("report_month_" +:+ m, nd).
        split; [|split; reflexivity].
        apply Hdirs. split; [|split; [|exact H3]].
        - rewrite no_slash_app. now rewrite H1.
        - unfold starts_with.
          now rewrite (proj2 (strip_prefix_spec "report_month_" _ m) eq_refl). }
      now rewrite Hc.
Qed.

(** X2: [discover_raw_partitions] never raises and never skips: month [m] is
    mapped to [raw/sales_monthly/v1/report_month_<m>/sales_monthly_v1.parquet]
    below the output root exactly when that path exists, and the list of
    skipped partitions is empty. *)
Theorem raw_partition_discovery_is_total (fs : storage) (output_root : string) :
  exists mapping,
    build_curated_sales_monthly.discover_raw_partitions fs output_root
    = Ok (mapping, [])
    /\ forall m p,
         mapping !! m = Some p
         <-> no_slash m = true
             /\ p = path_div
                      (path_div
                         (build_curated_sales_monthly.raw_base_of output_root)
                         ("report_month_" +:+ m))
                      "sales_monthly_v1.parquet"
             /\ is_Some (fs !! p).
Proof. apply raw_partitions_spec. Qed.

(** ** The run summary adds up *)

Lemma load_state_of_reads field schema bad E state_path (fs : storage) :
  (load_state_of field schema bad E state_path fs).1 = fs.
Proof.
  unfold load_state_of. unfold_M.
  destruct (negb (path_exists fs state_path)); [reflexivity|].
  unfold read_bytes. destruct (fs !! state_path) as [[[d|] t]|]; try reflexivity.
  destruct (json_loads E d) as [payload|]; [|reflexivity].
  destruct (py_get payload field) as [files|]; [|reflexivity].
  destruct (default (JObj []) files); try reflexivity.
  destruct (py_get payload "schema_id"); [|reflexivity].
  destruct (py_get payload "updated_at"); reflexivity.
Qed.

Lemma mkdir_run E p (fs : storage) :
  mkdir E p fs = (run_ops (now_epoch E) fs [OpMkdir p], Ok tt).
Proof. reflexivity. Qed.

Lemma write_bytes_run E p data (fs : storage) :
  write_bytes E p data fs
  = (<[p := Node (Some data) (now_epoch E)]> fs, Ok tt).
Proof. unfold write_bytes, do_ops. now rewrite write_ops_run. Qed.

(** What a run of [main] that returns went through. *)
Lemma ingest_main_inv E a (fs fs' : storage) s code :
  ingest_all_months.main E a fs = (fs', Ok (s, code)) ->
  let fs0 := ingest_prepared E a fs in
  let report_dir := ingest_all_months.report_dir_of (arg_output_root a) in
  let found := ingest_all_months.discover_input_files E fs0 (arg_input_dir a) in
  path_is_dir fs (arg_input_dir a) = true
  /\ exists state ls (fs1 fs2 fs3 fs4 : storage) bc ks,
       ingest_all_months.load_state E (ingest_state_path a) fs0
       = (fs0, Ok state)
       /\ ingest_all_months.loop E a found.1
            (LoopState (st_records state) [] [] []) fs0 = (fs1, Ok ls)
       /\ fs2 = (ingest_all_months.save_state E (ingest_state_path a)
                   (State (st_schema_id state) (st_updated_at state)
                      (ls_files ls)) fs1).1
       /\ ingest_all_months.post_build_curated E a
            (ingest_all_months.processed_months_of (ls_processed ls)) fs2
          = (fs3, Ok bc)
       /\ ingest_all_months.post_generate_kpis E a fs3 = (fs4, Ok ks)
       /\ s = RunSummary (arg_input_dir a) (arg_output_root a)
                (ingest_state_path a) (len found.1) (ls_processed ls)
                (ls_unchanged ls) (ls_failed ls) found.2 bc ks
       /\ fs' = <[path_div report_dir "latest_folder_ingest.json" :=
                    Node (Some (json_dumps E
                                  (ingest_all_months.run_summary_json E s)
                                +:+ NL)) (now_epoch E)]>
                  (<[path_div (path_div report_dir "runs")
                       (run_id E +:+ "_folder_ingest.json") :=
                       Node (Some (json_dumps E
                                     (ingest_all_months.run_summary_json E s)
                                   +:+ NL)) (now_epoch E)]> fs4).
Proof.
  intros H fs0 report_dir found. unfold ingest_all_months.main in H.
  inv_bind H. unfold get_fs in Hstep. injection Hstep as <- <-.
  destruct (path_is_dir fs (arg_input_dir a)) eqn:Hdir;
    [|discriminate H]. cbn [negb] in H.
  split; [reflexivity|].
  apply bind_first_ok in H as (? & fsa & Hstep & H).
  apply bind_first_ok in H as (? & fsb & Hstep0 & H).
  assert (Hfs0 : fsb = fs0).
  { rewrite mkdir_run in Hstep, Hstep0.
    injection Hstep as <- _. injection Hstep0 as <- _.
    unfold fs0, ingest_prepared. rewrite run_ops_cons. reflexivity. }
  subst fsb. clear Hstep Hstep0.
  apply bind_first_ok in H as (state & fs1 & Hload & H).
  pose proof (load_state_of_reads "files" SCHEMA_ID
                (fun p => "Invalid state file format at " +:+ p) E
                (ingest_state_path a) fs0) as Hreads.
  fold (ingest_state_path a) in Hload.
  unfold ingest_all_months.load_state in Hload.
  rewrite Hload in Hreads. cbn [fst] in Hreads. subst fs1.
  inv_bind H. unfold get_fs in Hstep. injection Hstep as <- <-.
  apply bind_first_ok in H as (ls & fs1 & Hloop & H).
  apply bind_first_ok in H as (st' & fs2 & Hsave & H).
  apply bind_first_ok in H as (bc & fs3 & Hbc & H).
  apply bind_first_ok in H as (ks & fs4 & Hks & H).
  exists state, ls, fs1, fs2, fs3, fs4, bc, ks.
  split; [exact Hload|]. split; [exact Hloop|].
  split; [fold (ingest_state_path a) in Hsave; now rewrite Hsave|].
  split; [exact Hbc|]. split; [exact Hks|].
  inv_bind H. inv_bind H.
  unfold mret, M_ret in H. injection H as <- <- <-.
  split; [reflexivity|].
  rewrite write_bytes_run in Hstep, Hstep0.
  injection Hstep as <- _. injection Hstep0 as <- _. reflexivity.
Qed.

Lemma perm_snoc_app {A} (a b : list A) (x : A) :
  (a ++ [x]) ++ b ≡ₚ (a ++ b) ++ [x].
Proof.
  rewrite <- !app_assoc. apply Permutation_app_head. cbn [app].
  apply Permutation_cons_append.
Qed.

Lemma raw_body_accounts E a ls fi (fs fs' : storage) ls' :
  ingest_all_months.loop_body E a ls fi fs = (fs', Ok ls') ->
  outcome_files (ls_processed ls') (ls_unchanged ls') (ls_failed ls')
  ≡ₚ outcome_files (ls_processed ls) (ls_unchanged ls) (ls_failed ls)
     ++ [fi_path fi].
Proof.
  intros H. apply raw_body_ok in H as (d & t & _ & H).
  unfold outcome_files.
  destruct H as [(_ & _ & ->)|[(_ & e & _ & _ & ->)|(_ & tb & r & _ & _ & ->)]];
    cbn [ls_processed ls_unchanged ls_failed];
    rewrite !fmap_app; cbn [fmap list_fmap pi_file ui_file fl_file].
  - rewrite perm_snoc_app. now rewrite !app_assoc.
  - now rewrite !app_assoc.
  - now rewrite perm_snoc_app.
Qed.

Lemma raw_loop_accounts E a files ls (fs fs' : storage) ls' :
  ingest_all_months.loop E a files ls fs = (fs', Ok ls') ->
  outcome_files (ls_processed ls') (ls_unchanged ls') (ls_failed ls')
  ≡ₚ outcome_files (ls_processed ls) (ls_unchanged ls) (ls_failed ls)
     ++ (fi_path <$> files).
Proof.
  revert ls fs. induction files as [|fi files IH]; intros ls fs H.
  - cbn in H. injection H as _ <-. now rewrite app_nil_r.
  - cbn [ingest_all_months.loop] in H. inv_bind H.
    rewrite (IH _ _ H), (raw_body_accounts _ _ _ _ _ _ _ Hstep).
    rewrite fmap_cons. now rewrite <- app_assoc.
Qed.

(** X3: when [ingest_all_months.main] returns, every discovered file is in
    exactly one of [processed], [unchanged] and [failed]: the files of the
    three lists are a permutation of the discovered files,
    [discovered_file_count] is the sum of the three lengths and
    [discovery_skipped] is what discovery skipped. *)
Theorem ingest_run_summary_adds_up E a (fs fs' : storage) s code :
  ingest_all_months.main E a fs = (fs', Ok (s, code)) ->
  let found :=
    ingest_all_months.discover_input_files E (ingest_prepared E a fs)
      (arg_input_dir a) in
  outcome_files (rs_processed s) (rs_unchanged s) (rs_failed s)
  ≡ₚ fi_path <$> found.1
  /\ rs_discovered_file_count s
     = len (rs_processed s) + len (rs_unchanged s) + len (rs_failed s)
  /\ rs_discovery_skipped s = found.2.
Proof.
  intros H found.
  apply ingest_main_inv in H
    as (_ & state & ls & fs1 & fs2 & fs3 & fs4 & bc & ks & _ & Hloop & _ & _
        & _ & -> & _).
  fold found in Hloop |- *.
  cbn [rs_processed rs_unchanged rs_failed rs_discovered_file_count
         rs_discovery_skipped].
  apply raw_loop_accounts in Hloop. cbn in Hloop.
  split; [exact Hloop|]. split; [|reflexivity].
  apply Permutation_length in Hloop. unfold outcome_files in Hloop.
  rewrite !length_app, !length_fmap in Hloop. unfold len. lia.
Qed.

(** ** The report files of a run *)

Lemma path_div_inj_r (p n n' : string) : path_div p n = path_div p n' -> n = n'.
Proof.
  unfold path_div. intros H. apply append_inj_l in H. now injection H.
Qed.

Lemma file_bytes_insert_eq (fs : storage) p d t :
  file_bytes (<[p := Node (Some d) t]> fs) p = Some d.
Proof. unfold file_bytes. now rewrite lookup_insert_eq. Qed.

Lemma file_bytes_insert_ne (fs : storage) p q n :
  p <> q -> file_bytes (<[p := n]> fs) q = file_bytes fs q.
Proof. intros H. unfold file_bytes. now rewrite lookup_insert_ne. Qed.

(** What a curated run that returns went through. *)
Lemma run_curated_build_inv E root sel state_path (fs fs' : storage) s :
  build_curated_sales_monthly.run_curated_build E root sel state_path fs
  = (fs', Ok s) ->
  let report_dir := build_curated_sales_monthly.report_dir_of root in
  let effective :=
    default (build_curated_sales_monthly.default_state_path root) state_path in
  let fs0 :=
    run_ops (now_epoch E) fs
      [OpMkdir (build_curated_sales_monthly.curated_base_of root);
       OpMkdir report_dir; OpMkdir (path_div report_dir "runs")] in
  exists mapping skipped state cl (fs1 fs2 : storage),
    build_curated_sales_monthly.discover_raw_partitions fs root
    = Ok (mapping, skipped)
    /\ build_curated_sales_monthly.load_state E effective fs0 = (fs0, Ok state)
    /\ build_curated_sales_monthly.loop E root
         (merge_sort key_le
            (map_to_list
               (build_curated_sales_monthly.months_to_consider mapping sel)))
         (CuratedLoopState (st_records state) [] [] []) fs0 = (fs1, Ok cl)
    /\ fs2 = (build_curated_sales_monthly.save_state E effective
                (State (st_schema_id state) (st_updated_at state)
                   (cl_months cl)) fs1).1
    /\ s = CuratedSummary root effective
             (Z.of_nat
                (size (build_curated_sales_monthly.months_to_consider
                         mapping sel)))
             (cl_processed cl) (cl_unchanged cl) (cl_failed cl) skipped
             (path_div (path_div report_dir "runs")
                (run_id E +:+ "_curated_build.json"))
             (path_div report_dir "latest_curated_build.json")
    /\ fs' = <[path_div report_dir "latest_curated_build.json" :=
                 Node (Some (json_dumps E
                               (build_curated_sales_monthly.run_summary_json
                                  E s) +:+ NL)) (now_epoch E)]>
               (<[path_div (path_div report_dir "runs")
                    (run_id E +:+ "_curated_build.json") :=
                    Node (Some (json_dumps E
                                  (build_curated_sales_monthly.run_summary_json
                                     E s) +:+ NL)) (now_epoch E)]> fs2).
Proof.
  intros H report_dir effective fs0.
  unfold build_curated_sales_monthly.run_curated_build in H.
  inv_bind H. unfold get_fs in Hstep. injection Hstep as <- <-.
  apply bind_first_ok in H as ([mapping skipped] & fsd & Hd & H).
  unfold lift in Hd. injection Hd as <- Hd.
  apply bind_first_ok in H as (? & fsa & Ha & H).
  apply bind_first_ok in H as (? & fsb & Hb & H).
  apply bind_first_ok in H as (? & fsc & Hc & H).
  assert (Hfs0 : fsc = fs0).
  { rewrite mkdir_run in Ha, Hb, Hc.
    injection Ha as <- _. injection Hb as <- _. injection Hc as <- _.
    unfold fs0. rewrite run_ops_cons, (run_ops_cons _ _ (OpMkdir report_dir)).
    reflexivity. }
  subst fsc. clear Ha Hb Hc.
  apply bind_first_ok in H as (state & fs1 & Hload & H).
  pose proof (load_state_of_reads "months" CURATED_SCHEMA_ID
                (fun p => "Invalid curated state file: " +:+ p) E
                effective fs0) as Hreads.
  fold effective in Hload.
  unfold build_curated_sales_monthly.load_state in Hload.
  rewrite Hload in Hreads. cbn [fst] in Hreads. subst fs1.
  apply bind_first_ok in H as (cl & fs1 & Hloop & H).
  apply bind_first_ok in H as (st' & fs2 & Hsave & H).
  exists mapping, skipped, state, cl, fs1, fs2.
  split; [exact Hd|]. split; [exact Hload|]. split; [exact Hloop|].
  split; [fold effective in Hsave; now rewrite Hsave|].
  apply bind_first_ok in H as (? & fsw1 & Hw1 & H).
  apply bind_first_ok in H as (? & fsw2 & Hw2 & H).
  unfold mret, M_ret in H. injection H as <- <-.
  split; [reflexivity|].
  rewrite write_bytes_run in Hw1, Hw2.
  injection Hw1 as <- _. injection Hw2 as <- _. reflexivity.
Qed.

(** X4: after a run that returns, both report files hold the dump of the
    summary the run built: [latest_folder_ingest.json] and
    [runs/<run_id>_folder_ingest.json] for [ingest_all_months.main],
    [latest_curated_build.json] and [runs/<run_id>_curated_build.json], the
    paths named in the summary, for [run_curated_build]. *)
Theorem run_reports_hold_the_returned_summary (E : env) :
  (forall a (fs fs' : storage) s code,
     ingest_all_months.main E a fs = (fs', Ok (s, code)) ->
     let report_dir := ingest_all_months.report_dir_of (arg_output_root a) in
     let text :=
       json_dumps E (ingest_all_months.run_summary_json E s) +:+ NL in
     file_bytes fs' (path_div report_dir "latest_folder_ingest.json")
     = Some text
     /\ file_bytes fs'
          (path_div (path_div report_dir "runs")
             (run_id E +:+ "_folder_ingest.json"))
        = Some text)
  /\ (forall root sel state_path (fs fs' : storage) s,
        build_curated_sales_monthly.run_curated_build E root sel state_path fs
        = (fs', Ok s) ->
        let text :=
          json_dumps E (build_curated_sales_monthly.run_summary_json E s)
          +:+ NL in
        file_bytes fs' (cs_latest_report_path s) = Some text
        /\ file_bytes fs' (cs_run_report_path s) = Some text
        /\ cs_latest_report_path s
           = path_div (build_curated_sales_monthly.report_dir_of root)
               "latest_curated_build.json"
        /\ cs_run_report_path s
           = path_div
               (path_div (build_curated_sales_monthly.report_dir_of root)
                  "runs")
               (run_id E +:+ "_curated_build.json")).
Proof.
  split.
  - intros a fs fs' s code H report_dir text.
    apply ingest_main_inv in H
      as (_ & state & ls & fs1 & fs2 & fs3 & fs4 & bc & ks & _ & _ & _ & _
          & _ & _ & ->).
    fold report_dir. fold text. split.
    + apply file_bytes_insert_eq.
    + rewrite file_bytes_insert_ne; [apply file_bytes_insert_eq|].
      unfold path_div. rewrite !append_assoc. intros Hne.
      apply append_inj_l in Hne. discriminate Hne.
  - intros root sel state_path fs fs' s H text.
    apply run_curated_build_inv in H
      as (mapping & skipped & state & cl & fs1 & fs2 & _ & _ & _ & _ & Hs
          & ->).
    fold text. rewrite Hs at 1 2 3 4.
    cbn [cs_latest_report_path cs_run_report_path].
    split; [apply file_bytes_insert_eq|]. split; [|split; reflexivity].
    rewrite file_bytes_insert_ne; [apply file_bytes_insert_eq|].
    unfold path_div. rewrite !append_assoc. intros Hne.
    apply append_inj_l in Hne. discriminate Hne.
Qed.

(** ** What the raw stage touches *)

Lemma mkdir_other (now : Z) (fs : storage) (d k : string) :
  k <> d -> run_ops now fs [OpMkdir d] !! k = fs !! k.
Proof.
  intros H. cbn. destruct (fs !! d); [reflexivity|].
  now rewrite lookup_insert_ne.
Qed.

Lemma raw_written_other E a table report (fs : storage) k :
  ~ raw_artifact (arg_output_root a) k ->
  raw_written E a table report fs !! k = fs !! k.
Proof.
  intros Hk. unfold raw_written.
  rewrite lookup_insert_ne, lookup_insert_ne.
  - apply mkdir_other. intros ->. apply Hk. eexists. left. reflexivity.
  - intros <-. apply Hk. eexists. right. left. reflexivity.
  - intros <-. apply Hk. eexists. right. right. reflexivity.
Qed.

Lemma raw_written_le E a table report (fs : storage) :
  storage_le fs (raw_written E a table report fs).
Proof.
  unfold raw_written.
  eapply storage_le_trans; [apply storage_le_mkdir|].
  eapply storage_le_trans; apply storage_le_insert.
Qed.

(** One iteration leaves the storage as it is or adds the artifacts of
    one workbook, whether it returns or raises. *)
Lemma raw_body_storage E a ls fi (fs : storage) :
  (ingest_all_months.loop_body E a ls fi fs).1 = fs
  \/ exists table report,
       (ingest_all_months.loop_body E a ls fi fs).1
       = raw_written E a table report fs.
Proof.
  destruct (fs !! fi_path fi) as [[[d|] t]|] eqn:Hfs.
  - destruct (ingest_all_months.previous_matches (raw_previous ls fi)
                (sha256_hexdigest E d) (fi_report_month fi))
      as [[|]|e] eqn:Hprev.
    + left. now rewrite (raw_body_unchanged _ _ _ _ _ _ _ Hfs Hprev).
    + rewrite (raw_body_changed _ _ _ _ _ _ _ Hfs Hprev).
      pose proof (ingest_one_cases E a ls fi (raw_key fi)
                    (sha256_hexdigest E d) fs) as Hc.
      destruct (ingest_workbook E (fi_path fi)
                  (negb (arg_allow_header_mismatch a)) fs)
        as [fs1 [[table report]|e]].
      * destruct Hc as [_ ->]. right. now exists table, report.
      * destruct Hc as [_ ->]. now left.
    + left. now rewrite (raw_body_prev_raises _ _ _ _ _ _ _ _ Hfs Hprev).
  - left. rewrite (raw_body_unreadable E a ls fi fs
                     (Exn "IsADirectoryError" (fi_path fi))); [reflexivity|].
    unfold read_bytes. now rewrite Hfs.
  - left. rewrite (raw_body_unreadable E a ls fi fs
                     (Exn "FileNotFoundError" (fi_path fi))); [reflexivity|].
    unfold read_bytes. now rewrite Hfs.
Qed.

Lemma raw_loop_cons E a fi files ls (fs : storage) :
  ingest_all_months.loop E a (fi :: files) ls fs
  = match ingest_all_months.loop_body E a ls fi fs with
    | (fs1, Ok ls1) => ingest_all_months.loop E a files ls1 fs1
    | (fs1, Raise e) => (fs1, Raise e)
    end.
Proof. reflexivity. Qed.

Lemma raw_loop_storage E a files ls (fs : storage) :
  storage_le fs (ingest_all_months.loop E a files ls fs).1
  /\ forall k, ~ raw_artifact (arg_output_root a) k ->
       (ingest_all_months.loop E a files ls fs).1 !! k = fs !! k.
Proof.
  revert ls fs. induction files as [|fi files IH]; intros ls fs.
  - cbn. split; [unfold storage_le; auto | auto].
  - rewrite raw_loop_cons.
    pose proof (raw_body_storage E a ls fi fs) as Hb.
    destruct (ingest_all_months.loop_body E a ls fi fs) as [fs1 [ls1|e]];
      cbn [fst] in Hb.
    + destruct (IH ls1 fs1) as [IH1 IH2]. split.
      * eapply storage_le_trans; [|exact IH1].
        destruct Hb as [->|(tb & r & ->)];
          [unfold storage_le; auto | apply raw_written_le].
      * intros k Hk. rewrite (IH2 k Hk).
        destruct Hb as [->|(tb & r & ->)];
          [reflexivity | now apply raw_written_other].
    + cbn [fst]. split.
      * destruct Hb as [->|(tb & r & ->)];
          [unfold storage_le; auto | apply raw_written_le].
      * intros k Hk.
        destruct Hb as [->|(tb & r & ->)];
          [reflexivity | now apply raw_written_other].
Qed.







(** ** From the raw stage to the curated stage *)

Lemma is_digit_no_slash (c : ascii) :
  is_digit c = true -> Ascii.eqb c "/" = false.
Proof.
  unfold is_digit. intros H. destruct (Ascii.eqb c "/") eqn:Hc; [|reflexivity].
  apply Ascii.eqb_eq in Hc. subst c. discriminate H.
Qed.

Lemma month_shaped_no_slash (k : string) : month_shaped k -> no_slash k = true.
Proof.
  intros (c1 & c2 & c3 & c4 & -> & H1 & H2 & H3 & H4). cbn.
  now rewrite (is_digit_no_slash _ H1), (is_digit_no_slash _ H2),
    (is_digit_no_slash _ H3), (is_digit_no_slash _ H4).
Qed.

Lemma parse_report_month_shaped (name m : string) :
  parse_report_month name = Ok m -> month_shaped m.
Proof.
  unfold parse_report_month.
  destruct (re_search_month name) as [k|] eqn:Hk; [|discriminate].
  intros [= <-]. now apply re_search_month_leftmost in Hk as (_ & _ & _ & H & _).
Qed.

(** Every item the loop adds to [processed] has its parquet file in the
    storage the loop leaves, in the partition directory of its month. *)
Lemma raw_loop_processed E a files ls (fs fs' : storage) ls' :
  ingest_all_months.loop E a files ls fs = (fs', Ok ls') ->
  exists added,
    ls_processed ls' = ls_processed ls ++ added
    /\ forall item, item ∈ added ->
         month_shaped (pi_report_month item)
         /\ pi_parquet_path item
            = path_div (ingest_all_months.raw_dir_of (arg_output_root a)
                          (pi_report_month item))
                "sales_monthly_v1.parquet"
         /\ is_Some (fs' !! pi_parquet_path item).
Proof.
  revert ls fs. induction files as [|fi files IH]; intros ls fs H.
  - cbn in H. injection H as <- <-. exists []. split; [now rewrite app_nil_r|].
    intros item Hi. now apply elem_of_nil in Hi.
  - rewrite raw_loop_cons in H.
    destruct (ingest_all_months.loop_body E a ls fi fs) as [fs1 [ls1|e]]
      eqn:Hb; [|discriminate].
    destruct (IH _ _ H) as (added & Hadd & Hitems).
    pose proof (raw_loop_storage E a files ls1 fs1) as [Hle _].
    rewrite H in Hle. cbn [fst] in Hle.
    apply raw_body_ok in Hb as (d & t & _ & Hb).
    destruct Hb as [(_ & _ & ->)|[(_ & e & _ & _ & ->)
                                 |(_ & tb & r & Hw & -> & ->)]];
      cbn [ls_processed] in Hadd.
    + exists added. auto.
    + exists added. auto.
    + eexists (_ :: added). rewrite Hadd, <- app_assoc. split; [reflexivity|].
      intros item Hi. apply elem_of_cons in Hi as [->|Hi]; [|auto].
      cbn [pi_report_month pi_parquet_path].
      split; [|split; [reflexivity|]].
      * apply ingest_workbook_month in Hw.
        now apply parse_report_month_shaped in Hw.
      * apply Hle. unfold raw_written.
        rewrite lookup_insert_ne, lookup_insert_eq; [eauto|].
        unfold ingest_all_months.raw_dir_of,
          ingest_all_months.report_dir_of, path_div.
        rewrite !append_assoc. intros Hne. apply append_inj_l in Hne.
        discriminate Hne.
Qed.

Lemma save_state_of_le field E state_path st (fs : storage) :
  storage_le fs (save_state_of field E state_path st fs).1.
Proof.
  rewrite save_state_of_run. cbn [fst].
  eapply storage_le_trans; [apply storage_le_mkdir|apply storage_le_insert].
Qed.

(** The raw partitions a curated run finds once the raw loop and
    [save_state] are done. *)
Lemma processed_is_discovered E a files ls (fs fs1 fs2 : storage) ls' :
  ingest_all_months.loop E a files ls fs = (fs1, Ok ls') ->
  ls_processed ls = [] ->
  storage_le fs1 fs2 ->
  exists mapping,
    build_curated_sales_monthly.discover_raw_partitions fs2 (arg_output_root a)
    = Ok (mapping, [])
    /\ forall item, item ∈ ls_processed ls' ->
         mapping !! pi_report_month item = Some (pi_parquet_path item).
Proof.
  intros Hloop Hnil Hle.
  destruct (raw_partitions_spec fs2 (arg_output_root a))
    as (mapping & Hd & Hmap).
  exists mapping. split; [exact Hd|]. intros item Hi.
  apply raw_loop_processed in Hloop as (added & Hadd & Hitems).
  rewrite Hnil in Hadd. cbn [app] in Hadd. rewrite Hadd in Hi.
  destruct (Hitems item Hi) as (Hm & Hp & Hs).
  apply Hmap. split; [now apply month_shaped_no_slash|]. split.
  - rewrite Hp. reflexivity.
  - now apply Hle.
Qed.

(** X6: after a run of [ingest_all_months.main] without post steps,
    [discover_raw_partitions] on the tree the run leaves maps the month of
    every processed item to the parquet path of that item, and skips
    nothing. *)
Theorem raw_only_run_feeds_the_curated_stage E a (fs fs' : storage) s code :
  arg_build_curated a = false ->
  arg_generate_kpis a = false ->
  ingest_all_months.main E a fs = (fs', Ok (s, code)) ->
  exists mapping,
    build_curated_sales_monthly.discover_raw_partitions fs' (arg_output_root a)
    = Ok (mapping, [])
    /\ forall item, item ∈ rs_processed s ->
         mapping !! pi_report_month item = Some (pi_parquet_path item).
Proof.
  intros Hbc Hks H.
  apply ingest_main_inv in H
    as (_ & state & ls & fs1 & fs2 & fs3 & fs4 & bc & ks & _ & Hloop & Hsave
        & Hpost & Hkpi & -> & ->).
  cbn [rs_processed].
  unfold ingest_all_months.post_build_curated in Hpost. rewrite Hbc in Hpost.
  unfold ingest_all_months.post_generate_kpis in Hkpi. rewrite Hks in Hkpi.
  unfold mret, M_ret in Hpost, Hkpi.
  injection Hpost as <- _. injection Hkpi as <- _.
  eapply processed_is_discovered; [exact Hloop|reflexivity|].
  eapply storage_le_trans; [|apply storage_le_insert].
  eapply storage_le_trans; [|apply storage_le_insert].
  subst fs2. apply save_state_of_le.
Qed.

Lemma processed_months_NoDup (processed : list processed_item) :
  NoDup (ingest_all_months.processed_months_of processed).
Proof.
  unfold ingest_all_months.processed_months_of.
  rewrite merge_sort_Permutation. apply NoDup_remove_dups.
Qed.

(** X7: in a run with [--build-curated] that processed at least one file and
    whose curated step reported no error, the summary of the step has mode
    [processed_only], and its three counts add up to the number of distinct
    months among the processed items. *)
Theorem chained_curated_step_covers_processed_months E a (fs fs' : storage)
    s code :
  arg_build_curated a = true ->
  ingest_all_months.main E a fs = (fs', Ok (s, code)) ->
  bc_error (rs_build_curated s) = None ->
  rs_processed s <> [] ->
  exists np nu nf rp,
    bc_summary (rs_build_curated s)
    = Some ("processed_only", np, nu, nf, rp)
    /\ np + nu + nf
       = len (ingest_all_months.processed_months_of (rs_processed s)).
Proof.
  intros Hbc H Herr Hne.
  apply ingest_main_inv in H
    as (_ & state & ls & fs1 & fs2 & fs3 & fs4 & bc & ks & _ & Hloop & Hsave
        & Hpost & _ & -> & _).
  cbn [rs_processed rs_build_curated] in *.
  set (pm := ingest_all_months.processed_months_of (ls_processed ls)) in *.
  assert (Hpm : pm <> []).
  { intros Hnil. apply Hne. now apply processed_months_of_nil. }
  unfold ingest_all_months.post_build_curated in Hpost. rewrite Hbc in Hpost.
  unfold try_except, bind_first, mbind, M_bind, mret, M_ret in Hpost.
  destruct (build_curated_sales_monthly.run_curated_build E _ _ None fs2)
    as [fs5 [summary|e]] eqn:Hrun.
  2:{ injection Hpost as _ <-. discriminate Herr. }
  injection Hpost as _ <-. cbn [bc_summary].
  destruct pm as [|m0 pm'] eqn:Epm; [contradiction|]. rewrite <- Epm in *.
  assert (Hsel : ingest_all_months.months_for_curated pm = Some pm)
    by now rewrite Epm.
  rewrite Hsel in Hrun.
  do 4 eexists. split; [rewrite Epm; reflexivity|].
  apply run_curated_build_inv in Hrun
    as (mapping & skipped & cstate & cl & fs6 & fs7 & Hd & _ & Hcl & _ & ->
        & _).
  cbn [cs_processed cs_unchanged cs_failed].
  apply curated_loop_considered in Hcl.
  apply Permutation_length in Hcl. unfold considered_months in Hcl.
  rewrite !length_app, !length_fmap in Hcl.
  cbn [cl_processed cl_unchanged cl_failed length Nat.add] in Hcl.
  assert (Hkeys : (map_to_list
                     (build_curated_sales_monthly.months_to_consider mapping
                        (Some pm))).*1 ≡ₚ pm).
  { apply NoDup_Permutation.
    - apply NoDup_fst_map_to_list.
    - apply processed_months_NoDup.
    - intros m. rewrite list_elem_of_fmap. split.
      + intros ([k p] & -> & Hin). apply elem_of_map_to_list in Hin.
        cbn [fst]. unfold build_curated_sales_monthly.months_to_consider in Hin.
        apply map_lookup_filter_Some in Hin as [_ Hin]. exact Hin.
      + intros Hm.
        destruct (processed_is_discovered E a _ _ _ fs1 fs2 ls Hloop eq_refl)
          as (mapping' & Hd' & Hmap).
        { subst fs2. apply save_state_of_le. }
        rewrite Hd in Hd'. injection Hd' as <-.
        apply processed_months_of_spec in Hm as (item & Hitem & <-).
        exists (pi_report_month item, pi_parquet_path item).
        split; [reflexivity|]. apply elem_of_map_to_list.
        unfold build_curated_sales_monthly.months_to_consider.
        apply map_lookup_filter_Some. split; [now apply Hmap|].
        cbn [fst]. apply processed_months_of_spec. eauto. }
  rewrite merge_sort_Permutation in Hcl.
  apply Permutation_length in Hkeys. rewrite length_fmap in Hkeys.
  unfold len. lia.
Qed.

(** ** The KPI generator: month and option checks *)



(** ** The KPI generator: the history window *)

Lemma index_of_spec (x : string) (l : list string) :
  match index_of x l with
  | Some i =>
      l !! i = Some x /\ forall j, (j < i)%nat -> l !! j <> Some x
  | None => x ∉ l
  end.
Proof.
  induction l as [|y l IH]; cbn [index_of].
  - apply not_elem_of_nil.
  - destruct (String.eqb y x) eqn:Hyx.
    + apply String.eqb_eq in Hyx as ->. split; [reflexivity|]. intros j Hj. lia.
    + apply String.eqb_neq in Hyx.
      destruct (index_of x l) as [i|]; cbn [fmap option_fmap option_map].
      * destruct IH as [IH1 IH2]. split; [exact IH1|].
        intros [|j] Hj; cbn; [congruence|]. apply IH2. lia.
      * rewrite elem_of_cons. intros [->|H]; [congruence|contradiction].
Qed.

Lemma last_take_S {A} (l : list A) (i : nat) (x : A) :
  l !! i = Some x -> last (take (S i) l) = Some x.
Proof.
  intros H. rewrite (take_S_r l i x H). apply last_snoc.
Qed.

Lemma last_drop {A} (l : list A) (n : nat) (x : A) :
  (n < length l)%nat -> last l = Some x -> last (drop n l) = Some x.
Proof.
  revert n. induction l as [|y l IH]; intros n Hn Hl; [cbn in Hn; lia|].
  destruct n as [|n]; [exact Hl|]. cbn [drop]. cbn [length] in Hn.
  destruct l as [|z l]; [cbn in Hn; lia|].
  apply IH; [cbn [length] in *; lia|]. exact Hl.
Qed.

Lemma history_window_facts (P : pylib)
    (all_months : list string) (target_month : string) :
  (target_month ∉ all_months ->
   forall history_months,
     exists e,
       generate_sales_kpis.selected_history_months P all_months target_month
         history_months = Raise e
       /\ exn_type e = "ValueError")
  /\ (target_month ∈ all_months ->
      exists i,
        all_months !! i = Some target_month
        /\ (forall j, (j < i)%nat -> all_months !! j <> Some target_month)
        /\ index_of target_month all_months = Some i
        /\ generate_sales_kpis.selected_history_months P all_months
             target_month None = Ok (take (S i) all_months)
        /\ generate_sales_kpis.selected_history_months P all_months
             target_month (Some 0) = Ok (take (S i) all_months)
        /\ forall h, 1 <= h ->
             exists window,
               generate_sales_kpis.selected_history_months P all_months
                 target_month (Some h) = Ok window
               /\ window = drop (S i - Z.to_nat h) (take (S i) all_months)
               /\ len window = Z.min h (Z.of_nat (S i))
               /\ last window = Some target_month).
Proof.
  pose proof (index_of_spec target_month all_months) as Hidx.
  unfold generate_sales_kpis.selected_history_months.
  destruct (index_of target_month all_months) as [i|] eqn:Hindex.
  - destruct Hidx as [Hi Hfirst]. split.
    + intros Hnot. exfalso. apply Hnot. eapply list_elem_of_lookup_2, Hi.
    + intros _. exists i. split; [exact Hi|]. split; [exact Hfirst|].
      split; [reflexivity|].
      split; [reflexivity|]. split; [reflexivity|].
      intros h Hh. eexists. split; [reflexivity|].
      assert (Hlen : length (take (S i) all_months) = S i).
      { rewrite length_take. apply lookup_lt_Some in Hi. lia. }
      assert (Hslice : slice_from (- h) (take (S i) all_months)
                       = drop (S i - Z.to_nat h) (take (S i) all_months)).
      { unfold slice_from. replace (- h <? 0) with true by (symmetry; lia).
        unfold len. rewrite Hlen. f_equal. lia. }
      rewrite Hslice. split; [reflexivity|]. split.
      * unfold len. rewrite length_drop, Hlen. lia.
      * apply last_drop; [rewrite Hlen; lia|]. now apply last_take_S.
  - split.
    + intros _ history_months. eexists. split; reflexivity.
    + intros Hin. contradiction.
Qed.

(** X9: [selected_history_months] raises [ValueError] when the target month is
    not listed; otherwise, with [i] the first index of the target, it returns
    the months up to and including the target for [None] and for [0], and
    for [h >= 1] the last [min h (i + 1)] of them: a window that ends at
    the target. *)
Theorem history_window_ends_at_the_target (P : pylib)
    (all_months : list string) (target_month : string) :
  (target_month ∉ all_months ->
   forall history_months,
     exists e,
       generate_sales_kpis.selected_history_months P all_months target_month
         history_months = Raise e
       /\ exn_type e = "ValueError")
  /\ (target_month ∈ all_months ->
      exists i,
        all_months !! i = Some target_month
        /\ (forall j, (j < i)%nat -> all_months !! j <> Some target_month)
        /\ generate_sales_kpis.selected_history_months P all_months
             target_month None = Ok (take (S i) all_months)
        /\ generate_sales_kpis.selected_history_months P all_months
             target_month (Some 0) = Ok (take (S i) all_months)
        /\ forall h, 1 <= h ->
             exists window,
               generate_sales_kpis.selected_history_months P all_months
                 target_month (Some h) = Ok window
               /\ window = drop (S i - Z.to_nat h) (take (S i) all_months)
               /\ len window = Z.min h (Z.of_nat (S i))
               /\ last window = Some target_month).
Proof.
  destruct (history_window_facts P all_months target_month) as [H1 H2].
  split; [exact H1|]. intros Hin.
  destruct (H2 Hin) as (i & Hi & Hfirst & _ & Hrest).
  exists i. auto.
Qed.

Lemma starts_with_cons a p b s :
  starts_with (String a p) (String b s) = Ascii.eqb a b && starts_with p s.
Proof.
  unfold starts_with. cbn [strip_prefix]. now destruct (Ascii.eqb a b).
Qed.

Lemma starts_with_empty s : starts_with "" s = true.
Proof. now destruct s. Qed.

(** ** The memory limit of the DuckDB session *)














(** ** The payload of the quick-look page *)

Lemma replace_close_step (c : ascii) (r : string) :
  replace_from 0 "</" escaped_close (String c r)
  = if Ascii.eqb "<" c && starts_with "/" r
    then match r with
         | EmptyString => EmptyString
         | String _ r' =>
             escaped_close +:+ replace_from 0 "</" escaped_close r'
         end
    else String c (replace_from 0 "</" escaped_close r).
Proof.
  cbn [replace_from String.length Nat.sub]. rewrite starts_with_cons.
  destruct (Ascii.eqb "<" c); cbn [andb]; [|reflexivity].
  destruct r as [|d r']; [reflexivity|].
  rewrite starts_with_cons, starts_with_empty, andb_true_r.
  cbn [replace_from].
  destruct (Ascii.eqb "/" d); reflexivity.
Qed.

Lemma replace_close_clean (n : nat) :
  forall s, (String.length s <= n)%nat ->
    contains "</" (replace_from 0 "</" escaped_close s) = false
    /\ (starts_with "/" (replace_from 0 "</" escaped_close s) = true ->
        starts_with "/" s = true).
Proof.
  induction n as [|n IH]; intros s Hn.
  - destruct s; [|cbn in Hn; lia]. split; [reflexivity|discriminate].
  - destruct s as [|c r]; [split; [reflexivity|discriminate]|].
    cbn [String.length] in Hn.
    rewrite replace_close_step.
    destruct (Ascii.eqb "<" c && starts_with "/" r) eqn:Hhit.
    + destruct r as [|d r']; [discriminate (proj2 (proj1 (andb_true_iff _ _) Hhit))|].
      cbn [String.length] in Hn.
      destruct (IH r' ltac:(lia)) as [IH1 IH2].
      split.
      * unfold escaped_close. cbn [String.append contains].
        rewrite !starts_with_cons.
        change (Ascii.eqb "/" (ascii_of_nat 92)) with false.
        change (Ascii.eqb "<" (ascii_of_nat 92)) with false.
        change (Ascii.eqb "<" "/") with false.
        cbn [andb orb]. exact IH1.
      * unfold escaped_close. cbn [String.append].
        rewrite starts_with_cons.
        change (Ascii.eqb "/" "<") with false. discriminate.
    + destruct (IH r ltac:(lia)) as [IH1 IH2]. split.
      * cbn [contains]. rewrite IH1, orb_false_r.
        rewrite starts_with_cons.
        destruct (Ascii.eqb "<" c) eqn:Hc; [|reflexivity].
        cbn [andb] in Hhit |- *.
        destruct (starts_with "/" (replace_from 0 "</" escaped_close r)) eqn:Hs;
          [|reflexivity].
        rewrite (IH2 eq_refl) in Hhit. discriminate.
      * rewrite !starts_with_cons, !starts_with_empty. now intros ->.
Qed.

(** X11: the text that [json_for_html_script] returns never contains [</],
    whatever the payload is. *)
Theorem embedded_payload_never_closes_the_script (P : pylib)
    (payload : json) :
  contains "</" (generate_sales_kpis.json_for_html_script P payload) = false.
Proof.
  unfold generate_sales_kpis.json_for_html_script, replace.
  exact (proj1 (replace_close_clean _ _ (Nat.le_refl _))).
Qed.

(** ** Curated partitions are found where the curated stage writes them *)

Lemma glob_curated_dirs (fs : storage) (curated_base : string) :
  exists dirs : list string,
    generate_sales_kpis.glob_curated fs curated_base
    = curated_file_of curated_base <$> dirs
    /\ forall d,
         d ∈ dirs
         <-> no_slash d = true /\ starts_with "report_month_" d = true
             /\ is_Some (fs !! curated_file_of curated_base d).
Proof.
  unfold generate_sales_kpis.glob_curated.
  match goal with
  | |- context [merge_sort key_le (omap ?g ?l)] => set (f := g)
  end.
  assert (Hf : forall k v d nd,
             f (k, v) = Some (d, nd)
             <-> k = curated_file_of curated_base d
                 /\ v = nd /\ no_slash d = true
                 /\ starts_with "report_month_" d = true).
  { intros k v d nd. unfold f. cbn [fst snd]. split.
    - destruct (strip_prefix (curated_base +:+ "/") k) as [rest|] eqn:Hp;
        [|discriminate].
      destruct (strip_suffix "/sales_monthly_curated_v1.parquet" rest)
        as [d'|] eqn:Hs; [|discriminate].
      destruct (no_slash d' && starts_with "report_month_" d') eqn:Hc;
        [|discriminate].
      intros [= -> ->]. apply andb_true_iff in Hc as [Hc1 Hc2].
      apply strip_prefix_spec in Hp. apply strip_suffix_spec in Hs.
      subst k rest. unfold curated_file_of, path_div.
      rewrite !append_assoc. auto.
    - intros (-> & -> & Hd1 & Hd2).
      assert (Hp : strip_prefix (curated_base +:+ "/")
                     (curated_file_of curated_base d)
                   = Some (d +:+ "/sales_monthly_curated_v1.parquet")).
      { apply strip_prefix_spec. unfold curated_file_of, path_div.
        now rewrite !append_assoc. }
      rewrite Hp, strip_suffix_app, Hd1, Hd2. reflexivity. }
  exists (merge_sort key_le (omap f (map_to_list fs))).*1.
  split.
  - rewrite <- list_fmap_compose. reflexivity.
  - intros d. rewrite list_elem_of_fmap. split.
    + intros ([d' nd] & -> & He). cbn [fst].
      rewrite merge_sort_Permutation, list_elem_of_omap in He.
      destruct He as ([k v] & Hkv & He). apply Hf in He as (-> & -> & H1 & H2).
      apply elem_of_map_to_list in Hkv. eauto.
    + intros (H1 & H2 & nd & H3). exists (d, nd). split; [reflexivity|].
      rewrite merge_sort_Permutation, list_elem_of_omap.
      exists (curated_file_of curated_base d, nd).
      split; [now apply elem_of_map_to_list|]. apply Hf. auto.
Qed.

Lemma curated_mapping_fold (curated_base : string) (dirs : list string)
    (acc : gmap string string) :
  (forall d, d ∈ dirs -> no_slash d = true
                         /\ starts_with "report_month_" d = true) ->
  forall m p,
    foldl (fun (mapping : gmap string string) (parquet_path : string) =>
             match strip_prefix "report_month_"
                     (path_name (path_parent parquet_path)) with
             | None => mapping
             | Some month => <[month := parquet_path]> mapping
             end)
      acc (curated_file_of curated_base <$> dirs) !! m = Some p
    <-> (("report_month_" +:+ m) ∈ dirs
         /\ p = curated_file_of curated_base ("report_month_" +:+ m))
        \/ ((("report_month_" +:+ m) ∉ dirs) /\ acc !! m = Some p).
Proof.
  revert acc. induction dirs as [|d dirs IH]; intros acc Hd m p.
  - cbn [fmap list_fmap foldl]. split.
    + intros H. right. split; [apply not_elem_of_nil|exact H].
    + intros [[H _]|[_ H]]; [now apply elem_of_nil in H|exact H].
  - rewrite fmap_cons. cbn [foldl].
    destruct (Hd d) as [Hns Hsw]; [apply elem_of_cons; now left|].
    change (curated_file_of curated_base d)
      with (path_div (path_div curated_base d)
              "sales_monthly_curated_v1.parquet").
    rewrite path_parent_div by reflexivity.
    rewrite path_name_div by exact Hns.
    unfold starts_with in Hsw.
    destruct (strip_prefix "report_month_" d) as [m0|] eqn:Hp;
      [|discriminate].
    apply strip_prefix_spec in Hp. subst d.
    rewrite IH by (intros d' Hd'; apply Hd; apply elem_of_cons; now right).
    rewrite elem_of_cons. split.
    + intros [[H ->]|[H Hacc]]; [left; auto|].
      destruct (decide (m0 = m)) as [->|Hne].
      * rewrite lookup_insert_eq in Hacc. injection Hacc as <-.
        left. split; [now left|reflexivity].
      * rewrite lookup_insert_ne in Hacc by exact Hne. right.
        split; [|exact Hacc]. intros [Heq|Hin]; [|contradiction].
        apply append_inj_l in Heq. congruence.
    + intros [[[Heq|Hin] ->]|[Hnot Hacc]].
      * apply append_inj_l in Heq as ->.
        destruct (decide (("report_month_" +:+ m0) ∈ dirs)) as [Hin|Hnin];
          [left; auto|].
        right. split; [exact Hnin|]. now rewrite lookup_insert_eq.
      * left. auto.
      * right. split; [tauto|]. rewrite lookup_insert_ne; [exact Hacc|].
        intros ->. apply Hnot. now left.
Qed.

Lemma curated_month_files_spec (fs : storage) (output_root m p : string) :
  generate_sales_kpis.discover_curated_month_files fs output_root !! m = Some p
  <-> no_slash m = true
      /\ p = curated_file_of (generate_sales_kpis.curated_base_of output_root)
               ("report_month_" +:+ m)
      /\ is_Some (fs !! p).
Proof.
  unfold generate_sales_kpis.discover_curated_month_files.
  set (base := generate_sales_kpis.curated_base_of output_root).
  destruct (glob_curated_dirs fs base) as (dirs & -> & Hdirs).
  rewrite curated_mapping_fold
    by (intros d Hd; apply Hdirs in Hd as (H1 & H2 & _); auto).
  rewrite lookup_empty, Hdirs, no_slash_app. split.
  - intros [[(H1 & _ & H3) ->]|[_ H]]; [|discriminate].
    apply andb_true_iff in H1 as [_ H1]. auto.
  - intros (H1 & -> & H3). left. split; [|reflexivity].
    split; [now rewrite H1|]. split; [|exact H3].
    unfold starts_with.
    now rewrite (proj2 (strip_prefix_spec "report_month_" _ m) eq_refl).
Qed.

(** X12: [discover_curated_month_files] maps month [m] to
    [curated/sales_monthly/v1/report_month_<m>/sales_monthly_curated_v1.parquet]
    below the output root exactly when that path exists. *)
Theorem curated_month_discovery_finds_partition_files (fs : storage)
    (output_root : string) :
  forall m p,
    generate_sales_kpis.discover_curated_month_files fs output_root !! m
    = Some p
    <-> no_slash m = true
        /\ p = path_div
                 (path_div (generate_sales_kpis.curated_base_of output_root)
                    ("report_month_" +:+ m))
                 "sales_monthly_curated_v1.parquet"
        /\ is_Some (fs !! p).
Proof. intros m p. apply curated_month_files_spec. Qed.

Lemma curated_loop_processed E root entries cl (fs fs' : storage) cl' :
  build_curated_sales_monthly.loop E root entries cl fs = (fs', Ok cl') ->
  storage_le fs fs'
  /\ exists added,
       cl_processed cl' = cl_processed cl ++ added
       /\ forall r, r ∈ added ->
            mr_report_month r ∈ entries.*1
            /\ mr_curated_parquet_path r
               = curated_path_of root (mr_report_month r)
            /\ is_Some (fs' !! mr_curated_parquet_path r).
Proof.
  revert cl fs. induction entries as [|[month raw_path] entries IH];
    intros cl fs H.
  - cbn in H. injection H as <- <-. split; [intros k Hk; exact Hk|].
    exists []. split; [now rewrite app_nil_r|].
    intros r Hr. now apply elem_of_nil in Hr.
  - cbn [build_curated_sales_monthly.loop] in H.
    apply bind_first_ok in H as (cl1 & fs1 & Hb & H).
    destruct (IH _ _ H) as (Hle & added & Hadd & Hitems).
    apply curated_body_ok in Hb as (d & t & _ & Hb).
    rewrite fmap_cons. cbn [fst].
    destruct Hb as [(_ & -> & rec & _ & ->)
                   |[(_ & e & _ & -> & ->)
                    |(_ & tb & nr & nc & _ & -> & ->)]];
      cbn [cl_processed] in Hadd.
    + split; [exact Hle|]. exists added. split; [exact Hadd|].
      intros r Hr. destruct (Hitems r Hr) as (H1 & H2 & H3).
      split; [apply elem_of_cons; now right|auto].
    + split; [exact Hle|]. exists added. split; [exact Hadd|].
      intros r Hr. destruct (Hitems r Hr) as (H1 & H2 & H3).
      split; [apply elem_of_cons; now right|auto].
    + split.
      { eapply storage_le_trans; [apply curated_written_le|exact Hle]. }
      eexists (_ :: added). rewrite Hadd, <- app_assoc.
      split; [reflexivity|].
      intros r Hr. apply elem_of_cons in Hr as [->|Hr].
      * cbn [mr_report_month mr_curated_parquet_path].
        split; [apply elem_of_cons; now left|]. split; [reflexivity|].
        apply Hle. unfold curated_written.
        destruct (decide (curated_report_path_of root month
                          = curated_path_of root month)) as [Heq|Hne].
        -- rewrite Heq, lookup_insert_eq. eauto.
        -- rewrite lookup_insert_ne by exact Hne.
           rewrite lookup_insert_eq. eauto.
      * destruct (Hitems r Hr) as (H1 & H2 & H3).
        split; [apply elem_of_cons; now right|auto].
Qed.

(** X13: after [run_curated_build] returns, [discover_curated_month_files] on
    the tree the run leaves maps the month of every processed entry of the
    summary to the curated parquet path of that entry. *)
Theorem curated_run_feeds_the_kpi_stage E root sel state_path
    (fs fs' : storage) s :
  build_curated_sales_monthly.run_curated_build E root sel state_path fs
  = (fs', Ok s) ->
  forall r, r ∈ cs_processed s ->
    generate_sales_kpis.discover_curated_month_files fs' root
      !! mr_report_month r
    = Some (mr_curated_parquet_path r).
Proof.
  intros H r Hr.
  destruct (run_curated_build_inv _ _ _ _ _ _ _ H)
    as (mapping & skipped & state & cl & fs1 & fs2
        & Hd & _ & Hloop & Hfs2 & Hs & Hfs').
  subst s. cbn [cs_processed] in Hr.
  destruct (curated_loop_processed _ _ _ _ _ _ _ Hloop)
    as (_ & added & Hadd & Hitems).
  cbn [cl_processed app] in Hadd. rewrite Hadd in Hr.
  destruct (Hitems r Hr) as (Hin & Hpath & Hex).
  destruct (raw_partitions_spec fs root) as (mapping' & Hd' & Hspec).
  rewrite Hd in Hd'. injection Hd' as ->.
  assert (Hkey : is_Some (mapping' !! mr_report_month r)).
  { apply elem_of_sorted_keys in Hin.
    now apply months_to_consider_lookup in Hin as [Hin _]. }
  destruct Hkey as [p Hp]. apply Hspec in Hp as (Hns & _).
  apply curated_month_files_spec. split; [exact Hns|].
  split; [rewrite Hpath; reflexivity|].
  rewrite Hfs'. apply storage_le_insert, storage_le_insert.
  rewrite Hfs2. apply save_state_of_le. exact Hex.
Qed.

(** ** The plan of a KPI report *)

Lemma str_le_refl (a : string) : str_le a a.
Proof. unfold str_le. now destruct (String.leb_total a a). Qed.

Lemma str_le_trans (a b c : string) : str_le a b -> str_le b c -> str_le a c.
Proof.
  unfold str_le, String.leb. revert b c.
  induction a as [|ca a IH]; intros [|cb b] [|cc c]; cbn [String.compare];
    try (intros; reflexivity); try discriminate.
  unfold Ascii.compare.
  destruct (N.compare_spec (N_of_ascii ca) (N_of_ascii cb)) as [H1|H1|H1],
    (N.compare_spec (N_of_ascii cb) (N_of_ascii cc)) as [H2|H2|H2],
    (N.compare_spec (N_of_ascii ca) (N_of_ascii cc)) as [H3|H3|H3];
    try discriminate; try (intros; reflexivity); try (exfalso; lia).
  apply IH.
Qed.

#[local] Instance str_le_transitive : Transitive str_le := str_le_trans.

Lemma str_le_antisym (a b : string) : str_le a b -> str_le b a -> a = b.
Proof. unfold str_le. apply String.leb_antisym. Qed.

Lemma strongly_sorted_lookup (l : list string) :
  StronglySorted str_le l ->
  forall (i j : nat) a b,
    (i <= j)%nat -> l !! i = Some a -> l !! j = Some b -> str_le a b.
Proof.
  induction 1 as [|x l' Hs IH Hall]; intros i j a b Hij Hi Hj.
  - discriminate.
  - destruct i as [|i], j as [|j]; cbn in Hi, Hj.
    + injection Hi as <-. injection Hj as <-. apply str_le_refl.
    + injection Hi as <-. rewrite Forall_forall in Hall. apply Hall.
      eapply list_elem_of_lookup_2, Hj.
    + lia.
    + apply (IH i j); [lia|exact Hi|exact Hj].
Qed.

Lemma sorted_names_lookup {A} (l : list (string * A)) (i j : nat) a b :
  (i <= j)%nat ->
  (merge_sort key_le l).*1 !! i = Some a ->
  (merge_sort key_le l).*1 !! j = Some b ->
  str_le a b.
Proof.
  apply strongly_sorted_lookup, Sorted_StronglySorted; [apply _|].
  apply sorted_names.
Qed.

Lemma sorted_keys_NoDup {A} (m : gmap string A) :
  NoDup (merge_sort key_le (map_to_list m)).*1.
Proof.
  rewrite merge_sort_Permutation. apply NoDup_fst_map_to_list.
Qed.

Lemma clamp_top_n (top_n : Z) : 1 <= Z.max 1 (Z.min top_n 200) <= 200.
Proof. lia. Qed.

(** X14: when [generate_kpi_report] reaches the DuckDB session, the target
    month is a discovered curated month with its file: the requested month,
    or the greatest available month when none is requested.  The history
    window ends at the target and holds available months up to it; the
    previous month is the available month just before the target, and there
    is none when the target is the first; [top_n] lies between 1 and 200,
    the threads are at least 1, and the memory limit is the normalised one. *)
Theorem kpi_plan_targets_an_available_month (P : pylib) (fs : storage)
    (output_root : string) (report_month : option string) (top_n : Z)
    (history_months : option Z) (duckdb_threads : Z)
    (duckdb_memory_limit : string) (k : generate_sales_kpis.kpi_plan) :
  generate_sales_kpis.plan_kpi_report P fs output_root report_month top_n
    history_months duckdb_threads duckdb_memory_limit = Ok k ->
  let month_files :=
    generate_sales_kpis.discover_curated_month_files fs output_root in
  let target := generate_sales_kpis.kp_target_month k in
  month_files !! target = Some (generate_sales_kpis.kp_target_path k)
  /\ match report_month with
     | Some m => target = m
     | None => forall m, is_Some (month_files !! m) -> str_le m target
     end
  /\ last (generate_sales_kpis.kp_available_months k) = Some target
  /\ (forall m, m ∈ generate_sales_kpis.kp_available_months k ->
        is_Some (month_files !! m) /\ str_le m target)
  /\ match generate_sales_kpis.kp_previous k with
     | Some (pm, pp) =>
         month_files !! pm = Some pp /\ pm <> target /\ str_le pm target
         /\ forall m, is_Some (month_files !! m) ->
              str_le m pm \/ str_le target m
     | None => forall m, is_Some (month_files !! m) -> str_le target m
     end
  /\ 1 <= generate_sales_kpis.kp_top_n k <= 200
  /\ 1 <= generate_sales_kpis.kp_threads k
  /\ generate_sales_kpis.normalize_duckdb_memory_limit duckdb_memory_limit
     = Ok (generate_sales_kpis.kp_memory_limit k).
Proof.
  intros H month_files target. subst target.
  unfold generate_sales_kpis.plan_kpi_report in H.
  fold month_files in H.
  set (all := (merge_sort key_le (map_to_list month_files)).*1) in H.
  destruct (match report_month with
            | Some m => negb (generate_sales_kpis.is_valid_report_month m)
            | None => false
            end) eqn:Hvalid; [discriminate|].
  destruct (match history_months with
            | Some h => h <? 1
            | None => false
            end) eqn:Hhist; [discriminate|].
  unfold bind_first, mbind, result_bind in H.
  destruct (generate_sales_kpis.normalize_duckdb_memory_limit
              duckdb_memory_limit) as [mem|] eqn:Hmem; [|discriminate].
  destruct (bool_decide (month_files = ∅)) eqn:Hempty; [discriminate|].
  apply bool_decide_eq_false in Hempty.
  set (tm := match report_month with
             | Some m => if String.eqb m "" then default "" (last all) else m
             | None => default "" (last all)
             end) in H.
  destruct (month_files !! tm) as [tp|] eqn:Htm; [|discriminate].
  assert (Hin : tm ∈ all) by (apply elem_of_sorted_keys; eauto).
  destruct (proj2 (history_window_facts P all tm) Hin)
    as (i & Hi & Hfirst & Hidx & Hnone & Hzero & Hwin).
  rewrite Hidx in H.
  assert (Hsel : exists window,
             generate_sales_kpis.selected_history_months P all tm
               history_months = Ok window
             /\ last window = Some tm
             /\ exists n, window = drop n (take (S i) all)).
  { destruct history_months as [h|].
    - apply Z.ltb_ge in Hhist.
      destruct (Hwin h Hhist) as (w & Hw & Hd & _ & Hl).
      exists w. split; [exact Hw|]. split; [exact Hl|]. eauto.
    - eexists. split; [exact Hnone|]. split; [now apply last_take_S|].
      exists O. reflexivity. }
  destruct Hsel as (window & Hw & Hlast & n & Hdrop).
  rewrite Hw in H.
  assert (Hle : forall m j, all !! j = Some m -> (j <= i)%nat -> str_le m tm).
  { intros m j Hj Hji. eapply sorted_names_lookup; [exact Hji|exact Hj|exact Hi]. }
  assert (Hge : forall m j, all !! j = Some m -> (i <= j)%nat -> str_le tm m).
  { intros m j Hj Hji. eapply sorted_names_lookup; [exact Hji|exact Hi|exact Hj]. }
  assert (Hprev : exists previous,
             match i with
             | O => Ok None
             | S i' =>
                 Ok (Some (default "" (all !! i'),
                           default "" (month_files
                                         !! default "" (all !! i'))))
             end = Ok previous
             /\ match previous with
                | Some (pm, pp) =>
                    month_files !! pm = Some pp /\ pm <> tm /\ str_le pm tm
                    /\ forall m, is_Some (month_files !! m) ->
                         str_le m pm \/ str_le tm m
                | None => forall m, is_Some (month_files !! m) -> str_le tm m
                end).
  { destruct i as [|i'].
    - exists None. split; [reflexivity|]. intros m Hm.
      apply elem_of_sorted_keys in Hm. fold all in Hm.
      apply list_elem_of_lookup_1 in Hm as [j Hj].
      apply (Hge m j Hj). lia.
    - destruct (all !! i') as [pm|] eqn:Hpm.
      2:{ apply lookup_ge_None in Hpm. apply lookup_lt_Some in Hi. lia. }
      change (default "" (Some pm)) with pm.
      assert (Hpin : is_Some (month_files !! pm)).
      { apply elem_of_sorted_keys. eapply list_elem_of_lookup_2, Hpm. }
      destruct Hpin as [pp Hpp]. rewrite Hpp.
      change (default "" (Some pp)) with pp.
      eexists. split; [reflexivity|]. cbn beta iota.
      split; [exact Hpp|]. split.
      { intros ->. apply (Hfirst i'); [lia|exact Hpm]. }
      split; [apply (Hle pm i' Hpm); lia|].
      intros m Hm. apply elem_of_sorted_keys in Hm. fold all in Hm.
      apply list_elem_of_lookup_1 in Hm as [j Hj].
      destruct (decide (j <= i')%nat) as [Hji|Hji].
      + left. eapply sorted_names_lookup; [exact Hji|exact Hj|exact Hpm].
      + right. apply (Hge m j Hj). lia. }
  destruct Hprev as (previous & Hp & Hpspec). rewrite Hp in H.
  injection H as <-.
  cbn [generate_sales_kpis.kp_target_month generate_sales_kpis.kp_target_path
       generate_sales_kpis.kp_available_months generate_sales_kpis.kp_previous
       generate_sales_kpis.kp_top_n generate_sales_kpis.kp_threads
       generate_sales_kpis.kp_memory_limit].
  split; [exact Htm|]. split.
  { destruct report_month as [m|].
    - subst tm. destruct (String.eqb m "") eqn:Hm0; [|reflexivity].
      apply String.eqb_eq in Hm0. subst m. discriminate Hvalid.
    - intros m Hm. apply elem_of_sorted_keys in Hm. fold all in Hm.
      apply list_elem_of_lookup_1 in Hm as [j Hj].
      assert (Hl : last all = Some tm).
      { subst tm. destruct (last all) as [x|] eqn:Hl; [reflexivity|].
        apply last_None in Hl. rewrite Hl in Hj. discriminate. }
      rewrite last_lookup in Hl.
      eapply sorted_names_lookup; [|exact Hj|exact Hl].
      apply lookup_lt_Some in Hj. lia. }
  split; [exact Hlast|]. split.
  { intros m Hm. rewrite Hdrop in Hm.
    apply list_elem_of_lookup_1 in Hm as [j Hj].
    rewrite lookup_drop in Hj.
    destruct (decide (n + j < S i)%nat) as [Hlt|Hge'].
    - rewrite lookup_take_lt in Hj by exact Hlt. split.
      + apply elem_of_sorted_keys. eapply list_elem_of_lookup_2, Hj.
      + apply (Hle m _ Hj). lia.
    - rewrite lookup_take_ge in Hj by lia. discriminate. }
  split; [exact Hpspec|]. split; [lia|]. split; [lia|reflexivity].
Qed.

Lemma last_sorted_keys {A} (m : gmap string A) :
  m <> ∅ ->
  exists k, last (merge_sort key_le (map_to_list m)).*1 = Some k
            /\ is_Some (m !! k).
Proof.
  intros Hne.
  destruct (last (merge_sort key_le (map_to_list m)).*1) as [k|] eqn:Hl.
  - exists k. split; [reflexivity|]. apply elem_of_sorted_keys.
    rewrite last_lookup in Hl. eapply list_elem_of_lookup_2, Hl.
  - exfalso. apply Hne. apply last_None in Hl.
    apply fmap_nil_inv in Hl. apply map_to_list_empty_iff.
    apply Permutation_nil_r. rewrite <- Hl. symmetry.
    apply merge_sort_Permutation.
Qed.

Lemma plan_after_target (P : pylib) (all : list string) (tm : string)
    (history_months : option Z) (month_files : gmap string string) :
  tm ∈ all ->
  exists window previous,
    generate_sales_kpis.selected_history_months P all tm history_months
    = Ok window
    /\ match index_of tm all with
       | None =>
           Raise (Exn "UnboundLocalError"
                    "cannot access local variable 'idx' where it is not associated with a value")
       | Some O => Ok None
       | Some (S i) =>
           Ok (Some (default "" (all !! i),
                     default "" (month_files !! default "" (all !! i))))
       end = Ok previous.
Proof.
  intros Hin.
  destruct (proj2 (history_window_facts P all tm) Hin)
    as (i & _ & _ & Hidx & _).
  unfold generate_sales_kpis.selected_history_months. rewrite Hidx.
  destruct history_months as [h|], i as [|i]; eauto.
Qed.

(** X15: before it opens DuckDB, [generate_kpi_report] fails only with
    [ValueError] or, when no curated file is discovered, with
    [FileNotFoundError]: the use of [idx] never meets an unbound variable.
    With a well-formed requested month that is available (or none requested
    and some month available), a history of [None] or at least 1 and an
    acceptable memory limit, it reaches the DuckDB session. *)
Theorem kpi_plan_failure_modes (P : pylib) (fs : storage)
    (output_root : string) (report_month : option string) (top_n : Z)
    (history_months : option Z) (duckdb_threads : Z)
    (duckdb_memory_limit : string) :
  let month_files :=
    generate_sales_kpis.discover_curated_month_files fs output_root in
  (forall e,
     generate_sales_kpis.plan_kpi_report P fs output_root report_month top_n
       history_months duckdb_threads duckdb_memory_limit = Raise e ->
     exn_type e = "ValueError"
     \/ (exn_type e = "FileNotFoundError" /\ month_files = ∅))
  /\ (match report_month with
      | Some m =>
          generate_sales_kpis.is_valid_report_month m = true
          /\ is_Some (month_files !! m)
      | None => month_files <> ∅
      end ->
      match history_months with Some h => 1 <= h | None => True end ->
      (exists cleaned,
         generate_sales_kpis.normalize_duckdb_memory_limit duckdb_memory_limit
         = Ok cleaned) ->
      exists k,
        generate_sales_kpis.plan_kpi_report P fs output_root report_month
          top_n history_months duckdb_threads duckdb_memory_limit = Ok k).
Proof.
  intros month_files.
  unfold generate_sales_kpis.plan_kpi_report. fold month_files.
  set (all := (merge_sort key_le (map_to_list month_files)).*1).
  set (tm := match report_month with
             | Some m => if String.eqb m "" then default "" (last all) else m
             | None => default "" (last all)
             end).
  assert (Htail : is_Some (month_files !! tm) ->
            exists k,
              match month_files !! tm with
              | None =>
                  Raise (Exn "ValueError"
                           ("Requested report month "
                            +:+ py_repr P (JStr tm)
                            +:+ " not found. Available: "
                            +:+ py_repr P (JArr (JStr <$> all))))
              | Some target_path =>
                  let* available_months :=
                    generate_sales_kpis.selected_history_months P all tm
                      history_months in
                  let* previous :=
                    match index_of tm all with
                    | None =>
                        Raise (Exn "UnboundLocalError"
                                 "cannot access local variable 'idx' where it is not associated with a value")
                    | Some O => Ok None
                    | Some (S i) =>
                        Ok (Some (default "" (all !! i),
                                  default ""
                                    (month_files !! default "" (all !! i))))
                    end in
                  Ok (generate_sales_kpis.KpiPlan tm target_path
                        available_months all previous
                        (Z.max 1 (Z.min top_n 200)) (Z.max 1 duckdb_threads)
                        (default "" (match
                           generate_sales_kpis.normalize_duckdb_memory_limit
                             duckdb_memory_limit with
                           | Ok c => Some c | Raise _ => None end)))
              end = Ok k).
  { intros [tp Htp]. rewrite Htp.
    assert (Hin : tm ∈ all) by (apply elem_of_sorted_keys; eauto).
    destruct (plan_after_target P all tm history_months month_files Hin)
      as (window & previous & -> & ->).
    eexists. reflexivity. }
  split.
  - intros e.
    destruct (match report_month with
              | Some m => negb (generate_sales_kpis.is_valid_report_month m)
              | None => false
              end); [intros [= <-]; now left|].
    destruct (match history_months with
              | Some h => h <? 1
              | None => false
              end); [intros [= <-]; now left|].
    unfold generate_sales_kpis.normalize_duckdb_memory_limit.
    destruct (generate_sales_kpis.memory_limit_shaped _);
      [|intros [= <-]; now left].
    cbn [bind_first mbind result_bind].
    destruct (bool_decide (month_files = ∅)) eqn:Hempty.
    { apply bool_decide_eq_true in Hempty. intros [= <-]. now right. }
    destruct (month_files !! tm) as [tp|] eqn:Htm;
      [|intros [= <-]; now left].
    assert (Hin : tm ∈ all) by (apply elem_of_sorted_keys; eauto).
    destruct (plan_after_target P all tm history_months month_files Hin)
      as (window & previous & -> & ->).
    discriminate.
  - intros Hmonth Hhist [cleaned Hmem].
    assert (Hv : match report_month with
                 | Some m => negb (generate_sales_kpis.is_valid_report_month m)
                 | None => false
                 end = false).
    { destruct report_month as [m|]; [|reflexivity].
      destruct Hmonth as [-> _]. reflexivity. }
    assert (Hh : match history_months with
                 | Some h => h <? 1
                 | None => false
                 end = false).
    { destruct history_months as [h|]; [|reflexivity]. lia. }
    rewrite Hv, Hh, Hmem. cbn [bind_first mbind result_bind].
    assert (Htm : is_Some (month_files !! tm)
                  /\ month_files <> ∅).
    { subst tm. destruct report_month as [m|].
      - destruct Hmonth as [Hvalid Hsome].
        assert (String.eqb m "" = false) as ->.
        { apply String.eqb_neq. intros ->. discriminate Hvalid. }
        split; [exact Hsome|]. intros Hempty. rewrite Hempty in Hsome.
        rewrite lookup_empty in Hsome. now destruct Hsome.
      - destruct (last_sorted_keys month_files Hmonth) as (k & Hk & Hs).
        fold all in Hk. rewrite Hk. auto. }
    destruct Htm as [Htm Hne].
    rewrite (bool_decide_eq_false_2 _ Hne).
    destruct (Htail Htm) as [k Hk]. rewrite Hmem in Hk. cbn [default] in Hk.
    eauto.
Qed.

(** ** The schema document *)

Lemma bind_lift {A B} (r : result A) (k : A -> M B) (fs : storage) :
  bind_first (lift r) k fs
  = match r with Ok x => k x fs | Raise e => (fs, Raise e) end.
Proof. unfold bind_first, mbind, M_bind, lift. now destruct r. Qed.

Lemma bind_read_bytes {B} (p : string) (k : string -> M B) (fs : storage) :
  bind_first (read_bytes p) k fs
  = match fs !! p with
    | Some (Node (Some d) _) => k d fs
    | Some (Node None _) => (fs, Raise (Exn "IsADirectoryError" p))
    | None => (fs, Raise (Exn "FileNotFoundError" p))
    end.
Proof.
  unfold bind_first, mbind, M_bind, read_bytes.
  now destruct (fs !! p) as [[[d|] t]|].
Qed.

Lemma py_len_iter (v : json) (n : Z) :
  py_len v = Ok n -> exists l, py_iter v = Ok l /\ len l = n.
Proof.
  destruct v; cbn [py_len py_iter]; try discriminate; intros [= <-];
    eexists; (split; [reflexivity|]); unfold len; now rewrite ?length_fmap.
Qed.

Lemma load_schema_definition_ok E P base_dir (fs fs' : storage) schema :
  common.load_schema_definition E P base_dir fs = (fs', Ok schema) ->
  fs' = fs
  /\ sd_schema_id schema = SCHEMA_ID
  /\ length (sd_expected_header_order schema) = 15%nat
  /\ py_bool (sd_fields schema) = true
  /\ exists text payload,
       file_bytes fs (common.schema_path_of base_dir) = Some text
       /\ json_loads E text = Some payload
       /\ py_get payload "schema_id" = Ok (Some (JStr SCHEMA_ID)).
Proof.
  unfold common.load_schema_definition. rewrite bind_read_bytes.
  unfold file_bytes.
  destruct (fs !! common.schema_path_of base_dir) as [[[text|] t]|];
    [|discriminate..].
  destruct (json_loads E text) as [payload|] eqn:Hload; [|discriminate].
  rewrite bind_lift.
  destruct (py_get payload "schema_id") as [schema_id|] eqn:Hid;
    [|discriminate].
  destruct (json_eq_str schema_id SCHEMA_ID) eqn:Heq; [|discriminate].
  cbn [negb]. rewrite bind_lift.
  destruct (py_get payload "source") as [source|]; [|discriminate].
  rewrite bind_lift.
  destruct (py_get (default (JObj []) source) "header_order")
    as [header_order|]; [|discriminate].
  rewrite bind_lift.
  destruct (py_get payload "fields") as [fields|]; [|discriminate].
  rewrite bind_lift.
  destruct (py_len (default (JArr []) header_order)) as [n|] eqn:Hlen;
    [|discriminate].
  destruct (n =? common.EXPECTED_SOURCE_COLUMN_COUNT) eqn:Hn; [|discriminate].
  cbn [negb].
  destruct (py_bool (default (JArr []) fields)) eqn:Hfields; [|discriminate].
  cbn [negb]. rewrite bind_lift.
  apply Z.eqb_eq in Hn. subst n.
  destruct (py_len_iter _ _ Hlen) as (names & -> & Hnames).
  intros [= <- <-]. cbn [sd_schema_id sd_expected_header_order sd_fields].
  split; [reflexivity|]. split; [reflexivity|]. split.
  { rewrite length_fmap. unfold len, common.EXPECTED_SOURCE_COLUMN_COUNT in Hnames.
    lia. }
  split; [exact Hfields|]. exists text, payload.
  split; [reflexivity|]. split; [exact Hload|].
  destruct schema_id as [[]|]; try discriminate Heq.
  cbn [json_eq_str] in Heq. apply String.eqb_eq in Heq. now subst.
Qed.

Lemma header_matches_short P (actual_header : list cell)
    (expected_header : list string) :
  (length actual_header < length expected_header)%nat ->
  common.header_matches P actual_header expected_header = false.
Proof.
  intros H. unfold common.header_matches.
  now rewrite (proj2 (Nat.ltb_lt _ _) H).
Qed.

(** X16: a schema that [load_schema_definition] returns has the schema id
    [sales_monthly_v1], exactly 15 expected headers and fields that are not
    empty, and loading it leaves the storage as it is; a header row of fewer
    than 15 cells, the one of an empty sheet included, never matches it. *)
Theorem loaded_schema_is_checked E P base_dir (fs fs' : storage) schema :
  common.load_schema_definition E P base_dir fs = (fs', Ok schema) ->
  fs' = fs
  /\ sd_schema_id schema = "sales_monthly_v1"
  /\ length (sd_expected_header_order schema) = 15%nat
  /\ py_bool (sd_fields schema) = true
  /\ forall header,
       (length header < 15)%nat ->
       common.header_matches P header (sd_expected_header_order schema)
       = false.
Proof.
  intros H. apply load_schema_definition_ok in H as (H1 & H2 & H3 & H4 & _).
  repeat (split; [assumption|]).
  intros header Hh. apply header_matches_short. now rewrite H3.
Qed.

(** ** Headers *)

(** X17: [header_matches] holds exactly when the actual header is at least as
    long as the expected one and every expected header agrees, after
    [normalize_header], with the cell at its position; the cells beyond the
    expected length play no part. *)
Theorem header_check_compares_leading_columns P (actual_header : list cell)
    (expected_header : list string) :
  (common.header_matches P actual_header expected_header = true
   <-> (length expected_header <= length actual_header)%nat
       /\ forall i e,
            expected_header !! i = Some e ->
            exists a, actual_header !! i = Some a
                      /\ common.normalize_header P a
                         = common.normalize_header P (CStr e))
  /\ ((length expected_header <= length actual_header)%nat ->
      forall extra,
        common.header_matches P (actual_header ++ extra) expected_header
        = common.header_matches P actual_header expected_header).
Proof.
  split.
  - unfold common.header_matches.
    destruct (length actual_header <? length expected_header)%nat eqn:Hlen.
    + apply Nat.ltb_lt in Hlen. split; [discriminate|]. intros [H _]. lia.
    + apply Nat.ltb_ge in Hlen. rewrite bool_decide_eq_true. split.
      * intros Heq. split; [exact Hlen|]. intros i e He.
        assert (Hi : (i < length expected_header)%nat)
          by (eapply lookup_lt_Some, He).
        destruct (actual_header !! i) as [a|] eqn:Ha.
        2:{ apply lookup_ge_None in Ha. lia. }
        exists a. split; [reflexivity|].
        assert (H1 : (common.normalize_header P
                        <$> take (length expected_header) actual_header) !! i
                     = Some (common.normalize_header P a)).
        { rewrite list_lookup_fmap, lookup_take_lt by exact Hi.
          now rewrite Ha. }
        rewrite Heq, list_lookup_fmap, He in H1. now injection H1.
      * intros [_ H]. apply list_eq. intros i.
        rewrite !list_lookup_fmap.
        destruct (expected_header !! i) as [e|] eqn:He.
        -- destruct (H i e He) as (a & Ha & Hn).
           rewrite lookup_take_lt by (eapply lookup_lt_Some, He).
           rewrite Ha. cbn. now rewrite Hn.
        -- apply lookup_ge_None in He.
           rewrite lookup_take_ge by exact He. reflexivity.
  - intros Hlen extra. unfold common.header_matches.
    rewrite length_app.
    replace (length actual_header + length extra <? length expected_header)%nat
      with false by (symmetry; apply Nat.ltb_ge; lia).
    replace (length actual_header <? length expected_header)%nat
      with false by (symmetry; apply Nat.ltb_ge; lia).
    now rewrite take_app_le by exact Hlen.
Qed.

(** ** Cells *)

Lemma str_of_int_not_empty (n : Z) : str_of_int n <> "".
Proof.
  unfold str_of_int, NilZero.string_of_int.
  destruct (Z.to_int n) as [d|d]; [|discriminate].
  unfold NilZero.string_of_uint. destruct d; discriminate.
Qed.

Lemma parse_text_not_empty P (value : cell) (text : string) :
  common.parse_text P value = Some text -> text <> "".
Proof.
  destruct value as [|s|b|n|x|t]; cbn [common.parse_text].
  - discriminate.
  - destruct (String.eqb (strip s) "") eqn:H; [discriminate|].
    intros [= <-]. now apply String.eqb_neq.
  - intros [= <-]. now destruct b.
  - intros [= <-]. apply str_of_int_not_empty.
  - destruct (PrimFloat.is_nan x); [discriminate|].
    destruct (float_integer x) as [n|].
    + intros [= <-]. apply str_of_int_not_empty.
    + intros [= <-].
      destruct (String.eqb _ "") eqn:H; [discriminate|].
      now apply String.eqb_neq.
  - destruct (String.eqb (strip t) "") eqn:H; [discriminate|].
    intros [= <-]. now apply String.eqb_neq.
Qed.

Lemma parse_blank P (value : cell) :
  common.is_blank value = true ->
  common.parse_text P value = None /\ common.parse_number P value = Ok None.
Proof.
  destruct value as [|s|b|n|x|t]; cbn [common.is_blank]; try discriminate.
  - split; reflexivity.
  - intros H. apply String.eqb_eq in H as ->. split; reflexivity.
Qed.

Lemma padded_length (row : list cell) : length (padded row) = 15%nat.
Proof.
  unfold padded. rewrite length_app, length_take, length_replicate. lia.
Qed.

Lemma padded_lookup (row : list cell) (i : nat) :
  (i < 15)%nat -> padded row !! i = Some (default CNone (row !! i)).
Proof.
  intros Hi. unfold padded.
  destruct (row !! i) as [c|] eqn:Hc.
  - rewrite lookup_app_l by (rewrite length_take; apply lookup_lt_Some in Hc; lia).
    now rewrite lookup_take_lt.
  - apply lookup_ge_None in Hc.
    rewrite lookup_app_r by (rewrite length_take; lia).
    rewrite length_take. apply lookup_replicate_2. lia.
Qed.

Lemma padded_at (row : list cell) (i : nat) :
  (i < 15)%nat ->
  default CNone (padded row !! i) = default CNone (row !! i).
Proof. intros Hi. now rewrite padded_lookup. Qed.

Lemma padded_ext (row row' : list cell) :
  (forall i, (i < 15)%nat ->
     default CNone (row !! i) = default CNone (row' !! i)) ->
  padded row = padded row'.
Proof.
  intros H. apply list_eq. intros i.
  destruct (decide (i < 15)%nat) as [Hi|Hi].
  - now rewrite !padded_lookup, H.
  - rewrite !(proj2 (lookup_ge_None _ _)); [reflexivity|..];
      rewrite padded_length; lia.
Qed.

Lemma forallb_lookup {A} (p : A -> bool) (l : list A) (i : nat) (x : A) :
  forallb p l = true -> l !! i = Some x -> p x = true.
Proof.
  revert i. induction l as [|y l IH]; intros i H Hi; [discriminate|].
  cbn [forallb] in H. apply andb_true_iff in H as [H1 H2].
  destruct i as [|i]; cbn in Hi; [now injection Hi as <-|eauto].
Qed.

Lemma blank_leading_cells (row : list cell) (j : nat) :
  common.is_empty_row (take 15 row) = true -> (j < 15)%nat ->
  common.is_blank (default CNone (row !! j)) = true.
Proof.
  intros H Hj. destruct (row !! j) as [c|] eqn:Hc; [|reflexivity].
  apply (forallb_lookup _ _ j c H). now rewrite lookup_take_lt.
Qed.

(** X18: [map_row_to_record] depends on the first 15 cells of the row only, a
    missing cell counting as [None]; a row whose first 15 cells are all
    [None] or the empty text gives a record in which every field of the data is
    [None]. *)
Theorem record_reads_the_first_fifteen_cells P (row : list cell)
    (source_file source_sheet : string) (source_row : Z)
    (report_month : string) :
  (forall row',
     (forall j, (j < 15)%nat ->
        default CNone (row' !! j) = default CNone (row !! j)) ->
     ingest_sales_month.map_row_to_record P row' source_file source_sheet
       source_row report_month
     = ingest_sales_month.map_row_to_record P row source_file source_sheet
         source_row report_month)
  /\ (common.is_empty_row (take 15 row) = true ->
      ingest_sales_month.map_row_to_record P row source_file source_sheet
        source_row report_month
      = Ok (SalesRecord source_file source_sheet source_row report_month
              None None None None None None None
              None None None None None None None None)).
Proof.
  split.
  - intros row' H. unfold ingest_sales_month.map_row_to_record.
    now rewrite (padded_ext row' row H).
  - intros H. unfold ingest_sales_month.map_row_to_record. cbv zeta.
    rewrite !padded_at by lia.
    pose proof (fun j Hj => parse_blank P _ (blank_leading_cells row j H Hj))
      as Hb.
    rewrite (proj1 (Hb 0%nat ltac:(lia))), (proj1 (Hb 1%nat ltac:(lia))),
      (proj1 (Hb 2%nat ltac:(lia))), (proj1 (Hb 3%nat ltac:(lia))),
      (proj1 (Hb 4%nat ltac:(lia))), (proj1 (Hb 5%nat ltac:(lia))),
      (proj1 (Hb 6%nat ltac:(lia))), (proj2 (Hb 7%nat ltac:(lia))),
      (proj2 (Hb 8%nat ltac:(lia))), (proj2 (Hb 9%nat ltac:(lia))),
      (proj2 (Hb 10%nat ltac:(lia))), (proj2 (Hb 11%nat ltac:(lia))),
      (proj2 (Hb 12%nat ltac:(lia))), (proj2 (Hb 13%nat ltac:(lia))),
      (proj2 (Hb 14%nat ltac:(lia))).
    reflexivity.
Qed.

Lemma map_row_to_record_ok P row source_file source_sheet source_row
    report_month r :
  ingest_sales_month.map_row_to_record P row source_file source_sheet
    source_row report_month = Ok r ->
  let at_ (i : nat) := default CNone (row !! i) in
  sr_source_file r = source_file /\ sr_source_sheet r = source_sheet
  /\ sr_source_row r = source_row /\ sr_report_month r = report_month
  /\ sr_filial r = common.parse_text P (at_ 0%nat)
  /\ sr_avdelning r = common.parse_text P (at_ 1%nat)
  /\ sr_varugrupp r = common.parse_text P (at_ 2%nat)
  /\ sr_artnr r = common.parse_text P (at_ 3%nat)
  /\ sr_ean r = common.parse_text P (at_ 4%nat)
  /\ sr_varutext r = common.parse_text P (at_ 5%nat)
  /\ sr_huvudleverantor r = common.parse_text P (at_ 6%nat)
  /\ common.parse_number P (at_ 7%nat) = Ok (sr_antal_salda r)
  /\ common.parse_number P (at_ 8%nat) = Ok (sr_fors_sum r)
  /\ common.parse_number P (at_ 9%nat) = Ok (sr_tb r)
  /\ common.parse_number P (at_ 10%nat) = Ok (sr_tg_percent r)
  /\ common.parse_number P (at_ 11%nat) = Ok (sr_fors_m_moms r)
  /\ common.parse_number P (at_ 12%nat) = Ok (sr_ord_pris r)
  /\ common.parse_number P (at_ 13%nat) = Ok (sr_snitt_inpris r)
  /\ common.parse_number P (at_ 14%nat) = Ok (sr_lager_antal r).
Proof.
  unfold ingest_sales_month.map_row_to_record. cbv zeta.
  rewrite !padded_at by lia.
  unfold bind_first, mbind, result_bind.
  destruct (common.parse_number P (default CNone (row !! 7%nat)));
    [|discriminate].
  destruct (common.parse_number P (default CNone (row !! 8%nat)));
    [|discriminate].
  destruct (common.parse_number P (default CNone (row !! 9%nat)));
    [|discriminate].
  destruct (common.parse_number P (default CNone (row !! 10%nat)));
    [|discriminate].
  destruct (common.parse_number P (default CNone (row !! 11%nat)));
    [|discriminate].
  destruct (common.parse_number P (default CNone (row !! 12%nat)));
    [|discriminate].
  destruct (common.parse_number P (default CNone (row !! 13%nat)));
    [|discriminate].
  destruct (common.parse_number P (default CNone (row !! 14%nat)));
    [|discriminate].
  intros [= <-]. cbn. repeat split; reflexivity.
Qed.

(** X19: in a record that [map_row_to_record] returns, each of the seven text
    fields is [None] or a text that is not empty. *)
Theorem text_fields_are_none_or_filled P row source_file source_sheet
    source_row report_month r :
  ingest_sales_month.map_row_to_record P row source_file source_sheet
    source_row report_month = Ok r ->
  forall field,
    field ∈ [sr_filial r; sr_avdelning r; sr_varugrupp r; sr_artnr r;
             sr_ean r; sr_varutext r; sr_huvudleverantor r] ->
    field = None
    \/ exists text, field = Some text /\ (0 < String.length text)%nat.
Proof.
  intros H field Hf.
  destruct (map_row_to_record_ok _ _ _ _ _ _ _ H)
    as (_ & _ & _ & _ & H0 & H1 & H2 & H3 & H4 & H5 & H6 & _).
  destruct field as [text|]; [right|now left].
  exists text. split; [reflexivity|].
  assert (Hne : text <> "").
  { repeat (apply elem_of_cons in Hf as [Hf|Hf];
            [first [rewrite H0 in Hf | rewrite H1 in Hf | rewrite H2 in Hf
                   | rewrite H3 in Hf | rewrite H4 in Hf | rewrite H5 in Hf
                   | rewrite H6 in Hf];
             symmetry in Hf; now apply parse_text_not_empty in Hf|]).
    now apply elem_of_nil in Hf. }
  destruct text; [congruence|cbn; lia].
Qed.

(** ** The sheets of an ingested workbook *)

Lemma total_of_nil {A} (f : A -> Z) : total_of f [] = 0.
Proof. reflexivity. Qed.

Lemma total_of_cons {A} (f : A -> Z) x l :
  total_of f (x :: l) = f x + total_of f l.
Proof. reflexivity. Qed.

Lemma total_of_app {A} (f : A -> Z) l1 l2 :
  total_of f (l1 ++ l2) = total_of f l1 + total_of f l2.
Proof.
  induction l1 as [|x l1 IH]; [reflexivity|].
  cbn [app]. rewrite !total_of_cons, IH. lia.
Qed.

Lemma total_of_bounds {A} (p : A -> bool) l :
  0 <= total_of (fun x => bool_to_Z (p x)) l <= len l.
Proof.
  unfold len. induction l as [|x l IH]; [cbn; lia|].
  rewrite total_of_cons. cbn [length]. destruct (p x); cbn [bool_to_Z]; lia.
Qed.

Lemma ingest_rows_loop_ok P source_file sheet_name report_month rows
    row_index records c records' c' :
  ingest_sales_month.rows_loop P source_file sheet_name report_month rows
    row_index (records, c) = Ok (records', c') ->
  exists added,
    records' = records ++ added
    /\ sh_sheet_name c' = sh_sheet_name c
    /\ sh_header_ok c' = sh_header_ok c
    /\ sh_rows_seen c' = sh_rows_seen c + len rows
    /\ sh_rows_loaded c' = sh_rows_loaded c + len added
    /\ sh_rows_skipped_empty c'
       = sh_rows_skipped_empty c
         + total_of (fun row => bool_to_Z (common.is_empty_row row)) rows
    /\ len added
       + total_of (fun row => bool_to_Z (common.is_empty_row row)) rows
       = len rows
    /\ sh_missing_ean c'
       = sh_missing_ean c
         + total_of (fun r => bool_to_Z (bool_decide (sr_ean r = None))) added
    /\ sh_negative_qty c'
       = sh_negative_qty c
         + total_of (fun r => bool_to_Z (is_negative (sr_antal_salda r))) added
    /\ sh_negative_tb c'
       = sh_negative_tb c
         + total_of (fun r => bool_to_Z (is_negative (sr_tb r))) added
    /\ sh_negative_tg c'
       = sh_negative_tg c
         + total_of (fun r => bool_to_Z (is_negative (sr_tg_percent r))) added
    /\ sh_negative_stock c'
       = sh_negative_stock c
         + total_of (fun r => bool_to_Z (is_negative (sr_lager_antal r))) added
    /\ forall r,
         r ∈ added
         <-> exists (i : nat) row,
               rows !! i = Some row
               /\ common.is_empty_row row = false
               /\ ingest_sales_month.map_row_to_record P row source_file
                    sheet_name (row_index + Z.of_nat i) report_month = Ok r.
Proof.
  revert row_index records c.
  induction rows as [|row rows IH]; intros row_index records c H.
  - cbn in H. injection H as <- <-. exists [].
    rewrite app_nil_r, !total_of_nil. unfold len. cbn [length].
    repeat (split; [first [reflexivity | lia]|]).
    intros r. split; [intros Hr; now apply elem_of_nil in Hr|].
    intros (i & row & Hi & _). discriminate.
  - cbn [ingest_sales_month.rows_loop] in H.
    unfold bind_first, mbind, result_bind in H.
    destruct (ingest_sales_month.row_step P source_file sheet_name
                report_month (records, c) row_index row)
      as [[records1 c1]|] eqn:Hstep; [|discriminate].
    destruct (IH _ _ _ H)
      as (added & -> & Hn & Hh & Hseen & Hload & Hskip & Hsum & Hean & Hqty
          & Htb & Htg & Hstock & Hmem).
    unfold ingest_sales_month.row_step in Hstep.
    rewrite !total_of_cons. unfold len in *. cbn [length].
    destruct (common.is_empty_row row) eqn:Hempty.
    + injection Hstep as <- <-.
      cbn [sh_sheet_name sh_header_ok sh_rows_seen sh_rows_loaded
           sh_rows_skipped_empty sh_missing_ean sh_negative_qty
           sh_negative_tb sh_negative_tg sh_negative_stock] in *.
      exists added. cbn [bool_to_Z].
      repeat (split; [first [reflexivity | assumption | lia]|]).
      intros r. rewrite Hmem. split.
      * intros (i & row' & Hi & He & Hr). exists (S i), row'.
        split; [exact Hi|]. split; [exact He|].
        rewrite <- Hr. f_equal. lia.
      * intros ([|i] & row' & Hi & He & Hr); cbn in Hi.
        -- injection Hi as <-. congruence.
        -- exists i, row'. split; [exact Hi|]. split; [exact He|].
           rewrite <- Hr. f_equal. lia.
    + unfold bind_first, mbind, result_bind in Hstep.
      destruct (ingest_sales_month.map_row_to_record P row source_file
                  sheet_name row_index report_month) as [r0|] eqn:Hr0;
        [|discriminate].
      injection Hstep as <- <-.
      cbn [sh_sheet_name sh_header_ok sh_rows_seen sh_rows_loaded
           sh_rows_skipped_empty sh_missing_ean sh_negative_qty
           sh_negative_tb sh_negative_tg sh_negative_stock] in *.
      exists (r0 :: added). rewrite <- app_assoc. cbn [app bool_to_Z length].
      rewrite !total_of_cons.
      repeat (split; [first [reflexivity | assumption | lia]|]).
      intros r. rewrite elem_of_cons, Hmem. split.
      * intros [->|(i & row' & Hi & He & Hr)].
        -- exists O, row. split; [reflexivity|]. split; [exact Hempty|].
           rewrite <- Hr0. f_equal. lia.
        -- exists (S i), row'. split; [exact Hi|]. split; [exact He|].
           rewrite <- Hr. f_equal. lia.
      * intros ([|i] & row' & Hi & He & Hr); cbn in Hi.
        -- injection Hi as <-. left.
           replace (row_index + Z.of_nat 0) with row_index in Hr by lia.
           congruence.
        -- right. exists i, row'. split; [exact Hi|]. split; [exact He|].
           rewrite <- Hr. f_equal. lia.
Qed.

Lemma elem_of_concat {A} (x : A) (ls : list (list A)) :
  x ∈ concat ls <-> exists l, x ∈ l /\ l ∈ ls.
Proof.
  induction ls as [|l0 ls IH]; cbn [concat].
  - split; [intros H; now apply elem_of_nil in H|].
    intros (l & _ & H). now apply elem_of_nil in H.
  - rewrite elem_of_app, IH. split.
    + intros [H|(l & H1 & H2)].
      * exists l0. split; [exact H|apply elem_of_cons; now left].
      * exists l. split; [exact H1|apply elem_of_cons; now right].
    + intros (l & H1 & H2). apply elem_of_cons in H2 as [->|H2]; eauto.
Qed.

Lemma total_of_snoc {A} (f : A -> Z) l x :
  total_of f (l ++ [x]) = total_of f l + f x.
Proof. rewrite total_of_app, total_of_cons, total_of_nil. lia. Qed.

Lemma ingest_sheet_step_ok P schema source_file report_month strict_headers
    acc ws acc' :
  ingest_sales_month.sheet_step P schema source_file report_month
    strict_headers acc ws = Ok acc' ->
  exists c added,
    sheet_counted P schema ws c added
    /\ sheet_traced P source_file report_month ws added
    /\ (strict_headers = true -> sh_header_ok c = true)
    /\ ia_records acc' = ia_records acc ++ added
    /\ ia_sheets acc' = ia_sheets acc ++ [c]
    /\ ia_totals acc'
       = dict_add "negative_stock" (sh_negative_stock c)
         (dict_add "negative_tg" (sh_negative_tg c)
         (dict_add "negative_tb" (sh_negative_tb c)
         (dict_add "negative_qty" (sh_negative_qty c)
         (dict_add "missing_ean" (sh_missing_ean c)
         (dict_add "rows_skipped_empty" (sh_rows_skipped_empty c)
         (dict_add "rows_loaded" (sh_rows_loaded c)
         (dict_add "rows_seen_excluding_header" (sh_rows_seen c)
            (ia_totals acc)))))))).
Proof.
  unfold ingest_sales_month.sheet_step. cbv zeta.
  set (header_ok := common.header_matches P _ _).
  destruct (strict_headers && negb header_ok) eqn:Hstrict; [discriminate|].
  unfold bind_first, mbind, result_bind.
  destruct (ingest_sales_month.rows_loop P source_file ws.1 report_month
              (tail ws.2) 2 _) as [[records c]|] eqn:Hrows; [|discriminate].
  intros [= <-].
  destruct (ingest_rows_loop_ok _ _ _ _ _ _ _ _ _ _ Hrows)
    as (added & -> & Hn & Hh & Hseen & Hload & Hskip & Hsum & Hean & Hqty
        & Htb & Htg & Hstock & Hmem).
  cbn [sh_sheet_name sh_header_ok sh_rows_seen sh_rows_loaded
       sh_rows_skipped_empty sh_missing_ean sh_negative_qty
       sh_negative_tb sh_negative_tg sh_negative_stock] in *.
  exists c, added. split.
  { unfold sheet_counted.
    repeat (split; [first [assumption | lia]|]). lia. }
  split.
  { intros r. rewrite Hmem. split; intros (i & row & Hi & He & Hr);
      exists i, row; (split; [exact Hi|]); (split; [exact He|]);
      rewrite <- Hr; f_equal; lia. }
  split.
  { intros ->. rewrite Hh. cbn [andb] in Hstrict.
    now destruct header_ok. }
  cbn [ia_records ia_sheets ia_totals]. auto.
Qed.

Lemma totals_of_step (sheets : list sheet_report) (c : sheet_report) :
  dict_add "negative_stock" (sh_negative_stock c)
    (dict_add "negative_tg" (sh_negative_tg c)
    (dict_add "negative_tb" (sh_negative_tb c)
    (dict_add "negative_qty" (sh_negative_qty c)
    (dict_add "missing_ean" (sh_missing_ean c)
    (dict_add "rows_skipped_empty" (sh_rows_skipped_empty c)
    (dict_add "rows_loaded" (sh_rows_loaded c)
    (dict_add "rows_seen_excluding_header" (sh_rows_seen c)
       (totals_of sheets))))))))
  = totals_of (sheets ++ [c]).
Proof.
  unfold totals_of at 2.
  destruct (sheets ++ [c]) as [|c0 l] eqn:Happ.
  { now apply app_eq_nil in Happ as [_ ?]. }
  rewrite <- Happ. clear c0 l Happ.
  unfold sheet_counters. cbn [fmap list_fmap fst snd].
  rewrite !total_of_snoc.
  destruct sheets as [|c1 sheets]; unfold totals_of.
  - cbn. reflexivity.
  - set (l := c1 :: sheets). unfold sheet_counters.
    cbn [fmap list_fmap fst snd]. unfold dict_add.
    cbn [dict_get dict_set String.eqb Ascii.eqb Bool.eqb default]. reflexivity.
Qed.

Lemma ingest_sheets_loop_ok P schema source_file report_month strict_headers
    wb acc acc' :
  ingest_sales_month.sheets_loop P schema source_file report_month
    strict_headers wb acc = Ok acc' ->
  ia_totals acc = totals_of (ia_sheets acc) ->
  exists sheets per_sheet,
    ia_sheets acc' = ia_sheets acc ++ sheets
    /\ ia_records acc' = ia_records acc ++ concat per_sheet
    /\ ia_totals acc' = totals_of (ia_sheets acc')
    /\ length sheets = length wb
    /\ length per_sheet = length wb
    /\ (strict_headers = true -> forallb sh_header_ok sheets = true)
    /\ forall k ws,
         wb !! k = Some ws ->
         exists c added,
           sheets !! k = Some c /\ per_sheet !! k = Some added
           /\ sheet_counted P schema ws c added
           /\ sheet_traced P source_file report_month ws added.
Proof.
  revert acc. induction wb as [|ws wb IH]; intros acc H Htot.
  - cbn in H. injection H as <-. exists [], [].
    rewrite !app_nil_r. repeat (split; [first [reflexivity | assumption]|]).
    intros k ws Hk. discriminate.
  - cbn [ingest_sales_month.sheets_loop] in H.
    unfold bind_first, mbind, result_bind in H.
    destruct (ingest_sales_month.sheet_step P schema source_file report_month
                strict_headers acc ws) as [acc1|] eqn:Hstep; [|discriminate].
    destruct (ingest_sheet_step_ok _ _ _ _ _ _ _ _ Hstep)
      as (c & added & Hc & Htr & Hstrict & Hrec & Hsh & Ht).
    destruct (IH acc1 H) as (sheets & per_sheet & Hs' & Hr' & Ht' & Hl1 & Hl2
                             & Hall & Hk).
    { rewrite Ht, Hsh, Htot. apply totals_of_step. }
    exists (c :: sheets), (added :: per_sheet).
    rewrite Hs', Hr', Hsh, Hrec, <- !app_assoc in *. cbn [concat app length].
    split; [reflexivity|]. split; [reflexivity|]. split; [exact Ht'|].
    split; [lia|]. split; [lia|]. split.
    { intros Hst. cbn [forallb]. now rewrite (Hstrict Hst), (Hall Hst). }
    intros [|k] ws' Hws; cbn in Hws.
    + injection Hws as <-. exists c, added. auto.
    + apply Hk in Hws. exact Hws.
Qed.

Lemma bind_open_workbook {B} P (path : string) (k : list worksheet -> M B)
    (fs : storage) :
  bind_first (common.open_workbook P path) k fs
  = match fs !! path with
    | Some (Node (Some d) _) =>
        match load_workbook P d with
        | Ok wb => k wb fs
        | Raise e => (fs, Raise e)
        end
    | Some (Node None _) => (fs, Raise (Exn "IsADirectoryError" path))
    | None => (fs, Raise (Exn "FileNotFoundError" path))
    end.
Proof.
  unfold common.open_workbook, bind_first, mbind, M_bind, read_bytes, lift.
  now destruct (fs !! path) as [[[d|] t]|].
Qed.

Lemma open_workbook_run P (path : string) (fs : storage) :
  common.open_workbook P path fs
  = match fs !! path with
    | Some (Node (Some d) _) => (fs, load_workbook P d)
    | Some (Node None _) => (fs, Raise (Exn "IsADirectoryError" path))
    | None => (fs, Raise (Exn "FileNotFoundError" path))
    end.
Proof.
  unfold common.open_workbook, bind_first, mbind, M_bind, read_bytes, lift.
  destruct (fs !! path) as [[[d|] t]|]; try reflexivity.
Qed.

Lemma ingest_workbook_inv E P input_path base_dir strict_headers
    (fs fs' : storage) table report :
  ingest_sales_month.ingest_workbook E P input_path base_dir strict_headers fs
  = (fs', Ok (table, report)) ->
  fs' = fs
  /\ exists schema wb acc arrow_schema,
       common.load_schema_definition E P base_dir fs = (fs, Ok schema)
       /\ parse_report_month (path_name input_path)
          = Ok (ir_report_month report)
       /\ common.open_workbook P input_path fs = (fs, Ok wb)
       /\ ingest_sales_month.sheets_loop P schema (path_name input_path)
            (ir_report_month report) strict_headers wb (IngestAcc [] [] [])
          = Ok acc
       /\ common.build_arrow_schema P (sd_fields schema) = Ok arrow_schema
       /\ table_from_pylist P (ia_records acc) arrow_schema = Ok table
       /\ report
          = IngestReport (sd_schema_id schema) input_path
              (ir_report_month report) (len wb)
              (JArr (sheet_report_json <$> ia_sheets acc))
              (ingest_sales_month.totals_json (ia_totals acc))
              (forallb sh_header_ok (ia_sheets acc)).
Proof.
  unfold ingest_sales_month.ingest_workbook. intros H.
  apply bind_first_ok in H as (schema & fs1 & Hschema & H).
  pose proof (load_schema_definition_ok _ _ _ _ _ _ Hschema) as (-> & _).
  rewrite bind_lift in H.
  destruct (parse_report_month (path_name input_path)) as [month|] eqn:Hmonth;
    [|discriminate].
  rewrite bind_open_workbook in H. rewrite open_workbook_run.
  destruct (fs !! input_path) as [[[d|] t]|]; [|discriminate..].
  destruct (load_workbook P d) as [wb|]; [|discriminate].
  rewrite bind_lift in H.
  destruct (ingest_sales_month.sheets_loop P schema (path_name input_path)
              month strict_headers wb (IngestAcc [] [] [])) as [acc|] eqn:Hacc;
    [|discriminate].
  rewrite bind_lift in H.
  destruct (common.build_arrow_schema P (sd_fields schema)) as [arrow|]
    eqn:Harrow; [|discriminate].
  rewrite bind_lift in H.
  destruct (table_from_pylist P (ia_records acc) arrow) as [tb|] eqn:Htb;
    [|discriminate].
  injection H as <- <- <-. cbn [ir_report_month].
  split; [reflexivity|]. exists schema, wb, acc, arrow. auto 10.
Qed.

(** X20: in the report that [ingest_workbook] returns there is one entry per
    sheet, in the order of the workbook, and the table is built from the
    records of the sheets in that order.  For every sheet the rows seen are
    the rows after the header, and as many as the rows loaded and the rows
    skipped together; the rows loaded are the records of the sheet, the rows
    skipped its empty rows; [header_ok] is [header_matches] on its first row;
    each anomaly counter is the number of its records with that anomaly. *)
Theorem ingest_report_counts_every_row E P input_path base_dir strict_headers
    (fs fs' : storage) table report :
  ingest_sales_month.ingest_workbook E P input_path base_dir strict_headers fs
  = (fs', Ok (table, report)) ->
  exists schema wb sheets per_sheet arrow_schema,
    common.load_schema_definition E P base_dir fs = (fs, Ok schema)
    /\ common.open_workbook P input_path fs = (fs, Ok wb)
    /\ ir_sheet_count report = len wb
    /\ ir_sheets report = JArr (sheet_report_json <$> sheets)
    /\ length sheets = length wb
    /\ length per_sheet = length wb
    /\ table_from_pylist P (concat per_sheet) arrow_schema = Ok table
    /\ forall k ws,
         wb !! k = Some ws ->
         exists c added,
           sheets !! k = Some c /\ per_sheet !! k = Some added
           /\ sheet_counted P schema ws c added.
Proof.
  intros H.
  destruct (ingest_workbook_inv _ _ _ _ _ _ _ _ _ H)
    as (_ & schema & wb & acc & arrow & Hschema & _ & Hwb & Hloop & _ & Htb
        & Hreport).
  destruct (ingest_sheets_loop_ok _ _ _ _ _ _ _ _ Hloop eq_refl)
    as (sheets & per_sheet & Hs & Hr & _ & Hl1 & Hl2 & _ & Hk).
  cbn [ia_sheets ia_records app] in Hs, Hr.
  exists schema, wb, sheets, per_sheet, arrow.
  rewrite Hreport. cbn [ir_sheet_count ir_sheets]. rewrite Hs, <- Hr.
  repeat (split; [first [reflexivity | assumption]|]).
  intros k ws Hws. destruct (Hk k ws Hws) as (c & added & H1 & H2 & H3 & _).
  eauto.
Qed.

(** X21: in the report that [ingest_workbook] returns, [totals] holds the eight
    counters in a fixed order, each summed over the entries of the sheets,
    and is empty for a workbook without sheets; [all_headers_ok] is the
    conjunction of [header_ok] over the sheets, and is true whenever the
    headers are strict. *)
Theorem ingest_totals_add_up_the_sheets E P input_path base_dir strict_headers
    (fs fs' : storage) table report :
  ingest_sales_month.ingest_workbook E P input_path base_dir strict_headers fs
  = (fs', Ok (table, report)) ->
  exists sheets,
    ir_sheets report = JArr (sheet_report_json <$> sheets)
    /\ ir_all_headers_ok report = forallb sh_header_ok sheets
    /\ (strict_headers = true -> ir_all_headers_ok report = true)
    /\ ir_totals report
       = match sheets with
         | [] => []
         | _ =>
             (fun kf : string * (sheet_report -> Z) =>
                (kf.1, JInt (total_of kf.2 sheets))) <$> sheet_counters
         end.
Proof.
  intros H.
  destruct (ingest_workbook_inv _ _ _ _ _ _ _ _ _ H)
    as (_ & schema & wb & acc & arrow & _ & _ & _ & Hloop & _ & _ & Hreport).
  destruct (ingest_sheets_loop_ok _ _ _ _ _ _ _ _ Hloop eq_refl)
    as (sheets & per_sheet & Hs & _ & Ht & _ & _ & Hall & _).
  cbn [ia_sheets app] in Hs. exists sheets.
  rewrite Hreport. cbn [ir_sheets ir_all_headers_ok ir_totals].
  rewrite Ht, Hs. split; [reflexivity|]. split; [reflexivity|].
  split; [exact Hall|].
  unfold totals_of. destruct sheets; reflexivity.
Qed.

(** X22: the records from which [ingest_workbook] builds its table are those of
    the rows of the workbook that are not empty: a record is among them
    exactly when it is [map_row_to_record] of such a row of some sheet, under
    the name of the file, the name of the sheet, the month of the report and
    the number of the row in the sheet, the header being row 1; the total of
    the rows loaded is their number. *)
Theorem ingested_records_trace_back_to_rows E P input_path base_dir
    strict_headers (fs fs' : storage) table report :
  ingest_sales_month.ingest_workbook E P input_path base_dir strict_headers fs
  = (fs', Ok (table, report)) ->
  exists wb records arrow_schema,
    common.open_workbook P input_path fs = (fs, Ok wb)
    /\ table_from_pylist P records arrow_schema = Ok table
    /\ (wb <> [] ->
        dict_get "rows_loaded" (ir_totals report)
        = Some (JInt (len records)))
    /\ forall r,
         r ∈ records
         <-> exists (k i : nat) ws row,
               wb !! k = Some ws
               /\ tail ws.2 !! i = Some row
               /\ common.is_empty_row row = false
               /\ ingest_sales_month.map_row_to_record P row
                    (path_name input_path) ws.1 (Z.of_nat i + 2)
                    (ir_report_month report) = Ok r
               /\ sr_source_sheet r = ws.1
               /\ sr_source_row r = Z.of_nat i + 2.
Proof.
  intros H.
  destruct (ingest_workbook_inv _ _ _ _ _ _ _ _ _ H)
    as (_ & schema & wb & acc & arrow & _ & _ & Hwb & Hloop & _ & Htb
        & Hreport).
  destruct (ingest_sheets_loop_ok _ _ _ _ _ _ _ _ Hloop eq_refl)
    as (sheets & per_sheet & Hs & Hr & Ht & Hl1 & Hl2 & _ & Hk).
  cbn [ia_sheets ia_records app] in Hs, Hr.
  exists wb, (ia_records acc), arrow.
  split; [exact Hwb|]. split; [exact Htb|]. split.
  { intros Hne. rewrite Hreport. cbn [ir_totals]. rewrite Ht, Hs.
    destruct wb as [|ws wb]; [congruence|].
    - destruct sheets as [|c sheets]; [discriminate|].
      unfold totals_of, ingest_sales_month.totals_json, sheet_counters.
      cbn [fmap list_fmap fst snd dict_get String.eqb Ascii.eqb Bool.eqb].
      do 2 f_equal.
      assert (Hsum : forall (ss : list sheet_report)
                            (ps : list (list sales_record)),
                 length ss = length ps ->
                 (forall k c0, ss !! k = Some c0 ->
                    exists added, ps !! k = Some added
                                  /\ sh_rows_loaded c0 = len added) ->
                 total_of sh_rows_loaded ss = len (concat ps)).
      { clear. induction ss as [|c0 ss IH]; intros [|added ps] Hlen Hall;
          try discriminate; [reflexivity|].
        cbn [concat]. rewrite total_of_cons. unfold len. rewrite length_app.
        destruct (Hall O c0 eq_refl) as (added' & [= <-] & ->).
        rewrite (IH ps); [unfold len; lia|cbn in Hlen; lia|].
        intros k c1 Hk. apply (Hall (S k) c1 Hk). }
      rewrite Hr. apply Hsum; [lia|].
      intros k c0 Hc0.
      destruct (lookup_lt_is_Some_2 (ws :: wb) k) as [ws' Hws'].
      { apply lookup_lt_Some in Hc0. lia. }
      destruct (Hk k ws' Hws') as (c' & added & Hc' & Ha & Hcount & _).
      rewrite Hc0 in Hc'. injection Hc' as <-.
      exists added. split; [exact Ha|]. apply Hcount. }
  intros r. rewrite Hr, elem_of_concat. split.
  - intros (added & Hin & Hadded).
    apply list_elem_of_lookup_1 in Hadded as [k Hadded].
    destruct (lookup_lt_is_Some_2 wb k) as [ws Hws].
    { apply lookup_lt_Some in Hadded. lia. }
    destruct (Hk k ws Hws) as (c & added' & _ & Ha & _ & Htr).
    rewrite Hadded in Ha. injection Ha as <-.
    apply Htr in Hin as (i & row & Hi & He & Hrow).
    exists k, i, ws, row.
    destruct (map_row_to_record_ok _ _ _ _ _ _ _ Hrow) as (_ & H1 & H2 & _).
    auto 10.
  - intros (k & i & ws & row & Hws & Hi & He & Hrow & _).
    destruct (Hk k ws Hws) as (c & added & _ & Ha & _ & Htr).
    exists added. split; [|eapply list_elem_of_lookup_2, Ha].
    apply Htr. eauto.
Qed.

(** ** How the sheet loop fails *)

Lemma parse_number_raise P (value : cell) e :
  common.parse_number P value = Raise e -> e = too_large.
Proof.
  destruct value as [|s|b|n|x|t]; cbn [common.parse_number];
    try discriminate.
  - destruct (String.eqb _ ""); discriminate.
  - unfold float_of_int, bind_first, mbind, result_bind.
    destruct (binary_normalize prec emax n 0 false); try discriminate.
    now intros [= <-].
Qed.

Lemma map_row_to_record_raise P row source_file source_sheet source_row
    report_month e :
  ingest_sales_month.map_row_to_record P row source_file source_sheet
    source_row report_month = Raise e ->
  e = too_large.
Proof.
  unfold ingest_sales_month.map_row_to_record. cbv zeta.
  unfold bind_first, mbind, result_bind.
  repeat match goal with
         | |- match common.parse_number P ?v with _ => _ end = _ -> _ =>
             let H := fresh "H" in
             destruct (common.parse_number P v) eqn:H;
             [|intros [= <-]; exact (parse_number_raise _ _ _ H)]
         end.
  discriminate.
Qed.

Lemma ingest_rows_loop_raise P source_file sheet_name report_month rows
    row_index acc e :
  ingest_sales_month.rows_loop P source_file sheet_name report_month rows
    row_index acc = Raise e ->
  e = too_large.
Proof.
  revert row_index acc. induction rows as [|row rows IH];
    intros row_index [records c]; [discriminate|].
  cbn [ingest_sales_month.rows_loop].
  unfold bind_first at 1, mbind, result_bind.
  destruct (ingest_sales_month.row_step P source_file sheet_name report_month
              (records, c) row_index row) as [acc1|e1] eqn:Hstep.
  - apply IH.
  - intros [= <-]. unfold ingest_sales_month.row_step in Hstep.
    destruct (common.is_empty_row row); [discriminate|].
    unfold bind_first, mbind, result_bind in Hstep.
    destruct (ingest_sales_month.map_row_to_record P row source_file
                sheet_name row_index report_month) eqn:Hr; [discriminate|].
    injection Hstep as <-. exact (map_row_to_record_raise _ _ _ _ _ _ _ Hr).
Qed.

Lemma ingest_sheet_step_raise P schema source_file report_month
    strict_headers acc ws e :
  ingest_sales_month.sheet_step P schema source_file report_month
    strict_headers acc ws = Raise e ->
  e = too_large
  \/ (strict_headers = true
      /\ common.header_matches P (default [] (head ws.2))
           (sd_expected_header_order schema) = false
      /\ e = Exn "ValueError"
               ("Header mismatch in sheet " +:+ py_repr P (JStr ws.1)
                +:+ ". Use --allow-header-mismatch to continue in permissive mode.")).
Proof.
  unfold ingest_sales_month.sheet_step. cbv zeta.
  destruct (common.header_matches P _ _) eqn:Hh.
  - rewrite andb_false_r. unfold bind_first, mbind, result_bind.
    destruct (ingest_sales_month.rows_loop _ _ _ _ _ _ _) as [[records c]|e1]
      eqn:Hrows; [discriminate|].
    intros [= <-]. left. exact (ingest_rows_loop_raise _ _ _ _ _ _ _ _ Hrows).
  - destruct strict_headers; cbn [andb negb].
    + intros [= <-]. right. auto.
    + unfold bind_first, mbind, result_bind.
      destruct (ingest_sales_month.rows_loop _ _ _ _ _ _ _)
        as [[records c]|e1] eqn:Hrows; [discriminate|].
      intros [= <-]. left.
      exact (ingest_rows_loop_raise _ _ _ _ _ _ _ _ Hrows).
Qed.

Lemma ingest_sheet_step_header P schema source_file report_month acc ws acc' :
  ingest_sales_month.sheet_step P schema source_file report_month true acc ws
  = Ok acc' ->
  common.header_matches P (default [] (head ws.2))
    (sd_expected_header_order schema) = true.
Proof.
  unfold ingest_sales_month.sheet_step. cbv zeta.
  destruct (common.header_matches P _ _); [reflexivity|discriminate].
Qed.

(** X23: the loop of [ingest_workbook] over the sheets fails in two ways only:
    with [OverflowError], when an integer cell is too large for a float, or,
    with strict headers, with the [ValueError] that names the first sheet
    whose header does not match; with strict headers a workbook that has
    such a sheet never gets through the loop. *)
Theorem sheet_loop_failure_modes P schema source_file report_month
    strict_headers (wb : list worksheet) acc :
  (forall e,
     ingest_sales_month.sheets_loop P schema source_file report_month
       strict_headers wb acc = Raise e ->
     e = Exn "OverflowError" "int too large to convert to float"
     \/ (strict_headers = true
         /\ exists (k : nat) ws,
              wb !! k = Some ws
              /\ common.header_matches P (default [] (head ws.2))
                   (sd_expected_header_order schema) = false
              /\ (forall (j : nat) ws',
                    (j < k)%nat -> wb !! j = Some ws' ->
                    common.header_matches P (default [] (head ws'.2))
                      (sd_expected_header_order schema) = true)
              /\ e = Exn "ValueError"
                       ("Header mismatch in sheet "
                        +:+ py_repr P (JStr ws.1)
                        +:+ ". Use --allow-header-mismatch to continue in permissive mode.")))
  /\ (strict_headers = true ->
      forall ws,
        ws ∈ wb ->
        common.header_matches P (default [] (head ws.2))
          (sd_expected_header_order schema) = false ->
        exists e,
          ingest_sales_month.sheets_loop P schema source_file report_month
            strict_headers wb acc = Raise e).
Proof.
  split.
  - revert acc. induction wb as [|ws wb IH]; intros acc e; [discriminate|].
    cbn [ingest_sales_month.sheets_loop].
    unfold bind_first, mbind, result_bind.
    destruct (ingest_sales_month.sheet_step P schema source_file report_month
                strict_headers acc ws) as [acc1|e1] eqn:Hstep.
    + intros H. destruct (IH _ _ H) as [->|(Hs & k & ws' & Hk & Hh & Hj & ->)];
        [now left|].
      right. split; [exact Hs|]. exists (S k), ws'.
      split; [exact Hk|]. split; [exact Hh|]. split; [|reflexivity].
      intros [|j] ws'' Hlt Hws''; cbn in Hws''.
      * injection Hws'' as <-. subst strict_headers.
        exact (ingest_sheet_step_header _ _ _ _ _ _ _ Hstep).
      * apply (Hj j); [lia|exact Hws''].
    + intros [= <-].
      destruct (ingest_sheet_step_raise _ _ _ _ _ _ _ _ Hstep)
        as [->|(Hs & Hh & ->)]; [now left|].
      right. split; [exact Hs|]. exists O, ws.
      split; [reflexivity|]. split; [exact Hh|]. split; [|reflexivity].
      intros j ws' Hlt. lia.
  - intros -> ws Hin Hh. revert acc.
    induction wb as [|ws0 wb IH]; intros acc; [now apply elem_of_nil in Hin|].
    cbn [ingest_sales_month.sheets_loop].
    unfold bind_first, mbind, result_bind.
    destruct (ingest_sales_month.sheet_step P schema source_file report_month
                true acc ws0) as [acc1|e1] eqn:Hstep; [|eauto].
    apply elem_of_cons in Hin as [->|Hin].
    + apply ingest_sheet_step_header in Hstep. congruence.
    + apply IH. exact Hin.
Qed.

(** ** The profile and the ingest of one workbook *)

Lemma profile_row_step_nonempty P schema c row c' :
  common.is_empty_row row = false ->
  profile_sales_month.row_step P schema c row = Ok c' ->
  exists qty tb tg stock,
    common.parse_number P (default CNone (row !! 7%nat)) = Ok qty
    /\ common.parse_number P (default CNone (row !! 9%nat)) = Ok tb
    /\ common.parse_number P (default CNone (row !! 10%nat)) = Ok tg
    /\ common.parse_number P (default CNone (row !! 14%nat)) = Ok stock
    /\ ps_sheet_name c' = ps_sheet_name c
    /\ ps_header_ok c' = ps_header_ok c
    /\ ps_rows_total c' = ps_rows_total c + 1
    /\ ps_rows_non_empty c' = ps_rows_non_empty c + 1
    /\ ps_negative_qty c' = ps_negative_qty c + bool_to_Z (is_negative qty)
    /\ ps_negative_tb c' = ps_negative_tb c + bool_to_Z (is_negative tb)
    /\ ps_negative_tg c' = ps_negative_tg c + bool_to_Z (is_negative tg)
    /\ ps_negative_stock c'
       = ps_negative_stock c + bool_to_Z (is_negative stock).
Proof.
  intros Hempty. unfold profile_sales_month.row_step. rewrite Hempty.
  cbv zeta. rewrite !padded_at by lia.
  unfold bind_first, mbind, result_bind.
  destruct (profile_sales_month.count_missing _ _ _ _); [|discriminate].
  destruct (common.parse_number P (default CNone (row !! 7%nat))) as [qty|];
    [|discriminate].
  destruct (common.parse_number P (default CNone (row !! 8%nat)));
    [|discriminate].
  destruct (common.parse_number P (default CNone (row !! 9%nat))) as [tb|];
    [|discriminate].
  destruct (common.parse_number P (default CNone (row !! 10%nat))) as [tg|];
    [|discriminate].
  destruct (common.parse_number P (default CNone (row !! 14%nat)))
    as [stock|]; [|discriminate].
  destruct (match qty with
            | Some q => profile_sales_month.is_non_integer q
            | None => Ok false
            end); [|discriminate].
  intros [= <-]. exists qty, tb, tg, stock. cbn. auto 15.
Qed.

Lemma rows_agree P schema source_file sheet_name report_month rows :
  forall row_index c c' records ci records' ci',
    profile_sales_month.rows_loop P schema rows c = Ok c' ->
    ingest_sales_month.rows_loop P source_file sheet_name report_month rows
      row_index (records, ci) = Ok (records', ci') ->
    sheets_agree c ci -> sheets_agree c' ci'.
Proof.
  induction rows as [|row rows IH];
    intros row_index c c' records ci records' ci' Hp Hi Hrel.
  - cbn in Hp, Hi. injection Hp as <-. injection Hi as _ <-. exact Hrel.
  - cbn [profile_sales_month.rows_loop ingest_sales_month.rows_loop] in Hp, Hi.
    unfold bind_first, mbind, result_bind in Hp, Hi.
    destruct (profile_sales_month.row_step P schema c row) as [c1|] eqn:Hp1;
      [|discriminate].
    destruct (ingest_sales_month.row_step P source_file sheet_name
                report_month (records, ci) row_index row)
      as [[records1 ci1]|] eqn:Hi1; [|discriminate].
    apply (IH _ _ _ _ _ _ _ Hp Hi).
    destruct Hrel as (R1 & R2 & R3 & R4 & R5 & R6 & R7 & R8 & R9).
    unfold ingest_sales_month.row_step in Hi1.
    destruct (common.is_empty_row row) eqn:Hempty.
    + unfold profile_sales_month.row_step in Hp1. rewrite Hempty in Hp1.
      injection Hp1 as <-. injection Hi1 as _ <-.
      unfold sheets_agree. cbn. repeat (split; [first [assumption | lia]|]).
      assumption.
    + unfold bind_first, mbind, result_bind in Hi1.
      destruct (ingest_sales_month.map_row_to_record P row source_file
                  sheet_name row_index report_month) as [r|] eqn:Hr;
        [|discriminate].
      injection Hi1 as _ <-.
      destruct (map_row_to_record_ok _ _ _ _ _ _ _ Hr)
        as (_ & _ & _ & _ & _ & _ & _ & _ & _ & _ & _ & Hq & _ & Htb & Htg
            & _ & _ & _ & Hst).
      destruct (profile_row_step_nonempty _ _ _ _ _ Hempty Hp1)
        as (qty & tb & tg & stock & Hq' & Htb' & Htg' & Hst'
            & P1 & P2 & P3 & P4 & P5 & P6 & P7 & P8).
      rewrite Hq in Hq'. rewrite Htb in Htb'. rewrite Htg in Htg'.
      rewrite Hst in Hst'.
      injection Hq' as <-. injection Htb' as <-. injection Htg' as <-.
      injection Hst' as <-.
      unfold sheets_agree. cbn.
      rewrite P1, P2, P3, P4, P5, P6, P7, P8.
      repeat (split; [first [assumption | lia]|]). lia.
Qed.

Lemma sheet_loops_agree P schema source_file report_month strict_headers wb :
  forall pacc pacc' iacc iacc',
    profile_sales_month.sheets_loop P schema wb pacc = Ok pacc' ->
    ingest_sales_month.sheets_loop P schema source_file report_month
      strict_headers wb iacc = Ok iacc' ->
    Forall2 sheets_agree (pa_sheets pacc) (ia_sheets iacc) ->
    Forall2 sheets_agree (pa_sheets pacc') (ia_sheets iacc').
Proof.
  induction wb as [|ws wb IH]; intros pacc pacc' iacc iacc' Hp Hi Hrel.
  - cbn in Hp, Hi. injection Hp as <-. injection Hi as <-. exact Hrel.
  - cbn [profile_sales_month.sheets_loop ingest_sales_month.sheets_loop]
      in Hp, Hi.
    unfold bind_first, mbind, result_bind in Hp, Hi.
    destruct (profile_sales_month.sheet_step P schema pacc ws) as [pacc1|]
      eqn:Hp1; [|discriminate].
    destruct (ingest_sales_month.sheet_step P schema source_file report_month
                strict_headers iacc ws) as [iacc1|] eqn:Hi1; [|discriminate].
    apply (IH _ _ _ _ Hp Hi).
    unfold profile_sales_month.sheet_step in Hp1.
    unfold ingest_sales_month.sheet_step in Hi1. cbv zeta in Hp1, Hi1.
    match type of Hi1 with
    | (if ?b then _ else _) = _ => destruct b; [discriminate|]
    end.
    unfold bind_first, mbind, result_bind in Hp1, Hi1.
    destruct (profile_sales_month.rows_loop P schema (tail ws.2) _) as [c|]
      eqn:Hpr; [|discriminate].
    destruct (ingest_sales_month.rows_loop P source_file ws.1 report_month
                (tail ws.2) 2 _) as [[records ci]|] eqn:Hir; [|discriminate].
    injection Hp1 as <-. injection Hi1 as <-.
    cbn [pa_sheets ia_sheets]. apply Forall2_app; [exact Hrel|].
    constructor; [|constructor].
    apply (rows_agree _ _ _ _ _ _ _ _ _ _ _ _ _ Hpr Hir).
    unfold sheets_agree. cbn. repeat (split; [reflexivity|]). reflexivity.
Qed.

(** X24: when [profile_workbook] and [ingest_workbook] both return for one
    workbook and one schema, they give the same month and, sheet by sheet,
    the same name, the same [header_ok], the same numbers of rows and of
    rows that are not empty, and the same counts of negative quantities,
    margins, margin rates and stocks. *)
Theorem profile_and_ingest_agree E P input_path base_dir strict_headers
    (fs fs1 fs2 : storage) month profile table report :
  profile_sales_month.profile_workbook E P input_path base_dir fs
  = (fs1, Ok (month, profile)) ->
  ingest_sales_month.ingest_workbook E P input_path base_dir strict_headers fs
  = (fs2, Ok (table, report)) ->
  month = ir_report_month report
  /\ exists sheets,
       ir_sheets report = JArr (sheet_report_json <$> sheets)
       /\ Forall2 sheets_agree (pa_sheets profile) sheets.
Proof.
  intros Hp Hi.
  destruct (ingest_workbook_inv _ _ _ _ _ _ _ _ _ Hi)
    as (_ & schema & wb & acc & arrow & Hschema & Hmonth & Hwb & Hloop & _ & _
        & Hreport).
  unfold profile_sales_month.profile_workbook in Hp.
  apply bind_first_ok in Hp as (schema' & fsa & Hschema' & Hp).
  rewrite Hschema in Hschema'. injection Hschema' as <- <-.
  apply bind_first_ok in Hp as (wb' & fsb & Hwb' & Hp).
  rewrite Hwb in Hwb'. injection Hwb' as <- <-.
  rewrite bind_lift, Hmonth, bind_lift in Hp.
  destruct (profile_sales_month.sheets_loop P schema wb (ProfileAcc [] []))
    as [pacc|] eqn:Hploop; [|discriminate].
  injection Hp as _ <- <-. split; [reflexivity|].
  exists (ia_sheets acc). split; [now rewrite Hreport|].
  apply (sheet_loops_agree _ _ _ _ _ _ _ _ _ _ Hploop Hloop).
  constructor.
Qed.

(** ** How the profile fails *)

Lemma count_missing_ok (padded : list cell) (columns : list string) :
  forall idx per_col_missing,
    (idx + length columns <= length padded)%nat ->
    exists counts,
      profile_sales_month.count_missing padded idx columns per_col_missing
      = Ok counts.
Proof.
  induction columns as [|col columns IH]; intros idx per_col_missing Hlen;
    cbn [profile_sales_month.count_missing]; [eauto|].
  cbn [length] in Hlen.
  destruct (padded !! idx) as [value|] eqn:Hv.
  - apply IH. lia.
  - apply lookup_ge_None in Hv. lia.
Qed.

Lemma is_non_integer_raise (qty : float) e :
  profile_sales_month.is_non_integer qty = Raise e ->
  exn_type e = "OverflowError" \/ exn_type e = "ValueError".
Proof.
  unfold profile_sales_month.is_non_integer, bind_first, mbind, result_bind.
  destruct (float_round qty) as [n|e1] eqn:Hround.
  - destruct (float_of_int n) as [x|e2] eqn:Hx; [discriminate|].
    intros [= <-]. left. unfold float_of_int in Hx.
    destruct (binary_normalize prec emax n 0 false); try discriminate.
    now injection Hx as <-.
  - intros [= <-]. unfold float_round in Hround.
    destruct (Prim2SF qty); try discriminate; injection Hround as <-; auto.
Qed.

Lemma profile_row_step_raise P schema c row e :
  length (sd_expected_header_order schema) = 15%nat ->
  profile_sales_month.row_step P schema c row = Raise e ->
  exn_type e = "OverflowError" \/ exn_type e = "ValueError".
Proof.
  intros Hlen. unfold profile_sales_month.row_step.
  destruct (common.is_empty_row row); [discriminate|]. cbv zeta.
  destruct (count_missing_ok (padded row) (sd_expected_header_order schema)
              0 (ps_per_col_missing c)) as [counts ->].
  { rewrite padded_length, Hlen. lia. }
  unfold bind_first, mbind, result_bind.
  repeat match goal with
         | |- match common.parse_number P ?v with _ => _ end = _ -> _ =>
             let H := fresh "H" in
             destruct (common.parse_number P v) eqn:H;
             [|intros [= <-]; rewrite (parse_number_raise _ _ _ H);
               now left]
         end.
  match goal with
  | |- match ?m with _ => _ end = _ -> _ => destruct m eqn:Hq
  end; [discriminate|].
  intros [= <-].
  match type of Hq with
  | match ?q with _ => _ end = _ => destruct q; [|discriminate]
  end.
  exact (is_non_integer_raise _ _ Hq).
Qed.

(** X25: with a schema that [load_schema_definition] returned, the loop of
    [profile_workbook] over the sheets fails with [OverflowError] or
    [ValueError] only: the index into the padded row stays within its 15
    cells. *)
Theorem profile_never_indexes_past_the_row E P base_dir (fs fs' : storage)
    schema :
  common.load_schema_definition E P base_dir fs = (fs', Ok schema) ->
  forall wb acc e,
    profile_sales_month.sheets_loop P schema wb acc = Raise e ->
    exn_type e = "OverflowError" \/ exn_type e = "ValueError".
Proof.
  intros Hschema.
  apply load_schema_definition_ok in Hschema as (_ & _ & Hlen & _).
  assert (Hrows : forall rows c e,
             profile_sales_month.rows_loop P schema rows c = Raise e ->
             exn_type e = "OverflowError" \/ exn_type e = "ValueError").
  { induction rows as [|row rows IH]; intros c e; [discriminate|].
    cbn [profile_sales_month.rows_loop].
    unfold bind_first, mbind, result_bind.
    destruct (profile_sales_month.row_step P schema c row) as [c1|e1]
      eqn:Hstep; [apply IH|].
    intros [= <-]. exact (profile_row_step_raise _ _ _ _ _ Hlen Hstep). }
  induction wb as [|ws wb IH]; intros acc e; [discriminate|].
  cbn [profile_sales_month.sheets_loop].
  unfold bind_first, mbind, result_bind.
  destruct (profile_sales_month.sheet_step P schema acc ws) as [acc1|e1]
    eqn:Hstep; [apply IH|].
  intros [= <-]. unfold profile_sales_month.sheet_step in Hstep.
  cbv zeta in Hstep. unfold bind_first, mbind, result_bind in Hstep.
  destruct (profile_sales_month.rows_loop P schema (tail ws.2) _) as [c|e2]
    eqn:Hr; [discriminate|].
  injection Hstep as <-. exact (Hrows _ _ _ Hr).
Qed.

(** ** The ingest of one workbook from the command line *)

Lemma parquet_is_not_report (root m m' : string) :
  path_div (ingest_all_months.report_dir_of root) (m' +:+ "_ingest.json")
  <> path_div (ingest_all_months.raw_dir_of root m) "sales_monthly_v1.parquet".
Proof.
  unfold ingest_all_months.raw_dir_of, ingest_all_months.report_dir_of,
    path_div.
  rewrite !append_assoc. intros Hne. apply append_inj_l in Hne.
  discriminate Hne.
Qed.

(** X26: [ingest_sales_month.main] raises [FileNotFoundError] and writes nothing
    when the input does not exist.  When it returns, the parquet file holds
    the table and the report file the dump of the report that
    [ingest_workbook] returned, no path of the storage is gone, and
    [discover_raw_partitions] on the tree maps the month of the report to
    the parquet path and skips nothing. *)
Theorem single_workbook_ingest_feeds_the_curated_stage E P
    (base_dir input_path output_root : string) (allow_header_mismatch : bool)
    (fs : storage) :
  (path_exists fs input_path = false ->
   ingest_sales_month.main E P base_dir input_path output_root
     allow_header_mismatch fs
   = (fs, Raise (Exn "FileNotFoundError"
                   ("Input file not found: " +:+ input_path))))
  /\ (forall fs' parquet_path report_path,
        ingest_sales_month.main E P base_dir input_path output_root
          allow_header_mismatch fs = (fs', Ok (parquet_path, report_path)) ->
        exists table report mapping,
          ingest_sales_month.ingest_workbook E P input_path base_dir
            (negb allow_header_mismatch) fs = (fs, Ok (table, report))
          /\ parquet_path
             = path_div
                 (ingest_all_months.raw_dir_of output_root
                    (ir_report_month report))
                 "sales_monthly_v1.parquet"
          /\ report_path
             = path_div (ingest_all_months.report_dir_of output_root)
                 (ir_report_month report +:+ "_ingest.json")
          /\ file_bytes fs' parquet_path = Some table
          /\ file_bytes fs' report_path
             = Some (json_dumps E (ingest_report_json report) +:+ NL)
          /\ storage_le fs fs'
          /\ build_curated_sales_monthly.discover_raw_partitions fs'
               output_root = Ok (mapping, [])
          /\ mapping !! ir_report_month report = Some parquet_path).
Proof.
  split.
  - intros Hmissing. unfold ingest_sales_month.main.
    unfold bind_first at 1, mbind, M_bind, get_fs. now rewrite Hmissing.
  - intros fs' parquet_path report_path H.
    unfold ingest_sales_month.main in H.
    apply bind_first_ok in H as (fs0 & fsa & Hget & H).
    unfold get_fs in Hget. injection Hget as <- <-.
    destruct (negb (path_exists fs input_path)); [discriminate|].
    apply bind_first_ok in H as ([table report] & fsb & Hingest & H).
    pose proof (ingest_workbook_inv _ _ _ _ _ _ _ _ _ Hingest)
      as (-> & schema & wb & acc & arrow & _ & Hmonth & _).
    apply bind_first_ok in H as ([] & fs1 & Hm1 & H).
    rewrite mkdir_run in Hm1. injection Hm1 as <-.
    apply bind_first_ok in H as ([] & fs2 & Hm2 & H).
    rewrite mkdir_run in Hm2. injection Hm2 as <-.
    apply bind_first_ok in H as ([] & fs3 & Hw1 & H).
    rewrite write_bytes_run in Hw1. injection Hw1 as <-.
    apply bind_first_ok in H as ([] & fs4 & Hw2 & H).
    rewrite write_bytes_run in Hw2. injection Hw2 as <-.
    injection H as <- <- <-.
    set (month := ir_report_month report) in *.
    set (raw_dir := path_div (path_div (path_div (path_div output_root "raw")
                                          "sales_monthly") "v1")
                      ("report_month_" +:+ month)).
    set (report_dir := path_div (path_div (path_div output_root "reports")
                                   "sales_monthly") "v1").
    destruct (raw_partitions_spec
                (<[path_div report_dir (month +:+ "_ingest.json") :=
                     Node (Some (json_dumps E (ingest_report_json report)
                                 +:+ NL)) (now_epoch E)]>
                   (<[path_div raw_dir "sales_monthly_v1.parquet" :=
                        Node (Some table) (now_epoch E)]>
                      (run_ops (now_epoch E)
                         (run_ops (now_epoch E) fs [OpMkdir raw_dir])
                         [OpMkdir report_dir])))
                output_root) as (mapping & Hd & Hspec).
    exists table, report, mapping.
    split; [exact Hingest|]. split; [reflexivity|]. split; [reflexivity|].
    assert (Hne : path_div report_dir (month +:+ "_ingest.json")
                  <> path_div raw_dir "sales_monthly_v1.parquet")
      by apply parquet_is_not_report.
    split.
    { rewrite file_bytes_insert_ne by exact Hne. apply file_bytes_insert_eq. }
    split; [apply file_bytes_insert_eq|]. split.
    { eapply storage_le_trans; [apply storage_le_mkdir|].
      eapply storage_le_trans; [apply storage_le_mkdir|].
      eapply storage_le_trans; apply storage_le_insert. }
    split; [exact Hd|].
    apply Hspec. split.
    { apply month_shaped_no_slash. eapply parse_report_month_shaped, Hmonth. }
    split; [reflexivity|].
    rewrite lookup_insert_ne by exact Hne. rewrite lookup_insert_eq. eauto.
Qed.

(** ** The further properties on the sample runs *)

Lemma ingest_run_summary_adds_up_witness :
  let r := ingest_all_months.main Demo.E Demo.args_raw_only
             Demo.fs_duplicates in
  let s := (ok_value r.2 (Demo.empty_summary, 0)).1 in
  rs_discovered_file_count s
  = len (rs_processed s) + len (rs_unchanged s) + len (rs_failed s).
Proof.
  set (r := ingest_all_months.main Demo.E Demo.args_raw_only
              Demo.fs_duplicates).
  set (s := (ok_value r.2 (Demo.empty_summary, 0)).1).
  assert (Hmain : r = (r.1, Ok (s, (ok_value r.2 (Demo.empty_summary, 0)).2)))
    by by_vm.
  exact (proj1 (proj2 (ingest_run_summary_adds_up Demo.E Demo.args_raw_only
                         Demo.fs_duplicates r.1 s _ Hmain))).
Defined.


Lemma run_reports_hold_the_returned_summary_witness :
  let r := ingest_all_months.main Demo.E Demo.args_raw_only
             Demo.fs_one_month in
  let s := (ok_value r.2 (Demo.empty_summary, 0)).1 in
  file_bytes r.1 "/out/reports/sales_monthly/v1/latest_folder_ingest.json"
  = Some (json_dumps Demo.E (ingest_all_months.run_summary_json Demo.E s)
          +:+ NL).
Proof.
  set (r := ingest_all_months.main Demo.E Demo.args_raw_only
              Demo.fs_one_month).
  set (s := (ok_value r.2 (Demo.empty_summary, 0)).1).
  assert (Hmain : r = (r.1, Ok (s, (ok_value r.2 (Demo.empty_summary, 0)).2)))
    by by_vm.
  exact (proj1 (proj1 (run_reports_hold_the_returned_summary Demo.E)
                  Demo.args_raw_only Demo.fs_one_month r.1 s _ Hmain)).
Defined.

Lemma raw_only_run_feeds_the_curated_stage_witness :
  let r := ingest_all_months.main Demo.E Demo.args_raw_only
             Demo.fs_one_month in
  exists mapping,
    build_curated_sales_monthly.discover_raw_partitions r.1 "/out"
    = Ok (mapping, [])
    /\ mapping !! "2024-01" = Some Demo.january_parquet.
Proof.
  set (r := ingest_all_months.main Demo.E Demo.args_raw_only
              Demo.fs_one_month).
  set (s := (ok_value r.2 (Demo.empty_summary, 0)).1).
  assert (Hmain : r = (r.1, Ok (s, (ok_value r.2 (Demo.empty_summary, 0)).2)))
    by by_vm.
  destruct (raw_only_run_feeds_the_curated_stage Demo.E Demo.args_raw_only
              Demo.fs_one_month r.1 s _ eq_refl eq_refl Hmain)
    as (mapping & Hd & Hitems).
  exists mapping. split; [exact Hd|].
  assert (Hp : rs_processed s
               = [ProcessedItem "/in/sales_2024-01.xlsx" "2024-01" (JInt 3)
                    Demo.january_parquet]) by by_vm.
  apply (Hitems (ProcessedItem "/in/sales_2024-01.xlsx" "2024-01" (JInt 3)
                   Demo.january_parquet)).
  rewrite Hp. apply list_elem_of_singleton. reflexivity.
Defined.

Lemma chained_curated_step_covers_processed_months_witness :
  let r := ingest_all_months.main Demo.E Demo.args_full Demo.fs_one_month in
  let s := (ok_value r.2 (Demo.empty_summary, 0)).1 in
  exists np nu nf rp,
    bc_summary (rs_build_curated s)
    = Some ("processed_only", np, nu, nf, rp)
    /\ np + nu + nf
       = len (ingest_all_months.processed_months_of (rs_processed s)).
Proof.
  set (r := ingest_all_months.main Demo.E Demo.args_full Demo.fs_one_month).
  set (s := (ok_value r.2 (Demo.empty_summary, 0)).1).
  assert (Hmain : r = (r.1, Ok (s, (ok_value r.2 (Demo.empty_summary, 0)).2)))
    by by_vm.
  assert (Herr : bc_error (rs_build_curated s) = None) by by_vm.
  assert (Hp : rs_processed s
               = [ProcessedItem "/in/sales_2024-01.xlsx" "2024-01" (JInt 3)
                    Demo.january_parquet]) by by_vm.
  apply (chained_curated_step_covers_processed_months Demo.E Demo.args_full
           Demo.fs_one_month r.1 s _ eq_refl Hmain Herr).
  rewrite Hp. discriminate.
Defined.


Lemma history_window_ends_at_the_target_witness :
  exists i,
    ["2023-12"; "2024-01"; "2024-02"; "2024-03"] !! i = Some "2024-02"
    /\ generate_sales_kpis.selected_history_months Sample.P
         ["2023-12"; "2024-01"; "2024-02"; "2024-03"] "2024-02" None
       = Ok (take (S i) ["2023-12"; "2024-01"; "2024-02"; "2024-03"]).
Proof.
  destruct (proj2 (history_window_ends_at_the_target Sample.P
                     ["2023-12"; "2024-01"; "2024-02"; "2024-03"] "2024-02"))
    as (i & Hi & _ & Hnone & _).
  - apply elem_of_cons. right. apply elem_of_cons. right.
    apply elem_of_cons. now left.
  - exists i. split; [exact Hi|exact Hnone].
Defined.


Lemma curated_run_feeds_the_kpi_stage_witness :
  let r := build_curated_sales_monthly.run_curated_build Demo.E "/out" None
             None Demo.fs_duplicates in
  generate_sales_kpis.discover_curated_month_files r.1 "/out" !! "2024-01"
  = Some Sample.january_path.
Proof.
  set (r := build_curated_sales_monthly.run_curated_build Demo.E "/out" None
              None Demo.fs_duplicates).
  set (s := ok_value r.2 Sample.empty_curated_summary).
  assert (Hrun : r = (r.1, Ok s)) by by_vm.
  assert (Hp : cs_processed s
               = [MonthReport "2024-01" Demo.january_parquet "sha:rows:jan"
                    Sample.january_path 3 25 (utc_now_iso Demo.E)]) by by_vm.
  apply (curated_run_feeds_the_kpi_stage Demo.E "/out" None None
           Demo.fs_duplicates r.1 s Hrun
           (MonthReport "2024-01" Demo.january_parquet "sha:rows:jan"
              Sample.january_path 3 25 (utc_now_iso Demo.E))).
  rewrite Hp. apply list_elem_of_singleton. reflexivity.
Defined.

Lemma kpi_plan_targets_an_available_month_witness :
  let k := ok_value
             (generate_sales_kpis.plan_kpi_report Sample.P Sample.fs_curated
                "/out" None 500 (Some 12) 0 "1 gb") Sample.empty_plan in
  generate_sales_kpis.discover_curated_month_files Sample.fs_curated "/out"
    !! generate_sales_kpis.kp_target_month k
  = Some (generate_sales_kpis.kp_target_path k)
  /\ 1 <= generate_sales_kpis.kp_top_n k <= 200.
Proof.
  set (r := generate_sales_kpis.plan_kpi_report Sample.P Sample.fs_curated
              "/out" None 500 (Some 12) 0 "1 gb").
  set (k := ok_value r Sample.empty_plan).
  assert (Hplan : r = Ok k) by by_vm.
  destruct (kpi_plan_targets_an_available_month Sample.P Sample.fs_curated
              "/out" None 500 (Some 12) 0 "1 gb" k Hplan)
    as (H1 & _ & _ & _ & _ & H6 & _).
  split; [exact H1|exact H6].
Defined.

Lemma kpi_plan_failure_modes_witness :
  exists k,
    generate_sales_kpis.plan_kpi_report Sample.P Sample.fs_curated "/out"
      (Some "2024-01") 10 None 2 "768MB" = Ok k.
Proof.
  apply (proj2 (kpi_plan_failure_modes Sample.P Sample.fs_curated "/out"
                  (Some "2024-01") 10 None 2 "768MB")).
  - split; [reflexivity|]. exists Sample.january_path. by_vm.
  - exact I.
  - exists "768MB". reflexivity.
Defined.

Lemma loaded_schema_is_checked_witness :
  let r := common.load_schema_definition Demo.E Sample.P Sample.base_dir
             Sample.fs_january in
  r.1 = Sample.fs_january
  /\ length (sd_expected_header_order (ok_value r.2 Sample.schema)) = 15%nat.
Proof.
  set (r := common.load_schema_definition Demo.E Sample.P Sample.base_dir
              Sample.fs_january).
  assert (Hload : r = (r.1, Ok (ok_value r.2 Sample.schema))) by by_vm.
  destruct (loaded_schema_is_checked Demo.E Sample.P Sample.base_dir
              Sample.fs_january r.1 _ Hload) as (H1 & _ & H3 & _).
  split; [exact H1|exact H3].
Defined.

Lemma header_check_compares_leading_columns_witness :
  common.header_matches Sample.P
    ((CStr <$> Sample.header) ++ [CStr "Kommentar"]) Sample.header
  = common.header_matches Sample.P (CStr <$> Sample.header) Sample.header.
Proof.
  apply (proj2 (header_check_compares_leading_columns Sample.P
                  (CStr <$> Sample.header) Sample.header)).
  cbn. lia.
Defined.

Lemma record_reads_the_first_fifteen_cells_witness :
  common.is_empty_row Sample.note_row = false
  /\ ingest_sales_month.map_row_to_record Sample.P Sample.note_row
       "sales_2024-01.xlsx" "Butik 1" 7 "2024-01"
     = Ok (SalesRecord "sales_2024-01.xlsx" "Butik 1" 7 "2024-01"
             None None None None None None None
             None None None None None None None None).
Proof.
  split; [reflexivity|].
  apply (proj2 (record_reads_the_first_fifteen_cells Sample.P Sample.note_row
                  "sales_2024-01.xlsx" "Butik 1" 7 "2024-01")).
  reflexivity.
Defined.

Lemma text_fields_are_none_or_filled_witness :
  let r := ok_value
             (ingest_sales_month.map_row_to_record Sample.P
                [CStr "Centrum"; CStr "Herr"; CStr "Skor"; CFloat 2002;
                 CStr "  "] "sales_2024-01.xlsx" "Butik 1" 2 "2024-01")
             Sample.empty_record in
  sr_ean r = None
  \/ exists text, sr_ean r = Some text /\ (0 < String.length text)%nat.
Proof.
  set (r := ok_value _ _).
  apply (text_fields_are_none_or_filled Sample.P
           [CStr "Centrum"; CStr "Herr"; CStr "Skor"; CFloat 2002;
            CStr "  "] "sales_2024-01.xlsx" "Butik 1" 2 "2024-01" r).
  - by_vm.
  - do 4 (apply elem_of_cons; right). apply elem_of_cons. now left.
Defined.

Lemma january_ingest_run :
  ingest_sales_month.ingest_workbook Demo.E Sample.P "/in/sales_2024-01.xlsx"
    Sample.base_dir false Sample.fs_january
  = (Sample.fs_january,
     Ok (Sample.january_ingest.1, Sample.january_ingest.2)).
Proof. by_vm. Qed.

Lemma january_profile_run :
  profile_sales_month.profile_workbook Demo.E Sample.P
    "/in/sales_2024-01.xlsx" Sample.base_dir Sample.fs_january
  = (Sample.fs_january,
     Ok (Sample.january_profile.1, Sample.january_profile.2)).
Proof. by_vm. Qed.

Lemma january_main_run :
  ingest_sales_month.main Demo.E Sample.P Sample.base_dir
    "/in/sales_2024-01.xlsx" "/out" true Sample.fs_january
  = (Sample.january_tree,
     Ok (Demo.january_parquet,
         "/out/reports/sales_monthly/v1/2024-01_ingest.json")).
Proof. by_vm. Qed.

Lemma january_opens :
  common.open_workbook Sample.P "/in/sales_2024-01.xlsx" Sample.fs_january
  = (Sample.fs_january, Ok Sample.january_workbook).
Proof. by_vm. Qed.

Lemma ingest_report_counts_every_row_witness :
  exists sheets,
    ir_sheets Sample.january_ingest.2 = JArr (sheet_report_json <$> sheets)
    /\ length sheets = 2%nat.
Proof.
  destruct (ingest_report_counts_every_row Demo.E Sample.P
              "/in/sales_2024-01.xlsx" Sample.base_dir false
              Sample.fs_january Sample.fs_january Sample.january_ingest.1
              Sample.january_ingest.2 january_ingest_run)
    as (schema & wb & sheets & per_sheet & arrow & _ & Hwb & _ & Hs & Hl & _).
  exists sheets. split; [exact Hs|].
  rewrite january_opens in Hwb. injection Hwb as <-. exact Hl.
Defined.

Lemma ingest_totals_add_up_the_sheets_witness :
  exists sheets,
    ir_sheets Sample.january_ingest.2 = JArr (sheet_report_json <$> sheets)
    /\ ir_all_headers_ok Sample.january_ingest.2
       = forallb sh_header_ok sheets.
Proof.
  destruct (ingest_totals_add_up_the_sheets Demo.E Sample.P
              "/in/sales_2024-01.xlsx" Sample.base_dir false
              Sample.fs_january Sample.fs_january Sample.january_ingest.1
              Sample.january_ingest.2 january_ingest_run)
    as (sheets & Hs & Hall & _).
  exists sheets. split; [exact Hs|exact Hall].
Defined.

Lemma ingested_records_trace_back_to_rows_witness :
  exists records arrow_schema,
    table_from_pylist Sample.P records arrow_schema
    = Ok Sample.january_ingest.1
    /\ dict_get "rows_loaded" (ir_totals Sample.january_ingest.2)
       = Some (JInt (len records)).
Proof.
  destruct (ingested_records_trace_back_to_rows Demo.E Sample.P
              "/in/sales_2024-01.xlsx" Sample.base_dir false
              Sample.fs_january Sample.fs_january Sample.january_ingest.1
              Sample.january_ingest.2 january_ingest_run)
    as (wb & records & arrow & Hwb & Htb & Hrows & _).
  exists records, arrow. split; [exact Htb|]. apply Hrows.
  rewrite january_opens in Hwb. injection Hwb as <-. discriminate.
Defined.

Lemma sheet_loop_failure_modes_witness :
  exists e,
    ingest_sales_month.sheets_loop Sample.P Sample.schema
      "sales_2024-01.xlsx" "2024-01" true Sample.january_workbook
      (IngestAcc [] [] []) = Raise e.
Proof.
  apply (proj2 (sheet_loop_failure_modes Sample.P Sample.schema
                  "sales_2024-01.xlsx" "2024-01" true Sample.january_workbook
                  (IngestAcc [] [] [])) eq_refl
           ("Butik 2",
            [[CStr "Filial"; CStr "Avdelning"];
             [CStr "Norr"; CStr "Dam"; CStr "Jackor"; CInt 1001;
              CStr "7310000000017"; CStr "Vinterjacka"; CStr "Nordic AB";
              CInt 1; CFloat 999; CFloat 400; CFloat 40.25; CFloat 1248.75;
              CFloat 999; CFloat 599; CInt 4]])).
  - apply elem_of_cons. right. apply elem_of_cons. now left.
  - reflexivity.
Defined.

Lemma profile_and_ingest_agree_witness :
  Sample.january_profile.1 = ir_report_month Sample.january_ingest.2.
Proof.
  exact (proj1 (profile_and_ingest_agree Demo.E Sample.P
                  "/in/sales_2024-01.xlsx" Sample.base_dir false
                  Sample.fs_january Sample.fs_january Sample.fs_january
                  Sample.january_profile.1 Sample.january_profile.2
                  Sample.january_ingest.1 Sample.january_ingest.2
                  january_profile_run january_ingest_run)).
Defined.

Lemma profile_never_indexes_past_the_row_witness :
  exn_type (Exn "OverflowError" "cannot convert float infinity to integer")
  = "OverflowError"
  \/ exn_type (Exn "OverflowError" "cannot convert float infinity to integer")
     = "ValueError".
Proof.
  set (r := common.load_schema_definition Demo.E Sample.P Sample.base_dir
              Sample.fs_january).
  assert (Hload : r = (r.1, Ok (ok_value r.2 Sample.schema))) by by_vm.
  apply (profile_never_indexes_past_the_row Demo.E Sample.P Sample.base_dir
           Sample.fs_january r.1 _ Hload Sample.overflow_workbook
           (ProfileAcc [] [])).
  by_vm.
Defined.

Lemma single_workbook_ingest_feeds_the_curated_stage_witness :
  exists mapping,
    build_curated_sales_monthly.discover_raw_partitions Sample.january_tree
      "/out" = Ok (mapping, [])
    /\ mapping !! "2024-01" = Some Demo.january_parquet.
Proof.
  destruct (proj2 (single_workbook_ingest_feeds_the_curated_stage Demo.E
                     Sample.P Sample.base_dir "/in/sales_2024-01.xlsx" "/out"
                     true Sample.fs_january) Sample.january_tree _ _
              january_main_run)
    as (table & report & mapping & Hingest & Hpq & _ & _ & _ & _ & Hd & Hm).
  exists mapping. split; [exact Hd|].
  assert (Hmonth : ir_report_month report = "2024-01").
  { destruct (ingest_workbook_inv _ _ _ _ _ _ _ _ _ Hingest)
      as (_ & schema & wb & acc & arrow & _ & Hparse & _).
    assert (Hname : parse_report_month (path_name "/in/sales_2024-01.xlsx")
                    = Ok "2024-01") by by_vm.
    rewrite Hname in Hparse. now injection Hparse. }
  rewrite Hmonth in Hm. exact Hm.
Defined.

